(* ===== verification/_CoqProject ===== *)
-Q . S2P
Prelude.v
VkTypes.v
VkApi.v
VkFacts.v
VkCalls.v
DebugReport.v
Machines.v
Support.v
Instance.v
Device.v
Buffer.v
Descriptor.v
Shader.v
Pipeline.v
CommandBuffer.v
Fence.v
Main.v
MainSpec.v
