(* ===== verification/Prelude.v ===== *)
(** * ComputeEngine: a verification development

    The program (src/) is a single-shot Vulkan compute demo:
    [main] (src/main.cpp) creates a Vulkan instance with a debug-report
    callback, selects the GPUs that have a compute queue and the
    validation layer, creates a logical device and queue for each,
    allocates a host-visible storage buffer on the first one, binds it
    through a descriptor set to a compute pipeline built from
    [comp.spv], records one dispatch of ceil(WIDTH/32) x ceil(HEIGHT/32)
    groups in a command buffer, submits it with a fence, waits, maps the
    buffer and converts its float pixels to RGBA bytes for the PNG
    encoder, and destroys everything in reverse order. It prints the
    GPUs it selected, the missing layers of the GPUs it rejects and the
    encoder's error if any, and waits for a key before it returns 0; the
    validation layer reports a broken rule through the program's
    callback [DefaultDebugReportCallbackFunc]. The components
    are the files of src/Vulkan; they interact only through the handles
    they return to [main] and through the driver's state.

    ** How the development models it

    - The driver is the environment. [VkTypes] holds the data of the API
      (result codes, flags, what a physical device reports, the driver's
      table of objects: every handle the program creates, its parent,
      whether it is alive, and the state the valid-usage rules depend
      on: command-buffer state, fence submissions, memory mapping and
      contents) and the process's trace [vs_io] of console and file
      events ([IoEvent]: [Stdout], [StdinGet], [PngFile]). [Env] is the
      machine: available layers and extensions,
      the GPUs, a failure oracle [env_fail] that decides which calls the
      driver fails with an error code, the shader file, how long the GPU
      takes, what the shader writes, and what lodepng's encoder returns
      ([env_png_error]; lodepng is not in the repository). [VkApi] gives one definition per
      API entry point the program calls, with the valid-usage rules
      (VUIDs of the Vulkan specification) that concern the arguments the
      program can pass; a violation is reported to the callbacks
      registered for errors ([report_error]) and ends the run in
      [InvalidUsage]. [VkApi] also has the C++ runtime the program
      calls: [cout_line] ([std::cout << ... << std::endl]), [cin_get],
      [lodepng_encode]. None of this is code of this repository, and it
      is not in the map.
    - The program's functions are shallow embeddings in a reader / state
      / error monad [M] (this file): environment, driver state, and an
      early stop with an [Outcome] ([AssertFailed] for the sources'
      [assert]s, modelled with assertions enabled; [Exited] for
      [std::exit]; [InvalidUsage]; [UndefinedBehaviour] of the C++ code
      itself). One file per source component, each a [Module] named after
      it: [DebugReport] (DefaultDebugReportCallbackFunc, VulkanInstance.h),
      [Instance] (VulkanInstance.h, .cpp), [Support] (the layer/extension
      search loops of CheckInstanceSupport and CheckDeviceSupport),
      [Device] (VulkanDevice.h, .cpp), [Buffer] (VulkanBuffer.h, .cpp), [Descriptor]
      (VulkanDescriptor.h, .cpp), [Shader] (ReadShaderFile), [Pipeline]
      (VulkanPipeline.h, .cpp), [CommandBuffer] (VulkanCommandBuffer.h, .cpp), [Fence]
      (VulkanFence.*, VulkanSubmit.h) and [Main] (main.cpp). Each
      function keeps its name, its calls in the source's order, and its
      guards. [uint32_t] values are [Z] with the wrap-around of
      [to_u32] written where the source converts. The [float]
      computation [ceil(WIDTH / float(work_groups))] is modelled bit for
      bit in IEEE binary32 with round to nearest, ties to even
      ([Main.round_bits]: the conversions of both operands and the
      quotient rounded to 24 significant bits); other floats are exact
      rationals where the source's values make the operation exact (the
      division by 4.0 in ReadShaderFile), and the conversion
      [(unsigned char)(255.0f * v)] truncates and is undefined out of
      range, as in C++.
    - [VkFacts] holds the shape predicates of the driver's table
      ([childless], [only_child], [no_pending], [live_within],
      [all_dead], [agrees_below]) with their lemmas and the tactics that
      carry them through chains of [insert]s; [VkCalls] gives, for every
      API entry point, a weakest-precondition lemma ([wp], this file):
      what the call requires of the table and the table it leaves. The
      component files state and prove the same for each function of the
      program ([wp_CreateBuffer], [wp_DestroyDevices], ...), inside a
      Section whose [ok] is the set of stops allowed and [Hok] says that
      it includes the program's assertion failures after a failed call
      whose result the program checks ([checked_call]: every call the
      driver can fail but [vkMapMemory], whose result [main] ignores).
      [Machines] holds concrete machines used to evaluate the model.
    - Code that leaves the console alone ([io_pure], [VkFacts]) is
      proved so by one walk over the code's binds, branches and calls
      ([code_tac]), from lemmas on the primitives; [io_frame] carries
      the trace over an [io_pure] call inside a [wp] proof.
    - [MainSpec] splits [main] into its phases ([main_create],
      [main_run], [main_teardown], equal to [main] by [main_phases]),
      proves a [wp] lemma per phase, and composes them into the main
      theorem. A phase's postcondition names the table it leaves as a
      chain of [insert]s over the one it found ([created_objs],
      [ran_objs]), or, after the teardown, as a table that agrees with
      the one of the setup below the first handle the phase allocated
      and is dead above it ([agrees_below]).

    ** What is proved

    - The whole run (C1): on a [capable] machine ([setup_ok]: the
      instance's layer and extension, a first selected GPU with a
      host-visible coherent memory type and room for the dispatch, a
      valid SPIR-V file; [map_fits]: an allocation covering the bytes
      [SaveRenderedImage] maps; a GPU that finishes within the timeout,
      a [vkMapMemory] that succeeds, shader output in [0, 1]), [main]
      either stops on its own assertion after the driver failed a
      checked call, or returns [0], leaves every object it created
      destroyed, and its trace is [main_output]: the rejected GPUs'
      messages, the list of the selected GPUs, the PNG file of the RGBA
      bytes of the shader's output (or the encoder's error, after which
      [main] still returns 0) and the key press.
    - Device selection (C2, C3): [GetQueueFamilyIndex] returns the first
      compute family and its sentinel [(uint32_t)-1] exactly when there
      is none; the selection loop is equivalent to a pure filter and
      prints the first missing layer of each GPU it rejects.
    - Memory types (C4, C5): the [int] shift [1 << i] (31 included)
      tests bit [i]; [GetMemoryType] returns the first admissible type.
    - What happens on the machines that are not capable (C7 - C13, C26,
      C28), each for every such machine: a GPU slower than the timeout
      makes the first host read race with the dispatch; a failed
      [vkMapMemory] (and no failed checked call) makes it read through
      the unmapped pointer, with no assertion in between; an allocation
      smaller than the literal 3200 x 2400 mapping breaks the mapping's
      size rule; a shader channel whose byte conversion is undefined
      stops the read back at the first such pixel; no supported GPU
      makes [main] index the empty [gpus]; no GPU at all fails the
      [device_count] assertion; a missing instance layer or extension
      is printed, a key awaited, and the process exits with -1 before
      any object exists; an empty shader file breaks
      [vkCreateShaderModule]'s [codeSize > 0]; a buffer size that wraps
      to 0 in [uint32_t] breaks [vkCreateBuffer]'s rule. Except for the
      failed mapping and the exit, the only other end is the assertion
      after a failed call.
    - The components (C14 - C20, C29): [CreateVulkanInstance],
      [CreateDevices], [CreateBuffer], [CreateDescriptorSet],
      [CreatePipeline] (its module holds exactly the file's words),
      [CreateCommandBuffer] and [SubmitCommand], each under the
      conditions its calls need, create exactly the objects of the
      source at the next free handles, with their parents and states,
      or stop on an assertion after a failed call;
      [DestroyVulkanInstance] destroys the callback, then the instance.
    - Shader file (C6, C21): padding to the least multiple of 4, and
      what [ReadShaderFile] returns.
    - Support checks (C22, C27): the nested search loops are equivalent
      to "every required name is reported", and report the first
      missing name.
    - Float arithmetic (C23 - C25): for dimensions below 2^24 pixels
      the binary32 work-group count is exactly the least number of
      groups that covers the dimension; above, it can fall short (every
      width 4k + 1 in (2^24, 2^25) with groups of 1 gets 4k groups); a
      channel in [0, 1] converts to a byte without undefined
      behaviour.

    ** Plan (next sittings)

    1. Live objects have live parents, as an invariant of [main] (not
       of the primitives alone), by the destruction rule.
    2. The command-buffer state machine (initial, recording, executable,
       pending, invalid) as a step relation, and the refinement of the
       teardown order by the parent/child rule.
    3. The exact sequence of API calls of a run (the log [vs_log])
       against the mandatory creation and destruction order.

    ** Bounds and fuel

    There is no fuel: every loop of the program is a structural recursion
    over a list or a count ([read_image] over [WIDTH * HEIGHT] pixels,
    the device and family lists). Handles are [N], counters of calls [N].
    The float quotient of [dispatch_groups] is computed with 64 bits
    after the point ([frac_bits]): for operands below 2^33 (every
    [uint32_t] and its float rounding) the scaled quotient has at least
    31 significant bits, more than the 25 the rounding inspects, and the
    remainder is kept as the sticky bit, so the rounding is exact.

    ** Not modelled

    The PNG encoding itself (lodepng is a library outside the
    repository: a run's result is the [PngFile] event with the bytes
    given to [lodepng::encode], or the error the environment chooses),
    the character [std::cin.get()] reads (it is not used), host memory
    management ([new[]]/[delete[]]), the flushing of [std::cout], and
    the compute shader itself (its output is part of the machine). The
    validation layer's messages are modelled as the rule's VUID with
    the prefix ["Validation"]; the exact text a layer prints is not
    specified by Vulkan. The layer's warnings and performance warnings,
    which the callback is also registered for, are not modelled: the
    model has no rule whose breach is only a warning. *)

From Stdlib Require Import ZArith Lia.
From stdpp Require Import base list option gmap strings.

(** ** Notation scope of the development *)

Declare Scope ce_scope.
Delimit Scope ce_scope with ce.
Open Scope Z_scope.

(** ** Machine integers: uint32_t *)

(** Conversion of a mathematical integer to [uint32_t] (C++ integral
    conversion: reduction modulo 2^32). *)
Definition u32_modulus : Z := 2 ^ 32.
Definition to_u32 (z : Z) : Z := z mod u32_modulus.
Definition in_u32 (z : Z) : Prop := 0 <= z < u32_modulus.
Definition in_u32b (z : Z) : bool := (0 <=? z) && (z <? u32_modulus).

(** The value [(uint32_t)-1] that [GetQueueFamilyIndex] and
    [GetMemoryType] use as their "not found" result. *)
Definition u32_minus_one : Z := to_u32 (-1).

Lemma u32_minus_one_value : u32_minus_one = 4294967295.
Proof. reflexivity. Qed.

Lemma to_u32_small z : in_u32 z -> to_u32 z = z.
Proof. unfold in_u32, to_u32, u32_modulus. intros. apply Z.mod_small. lia. Qed.

Lemma to_u32_range z : in_u32 (to_u32 z).
Proof. unfold in_u32, to_u32, u32_modulus. apply Z.mod_pos_bound. lia. Qed.

Lemma in_u32b_spec z : in_u32b z = true <-> in_u32 z.
Proof. unfold in_u32b, in_u32. rewrite andb_true_iff, Z.leb_le, Z.ltb_lt. lia. Qed.

(** ** First index of a list satisfying an index-aware test

    The shape shared by the search loops of the program
    ([for (i = 0; i < n; i++) if (p(i, a[i])) return i;]). *)

Fixpoint first_index_from {A} (p : nat -> A -> bool) (l : list A) (i : nat)
    : option nat :=
  match l with
  | [] => None
  | x :: l' => if p i x then Some i else first_index_from p l' (S i)
  end.

Definition first_index {A} (p : nat -> A -> bool) (l : list A) : option nat :=
  first_index_from p l 0.

Section FirstIndex.
Context {A : Type} (p : nat -> A -> bool).

Lemma first_index_from_Some l i k :
  first_index_from p l i = Some k ->
  (i <= k)%nat /\ (exists x, l !! (k - i)%nat = Some x /\ p k x = true) /\
  (forall j y, (i <= j < k)%nat -> l !! (j - i)%nat = Some y -> p j y = false).
Proof.
  revert i. induction l as [|x l IH]; intros i H; simpl in H; [done|].
  destruct (p i x) eqn:Hp.
  - injection H as <-. split; [lia|]. split.
    + exists x. by rewrite Nat.sub_diag.
    + intros j y ?. lia.
  - destruct (IH _ H) as (Hle & (y & Hy & Hpy) & Hbefore). split; [lia|]. split.
    + exists y. by replace (k - i)%nat with (S (k - S i)) by lia.
    + intros j z Hj Hz. destruct (decide (j = i)) as [->|Hne].
      * rewrite Nat.sub_diag in Hz. simpl in Hz. congruence.
      * apply Hbefore; [lia|]. by replace (j - i)%nat with (S (j - S i)) in Hz by lia.
Qed.

Lemma first_index_from_None l i :
  first_index_from p l i = None ->
  forall j y, l !! j = Some y -> p (i + j)%nat y = false.
Proof.
  revert i. induction l as [|x l IH]; intros i H j y Hj; [done|].
  simpl in H. destruct (p i x) eqn:Hp; [done|].
  destruct j as [|j]; simpl in Hj.
  - injection Hj as <-. by rewrite Nat.add_0_r.
  - replace (i + S j)%nat with (S i + j)%nat by lia. by apply (IH (S i)).
Qed.

Lemma first_index_from_complete l i j y :
  l !! j = Some y -> p (i + j)%nat y = true ->
  exists k, first_index_from p l i = Some k /\ (k <= i + j)%nat.
Proof.
  intros Hj Hp. destruct (first_index_from p l i) as [k|] eqn:E.
  - exists k. split; [done|]. destruct (first_index_from_Some _ _ _ E) as (Hle & _ & Hb).
    destruct (decide (k <= i + j)%nat); [done|].
    rewrite (Hb (i + j)%nat y) in Hp; [done|lia|]. by replace (i + j - i)%nat with j by lia.
  - rewrite (first_index_from_None _ _ E j y Hj) in Hp. done.
Qed.

Lemma first_index_spec l k :
  first_index p l = Some k <->
  (exists x, l !! k = Some x /\ p k x = true) /\
  (forall j y, (j < k)%nat -> l !! j = Some y -> p j y = false).
Proof.
  unfold first_index. split.
  - intros H. destruct (first_index_from_Some _ _ _ H) as (_ & (x & Hx & Hp) & Hb).
    rewrite Nat.sub_0_r in Hx. split; [eauto|].
    intros j y Hj Hy. apply Hb; [lia|]. by rewrite Nat.sub_0_r.
  - intros [(x & Hx & Hp) Hb].
    destruct (first_index_from_complete l 0 k x Hx Hp) as (k' & E & Hle).
    destruct (first_index_from_Some _ _ _ E) as (_ & (x' & Hx' & Hp') & _).
    rewrite Nat.sub_0_r in Hx'. destruct (decide (k' = k)) as [->|]; [done|].
    rewrite (Hb k' x') in Hp'; [done|lia|done].
Qed.

Lemma first_index_lt l k : first_index p l = Some k -> (k < length l)%nat.
Proof.
  intros [(x & Hx & _) _]%first_index_spec. by eapply lookup_lt_Some.
Qed.

Lemma first_index_None l :
  first_index p l = None <-> forall j y, l !! j = Some y -> p j y = false.
Proof.
  split.
  - intros H j y Hy. exact (first_index_from_None l 0 H j y Hy).
  - intros H. destruct (first_index p l) as [k|] eqn:E; [|done].
    apply first_index_spec in E as [(x & Hx & Hp) _]. by rewrite (H k x Hx) in Hp.
Qed.
Lemma first_index_from_ext (q : nat -> A -> bool) l i :
  (forall j x, l !! j = Some x -> p (i + j)%nat x = q (i + j)%nat x) ->
  first_index_from p l i = first_index_from q l i.
Proof.
  revert i. induction l as [|x l IH]; intros i H; [done|]. simpl.
  rewrite <-(Nat.add_0_r i) at 1 3. rewrite (H 0%nat x) by done. rewrite Nat.add_0_r.
  destruct (q i x); [done|]. apply IH. intros j y Hj.
  replace (S i + j)%nat with (i + S j)%nat by lia. by apply H.
Qed.
End FirstIndex.

Lemma first_index_ext {A} (p q : nat -> A -> bool) l :
  (forall j x, l !! j = Some x -> p j x = q j x) -> first_index p l = first_index q l.
Proof. intros H. apply first_index_from_ext. intros j x Hx. by apply H. Qed.

(** ** A reader / state / error monad

    The program threads one piece of state (the driver's object store)
    through every call, reads a fixed environment (what the machine
    offers), and stops early on [assert] failures, [std::exit] and
    undefined behaviour. [M R S O A] is that monad: environment [R],
    state [S], stop outcomes [O]. *)

Inductive Res (S O A : Type) : Type :=
| Ok (a : A) (s : S)
| Stop (o : O) (s : S).
Arguments Ok {S O A} a s.
Arguments Stop {S O A} o s.

Definition M (R S O A : Type) : Type := R -> S -> Res S O A.

Section Monad.
Context {R S O : Type}.

Definition ret {A} (a : A) : M R S O A := fun _ s => Ok a s.

Definition bind {A B} (m : M R S O A) (k : A -> M R S O B) : M R S O B :=
  fun r s => match m r s with
             | Ok a s' => k a r s'
             | Stop o s' => Stop o s'
             end.

Definition stop {A} (o : O) : M R S O A := fun _ s => Stop o s.
Definition get_state : M R S O S := fun _ s => Ok s s.
Definition put_state (s : S) : M R S O unit := fun _ _ => Ok tt s.
Definition modify_state (f : S -> S) : M R S O unit := fun _ s => Ok tt (f s).
Definition ask : M R S O R := fun r s => Ok r s.

(** A [for] loop over a list, in order, collecting results. *)
Fixpoint mapM {A B} (f : A -> M R S O B) (l : list A) : M R S O (list B) :=
  match l with
  | [] => ret []
  | x :: l' => bind (f x) (fun b => bind (mapM f l') (fun bs => ret (b :: bs)))
  end.

Fixpoint iterM {A} (f : A -> M R S O unit) (l : list A) : M R S O unit :=
  match l with
  | [] => ret tt
  | x :: l' => bind (f x) (fun _ => iterM f l')
  end.
End Monad.

(** Do-notation for [M], on [bind] itself so that the type of a bound
    variable is known when the continuation is elaborated. *)
Notation "'do' x <- m ; k" := (bind m (fun x => k))
  (at level 60, m at next level, right associativity) : ce_scope.
Notation "'do' ' p <- m ; k" := (bind m (fun x => match x with p => k end))
  (at level 60, p pattern, m at next level, right associativity) : ce_scope.
Notation "'do' m ; k" := (bind m (fun _ => k))
  (at level 60, right associativity) : ce_scope.
Open Scope ce_scope.

Section MonadLaws.
Context {R S O : Type}.

Lemma bind_ret_l {A B} (a : A) (k : A -> M R S O B) r s :
  bind (ret a) k r s = k a r s.
Proof. reflexivity. Qed.

Lemma bind_assoc {A B C} (m : M R S O A) (k : A -> M R S O B) (h : B -> M R S O C) r s :
  bind (bind m k) h r s = bind m (fun a => bind (k a) h) r s.
Proof. unfold bind. by destruct (m r s). Qed.
End MonadLaws.

(** ** Weakest preconditions over [M]

    [wp r okstop m Q s]: running [m] in environment [r] from state [s]
    either returns [a] in a state [s'] with [Q a s'], or stops with an
    outcome that [okstop] accepts. The monad has no divergence, so this
    is total correctness: a result is always produced. *)

Section WP.
Context {R S O : Type} (r : R) (okstop : O -> Prop).

Definition wp {A} (m : M R S O A) (Q : A -> S -> Prop) (s : S) : Prop :=
  match m r s with
  | Ok a s' => Q a s'
  | Stop o _ => okstop o
  end.

Lemma wp_ret {A} (Q : A -> S -> Prop) a s : Q a s -> wp (ret a) Q s.
Proof. done. Qed.

Lemma wp_bind {A B} (m : M R S O A) (k : A -> M R S O B) Q s :
  wp m (fun a s' => wp (k a) Q s') s -> wp (bind m k) Q s.
Proof. unfold wp, bind. by destruct (m r s). Qed.

Lemma wp_stop {A} (Q : A -> S -> Prop) o s : okstop o -> wp (stop o) Q s.
Proof. done. Qed.

Lemma wp_eval {A} (m : M R S O A) Q s a s' : m r s = Ok a s' -> Q a s' -> wp m Q s.
Proof. unfold wp. by intros ->. Qed.

Lemma wp_mono {A} (m : M R S O A) (Q Q' : A -> S -> Prop) s :
  wp m Q s -> (forall a s', Q a s' -> Q' a s') -> wp m Q' s.
Proof. unfold wp. destruct (m r s); auto. Qed.

Lemma wp_if {A} (b : bool) (m1 m2 : M R S O A) Q s :
  (b = true -> wp m1 Q s) -> (b = false -> wp m2 Q s) -> wp (if b then m1 else m2) Q s.
Proof. destruct b; auto. Qed.

(** What [wp] says of a run. *)
Lemma wp_run {A} (m : M R S O A) Q s :
  wp m Q s <-> (forall a s', m r s = Ok a s' -> Q a s') /\ (forall o s', m r s = Stop o s' -> okstop o).
Proof.
  unfold wp. destruct (m r s) as [a s'|o s']; split.
  - intros H. split; [by intros ?? [= <- <-]|done].
  - intros [H _]. by apply H.
  - intros H. split; [done|by intros ?? [= <- _]].
  - intros [_ H]. by eapply H.
Qed.

(** The loops of the program: [mapM] and [iterM] with an invariant
    indexed by the elements done and the elements left. *)
Lemma wp_mapM {A B} (f : A -> M R S O B) (I : list A -> list B -> S -> Prop) l (Q : list B -> S -> Prop) s :
  I [] [] s ->
  (forall done x rest bs s1, done ++ x :: rest = l -> I done bs s1 ->
     wp (f x) (fun b s2 => I (done ++ [x]) (bs ++ [b]) s2) s1) ->
  (forall bs s1, I l bs s1 -> Q bs s1) ->
  wp (mapM f l) Q s.
Proof.
  intros H0 Hstep Hend.
  assert (Hgen : forall done rest bs s1, done ++ rest = l -> I done bs s1 ->
            wp (mapM f rest) (fun bs' s2 => Q (bs ++ bs') s2) s1).
  { intros done rest. revert done. induction rest as [|x rest IH]; intros done bs s1 Hl HI; simpl.
    - apply wp_ret. rewrite app_nil_r. rewrite app_nil_r in Hl. subst. by apply Hend.
    - apply wp_bind. eapply wp_mono; [eapply Hstep; [exact Hl|exact HI]|]. intros b s2 HI2.
      apply wp_bind. eapply wp_mono.
      + apply (IH (done ++ [x]) (bs ++ [b])); [by rewrite <-app_assoc|done].
      + intros bs' s3 HQ. apply wp_ret. cbn beta in HQ. by rewrite <-app_assoc in HQ. }
  exact (Hgen [] l [] s eq_refl H0).
Qed.

Lemma wp_iterM {A} (f : A -> M R S O unit) (I : list A -> S -> Prop) l (Q : unit -> S -> Prop) s :
  I [] s ->
  (forall done x rest s1, done ++ x :: rest = l -> I done s1 ->
     wp (f x) (fun _ s2 => I (done ++ [x]) s2) s1) ->
  (forall s1, I l s1 -> Q tt s1) ->
  wp (iterM f l) Q s.
Proof.
  intros H0 Hstep Hend.
  assert (Hgen : forall done rest s1, done ++ rest = l -> I done s1 -> wp (iterM f rest) Q s1).
  { intros done rest. revert done. induction rest as [|x rest IH]; intros done s1 Hl HI; simpl.
    - apply wp_ret. rewrite app_nil_r in Hl. subst. by apply Hend.
    - apply wp_bind. eapply wp_mono; [eapply Hstep; [exact Hl|exact HI]|]. intros [] s2 HI2.
      apply (IH (done ++ [x])); [by rewrite <-app_assoc|done]. }
  exact (Hgen [] l s eq_refl H0).
Qed.

End WP.

(** Accepting more stops keeps a [wp]. *)
Lemma wp_okstop_mono {R S O A} (r : R) (ok ok' : O -> Prop) (m : M R S O A) Q s :
  wp r ok m Q s -> (forall o, ok o -> ok' o) -> wp r ok' m Q s.
Proof. unfold wp. destruct (m r s); auto. Qed.

(** ** Automation *)

Create HintDb ce discriminated.
#[export] Hint Resolve to_u32_range : ce.

(** [wp_seq] splits the first bind of the program. *)
Ltac wp_seq := apply wp_bind.
