(* ===== verification/VkTypes.v ===== *)
(** * The Vulkan objects the program handles, and the driver's state

    Data of the native API as the sources use it: result codes, the flag
    bits the program tests, the properties a physical device reports,
    and the driver-side table of live objects that the program's handles
    ([VkInstance], [VkDevice], [VkBuffer], ...) name. The valid-usage
    rules of the calls are in [VkApi]. *)

From Stdlib Require Import ZArith Lia QArith Strings.Byte.
From stdpp Require Import base list option gmap strings.
From S2P Require Import Prelude.

(** ** Result codes ([VkResult]) *)

Inductive VkResult :=
| VK_SUCCESS
| VK_TIMEOUT
| VK_ERROR_OUT_OF_HOST_MEMORY
| VK_ERROR_OUT_OF_DEVICE_MEMORY
| VK_ERROR_INITIALIZATION_FAILED
| VK_ERROR_LAYER_NOT_PRESENT
| VK_ERROR_EXTENSION_NOT_PRESENT
| VK_ERROR_MEMORY_MAP_FAILED.

#[export] Instance VkResult_eq_dec : EqDecision VkResult.
Proof. solve_decision. Defined.

(** ** Flag bits used by the sources *)

Definition VK_QUEUE_COMPUTE_BIT : Z := 2.
Definition VK_MEMORY_PROPERTY_DEVICE_LOCAL_BIT : Z := 1.
Definition VK_MEMORY_PROPERTY_HOST_VISIBLE_BIT : Z := 2.
Definition VK_MEMORY_PROPERTY_HOST_COHERENT_BIT : Z := 4.

Inductive VkDescriptorType :=
| VK_DESCRIPTOR_TYPE_UNIFORM_BUFFER
| VK_DESCRIPTOR_TYPE_STORAGE_BUFFER.

#[export] Instance VkDescriptorType_eq_dec : EqDecision VkDescriptorType.
Proof. solve_decision. Defined.

(** ** What a physical device reports *)

Record VkQueueFamilyProperties := mkQueueFamily {
  queueFlags : Z;
  queueCount : Z;
}.

Record VkMemoryType := mkMemoryType {
  propertyFlags : Z;
  heapIndex : Z;
}.

(** [VkPhysicalDeviceProperties]: the name printed by [main] and the
    dispatch limit checked by [vkCmdDispatch]. *)
Record VkPhysicalDeviceProperties := mkDeviceProperties {
  deviceName : string;
  maxComputeWorkGroupCount : Z * Z * Z;
}.

Record PhysicalDeviceInfo := mkPhysicalDevice {
  pd_properties : VkPhysicalDeviceProperties;
  pd_queue_families : list VkQueueFamilyProperties;
  pd_layers : list string;
  pd_extensions : list string;
  (** [VkPhysicalDeviceMemoryProperties.memoryTypes], of length
      [memoryTypeCount]. *)
  pd_memory_types : list VkMemoryType;
  (** [vkGetBufferMemoryRequirements]: the size required for a buffer of
      a given size, and the bit mask of admissible memory types. *)
  pd_mem_req_size : Z -> Z;
  pd_mem_type_bits : Z;
}.

(** ** Pixels

    [struct Pixel { float r, g, b, a; }] (main.cpp). Channels are
    modelled by their exact rational value; float rounding of the
    shader's output is the shader's business (it is not in this
    repository). *)
Record Pixel := mkPixel { px_r : Q; px_g : Q; px_b : Q; px_a : Q }.

(** A [VkPhysicalDevice] handle: the instance that enumerated it and
    its position in the list of devices. *)
Definition VkPhysicalDevice : Type := N * nat.

(** ** Objects of the driver

    One constructor per kind of handle the program creates, carrying the
    part of the object's state that the valid-usage rules depend on. *)

Inductive CmdState :=
| CmdInitial | CmdRecording | CmdExecutable | CmdPending | CmdInvalid.

#[export] Instance CmdState_eq_dec : EqDecision CmdState.
Proof. solve_decision. Defined.

(** ** What the program does outside the driver

    The process's console and files, as a trace of events: text written
    to [std::cout] or by [printf], a character read by [std::cin.get()],
    and a PNG file written by [lodepng::encode]. *)
Inductive IoEvent :=
| Stdout (text : string)
| StdinGet
| PngFile (filename : string) (image : list Z) (w h : Z).

(** [std::endl]: a newline (the stream is flushed; flushing is not
    observable in the trace). *)
Definition endl : string := String (Ascii.ascii_of_nat 10) EmptyString.

(** [PFN_vkDebugReportCallbackEXT], applied to the layer prefix and the
    message (the other arguments are not used by the program): what
    the callback writes, and the [VkBool32] it returns. *)
Definition PFN_vkDebugReportCallbackEXT : Type := string -> string -> list IoEvent * bool.

(** [VkBool32] *)
Definition VK_TRUE : bool := true.
Definition VK_FALSE : bool := false.

(** [VkDebugReportFlagBitsEXT] *)
Definition VK_DEBUG_REPORT_WARNING_BIT_EXT : Z := 2.
Definition VK_DEBUG_REPORT_PERFORMANCE_WARNING_BIT_EXT : Z := 4.
Definition VK_DEBUG_REPORT_ERROR_BIT_EXT : Z := 8.

Inductive ObjInfo :=
| IInstance (extensions : list string)
(** the report flags the callback was registered for, and the callback *)
| IDebugCallback (flags : Z) (pfnCallback : PFN_vkDebugReportCallbackEXT)
| IDevice (gpu : nat) (queue_family : Z) (queue : N)
| IQueue (queue_family : Z)
| IBuffer (size : Z) (memory : option N)
(** [mapped]: the (offset, size) range mapped into host memory, if any;
    [contents]: pixel [i] is the 16 bytes at offset [16 * i] *)
| IMemory (size : Z) (type_index : Z) (mapped : option (Z * Z)) (contents : nat -> Pixel)
| IDescriptorSetLayout (ty : VkDescriptorType)
| IDescriptorPool (ty : VkDescriptorType) (free_sets : Z)
| IDescriptorSet (layout : N) (buffer : option N)
| IShaderModule (code_words : list Z)
| IPipelineLayout (set_layout : N)
| IPipeline (module layout : N)
| ICommandPool (queue_family : Z)
| ICommandBuffer (st : CmdState) (one_time : bool) (pipeline : option N) (set : option N)
    (dispatches : list (Z * Z * Z)) (fence : option N)
(** a fence knows the command buffers submitted with it that have not
    completed yet *)
| IFence (signaled : bool) (submitted : list N).

Inductive ObjKind :=
| KInstance | KDebugCallback | KDevice | KQueue | KBuffer | KMemory
| KDescriptorSetLayout | KDescriptorPool | KDescriptorSet | KShaderModule
| KPipelineLayout | KPipeline | KCommandPool | KCommandBuffer | KFence.

#[export] Instance ObjKind_eq_dec : EqDecision ObjKind.
Proof. solve_decision. Defined.

Definition kind_of (i : ObjInfo) : ObjKind :=
  match i with
  | IInstance _ => KInstance
  | IDebugCallback _ _ => KDebugCallback
  | IDevice _ _ _ => KDevice
  | IQueue _ => KQueue
  | IBuffer _ _ => KBuffer
  | IMemory _ _ _ _ => KMemory
  | IDescriptorSetLayout _ => KDescriptorSetLayout
  | IDescriptorPool _ _ => KDescriptorPool
  | IDescriptorSet _ _ => KDescriptorSet
  | IShaderModule _ => KShaderModule
  | IPipelineLayout _ => KPipelineLayout
  | IPipeline _ _ => KPipeline
  | ICommandPool _ => KCommandPool
  | ICommandBuffer _ _ _ _ _ _ => KCommandBuffer
  | IFence _ _ => KFence
  end.

(** Objects that are freed implicitly with their parent and are never
    destroyed by a call of their own. *)
Definition implicitly_freed (k : ObjKind) : bool :=
  match k with
  | KQueue | KDescriptorSet | KCommandBuffer => true
  | _ => false
  end.

(** [o_parent] is the object the handle was created from (0, i.e.
    [VK_NULL_HANDLE], for an instance). Destroyed objects stay in the
    table with [o_live = false], so that a use after destruction is
    detected rather than confused with a never-created handle. *)
Record Obj := mkObj {
  o_parent : N;
  o_live : bool;
  o_info : ObjInfo;
}.

(** ** The API calls, as recorded in the call log *)

Inductive ApiCall :=
| CallCreateInstance (layers extensions : list string)
| CallGetInstanceProcAddr (instance : N) (name : string)
| CallCreateDebugReportCallback (instance : N)
| CallDestroyDebugReportCallback (instance callback : N)
| CallDestroyInstance (instance : N)
| CallEnumeratePhysicalDevices (instance : N)
| CallCreateDevice (gpu : VkPhysicalDevice) (queue_family : Z) (layers extensions : list string)
| CallGetDeviceQueue (device : N) (queue_family queue_index : Z)
| CallDestroyDevice (device : N)
| CallCreateBuffer (device : N) (size : Z)
| CallGetBufferMemoryRequirements (device buffer : N)
| CallAllocateMemory (device : N) (size type_index : Z)
| CallBindBufferMemory (device buffer memory : N) (offset : Z)
| CallFreeMemory (device memory : N)
| CallDestroyBuffer (device buffer : N)
| CallCreateDescriptorSetLayout (device : N) (ty : VkDescriptorType)
| CallCreateDescriptorPool (device : N) (ty : VkDescriptorType) (max_sets : Z)
| CallAllocateDescriptorSets (device pool layout : N)
| CallUpdateDescriptorSets (device set buffer : N) (ty : VkDescriptorType) (offset range : Z)
| CallDestroyDescriptorPool (device pool : N)
| CallDestroyDescriptorSetLayout (device layout : N)
| CallCreateShaderModule (device : N) (code_size : Z) (code : list Z)
| CallCreatePipelineLayout (device set_layout : N)
| CallCreateComputePipelines (device module layout : N) (entry : string)
| CallDestroyShaderModule (device module : N)
| CallDestroyPipelineLayout (device layout : N)
| CallDestroyPipeline (device pipeline : N)
| CallCreateCommandPool (device : N) (queue_family : Z) (flags : Z)
| CallAllocateCommandBuffers (device pool : N)
| CallBeginCommandBuffer (cmd : N) (one_time : bool)
| CallCmdBindPipeline (cmd pipeline : N)
| CallCmdBindDescriptorSets (cmd layout set : N)
| CallCmdDispatch (cmd : N) (x y z : Z)
| CallEndCommandBuffer (cmd : N)
| CallFreeCommandBuffers (device pool cmd : N)
| CallDestroyCommandPool (device pool : N)
| CallCreateFence (device : N) (signaled : bool)
| CallDestroyFence (device fence : N)
| CallQueueSubmit (queue cmd fence : N)
| CallWaitForFences (device fence : N) (timeout : Z)
| CallMapMemory (device memory : N) (offset size : Z)
| CallUnmapMemory (device memory : N).

(** ** The environment: what the machine offers the program

    Fixed for a run. [env_fail n c] says whether the driver reports an
    error for the [n]-th API call, which is [c] (out of memory, device
    lost, ...): the driver may fail any call that can return an error
    code, and the program must cope with it. *)
Record Env := mkEnv {
  env_layers : list string;
  env_extensions : list string;
  env_gpus : list PhysicalDeviceInfo;
  env_fail : N -> ApiCall -> bool;
  (** the contents of the shader file, [None] when [fopen] fails *)
  env_shader_file : string -> option (list byte);
  (** how long (in ns) the GPU needs to run the dispatched work *)
  env_gpu_time : Z;
  (** what the compute shader writes to pixel [i] of the storage buffer *)
  env_shader_output : nat -> Pixel;
  (** what freshly allocated device memory holds (its contents are
      undefined until written) *)
  env_uninitialized : nat -> Pixel;
  (** what [lodepng::encode(filename, image, w, h)] returns: [0] when
      the file is written, else lodepng's error code *)
  env_png_error : list Z -> Z -> Z -> N;
  (** [lodepng_error_text] *)
  env_png_error_text : N -> string;
}.

(** ** The driver's state

    [vs_objs]: every handle ever created; [vs_next]: the next fresh
    handle (handles start at 1, 0 is [VK_NULL_HANDLE]); [vs_calls]: the
    number of API calls made so far (the index [env_fail] is asked
    about); [vs_log]: the calls made, most recent first; [vs_io]: the
    process's console and file events, most recent first. *)
Record VkState := mkVkState {
  vs_objs : gmap N Obj;
  vs_next : N;
  vs_calls : N;
  vs_log : list ApiCall;
  vs_io : list IoEvent;
}.

Definition vk_init : VkState := mkVkState ∅ 1 0 [] [].

(** ** How a run can stop early *)

Inductive Outcome :=
(** an [assert] of the sources failed: the process aborts *)
| AssertFailed (msg : string)
(** [std::exit(code)] *)
| Exited (code : Z)
(** a call broke a valid-usage rule of the API (named by its VUID):
    the behaviour of the driver is undefined from then on *)
| InvalidUsage (vuid : string)
(** the C++ program itself has undefined behaviour *)
| UndefinedBehaviour (what : string).

(** The outcomes a correct program may end in on a hostile machine:
    aborting on a failed check is allowed, undefined behaviour is not. *)
Definition benign (o : Outcome) : Prop :=
  match o with
  | AssertFailed _ | Exited _ => True
  | InvalidUsage _ | UndefinedBehaviour _ => False
  end.

(** The program's monad. *)
Abbreviation VkM := (M Env VkState Outcome).
