(* ===== verification/VkApi.v ===== *)
(** * The native API: valid-usage rules of the calls the program makes

    Each [vk*] definition is one entry point of the Vulkan API, as the
    specification describes it (the API is not code of this repository):
    it records the call, checks the valid-usage rules that concern the
    arguments the program can pass (a violation stops the run with
    [InvalidUsage], named after the rule), may fail the way the driver
    is allowed to (an error code, decided by [env_fail]), and otherwise
    updates the table of objects. *)

From Stdlib Require Import ZArith Lia.
From stdpp Require Import base list option gmap strings.
From S2P Require Import Prelude VkTypes.

(** ** Primitives on the object table *)

Definition vk_env : VkM Env := ask.
Definition vk_state : VkM VkState := get_state.

(** The callbacks registered for error reports, in the table's order. *)
Definition error_callbacks (s : VkState) : list PFN_vkDebugReportCallbackEXT :=
  omap (fun ko : N * Obj =>
          match ko.2 with
          | mkObj _ true (IDebugCallback flags cb) =>
              if bool_decide (Z.land flags VK_DEBUG_REPORT_ERROR_BIT_EXT = 0) then None
              else Some cb
          | _ => None
          end) (map_to_list (vs_objs s)).

(** The validation layer reports a broken rule to every callback
    registered for errors, with the layer prefix ["Validation"] and the
    rule as the message; what the callbacks write is appended to the
    trace. *)
Definition report_error (msg : string) : VkM unit :=
  modify_state (fun s =>
    mkVkState (vs_objs s) (vs_next s) (vs_calls s) (vs_log s)
      (rev (concat (map (fun cb : PFN_vkDebugReportCallbackEXT => (cb "Validation" msg).1)
                        (error_callbacks s))) ++ vs_io s)).

Definition invalid {A} (vuid : string) : VkM A :=
  do report_error vuid; stop (InvalidUsage vuid).

Definition require (b : bool) (vuid : string) : VkM unit :=
  if b then ret tt else invalid vuid.

Definition live_obj (s : VkState) (h : N) : option Obj :=
  match vs_objs s !! h with
  | Some o => if o_live o then Some o else None
  | None => None
  end.

(** The live object named by [h]; any other handle breaks the rule that
    the handle passed must be a valid handle of its type. *)
Definition get_live (h : N) (vuid : string) : VkM Obj :=
  fun _ s => match live_obj s h with
             | Some o => Ok o s
             | None => Stop (InvalidUsage vuid) s
             end.

(** A live object created from [parent]. *)
Definition get_child (parent h : N) (vuid : string) : VkM ObjInfo :=
  do o <- get_live h vuid;
  do require (o_parent o =? parent)%N (vuid +:+ " (parent)");
  ret (o_info o).

Definition env_gpu (g : nat) : VkM PhysicalDeviceInfo :=
  fun e s => match env_gpus e !! g with
             | Some p => Ok p s
             | None => Stop (InvalidUsage "VkPhysicalDevice must be a valid handle") s
             end.

(** Record the call; answer whether the driver fails it. *)
Definition begin_call (c : ApiCall) : VkM bool :=
  fun e s => Ok (env_fail e (vs_calls s) c)
                (mkVkState (vs_objs s) (vs_next s) (vs_calls s + 1) (c :: vs_log s) (vs_io s)).

Definition alloc (parent : N) (i : ObjInfo) : VkM N :=
  fun _ s => Ok (vs_next s)
                (mkVkState (<[vs_next s := mkObj parent true i]> (vs_objs s))
                           (vs_next s + 1) (vs_calls s) (vs_log s) (vs_io s)).

Definition update_obj (h : N) (f : Obj -> Obj) : VkM unit :=
  modify_state (fun s => mkVkState (alter f h (vs_objs s)) (vs_next s) (vs_calls s) (vs_log s) (vs_io s)).

Definition with_info (i : ObjInfo) (o : Obj) : Obj := mkObj (o_parent o) (o_live o) i.
Definition dead (o : Obj) : Obj := mkObj (o_parent o) false (o_info o).

Definition set_info (h : N) (i : ObjInfo) : VkM unit := update_obj h (with_info i).

(** ** Destruction

    An object may be destroyed only when every object created from it
    has been destroyed, except those freed with it (queues, descriptor
    sets, command buffers), and when no pending GPU work uses it. *)

Definition no_live_children (s : VkState) (h : N) : Prop :=
  map_Forall (fun _ o => o_live o = true -> o_parent o = h ->
                         implicitly_freed (kind_of (o_info o)) = true) (vs_objs s).

#[export] Instance no_live_children_dec s h : Decision (no_live_children s h).
Proof. unfold no_live_children. apply _. Defined.

Definition kill_children (h : N) (o : Obj) : Obj :=
  if (o_parent o =? h)%N then dead o else o.

Definition destroy (h : N) (vuid : string) : VkM unit :=
  do s <- vk_state;
  do require (bool_decide (no_live_children s h)) vuid;
  do modify_state (fun s => mkVkState (kill_children h <$> vs_objs s) (vs_next s)
                                      (vs_calls s) (vs_log s) (vs_io s));
  update_obj h dead.

(** What pending work on a command buffer refers to: the command buffer,
    its pool, the bound pipeline and descriptor set, the set's pool, the
    buffer bound to the set and that buffer's memory. *)
Definition buffer_refs (s : VkState) (b : N) : list N :=
  b :: match vs_objs s !! b with
       | Some (mkObj _ _ (IBuffer _ (Some m))) => [m]
       | _ => []
       end.

Definition set_refs (s : VkState) (st : N) : list N :=
  st :: match vs_objs s !! st with
        | Some (mkObj pool _ (IDescriptorSet _ (Some b))) => pool :: buffer_refs s b
        | Some (mkObj pool _ _) => [pool]
        | None => []
        end.

Definition pending_refs (s : VkState) (cb : N) (o : Obj) : list N :=
  match o_info o with
  | ICommandBuffer CmdPending _ pipe st _ fence =>
      cb :: o_parent o :: option_list pipe ++ option_list fence ++
         from_option (set_refs s) [] st
  | _ => []
  end.

Definition not_in_use (s : VkState) (h : N) : Prop :=
  map_Forall (fun cb o => h ∉ pending_refs s cb o) (vs_objs s).

#[export] Instance not_in_use_dec s h : Decision (not_in_use s h).
Proof. unfold not_in_use. apply _. Defined.

Definition require_idle (h : N) (vuid : string) : VkM unit :=
  do s <- vk_state; require (bool_decide (not_in_use s h)) vuid.

(** ** Instance *)

(** The extension that provides an instance-level command. *)
Definition command_extension (name : string) : option string :=
  if decide (name = "vkCreateDebugReportCallbackEXT") then Some "VK_EXT_debug_report"
  else if decide (name = "vkDestroyDebugReportCallbackEXT") then Some "VK_EXT_debug_report"
  else None.

Definition vkCreateInstance (layers extensions : list string) : VkM (VkResult * N) :=
  do fails <- begin_call (CallCreateInstance layers extensions);
  do e <- vk_env;
  if negb (forallb (fun l => bool_decide (l ∈ env_layers e)) layers)
  then ret (VK_ERROR_LAYER_NOT_PRESENT, 0%N)
  else if negb (forallb (fun x => bool_decide (x ∈ env_extensions e)) extensions)
  then ret (VK_ERROR_EXTENSION_NOT_PRESENT, 0%N)
  else if fails then ret (VK_ERROR_INITIALIZATION_FAILED, 0%N)
  else do h <- alloc 0 (IInstance extensions); ret (VK_SUCCESS, h).

(** Whether the returned function pointer is non-null. *)
Definition vkGetInstanceProcAddr (instance : N) (name : string) : VkM bool :=
  do begin_call (CallGetInstanceProcAddr instance name);
  do i <- get_child 0 instance "VUID-vkGetInstanceProcAddr-instance-parameter";
  match i, command_extension name with
  | IInstance exts, Some x => ret (bool_decide (x ∈ exts))
  | _, _ => ret false
  end.

Definition vkCreateDebugReportCallbackEXT (instance : N) (flags : Z)
    (pfnCallback : PFN_vkDebugReportCallbackEXT) : VkM (VkResult * N) :=
  do fails <- begin_call (CallCreateDebugReportCallback instance);
  do i <- get_child 0 instance "VUID-vkCreateDebugReportCallbackEXT-instance-parameter";
  if fails then ret (VK_ERROR_OUT_OF_HOST_MEMORY, 0%N)
  else do h <- alloc instance (IDebugCallback flags pfnCallback); ret (VK_SUCCESS, h).

Definition vkDestroyDebugReportCallbackEXT (instance callback : N) : VkM unit :=
  do begin_call (CallDestroyDebugReportCallback instance callback);
  do get_child 0 instance "VUID-vkDestroyDebugReportCallbackEXT-instance-parameter";
  do i <- get_child instance callback "VUID-vkDestroyDebugReportCallbackEXT-callback-parameter";
  match i with
  | IDebugCallback _ _ => destroy callback "VUID-vkDestroyDebugReportCallbackEXT-callback"
  | _ => invalid "VUID-vkDestroyDebugReportCallbackEXT-callback-parameter"
  end.

Definition vkDestroyInstance (instance : N) : VkM unit :=
  do begin_call (CallDestroyInstance instance);
  do get_child 0 instance "VUID-vkDestroyInstance-instance-parameter";
  destroy instance "VUID-vkDestroyInstance-instance-00629".

(** Returns the physical devices, by their index in [env_gpus]. *)
Definition vkEnumeratePhysicalDevices (instance : N) : VkM (list VkPhysicalDevice) :=
  do begin_call (CallEnumeratePhysicalDevices instance);
  do get_child 0 instance "VUID-vkEnumeratePhysicalDevices-instance-parameter";
  do e <- vk_env; ret (map (pair instance) (seq 0 (length (env_gpus e)))).

Definition vkEnumerateInstanceLayerProperties : VkM (list string) :=
  do e <- vk_env; ret (env_layers e).

Definition vkEnumerateInstanceExtensionProperties : VkM (list string) :=
  do e <- vk_env; ret (env_extensions e).

(** ** Physical devices: queries (they change no state) *)

Definition phys (pd : VkPhysicalDevice) : VkM PhysicalDeviceInfo :=
  do get_child 0 pd.1 "VUID-VkPhysicalDevice-instance (instance of the physical device)";
  env_gpu pd.2.

Definition vkGetPhysicalDeviceQueueFamilyProperties (pd : VkPhysicalDevice)
    : VkM (list VkQueueFamilyProperties) :=
  do p <- phys pd; ret (pd_queue_families p).

Definition vkEnumerateDeviceLayerProperties (pd : VkPhysicalDevice) : VkM (list string) :=
  do p <- phys pd; ret (pd_layers p).

Definition vkEnumerateDeviceExtensionProperties (pd : VkPhysicalDevice) : VkM (list string) :=
  do p <- phys pd; ret (pd_extensions p).

Definition vkGetPhysicalDeviceProperties (pd : VkPhysicalDevice)
    : VkM VkPhysicalDeviceProperties :=
  do p <- phys pd; ret (pd_properties p).

Definition vkGetPhysicalDeviceMemoryProperties (pd : VkPhysicalDevice)
    : VkM (list VkMemoryType) :=
  do p <- phys pd; ret (pd_memory_types p).

(** ** Logical devices

    A device is a child of the instance of its physical device; its one
    queue (the program asks for [queueCount = 1]) is created with it. *)

Definition all_in (xs ys : list string) : bool :=
  forallb (fun x => bool_decide (x ∈ ys)) xs.

Definition vkCreateDevice (pd : VkPhysicalDevice) (queue_family : Z)
    (layers extensions : list string) : VkM (VkResult * N) :=
  do fails <- begin_call (CallCreateDevice pd queue_family layers extensions);
  do p <- phys pd;
  do require (bool_decide (0 <= queue_family < Z.of_nat (length (pd_queue_families p))))
       "VUID-VkDeviceQueueCreateInfo-queueFamilyIndex-00381";
  do require (match pd_queue_families p !! Z.to_nat queue_family with
              | Some f => bool_decide (1 <= queueCount f)
              | None => false
              end) "VUID-VkDeviceQueueCreateInfo-queueCount-00382";
  if negb (all_in layers (pd_layers p)) then ret (VK_ERROR_LAYER_NOT_PRESENT, 0%N)
  else if negb (all_in extensions (pd_extensions p))
  then ret (VK_ERROR_EXTENSION_NOT_PRESENT, 0%N)
  else if fails then ret (VK_ERROR_INITIALIZATION_FAILED, 0%N)
  else do d <- alloc pd.1 (IDevice pd.2 queue_family 0);
       do q <- alloc d (IQueue queue_family);
       do set_info d (IDevice pd.2 queue_family q);
       ret (VK_SUCCESS, d).

Definition get_device (d : N) (vuid : string) : VkM (nat * Z * N) :=
  do o <- get_live d vuid;
  match o_info o with
  | IDevice g f q => ret (g, f, q)
  | _ => invalid vuid
  end.

Definition device_gpu (d : N) (vuid : string) : VkM PhysicalDeviceInfo :=
  do '(g, _, _) <- get_device d vuid; env_gpu g.

Definition vkGetDeviceQueue (d : N) (queue_family queue_index : Z) : VkM N :=
  do begin_call (CallGetDeviceQueue d queue_family queue_index);
  do '(_, f, q) <- get_device d "VUID-vkGetDeviceQueue-device-parameter";
  do require (queue_family =? f) "VUID-vkGetDeviceQueue-queueFamilyIndex-00384";
  do require (queue_index =? 0) "VUID-vkGetDeviceQueue-queueIndex-00385";
  ret q.

Definition vkDestroyDevice (d : N) : VkM unit :=
  do begin_call (CallDestroyDevice d);
  do get_device d "VUID-vkDestroyDevice-device-parameter";
  destroy d "VUID-vkDestroyDevice-device-00378".

(** ** Buffers and device memory *)

Definition vkCreateBuffer (d : N) (size : Z) : VkM (VkResult * N) :=
  do fails <- begin_call (CallCreateBuffer d size);
  do get_device d "VUID-vkCreateBuffer-device-parameter";
  do require (bool_decide (0 < size)) "VUID-VkBufferCreateInfo-size-00912";
  if fails then ret (VK_ERROR_OUT_OF_DEVICE_MEMORY, 0%N)
  else do b <- alloc d (IBuffer size None); ret (VK_SUCCESS, b).

(** Returns [VkMemoryRequirements]: (size, memoryTypeBits). *)
Definition vkGetBufferMemoryRequirements (d b : N) : VkM (Z * Z) :=
  do begin_call (CallGetBufferMemoryRequirements d b);
  do p <- device_gpu d "VUID-vkGetBufferMemoryRequirements-device-parameter";
  do i <- get_child d b "VUID-vkGetBufferMemoryRequirements-buffer-parameter";
  match i with
  | IBuffer size _ => ret (pd_mem_req_size p size, pd_mem_type_bits p)
  | _ => invalid "VUID-vkGetBufferMemoryRequirements-buffer-parameter"
  end.

Definition vkAllocateMemory (d : N) (size type_index : Z) : VkM (VkResult * N) :=
  do fails <- begin_call (CallAllocateMemory d size type_index);
  do p <- device_gpu d "VUID-vkAllocateMemory-device-parameter";
  do require (bool_decide (0 < size)) "VUID-VkMemoryAllocateInfo-allocationSize-00638";
  do require (bool_decide (0 <= type_index < Z.of_nat (length (pd_memory_types p))))
       "VUID-vkAllocateMemory-pAllocateInfo-01714";
  if fails then ret (VK_ERROR_OUT_OF_DEVICE_MEMORY, 0%N)
  else do e <- vk_env;
       do m <- alloc d (IMemory size type_index None (env_uninitialized e));
       ret (VK_SUCCESS, m).

Definition vkBindBufferMemory (d b m : N) (offset : Z) : VkM VkResult :=
  do fails <- begin_call (CallBindBufferMemory d b m offset);
  do p <- device_gpu d "VUID-vkBindBufferMemory-device-parameter";
  do bi <- get_child d b "VUID-vkBindBufferMemory-buffer-parameter";
  do mi <- get_child d m "VUID-vkBindBufferMemory-memory-parameter";
  match bi, mi with
  | IBuffer size None, IMemory msize ty _ _ =>
      do require (bool_decide (0 <= offset < msize)) "VUID-vkBindBufferMemory-memoryOffset-01031";
      do require (Z.testbit (pd_mem_type_bits p) ty) "VUID-vkBindBufferMemory-memory-01035";
      do require (bool_decide (pd_mem_req_size p size <= msize - offset))
           "VUID-vkBindBufferMemory-size-01037";
      if fails then ret VK_ERROR_OUT_OF_DEVICE_MEMORY
      else do set_info b (IBuffer size (Some m)); ret VK_SUCCESS
  | IBuffer _ (Some _), _ => invalid "VUID-vkBindBufferMemory-buffer-07459"
  | _, _ => invalid "VUID-vkBindBufferMemory-memory-parameter"
  end.

Definition vkFreeMemory (d m : N) : VkM unit :=
  do begin_call (CallFreeMemory d m);
  do get_device d "VUID-vkFreeMemory-device-parameter";
  do mi <- get_child d m "VUID-vkFreeMemory-memory-parameter";
  match mi with
  | IMemory _ _ _ _ =>
      do require_idle m "VUID-vkFreeMemory-memory-00677";
      destroy m "VUID-vkFreeMemory-memory-00677"
  | _ => invalid "VUID-vkFreeMemory-memory-parameter"
  end.

Definition vkDestroyBuffer (d b : N) : VkM unit :=
  do begin_call (CallDestroyBuffer d b);
  do get_device d "VUID-vkDestroyBuffer-device-parameter";
  do bi <- get_child d b "VUID-vkDestroyBuffer-buffer-parameter";
  match bi with
  | IBuffer _ _ =>
      do require_idle b "VUID-vkDestroyBuffer-buffer-00922";
      destroy b "VUID-vkDestroyBuffer-buffer-00922"
  | _ => invalid "VUID-vkDestroyBuffer-buffer-parameter"
  end.

(** ** Descriptor sets

    A descriptor set is a child of its pool; it records the layout it
    was allocated with and the buffer written to its binding 0. *)

Definition vkCreateDescriptorSetLayout (d : N) (ty : VkDescriptorType) : VkM (VkResult * N) :=
  do fails <- begin_call (CallCreateDescriptorSetLayout d ty);
  do get_device d "VUID-vkCreateDescriptorSetLayout-device-parameter";
  if fails then ret (VK_ERROR_OUT_OF_HOST_MEMORY, 0%N)
  else do l <- alloc d (IDescriptorSetLayout ty); ret (VK_SUCCESS, l).

Definition vkCreateDescriptorPool (d : N) (ty : VkDescriptorType) (max_sets : Z)
    : VkM (VkResult * N) :=
  do fails <- begin_call (CallCreateDescriptorPool d ty max_sets);
  do get_device d "VUID-vkCreateDescriptorPool-device-parameter";
  do require (bool_decide (0 < max_sets)) "VUID-VkDescriptorPoolCreateInfo-maxSets-00301";
  if fails then ret (VK_ERROR_OUT_OF_HOST_MEMORY, 0%N)
  else do p <- alloc d (IDescriptorPool ty max_sets); ret (VK_SUCCESS, p).

Definition vkAllocateDescriptorSets (d pool layout : N) : VkM (VkResult * N) :=
  do fails <- begin_call (CallAllocateDescriptorSets d pool layout);
  do get_device d "VUID-vkAllocateDescriptorSets-device-parameter";
  do pi <- get_child d pool "VUID-VkDescriptorSetAllocateInfo-descriptorPool-parameter";
  do li <- get_child d layout "VUID-VkDescriptorSetAllocateInfo-pSetLayouts-parameter";
  match pi, li with
  | IDescriptorPool pty free, IDescriptorSetLayout lty =>
      do require (bool_decide (0 < free)) "VUID-VkDescriptorSetAllocateInfo-descriptorSetCount-00306";
      do require (bool_decide (pty = lty)) "VUID-VkDescriptorSetAllocateInfo-descriptorPool-00307";
      if fails then ret (VK_ERROR_OUT_OF_HOST_MEMORY, 0%N)
      else do set_info pool (IDescriptorPool pty (free - 1));
           do st <- alloc pool (IDescriptorSet layout None);
           ret (VK_SUCCESS, st)
  | _, _ => invalid "VUID-VkDescriptorSetAllocateInfo-parameter"
  end.

(** A live descriptor set allocated from a live pool of device [d]. *)
Definition get_set (d st : N) (vuid : string) : VkM (N * N * option N) :=
  do so <- get_live st vuid;
  do pi <- get_child d (o_parent so) vuid;
  match pi, o_info so with
  | IDescriptorPool _ _, IDescriptorSet layout buf => ret (o_parent so, layout, buf)
  | _, _ => invalid vuid
  end.

Definition vkUpdateDescriptorSets (d st b : N) (ty : VkDescriptorType) (offset range : Z)
    : VkM unit :=
  do begin_call (CallUpdateDescriptorSets d st b ty offset range);
  do get_device d "VUID-vkUpdateDescriptorSets-device-parameter";
  do '(_, layout, _) <- get_set d st "VUID-VkWriteDescriptorSet-dstSet-00320";
  do li <- get_child d layout "VUID-vkUpdateDescriptorSets-None-03047 (layout destroyed)";
  do bi <- get_child d b "VUID-VkDescriptorBufferInfo-buffer-parameter";
  match li, bi with
  | IDescriptorSetLayout lty, IBuffer size mem =>
      do require (bool_decide (lty = ty)) "VUID-VkWriteDescriptorSet-descriptorType-00319";
      do require (bool_decide (0 <= offset < size)) "VUID-VkDescriptorBufferInfo-offset-00340";
      do require (bool_decide (0 < range <= size - offset)) "VUID-VkDescriptorBufferInfo-range-00341";
      do require (bool_decide (is_Some mem)) "VUID-VkWriteDescriptorSet-descriptorType-00329";
      set_info st (IDescriptorSet layout (Some b))
  | _, _ => invalid "VUID-VkWriteDescriptorSet-parameter"
  end.

Definition vkDestroyDescriptorPool (d pool : N) : VkM unit :=
  do begin_call (CallDestroyDescriptorPool d pool);
  do get_device d "VUID-vkDestroyDescriptorPool-device-parameter";
  do pi <- get_child d pool "VUID-vkDestroyDescriptorPool-descriptorPool-parameter";
  match pi with
  | IDescriptorPool _ _ =>
      do require_idle pool "VUID-vkDestroyDescriptorPool-descriptorPool-00303";
      destroy pool "VUID-vkDestroyDescriptorPool-descriptorPool-00303"
  | _ => invalid "VUID-vkDestroyDescriptorPool-descriptorPool-parameter"
  end.

Definition vkDestroyDescriptorSetLayout (d layout : N) : VkM unit :=
  do begin_call (CallDestroyDescriptorSetLayout d layout);
  do get_device d "VUID-vkDestroyDescriptorSetLayout-device-parameter";
  do li <- get_child d layout "VUID-vkDestroyDescriptorSetLayout-descriptorSetLayout-parameter";
  match li with
  | IDescriptorSetLayout _ => destroy layout "VUID-vkDestroyDescriptorSetLayout-descriptorSetLayout"
  | _ => invalid "VUID-vkDestroyDescriptorSetLayout-descriptorSetLayout-parameter"
  end.

(** ** Shader modules and compute pipelines *)

(** The first word of every SPIR-V module. *)
Definition SPIRV_MAGIC : Z := 119734787.  (* 0x07230203 *)

(** [code] is the array of 32-bit words [pCode] points to. The content
    of a module is checked only as far as its magic number. *)
Definition vkCreateShaderModule (d : N) (code_size : Z) (code : list Z) : VkM (VkResult * N) :=
  do fails <- begin_call (CallCreateShaderModule d code_size code);
  do get_device d "VUID-vkCreateShaderModule-device-parameter";
  do require (bool_decide (0 < code_size)) "VUID-VkShaderModuleCreateInfo-codeSize-01085";
  do require (bool_decide (code_size mod 4 = 0)) "VUID-VkShaderModuleCreateInfo-codeSize-01376";
  do require (bool_decide (code_size <= 4 * Z.of_nat (length code)))
       "VUID-VkShaderModuleCreateInfo-pCode-parameter";
  do require (bool_decide (head code = Some SPIRV_MAGIC)) "VUID-VkShaderModuleCreateInfo-pCode-01377";
  if fails then ret (VK_ERROR_OUT_OF_HOST_MEMORY, 0%N)
  else do m <- alloc d (IShaderModule (take (Z.to_nat (code_size / 4)) code));
       ret (VK_SUCCESS, m).

Definition vkCreatePipelineLayout (d set_layout : N) : VkM (VkResult * N) :=
  do fails <- begin_call (CallCreatePipelineLayout d set_layout);
  do get_device d "VUID-vkCreatePipelineLayout-device-parameter";
  do li <- get_child d set_layout "VUID-VkPipelineLayoutCreateInfo-pSetLayouts-parameter";
  match li with
  | IDescriptorSetLayout _ =>
      if fails then ret (VK_ERROR_OUT_OF_HOST_MEMORY, 0%N)
      else do l <- alloc d (IPipelineLayout set_layout); ret (VK_SUCCESS, l)
  | _ => invalid "VUID-VkPipelineLayoutCreateInfo-pSetLayouts-parameter"
  end.

Definition vkCreateComputePipelines (d module layout : N) (entry : string)
    : VkM (VkResult * N) :=
  do fails <- begin_call (CallCreateComputePipelines d module layout entry);
  do get_device d "VUID-vkCreateComputePipelines-device-parameter";
  do mi <- get_child d module "VUID-VkPipelineShaderStageCreateInfo-module-parameter";
  do li <- get_child d layout "VUID-VkComputePipelineCreateInfo-layout-parameter";
  match mi, li with
  | IShaderModule _, IPipelineLayout _ =>
      if fails then ret (VK_ERROR_OUT_OF_HOST_MEMORY, 0%N)
      else do p <- alloc d (IPipeline module layout); ret (VK_SUCCESS, p)
  | _, _ => invalid "VUID-VkComputePipelineCreateInfo-parameter"
  end.

Definition vkDestroyShaderModule (d module : N) : VkM unit :=
  do begin_call (CallDestroyShaderModule d module);
  do get_device d "VUID-vkDestroyShaderModule-device-parameter";
  do mi <- get_child d module "VUID-vkDestroyShaderModule-shaderModule-parameter";
  match mi with
  | IShaderModule _ => destroy module "VUID-vkDestroyShaderModule-shaderModule"
  | _ => invalid "VUID-vkDestroyShaderModule-shaderModule-parameter"
  end.

Definition vkDestroyPipelineLayout (d layout : N) : VkM unit :=
  do begin_call (CallDestroyPipelineLayout d layout);
  do get_device d "VUID-vkDestroyPipelineLayout-device-parameter";
  do li <- get_child d layout "VUID-vkDestroyPipelineLayout-pipelineLayout-parameter";
  match li with
  | IPipelineLayout _ => destroy layout "VUID-vkDestroyPipelineLayout-pipelineLayout"
  | _ => invalid "VUID-vkDestroyPipelineLayout-pipelineLayout-parameter"
  end.

Definition vkDestroyPipeline (d pipeline : N) : VkM unit :=
  do begin_call (CallDestroyPipeline d pipeline);
  do get_device d "VUID-vkDestroyPipeline-device-parameter";
  do pi <- get_child d pipeline "VUID-vkDestroyPipeline-pipeline-parameter";
  match pi with
  | IPipeline _ _ =>
      do require_idle pipeline "VUID-vkDestroyPipeline-pipeline-00765";
      destroy pipeline "VUID-vkDestroyPipeline-pipeline-00765"
  | _ => invalid "VUID-vkDestroyPipeline-pipeline-parameter"
  end.

(** ** Command pools and command buffers

    A command buffer is a child of its pool, and goes through the states
    initial, recording, executable, pending and invalid. *)

Definition vkCreateCommandPool (d : N) (queue_family flags : Z) : VkM (VkResult * N) :=
  do fails <- begin_call (CallCreateCommandPool d queue_family flags);
  do '(_, f, _) <- get_device d "VUID-vkCreateCommandPool-device-parameter";
  do require (queue_family =? f) "VUID-vkCreateCommandPool-queueFamilyIndex-01937";
  if fails then ret (VK_ERROR_OUT_OF_HOST_MEMORY, 0%N)
  else do p <- alloc d (ICommandPool queue_family); ret (VK_SUCCESS, p).

Definition vkAllocateCommandBuffers (d pool : N) : VkM (VkResult * N) :=
  do fails <- begin_call (CallAllocateCommandBuffers d pool);
  do get_device d "VUID-vkAllocateCommandBuffers-device-parameter";
  do pi <- get_child d pool "VUID-VkCommandBufferAllocateInfo-commandPool-parameter";
  match pi with
  | ICommandPool _ =>
      if fails then ret (VK_ERROR_OUT_OF_HOST_MEMORY, 0%N)
      else do c <- alloc pool (ICommandBuffer CmdInitial false None None [] None);
           ret (VK_SUCCESS, c)
  | _ => invalid "VUID-VkCommandBufferAllocateInfo-commandPool-parameter"
  end.

(** A live command buffer, its pool, and the device of the pool. *)
Definition get_cmd (cb : N) (vuid : string)
    : VkM (N * N * CmdState * bool * option N * option N * list (Z * Z * Z)) :=
  do co <- get_live cb vuid;
  do po <- get_live (o_parent co) vuid;
  match o_info co, o_info po with
  | ICommandBuffer st ot pipe set ds _, ICommandPool _ =>
      ret (o_parent co, o_parent po, st, ot, pipe, set, ds)
  | _, _ => invalid vuid
  end.

Definition vkBeginCommandBuffer (cb : N) (one_time : bool) : VkM VkResult :=
  do fails <- begin_call (CallBeginCommandBuffer cb one_time);
  do '(_, _, st, _, _, _, _) <- get_cmd cb "VUID-vkBeginCommandBuffer-commandBuffer-parameter";
  do require (bool_decide (st = CmdInitial)) "VUID-vkBeginCommandBuffer-commandBuffer-00050";
  if fails then ret VK_ERROR_OUT_OF_HOST_MEMORY
  else do set_info cb (ICommandBuffer CmdRecording one_time None None [] None);
       ret VK_SUCCESS.

Definition vkCmdBindPipeline (cb pipeline : N) : VkM unit :=
  do begin_call (CallCmdBindPipeline cb pipeline);
  do '(_, d, st, ot, _, set, ds) <- get_cmd cb "VUID-vkCmdBindPipeline-commandBuffer-parameter";
  do require (bool_decide (st = CmdRecording)) "VUID-vkCmdBindPipeline-commandBuffer-recording";
  do pi <- get_child d pipeline "VUID-vkCmdBindPipeline-commonparent";
  match pi with
  | IPipeline _ _ => set_info cb (ICommandBuffer st ot (Some pipeline) set ds None)
  | _ => invalid "VUID-vkCmdBindPipeline-pipeline-parameter"
  end.

Definition vkCmdBindDescriptorSets (cb layout set : N) : VkM unit :=
  do begin_call (CallCmdBindDescriptorSets cb layout set);
  do '(_, d, st, ot, pipe, _, ds) <- get_cmd cb "VUID-vkCmdBindDescriptorSets-commandBuffer-parameter";
  do require (bool_decide (st = CmdRecording)) "VUID-vkCmdBindDescriptorSets-commandBuffer-recording";
  do li <- get_child d layout "VUID-vkCmdBindDescriptorSets-commonparent";
  do '(_, sl, _) <- get_set d set "VUID-vkCmdBindDescriptorSets-pDescriptorSets-parameter";
  match li with
  | IPipelineLayout psl =>
      do require (psl =? sl)%N "VUID-vkCmdBindDescriptorSets-pDescriptorSets-00358";
      set_info cb (ICommandBuffer st ot pipe (Some set) ds None)
  | _ => invalid "VUID-vkCmdBindDescriptorSets-layout-parameter"
  end.

(** At dispatch time a compute pipeline must be bound, a descriptor set
    compatible with its layout must be bound and written, and each group
    count must be within the device's limit. *)
Definition vkCmdDispatch (cb : N) (x y z : Z) : VkM unit :=
  do begin_call (CallCmdDispatch cb x y z);
  do '(_, d, st, ot, pipe, set, ds) <- get_cmd cb "VUID-vkCmdDispatch-commandBuffer-parameter";
  do require (bool_decide (st = CmdRecording)) "VUID-vkCmdDispatch-commandBuffer-recording";
  do p <- device_gpu d "VUID-vkCmdDispatch-commandBuffer-parameter";
  match pipe, set with
  | Some pl, Some stn =>
      do pi <- get_child d pl "VUID-vkCmdDispatch-None-08606";
      do '(_, sl, buf) <- get_set d stn "VUID-vkCmdDispatch-None-08600";
      match pi with
      | IPipeline _ layout =>
          do li <- get_child d layout "VUID-vkCmdDispatch-None-08600";
          match li with
          | IPipelineLayout psl =>
              do require (psl =? sl)%N "VUID-vkCmdDispatch-None-08600";
              do require (bool_decide (is_Some buf)) "VUID-vkCmdDispatch-None-08114";
              let '(mx, my, mz) := maxComputeWorkGroupCount (pd_properties p) in
              do require (bool_decide (0 <= x <= mx)) "VUID-vkCmdDispatch-groupCountX-00386";
              do require (bool_decide (0 <= y <= my)) "VUID-vkCmdDispatch-groupCountY-00387";
              do require (bool_decide (0 <= z <= mz)) "VUID-vkCmdDispatch-groupCountZ-00388";
              set_info cb (ICommandBuffer st ot pipe set (ds ++ [(x, y, z)]) None)
          | _ => invalid "VUID-vkCmdDispatch-None-08600"
          end
      | _ => invalid "VUID-vkCmdDispatch-None-08606"
      end
  | None, _ => invalid "VUID-vkCmdDispatch-None-08606"
  | _, None => invalid "VUID-vkCmdDispatch-None-08600"
  end.

(** A failed [vkEndCommandBuffer] leaves the command buffer invalid. *)
Definition vkEndCommandBuffer (cb : N) : VkM VkResult :=
  do fails <- begin_call (CallEndCommandBuffer cb);
  do '(_, _, st, ot, pipe, set, ds) <- get_cmd cb "VUID-vkEndCommandBuffer-commandBuffer-parameter";
  do require (bool_decide (st = CmdRecording)) "VUID-vkEndCommandBuffer-commandBuffer-00059";
  if fails
  then do set_info cb (ICommandBuffer CmdInvalid ot pipe set ds None);
       ret VK_ERROR_OUT_OF_HOST_MEMORY
  else do set_info cb (ICommandBuffer CmdExecutable ot pipe set ds None); ret VK_SUCCESS.

Definition vkFreeCommandBuffers (d pool cb : N) : VkM unit :=
  do begin_call (CallFreeCommandBuffers d pool cb);
  do get_device d "VUID-vkFreeCommandBuffers-device-parameter";
  do pi <- get_child d pool "VUID-vkFreeCommandBuffers-commandPool-parameter";
  do ci <- get_child pool cb "VUID-vkFreeCommandBuffers-pCommandBuffers-00048";
  match pi, ci with
  | ICommandPool _, ICommandBuffer _ _ _ _ _ _ =>
      do require_idle cb "VUID-vkFreeCommandBuffers-pCommandBuffers-00047";
      destroy cb "VUID-vkFreeCommandBuffers-pCommandBuffers-00047"
  | _, _ => invalid "VUID-vkFreeCommandBuffers-pCommandBuffers-00048"
  end.

Definition vkDestroyCommandPool (d pool : N) : VkM unit :=
  do begin_call (CallDestroyCommandPool d pool);
  do get_device d "VUID-vkDestroyCommandPool-device-parameter";
  do pi <- get_child d pool "VUID-vkDestroyCommandPool-commandPool-parameter";
  match pi with
  | ICommandPool _ =>
      do require_idle pool "VUID-vkDestroyCommandPool-commandPool-00041";
      destroy pool "VUID-vkDestroyCommandPool-commandPool-00041"
  | _ => invalid "VUID-vkDestroyCommandPool-commandPool-parameter"
  end.

(** ** Fences, submission and completion *)

Definition vkCreateFence (d : N) (signaled : bool) : VkM (VkResult * N) :=
  do fails <- begin_call (CallCreateFence d signaled);
  do get_device d "VUID-vkCreateFence-device-parameter";
  if fails then ret (VK_ERROR_OUT_OF_HOST_MEMORY, 0%N)
  else do f <- alloc d (IFence signaled []); ret (VK_SUCCESS, f).

Definition vkDestroyFence (d f : N) : VkM unit :=
  do begin_call (CallDestroyFence d f);
  do get_device d "VUID-vkDestroyFence-device-parameter";
  do fi <- get_child d f "VUID-vkDestroyFence-fence-parameter";
  match fi with
  | IFence _ _ =>
      do require_idle f "VUID-vkDestroyFence-fence-01120";
      destroy f "VUID-vkDestroyFence-fence-01120"
  | _ => invalid "VUID-vkDestroyFence-fence-parameter"
  end.

(** The objects recorded work will use must still exist when the work
    is submitted. *)
Definition refs_live (s : VkState) (pipe set : option N) : bool :=
  forallb (fun h => bool_decide (is_Some (live_obj s h)))
          (option_list pipe ++ from_option (set_refs s) [] set).

(** Submits one command buffer with a fence (the program always passes
    one). *)
Definition vkQueueSubmit (q cb f : N) : VkM VkResult :=
  do fails <- begin_call (CallQueueSubmit q cb f);
  do qo <- get_live q "VUID-vkQueueSubmit-queue-parameter";
  do '(pool, d, st, ot, pipe, set, ds) <- get_cmd cb "VUID-VkSubmitInfo-pCommandBuffers-parameter";
  do pi <- get_child d pool "VUID-vkQueueSubmit-commonparent";
  do fi <- get_child d f "VUID-vkQueueSubmit-fence-parameter";
  do s <- vk_state;
  match o_info qo, pi, fi with
  | IQueue qf, ICommandPool pf, IFence signaled submitted =>
      do require (o_parent qo =? d)%N "VUID-vkQueueSubmit-commonparent";
      do require (bool_decide (st = CmdExecutable)) "VUID-VkSubmitInfo-pCommandBuffers-00070";
      do require (refs_live s pipe set) "VUID-VkSubmitInfo-pCommandBuffers-00072";
      do require (qf =? pf) "VUID-vkQueueSubmit-pCommandBuffers-00074";
      do require (negb signaled) "VUID-vkQueueSubmit-fence-00063";
      do require (bool_decide (submitted = [])) "VUID-vkQueueSubmit-fence-00064";
      if fails then ret VK_ERROR_OUT_OF_HOST_MEMORY
      else do set_info cb (ICommandBuffer CmdPending ot pipe set ds (Some f));
           do set_info f (IFence false [cb]);
           ret VK_SUCCESS
  | _, _, _ => invalid "VUID-vkQueueSubmit-parameter"
  end.

(** The memory bound to the buffer written to descriptor set [st]. *)
Definition set_memory (s : VkState) (st : N) : option N :=
  match vs_objs s !! st with
  | Some (mkObj _ _ (IDescriptorSet _ (Some b))) =>
      match vs_objs s !! b with
      | Some (mkObj _ _ (IBuffer _ (Some m))) => Some m
      | _ => None
      end
  | _ => None
  end.

Definition write_contents (c : nat -> Pixel) (o : Obj) : Obj :=
  match o_info o with
  | IMemory sz ty mp _ => with_info (IMemory sz ty mp c) o
  | _ => o
  end.

(** Completion of a pending command buffer: its dispatches have run, so
    the shader's output is in the memory behind the bound storage
    buffer; a one-time-submit command buffer becomes invalid. *)
Definition retire (cb : N) : VkM unit :=
  do s <- vk_state;
  do e <- vk_env;
  match vs_objs s !! cb with
  | Some (mkObj _ _ (ICommandBuffer CmdPending ot pipe set ds _)) =>
      do set_info cb (ICommandBuffer (if ot then CmdInvalid else CmdExecutable) ot pipe set ds None);
      match ds, set ≫= set_memory s with
      | _ :: _, Some m => update_obj m (write_contents (env_shader_output e))
      | _, _ => ret tt
      end
  | _ => ret tt
  end.

(** Waits for one fence. The work completes within [timeout] ns when the
    GPU needs at most that long; a fence nothing was submitted with is
    never signaled. *)
Definition vkWaitForFences (d f : N) (timeout : Z) : VkM VkResult :=
  do begin_call (CallWaitForFences d f timeout);
  do get_device d "VUID-vkWaitForFences-device-parameter";
  do fi <- get_child d f "VUID-vkWaitForFences-pFences-parent";
  do e <- vk_env;
  match fi with
  | IFence true _ => ret VK_SUCCESS
  | IFence false [] => ret VK_TIMEOUT
  | IFence false submitted =>
      if bool_decide (env_gpu_time e <= timeout)
      then do iterM retire submitted;
           do set_info f (IFence true []);
           ret VK_SUCCESS
      else ret VK_TIMEOUT
  | _ => invalid "VUID-vkWaitForFences-pFences-parameter"
  end.

(** ** Host access to device memory *)

Definition host_visible (p : PhysicalDeviceInfo) (ty : Z) : bool :=
  match pd_memory_types p !! Z.to_nat ty with
  | Some mt => negb (Z.land (propertyFlags mt) VK_MEMORY_PROPERTY_HOST_VISIBLE_BIT =? 0)
  | None => false
  end.

Definition vkMapMemory (d m : N) (offset size : Z) : VkM VkResult :=
  do fails <- begin_call (CallMapMemory d m offset size);
  do p <- device_gpu d "VUID-vkMapMemory-device-parameter";
  do mi <- get_child d m "VUID-vkMapMemory-memory-parameter";
  match mi with
  | IMemory sz ty mp c =>
      do require (bool_decide (mp = None)) "VUID-vkMapMemory-memory-00678";
      do require (bool_decide (0 <= offset < sz)) "VUID-vkMapMemory-offset-00679";
      do require (bool_decide (0 < size <= sz - offset)) "VUID-vkMapMemory-size-00681";
      do require (host_visible p ty) "VUID-vkMapMemory-memory-00682";
      if fails then ret VK_ERROR_MEMORY_MAP_FAILED
      else do set_info m (IMemory sz ty (Some (offset, size)) c); ret VK_SUCCESS
  | _ => invalid "VUID-vkMapMemory-memory-parameter"
  end.

Definition vkUnmapMemory (d m : N) : VkM unit :=
  do begin_call (CallUnmapMemory d m);
  do get_device d "VUID-vkUnmapMemory-device-parameter";
  do mi <- get_child d m "VUID-vkUnmapMemory-memory-parameter";
  match mi with
  | IMemory sz ty (Some _) c => set_info m (IMemory sz ty None c)
  | IMemory _ _ None _ => invalid "VUID-vkUnmapMemory-memory-00689"
  | _ => invalid "VUID-vkUnmapMemory-memory-parameter"
  end.

Definition sizeof_Pixel : Z := 16.

(** [((Pixel * )mapped)[i]]: a read through the mapped pointer. Reading
    outside the mapped range, through a pointer that is no longer
    mapped, or while pending GPU work may write the memory, is undefined
    behaviour of the C++ program. *)
Definition host_read_pixel (m : N) (i : Z) : VkM Pixel :=
  do s <- vk_state;
  match live_obj s m with
  | Some (mkObj _ _ (IMemory _ _ (Some (off, size)) c)) =>
      if bool_decide (0 <= i /\ sizeof_Pixel * i + sizeof_Pixel <= size) then
        if bool_decide (not_in_use s m) then ret (c (Z.to_nat ((off + sizeof_Pixel * i) / sizeof_Pixel)))
        else stop (UndefinedBehaviour "host read races with pending GPU writes")
      else stop (UndefinedBehaviour "read outside the mapped range")
  | _ => stop (UndefinedBehaviour "read through a pointer that is not mapped")
  end.

(** ** The C runtime: [assert] *)

(** [assert(cond && "msg")]: the development models a build with
    assertions enabled, where a failed assertion aborts the process. *)
Definition c_assert (b : bool) (msg : string) : VkM unit :=
  if b then ret tt else stop (AssertFailed msg).

Definition is_success (r : VkResult) : bool := bool_decide (r = VK_SUCCESS).

(** ** The C++ runtime: the console and the PNG encoder *)

Definition emit (ev : IoEvent) : VkM unit :=
  modify_state (fun s => mkVkState (vs_objs s) (vs_next s) (vs_calls s) (vs_log s) (ev :: vs_io s)).

(** [std::cout << text << std::endl] *)
Definition cout_line (text : string) : VkM unit := emit (Stdout (text +:+ endl)).

(** [std::cin.get()]: the program waits for a key; the character read
    is not used. *)
Definition cin_get : VkM unit := emit StdinGet.

(** [lodepng::encode(filename, image, w, h)]: lodepng is not part of
    the repository; its result is the environment's, and the file is
    written when it succeeds. *)
Definition lodepng_encode (filename : string) (image : list Z) (w h : Z) : VkM N :=
  do e <- vk_env;
  let error := env_png_error e image w h in
  do (if (error =? 0)%N then emit (PngFile filename image w h) else ret tt);
  ret error.

Definition lodepng_error_text (error : N) : VkM string :=
  do e <- vk_env; ret (env_png_error_text e error).
