(* ===== verification/VkFacts.v ===== *)
(** * Facts about the API model shared by the components

    Evaluation lemmas for the primitives of [VkApi] (what a call returns
    on valid arguments), the automation that applies them, and the
    store's well-formedness invariant. *)

From Stdlib Require Import ZArith Lia.
From stdpp Require Import base list option gmap strings.
From S2P Require Import Prelude VkTypes VkApi.

(** A physical device handle of a live instance, with what it reports. *)
Definition phys_valid (e : Env) (s : VkState) (pd : VkPhysicalDevice) (p : PhysicalDeviceInfo)
    : Prop :=
  (exists exts, live_obj s pd.1 = Some (mkObj 0 true (IInstance exts))) /\
  env_gpus e !! pd.2 = Some p.

Create HintDb vk discriminated.

(** ** The state after the primitive effects *)

Definition st_log (s : VkState) (c : ApiCall) : VkState :=
  mkVkState (vs_objs s) (vs_next s) (vs_calls s + 1) (c :: vs_log s) (vs_io s).

Definition st_alloc (s : VkState) (p : N) (i : ObjInfo) : VkState :=
  mkVkState (<[vs_next s := mkObj p true i]> (vs_objs s)) (vs_next s + 1) (vs_calls s) (vs_log s) (vs_io s).

Definition st_set (s : VkState) (objs : gmap N Obj) : VkState :=
  mkVkState objs (vs_next s) (vs_calls s) (vs_log s) (vs_io s).

Definition st_emit (s : VkState) (ev : IoEvent) : VkState :=
  mkVkState (vs_objs s) (vs_next s) (vs_calls s) (vs_log s) (ev :: vs_io s).

(** The events [evs], in the order they happen, appended to the trace. *)
Definition st_emits (s : VkState) (evs : list IoEvent) : VkState :=
  mkVkState (vs_objs s) (vs_next s) (vs_calls s) (vs_log s) (rev evs ++ vs_io s).

(** ** Shapes of the table the destruction rules look at *)

(** No live object was created from [h]. *)
Definition childless (objs : gmap N Obj) (h : N) : Prop :=
  map_Forall (fun _ o => o_live o = true -> o_parent o <> h) objs.

(** The only live object created from [h] is [k]. *)
Definition only_child (objs : gmap N Obj) (h k : N) : Prop :=
  map_Forall (fun k' o => o_live o = true -> o_parent o = h -> k' = k) objs.

(** No command buffer is pending. *)
Definition cmd_pending (i : ObjInfo) : bool :=
  match i with ICommandBuffer CmdPending _ _ _ _ _ => true | _ => false end.

Definition no_pending (objs : gmap N Obj) : Prop :=
  map_Forall (fun _ o => cmd_pending (o_info o) = false) objs.

(** Every live object's handle satisfies [P]. *)
Definition live_within (objs : gmap N Obj) (P : N -> Prop) : Prop :=
  map_Forall (fun k o => o_live o = true -> P k) objs.

(** The calls whose failure the program tests with an [assert]: all the
    calls the driver can fail but [vkMapMemory] (src/main.cpp,
    [SaveRenderedImage], ignores its result). *)
Definition checked_call (c : ApiCall) : bool :=
  match c with CallMapMemory _ _ _ _ => false | _ => true end.

(** The acceptable stops [ok] include the program's assertion failures
    after a checked call the driver failed. *)
Definition fail_ok (e : Env) (ok : Outcome -> Prop) : Prop :=
  forall n c msg, env_fail e n c = true -> checked_call c = true -> ok (AssertFailed msg).

(** The stops that are assertion failures of the program. *)
Definition assert_stop (o : Outcome) : Prop := exists msg, o = AssertFailed msg.

(** Every object is destroyed: nothing leaks. *)
Definition all_dead (objs : gmap N Obj) : Prop :=
  map_Forall (fun _ o => o_live o = false) objs.

(** [objs] is [F] below the fresh handle [n] and dead from [n] on: the
    table after a phase that created objects from [n] on and destroyed
    them all. *)
Definition agrees_below (n : N) (F objs : gmap N Obj) : Prop :=
  (forall k, (k < n)%N -> objs !! k = F !! k) /\
  map_Forall (fun k o => (n <= k)%N -> o_live o = false) objs.

Lemma st_emits_nil s : st_emits s [] = s.
Proof. by destruct s. Qed.

Lemma st_emits_app s evs evs' : st_emits (st_emits s evs) evs' = st_emits s (evs ++ evs').
Proof. unfold st_emits. simpl. by rewrite rev_app_distr, (assoc_L (++)). Qed.

Lemma st_emits_cons s ev evs : st_emits (st_emit s ev) evs = st_emits s (ev :: evs).
Proof. unfold st_emits, st_emit. simpl. by rewrite <-(assoc_L (++)). Qed.

Ltac vk_unfold :=
  cbv [bind ret stop get_state modify_state ask vk_env vk_state require invalid get_live
       get_child] in *.

Lemma phys_ok e s pd p : phys_valid e s pd p -> phys pd e s = Ok p s.
Proof.
  intros [[exts Hi] Hp]. unfold phys, env_gpu. vk_unfold. rewrite Hi. simpl.
  by rewrite Hp.
Qed.



(** Look a handle up in a table written as [insert]s, the keys told
    apart by [lia]. *)
Ltac solve_lookup :=
  simpl; repeat (rewrite lookup_insert_eq || rewrite lookup_insert_ne by lia); try done.

(** Two tables written as [insert]s over the same table are equal:
    compare them key by key, the keys told apart by [lia]. *)
Ltac solve_map_eq :=
  apply map_eq; let k := fresh "k" in intros k; rewrite ?lookup_insert;
  repeat (case_decide; try (exfalso; lia)); try done.

Lemma kill_children_childless objs h : childless objs h -> kill_children h <$> objs = objs.
Proof.
  intros Hc. apply map_eq. intros k. rewrite lookup_fmap.
  destruct (objs !! k) as [[p l i]|] eqn:E; [simpl|done]. f_equal.
  unfold kill_children, dead. simpl. destruct (N.eqb_spec p h) as [->|]; [|done].
  destruct l; [|done]. by destruct (Hc k _ E eq_refl).
Qed.

Lemma kill_children_only_child objs h k o :
  objs !! k = Some o -> o_parent o = h -> only_child objs h k ->
  kill_children h <$> objs = alter dead k objs.
Proof.
  intros Hk Hp Ho. apply map_eq. intros k'. rewrite lookup_fmap.
  destruct (decide (k' = k)) as [->|Hne].
  - rewrite lookup_alter_eq, Hk. simpl. unfold kill_children. rewrite Hp, N.eqb_refl. done.
  - rewrite lookup_alter_ne by done. destruct (objs !! k') as [[p l i]|] eqn:E; [simpl|done].
    f_equal. unfold kill_children, dead. simpl. destruct (N.eqb_spec p h) as [->|]; [|done].
    destruct l; [|done]. by destruct (Hne (Ho k' _ E eq_refl eq_refl)).
Qed.

Lemma childless_no_live_children s h : childless (vs_objs s) h -> no_live_children s h.
Proof. intros Hc k o Hk Hl Hp. by destruct (Hc k o Hk Hl). Qed.

Lemma only_child_no_live_children s h k o :
  vs_objs s !! k = Some o -> implicitly_freed (kind_of (o_info o)) = true ->
  only_child (vs_objs s) h k -> no_live_children s h.
Proof. intros Hk Hi Ho k' o' Hk' Hl Hp. rewrite (Ho k' o' Hk' Hl Hp), Hk in Hk'. congruence. Qed.

Lemma no_pending_not_in_use s h : no_pending (vs_objs s) -> not_in_use s h.
Proof.
  intros Hn cb o Ho. unfold pending_refs. specialize (Hn cb o Ho). simpl in Hn.
  destruct (o_info o); try apply not_elem_of_nil. unfold cmd_pending in Hn.
  repeat case_match; try apply not_elem_of_nil; done.
Qed.

Lemma all_in_spec xs ys : all_in xs ys = true <-> Forall (fun x => x ∈ ys) xs.
Proof.
  unfold all_in. rewrite forallb_forall, Forall_forall.
  setoid_rewrite bool_decide_eq_true. setoid_rewrite list_elem_of_In. done.
Qed.

(** Destroying an object keeps the shapes of the table. *)
Lemma only_child_kill objs h k j p i :
  only_child objs h k -> only_child (<[j := mkObj p false i]> objs) h k.
Proof.
  intros Ho k' o. rewrite lookup_insert. case_decide as E.
  - intros [= <-]. done.
  - apply Ho.
Qed.

Lemma only_child_killed objs h k p i :
  only_child objs h k -> childless (<[k := mkObj p false i]> objs) h.
Proof.
  intros Ho k' o. rewrite lookup_insert. case_decide as E.
  - intros [= <-]. done.
  - intros Hk Hl Hp. apply E. symmetry. by apply (Ho k' o).
Qed.

Lemma childless_kill objs h j p i :
  childless objs h -> childless (<[j := mkObj p false i]> objs) h.
Proof.
  intros Hc k' o. rewrite lookup_insert. case_decide as E.
  - intros [= <-]. done.
  - apply Hc.
Qed.

Lemma live_within_kill objs P j p i :
  live_within objs P -> live_within (<[j := mkObj p false i]> objs) (fun k => P k /\ k <> j).
Proof.
  intros Hl k o. rewrite lookup_insert. case_decide as E.
  - intros [= <-]. done.
  - intros Hk Ho. split; [by apply (Hl k o)|done].
Qed.

Lemma live_within_mono objs (P P' : N -> Prop) :
  live_within objs P -> (forall k, P k -> P' k) -> live_within objs P'.
Proof. intros Hl HP k o Hk Ho. by apply HP, (Hl k o). Qed.

Lemma no_pending_insert objs k o :
  no_pending objs -> cmd_pending (o_info o) = false -> no_pending (<[k := o]> objs).
Proof. intros. by apply map_Forall_insert_2. Qed.

Lemma no_pending_kill objs k p l i :
  no_pending objs -> objs !! k = Some (mkObj p l i) -> no_pending (<[k := mkObj p false i]> objs).
Proof. intros Hn Hk. apply map_Forall_insert_2; [exact (Hn k _ Hk)|done]. Qed.

(** A property of every entry of a table written as [insert]s: an
    entry hidden by a later [insert] at its key need not have it. *)
Lemma map_Forall_insert_shadow (P : N -> Obj -> Prop) (objs : gmap N Obj) k x :
  P k x -> map_Forall (fun k' y => k' <> k -> P k' y) objs -> map_Forall P (<[k := x]> objs).
Proof.
  intros Hx Hm k' y. rewrite lookup_insert. case_decide as E.
  - intros [= <-]. by subst.
  - intros Hy. by apply Hm.
Qed.

(** Prove a [map_Forall] over a chain of [insert]s, entry by entry with
    [leaf], and the table under the chain with [bottom]. *)
Ltac forall_chain leaf bottom :=
  repeat (apply map_Forall_insert_shadow; [cbn beta; intros; simpl in *; leaf|]);
  bottom.

(** Fold [x + a + b] with numerals [a], [b] into [x + (a + b)]: the
    handles a phase allocates read as offsets from its first one. *)
Ltac fold_handles :=
  repeat match goal with
  | |- context [(?x + N.pos ?a + N.pos ?b)%N] =>
      let c := eval vm_compute in (N.pos a + N.pos b)%N in
      replace (x + N.pos a + N.pos b)%N with (x + c)%N by lia
  end.

(** Rewrite the tables of the states in the goal to their [insert]
    chains, then look the handle up. *)
Ltac objs_lookup :=
  repeat match goal with H : vs_objs ?s = _ |- context [vs_objs ?s] => rewrite H end;
  solve_lookup.

(** Carry [no_pending], [childless] and [only_child] through the
    destructions of a teardown. *)
Ltac solve_shape :=
  simpl; repeat first [ apply no_pending_insert; [|reflexivity]
                      | apply childless_kill | apply only_child_kill ]; try done.

(** A property of the live objects carries over to a table that agrees
    below [n] and is dead above. *)
Lemma live_guarded_agrees (R : N -> Obj -> Prop) n F objs :
  agrees_below n F objs -> map_Forall (fun k o => o_live o = true -> R k o) F ->
  map_Forall (fun k o => o_live o = true -> R k o) objs.
Proof.
  intros [Hb Ha] HF k o Hk Hl. destruct (decide (k < n)%N) as [Hlt|Hge].
  - rewrite Hb in Hk by done. by apply (HF k o).
  - rewrite (Ha k o Hk) in Hl by lia. discriminate.
Qed.

Lemma only_child_agrees n F objs h k :
  agrees_below n F objs -> only_child F h k -> only_child objs h k.
Proof. apply (live_guarded_agrees (fun k' o => o_parent o = h -> k' = k)). Qed.

Lemma live_within_agrees n F objs P :
  agrees_below n F objs -> live_within F P -> live_within objs P.
Proof. apply (live_guarded_agrees (fun k _ => P k)). Qed.

Lemma live_within_all_dead objs (P : N -> Prop) :
  live_within objs P -> (forall k, ~ P k) -> all_dead objs.
Proof.
  intros Hl HP k o Hk. destruct (o_live o) eqn:E; [|done].
  exfalso. by apply (HP k), (Hl k o).
Qed.

(** When only [a] and [b] may be alive, [h] has at most the child [b]
    if [a] is not a child of [h], and none if [b] is not either. *)
Lemma only_child_of_pair objs h a b oa :
  live_within objs (fun k => k = a \/ k = b) -> objs !! a = Some oa -> o_parent oa <> h ->
  only_child objs h b.
Proof. intros Hl Ha Hp k o Hk Hlive Hpar. destruct (Hl k o Hk Hlive); congruence. Qed.

Lemma childless_of_pair objs h a b oa ob :
  live_within objs (fun k => k = a \/ k = b) -> objs !! a = Some oa -> objs !! b = Some ob ->
  o_parent oa <> h -> o_parent ob <> h -> childless objs h.
Proof. intros Hl Ha Hb Hpa Hpb k o Hk Hlive Hpar. destruct (Hl k o Hk Hlive); congruence. Qed.

Lemma fail_ok_assert_stop e : fail_ok e assert_stop.
Proof. intros n c msg _ _. by exists msg. Qed.

Lemma bind_Ok {A B} (m : VkM A) (k : A -> VkM B) e s a s' :
  m e s = Ok a s' -> bind m k e s = k a e s'.
Proof. unfold bind. by intros ->. Qed.

Lemma bind_Ok_inv {A B} (m : VkM A) (k : A -> VkM B) e s b s' :
  bind m k e s = Ok b s' -> exists a s1, m e s = Ok a s1 /\ k a e s1 = Ok b s'.
Proof. unfold bind. destruct (m e s) as [a s1|o s1]; [eauto|done]. Qed.

(** Peel the binds of a run that returned [Ok], splitting the pairs the
    program destructures. *)
Ltac inv_binds H :=
  repeat match type of H with
  | bind _ _ _ _ = Ok _ _ =>
      let a := fresh "a" in let s1 := fresh "s" in let Hm := fresh "Hm" in
      apply bind_Ok_inv in H as (a & s1 & Hm & H)
  | (match ?x with pair _ _ => _ end) _ _ = Ok _ _ => destruct x; cbn beta iota in H
  end.

(** ** Code that leaves the console alone

    [io_pure m]: whenever [m] returns, the trace of console and file
    events is as before. Every API call is; of the program, only the
    functions that print are not. *)
Definition io_pure {A} (m : VkM A) : Prop :=
  forall e s a s', m e s = Ok a s' -> vs_io s' = vs_io s.

Create HintDb io discriminated.

Lemma io_pure_ret {A} (a : A) : io_pure (ret a).
Proof. by intros e s b s' [= _ <-]. Qed.

Lemma io_pure_stop {A} o : io_pure (A := A) (stop o).
Proof. done. Qed.

Lemma io_pure_bind {A B} (m : VkM A) (k : A -> VkM B) :
  io_pure m -> (forall a, io_pure (k a)) -> io_pure (bind m k).
Proof.
  intros Hm Hk e s b s' (a & s1 & H1 & H2)%bind_Ok_inv.
  rewrite (Hk _ _ _ _ _ H2). exact (Hm _ _ _ _ H1).
Qed.

(** A broken rule never returns: what the callbacks print is part of a
    stop. *)
Lemma io_pure_invalid {A} vuid : io_pure (A := A) (invalid vuid).
Proof. done. Qed.

Lemma io_pure_modify_state f : (forall s, vs_io (f s) = vs_io s) -> io_pure (modify_state f).
Proof. intros Hf e s a s' [= _ <-]. apply Hf. Qed.

Lemma io_pure_get_state : io_pure get_state.
Proof. by intros e s a s' [= _ <-]. Qed.

Lemma io_pure_ask : io_pure ask.
Proof. by intros e s a s' [= _ <-]. Qed.

Lemma io_pure_begin_call c : io_pure (begin_call c).
Proof. by intros e s a s' [= _ <-]. Qed.

Lemma io_pure_alloc p i : io_pure (alloc p i).
Proof. by intros e s a s' [= _ <-]. Qed.

Lemma io_pure_get_live h vuid : io_pure (get_live h vuid).
Proof. intros e s a s'. unfold get_live. by destruct (live_obj s h); intros [= _ <-]. Qed.

Lemma io_pure_env_gpu g : io_pure (env_gpu g).
Proof. intros e s a s'. unfold env_gpu. by destruct (env_gpus e !! g); intros [= _ <-]. Qed.

Lemma io_pure_iterM {A} (f : A -> VkM unit) l : (forall x, io_pure (f x)) -> io_pure (iterM f l).
Proof.
  intros Hf. induction l as [|x l IH]; simpl; [apply io_pure_ret|].
  apply io_pure_bind; [apply Hf|intros; exact IH].
Qed.

Lemma io_pure_mapM {A B} (f : A -> VkM B) l : (forall x, io_pure (f x)) -> io_pure (mapM f l).
Proof.
  intros Hf. induction l as [|x l IH]; simpl; [apply io_pure_ret|].
  apply io_pure_bind; [apply Hf|intros; apply io_pure_bind; [exact IH|intros; apply io_pure_ret]].
Qed.

#[export] Hint Resolve io_pure_ret io_pure_stop io_pure_invalid io_pure_get_state io_pure_ask
  io_pure_begin_call io_pure_alloc io_pure_get_live io_pure_env_gpu : io.

(** The head constant of an application. *)
Ltac head_of t := lazymatch t with ?f _ => head_of f | _ => t end.

(** Prove a property [P] of a piece of code that is closed under
    [bind] ([bind_l]), the loops ([iter_l], [map_l]) and state updates
    ([modify_t]), by going through its binds and branches and
    unfolding the functions it calls; [prim_t] proves it of the
    primitives. *)
Ltac code_tac bind_l iter_l map_l modify_t prim_t :=
  repeat match goal with
  | |- forall _, _ => intros ?
  | |- _ (bind _ _) => apply bind_l
  | |- _ (iterM _ _) => apply iter_l
  | |- _ (mapM _ _) => apply map_l
  | |- _ (modify_state _) => modify_t
  | |- _ (match ?x with _ => _ end) => destruct x
  | |- _ (let _ := _ in _) => cbv zeta
  | |- _ ?m => first [prim_t | let h := head_of m in progress unfold h]
  end.

Ltac io_pure_tac :=
  code_tac io_pure_bind io_pure_iterM io_pure_mapM
    ltac:(apply io_pure_modify_state; intros; reflexivity) ltac:(solve [eauto with io]).

(** Frame the console over a call that leaves it alone. *)
Lemma wp_bind_io {A B} e ok (m : VkM A) (k : A -> VkM B) Q s :
  io_pure m -> wp e ok m (fun a s' => vs_io s' = vs_io s -> wp e ok (k a) Q s') s ->
  wp e ok (bind m k) Q s.
Proof.
  intros Hio H. apply wp_bind. unfold wp in *. destruct (m e s) as [a s'|o s'] eqn:E; [|done].
  apply H. exact (Hio _ _ _ _ E).
Qed.

Ltac io_frame := apply wp_bind_io; [io_pure_tac|].
