(* ===== verification/VkCalls.v ===== *)
(** * What each API call does on valid arguments

    One weakest-precondition lemma per entry point of [VkApi] that the
    program calls: given the objects the call's valid-usage rules ask
    for, the call does not break a rule, and its continuation receives
    the result and the new table, on the driver's success path and on
    its failure path (decided by [env_fail] at the current call index).
    The lemmas are stated for any acceptable-stop predicate [ok], since
    a valid call never stops. Tables are written as [insert]s over the
    previous table, the form the component proofs compute with. *)

From Stdlib Require Import ZArith Lia.
From stdpp Require Import base list option gmap strings.
From S2P Require Import Prelude VkTypes VkApi VkFacts.

Section Prims.
Context (e : Env) (ok : Outcome -> Prop).

Local Abbreviation wp := (wp e ok).

(** ** Primitives *)

Lemma wp_begin_call c Q s :
  Q (env_fail e (vs_calls s) c) (st_log s c) -> wp (begin_call c) Q s.
Proof. done. Qed.

Lemma wp_vk_env Q s : Q e s -> wp vk_env Q s.
Proof. done. Qed.

Lemma wp_vk_state Q s : Q s s -> wp vk_state Q s.
Proof. done. Qed.

Lemma wp_require b vuid Q s : b = true -> Q tt s -> wp (require b vuid) Q s.
Proof. by intros ->. Qed.

(** A broken rule stops the run, whatever the callbacks write. *)
Lemma wp_invalid {A} vuid (Q : A -> VkState -> Prop) s :
  ok (InvalidUsage vuid) -> wp (invalid vuid) Q s.
Proof. done. Qed.

Lemma wp_require_false b vuid Q s : b = false -> ok (InvalidUsage vuid) -> wp (require b vuid) Q s.
Proof. by intros ->. Qed.

(** ** The console and the encoder *)

Lemma wp_emit ev Q s : Q tt (st_emit s ev) -> wp (emit ev) Q s.
Proof. done. Qed.

Lemma wp_cout_line text Q s : Q tt (st_emit s (Stdout (text +:+ endl))) -> wp (cout_line text) Q s.
Proof. done. Qed.

Lemma wp_cin_get Q s : Q tt (st_emit s StdinGet) -> wp cin_get Q s.
Proof. done. Qed.

Lemma wp_lodepng_encode file img w h Q s :
  (let error := env_png_error e img w h in
   Q error (if (error =? 0)%N then st_emit s (PngFile file img w h) else s)) ->
  wp (lodepng_encode file img w h) Q s.
Proof.
  unfold lodepng_encode. cbv zeta. intros HQ. apply wp_bind, wp_vk_env, wp_bind. revert HQ.
  destruct (env_png_error e img w h =? 0)%N; intros HQ; [apply wp_emit|apply wp_ret]; by apply wp_ret.
Qed.

Lemma wp_lodepng_error_text error Q s :
  Q (env_png_error_text e error) s -> wp (lodepng_error_text error) Q s.
Proof. done. Qed.

Lemma wp_get_live h vuid o Q s :
  vs_objs s !! h = Some o -> o_live o = true -> Q o s -> wp (get_live h vuid) Q s.
Proof. intros Hh Hl HQ. unfold wp, get_live, live_obj. by rewrite Hh, Hl. Qed.

Lemma wp_get_child parent h vuid i Q s :
  vs_objs s !! h = Some (mkObj parent true i) -> Q i s -> wp (get_child parent h vuid) Q s.
Proof.
  intros Hh HQ. unfold get_child. apply wp_bind. eapply wp_get_live; [done..|].
  apply wp_bind. apply wp_require; [apply N.eqb_refl|done].
Qed.

Lemma wp_env_gpu g p Q s : env_gpus e !! g = Some p -> Q p s -> wp (env_gpu g) Q s.
Proof. intros Hg HQ. unfold wp, env_gpu. by rewrite Hg. Qed.

Lemma wp_alloc p i Q s : Q (vs_next s) (st_alloc s p i) -> wp (alloc p i) Q s.
Proof. done. Qed.

Lemma wp_set_info h i o Q s :
  vs_objs s !! h = Some o -> Q tt (st_set s (<[h := with_info i o]> (vs_objs s))) ->
  wp (set_info h i) Q s.
Proof.
  intros Hh HQ. unfold wp, set_info, update_obj, modify_state. unfold st_set in HQ.
  by rewrite alter_alt, Hh.
Qed.

Lemma wp_update_obj h f o Q s :
  vs_objs s !! h = Some o -> Q tt (st_set s (<[h := f o]> (vs_objs s))) ->
  wp (update_obj h f) Q s.
Proof.
  intros Hh HQ. unfold wp, update_obj, modify_state. unfold st_set in HQ.
  by rewrite alter_alt, Hh.
Qed.

Lemma wp_require_idle h vuid Q s :
  no_pending (vs_objs s) -> Q tt s -> wp (require_idle h vuid) Q s.
Proof.
  intros Hn HQ. unfold require_idle. apply wp_bind, wp_vk_state, wp_require; [|done].
  apply bool_decide_eq_true_2. by apply no_pending_not_in_use.
Qed.

Lemma wp_destroy_childless h vuid o Q s :
  vs_objs s !! h = Some o -> childless (vs_objs s) h ->
  Q tt (st_set s (<[h := dead o]> (vs_objs s))) -> wp (destroy h vuid) Q s.
Proof.
  intros Hh Hc HQ. unfold destroy. apply wp_bind, wp_vk_state, wp_bind, wp_require.
  { apply bool_decide_eq_true_2. by apply childless_no_live_children. }
  apply wp_bind. unfold wp at 1, modify_state. cbn beta.
  rewrite kill_children_childless by done. by eapply wp_update_obj.
Qed.

(** Destroying a pool (or a device) whose one live child, freed with
    it, is [k]. *)
Lemma wp_destroy_only_child h k vuid o oc Q s :
  h <> k -> vs_objs s !! h = Some o -> vs_objs s !! k = Some oc -> o_parent oc = h ->
  implicitly_freed (kind_of (o_info oc)) = true -> only_child (vs_objs s) h k ->
  Q tt (st_set s (<[h := dead o]> (<[k := dead oc]> (vs_objs s)))) -> wp (destroy h vuid) Q s.
Proof.
  intros Hne Hh Hk Hp Hi Ho HQ. unfold destroy. apply wp_bind, wp_vk_state, wp_bind, wp_require.
  { apply bool_decide_eq_true_2. by eapply only_child_no_live_children. }
  apply wp_bind. unfold wp at 1, modify_state. cbn beta.
  rewrite (kill_children_only_child _ _ _ _ Hk Hp Ho), (alter_alt _ (vs_objs s) k), Hk.
  eapply wp_update_obj; [simpl; by rewrite lookup_insert_ne by done|done].
Qed.

Lemma wp_get_device d vuid p g f q Q s :
  vs_objs s !! d = Some (mkObj p true (IDevice g f q)) -> Q (g, f, q) s ->
  wp (get_device d vuid) Q s.
Proof. intros Hd HQ. unfold get_device. apply wp_bind. by eapply wp_get_live. Qed.

Lemma wp_device_gpu d vuid p g f q gpu Q s :
  vs_objs s !! d = Some (mkObj p true (IDevice g f q)) -> env_gpus e !! g = Some gpu ->
  Q gpu s -> wp (device_gpu d vuid) Q s.
Proof.
  intros Hd Hg HQ. unfold device_gpu. apply wp_bind. eapply wp_get_device; [done|].
  by eapply wp_env_gpu.
Qed.

Lemma wp_phys pd p Q s : phys_valid e s pd p -> Q p s -> wp (phys pd) Q s.
Proof. intros Hv HQ. eapply wp_eval; [by apply phys_ok|done]. Qed.

Lemma wp_c_assert b msg Q s :
  (b = true -> Q tt s) -> (b = false -> ok (AssertFailed msg)) -> wp (c_assert b msg) Q s.
Proof. destruct b; intros H1 H2; [by apply H1|by apply H2]. Qed.

End Prims.

(** Symbolic execution of a call: peel binds and primitives, leaving
    the lookups and the rules' side conditions. *)
Ltac wp_prim :=
  lazymatch goal with
  | |- Prelude.wp _ _ (bind _ _) _ _ => apply wp_bind
  | |- Prelude.wp _ _ (begin_call _) _ _ => apply wp_begin_call
  | |- Prelude.wp _ _ vk_env _ _ => apply wp_vk_env
  | |- Prelude.wp _ _ vk_state _ _ => apply wp_vk_state
  | |- Prelude.wp _ _ (alloc _ _) _ _ => apply wp_alloc
  | |- Prelude.wp _ _ (ret _) _ _ => apply wp_ret
  | |- Prelude.wp _ _ (get_child _ _ _) _ _ => eapply wp_get_child; [eassumption|]
  | |- Prelude.wp _ _ (get_device _ _) _ _ => eapply wp_get_device; [eassumption|]
  | |- Prelude.wp _ _ (device_gpu _ _) _ _ => eapply wp_device_gpu; [eassumption|eassumption|]
  | |- Prelude.wp _ _ (phys _) _ _ => eapply wp_phys; [eassumption|]
  | |- Prelude.wp _ _ (require_idle _ _) _ _ => apply wp_require_idle; [eassumption|]
  | |- Prelude.wp _ _ (require _ _) _ _ => apply wp_require
  | |- Prelude.wp _ _ (set_info _ _) _ _ => eapply wp_set_info; [solve [solve_lookup]|]
  end; cbn beta iota delta [o_info o_parent o_live].

Ltac wp_run := repeat wp_prim.

(** The program's [assert]: a failed assertion follows a call that the
    driver failed ([Hf], from the split on [env_fail]), and [Hok] says
    the stop is acceptable. *)
Ltac wp_check Hok :=
  apply wp_bind, wp_c_assert; let Hb := fresh "Hb" in intros Hb; vm_compute in Hb;
  first [discriminate Hb | eapply Hok; [eassumption|reflexivity] | cbn beta].

(** Split on the driver's answer to the call just made. *)
Ltac wp_branch :=
  cbv zeta; let Hf := fresh "Hf" in
  lazymatch goal with
  | |- context [env_fail ?a ?n ?c] => destruct (env_fail a n c) eqn:Hf
  end; cbn beta iota.

(** Split on the driver's answer to the current call. *)
Ltac wp_fails := cbv zeta in *; destruct (env_fail _ _ _); wp_run; try done.

Section Calls.
Context (e : Env) (ok : Outcome -> Prop).

Local Abbreviation wp := (wp e ok).

(** ** Instance *)

Lemma wp_vkCreateInstance layers exts Q s :
  all_in layers (env_layers e) = true -> all_in exts (env_extensions e) = true ->
  (let c := CallCreateInstance layers exts in
   if env_fail e (vs_calls s) c then Q (VK_ERROR_INITIALIZATION_FAILED, 0%N) (st_log s c)
   else Q (VK_SUCCESS, vs_next s) (st_alloc (st_log s c) 0 (IInstance exts))) ->
  wp (vkCreateInstance layers exts) Q s.
Proof.
  intros Hl Hx HQ. unfold vkCreateInstance. wp_run.
  unfold all_in in Hl, Hx. rewrite Hl, Hx. simpl. wp_fails.
Qed.

Lemma wp_vkGetInstanceProcAddr i exts name x Q s :
  vs_objs s !! i = Some (mkObj 0 true (IInstance exts)) -> command_extension name = Some x ->
  Q (bool_decide (x ∈ exts)) (st_log s (CallGetInstanceProcAddr i name)) ->
  wp (vkGetInstanceProcAddr i name) Q s.
Proof. intros Hi Hx HQ. unfold vkGetInstanceProcAddr. wp_run. by rewrite Hx. Qed.

Lemma wp_vkCreateDebugReportCallbackEXT i exts flags cb Q s :
  vs_objs s !! i = Some (mkObj 0 true (IInstance exts)) ->
  (let c := CallCreateDebugReportCallback i in
   if env_fail e (vs_calls s) c then Q (VK_ERROR_OUT_OF_HOST_MEMORY, 0%N) (st_log s c)
   else Q (VK_SUCCESS, vs_next s) (st_alloc (st_log s c) i (IDebugCallback flags cb))) ->
  wp (vkCreateDebugReportCallbackEXT i flags cb) Q s.
Proof. intros Hi HQ. unfold vkCreateDebugReportCallbackEXT. wp_run. wp_fails. Qed.

Lemma wp_vkDestroyDebugReportCallbackEXT i exts cb flags f Q s :
  vs_objs s !! i = Some (mkObj 0 true (IInstance exts)) ->
  vs_objs s !! cb = Some (mkObj i true (IDebugCallback flags f)) -> childless (vs_objs s) cb ->
  Q tt (st_set (st_log s (CallDestroyDebugReportCallback i cb))
          (<[cb := mkObj i false (IDebugCallback flags f)]> (vs_objs s))) ->
  wp (vkDestroyDebugReportCallbackEXT i cb) Q s.
Proof. intros Hi Hc Hch HQ. unfold vkDestroyDebugReportCallbackEXT. wp_run. by eapply wp_destroy_childless. Qed.

Lemma wp_vkDestroyInstance i exts Q s :
  vs_objs s !! i = Some (mkObj 0 true (IInstance exts)) -> childless (vs_objs s) i ->
  Q tt (st_set (st_log s (CallDestroyInstance i)) (<[i := mkObj 0 false (IInstance exts)]> (vs_objs s))) ->
  wp (vkDestroyInstance i) Q s.
Proof. intros Hi Hch HQ. unfold vkDestroyInstance. wp_run. by eapply wp_destroy_childless. Qed.

Lemma wp_vkEnumeratePhysicalDevices i exts Q s :
  vs_objs s !! i = Some (mkObj 0 true (IInstance exts)) ->
  Q (map (pair i) (seq 0 (length (env_gpus e)))) (st_log s (CallEnumeratePhysicalDevices i)) ->
  wp (vkEnumeratePhysicalDevices i) Q s.
Proof. intros Hi HQ. unfold vkEnumeratePhysicalDevices. by wp_run. Qed.

(** ** Physical and logical devices *)

Lemma wp_vkCreateDevice pd p qf layers exts fam Q s :
  phys_valid e s pd p -> 0 <= qf -> pd_queue_families p !! Z.to_nat qf = Some fam ->
  1 <= queueCount fam -> all_in layers (pd_layers p) = true -> all_in exts (pd_extensions p) = true ->
  (let c := CallCreateDevice pd qf layers exts in
   let n := vs_next s in
   if env_fail e (vs_calls s) c then Q (VK_ERROR_INITIALIZATION_FAILED, 0%N) (st_log s c)
   else Q (VK_SUCCESS, n)
          (mkVkState (<[(n + 1)%N := mkObj n true (IQueue qf)]>
                        (<[n := mkObj pd.1 true (IDevice pd.2 qf (n + 1))]> (vs_objs s)))
                     (n + 2) (vs_calls s + 1) (c :: vs_log s) (vs_io s))) ->
  wp (vkCreateDevice pd qf layers exts) Q s.
Proof.
  intros Hv Hq Hf Hc Hl Hx HQ. unfold vkCreateDevice. wp_run.
  - apply bool_decide_eq_true_2. split; [done|].
    apply lookup_lt_Some in Hf. lia.
  - rewrite Hf. by apply bool_decide_eq_true_2.
  - rewrite Hl, Hx. simpl. wp_fails. cbv [st_set st_alloc st_log with_info]; simpl.
    rewrite insert_insert_ne by lia. rewrite insert_insert_eq.
    by replace (vs_next s + 1 + 1)%N with (vs_next s + 2)%N by lia.
Qed.

Lemma wp_vkGetDeviceQueue d p g f q Q s :
  vs_objs s !! d = Some (mkObj p true (IDevice g f q)) ->
  Q q (st_log s (CallGetDeviceQueue d f 0)) -> wp (vkGetDeviceQueue d f 0) Q s.
Proof. intros Hd HQ. unfold vkGetDeviceQueue. wp_run; [apply Z.eqb_refl|done|done]. Qed.

Lemma wp_vkDestroyDevice d p g f q Q s :
  d <> q -> vs_objs s !! d = Some (mkObj p true (IDevice g f q)) ->
  vs_objs s !! q = Some (mkObj d true (IQueue f)) -> only_child (vs_objs s) d q ->
  Q tt (st_set (st_log s (CallDestroyDevice d))
          (<[d := mkObj p false (IDevice g f q)]> (<[q := mkObj d false (IQueue f)]> (vs_objs s)))) ->
  wp (vkDestroyDevice d) Q s.
Proof. intros Hne Hd Hq Ho HQ. unfold vkDestroyDevice. wp_run. by eapply wp_destroy_only_child. Qed.

(** ** Buffers and device memory *)

Lemma wp_vkCreateBuffer d p g f q size Q s :
  vs_objs s !! d = Some (mkObj p true (IDevice g f q)) -> 0 < size ->
  (let c := CallCreateBuffer d size in
   if env_fail e (vs_calls s) c then Q (VK_ERROR_OUT_OF_DEVICE_MEMORY, 0%N) (st_log s c)
   else Q (VK_SUCCESS, vs_next s) (st_alloc (st_log s c) d (IBuffer size None))) ->
  wp (vkCreateBuffer d size) Q s.
Proof.
  intros Hd Hs HQ. unfold vkCreateBuffer. wp_run; [by apply bool_decide_eq_true_2|]. wp_fails.
Qed.

(** A buffer of size 0 breaks the rule that the size is positive. *)
Lemma wp_vkCreateBuffer_zero d p g f q Q s :
  vs_objs s !! d = Some (mkObj p true (IDevice g f q)) ->
  ok (InvalidUsage "VUID-VkBufferCreateInfo-size-00912") -> wp (vkCreateBuffer d 0) Q s.
Proof.
  intros Hd Hok. unfold vkCreateBuffer. apply wp_bind, wp_begin_call, wp_bind.
  eapply wp_get_device; [exact Hd|].
  apply wp_bind, wp_require_false; [by apply bool_decide_eq_false_2|exact Hok].
Qed.

Lemma wp_vkGetBufferMemoryRequirements d p g f q gpu b size mem Q s :
  vs_objs s !! d = Some (mkObj p true (IDevice g f q)) -> env_gpus e !! g = Some gpu ->
  vs_objs s !! b = Some (mkObj d true (IBuffer size mem)) ->
  Q (pd_mem_req_size gpu size, pd_mem_type_bits gpu) (st_log s (CallGetBufferMemoryRequirements d b)) ->
  wp (vkGetBufferMemoryRequirements d b) Q s.
Proof. intros Hd Hg Hb HQ. unfold vkGetBufferMemoryRequirements. by wp_run. Qed.

Lemma wp_vkAllocateMemory d p g f q gpu size ty Q s :
  vs_objs s !! d = Some (mkObj p true (IDevice g f q)) -> env_gpus e !! g = Some gpu ->
  0 < size -> 0 <= ty < Z.of_nat (length (pd_memory_types gpu)) ->
  (let c := CallAllocateMemory d size ty in
   if env_fail e (vs_calls s) c then Q (VK_ERROR_OUT_OF_DEVICE_MEMORY, 0%N) (st_log s c)
   else Q (VK_SUCCESS, vs_next s)
          (st_alloc (st_log s c) d (IMemory size ty None (env_uninitialized e)))) ->
  wp (vkAllocateMemory d size ty) Q s.
Proof.
  intros Hd Hg Hs Ht HQ. unfold vkAllocateMemory.
  wp_run; try (apply bool_decide_eq_true_2; lia). wp_fails.
Qed.

Lemma wp_vkBindBufferMemory d p g f q gpu b size m msize ty c0 Q s :
  vs_objs s !! d = Some (mkObj p true (IDevice g f q)) -> env_gpus e !! g = Some gpu ->
  vs_objs s !! b = Some (mkObj d true (IBuffer size None)) ->
  vs_objs s !! m = Some (mkObj d true (IMemory msize ty None c0)) ->
  0 < msize -> Z.testbit (pd_mem_type_bits gpu) ty = true -> pd_mem_req_size gpu size <= msize ->
  (let c := CallBindBufferMemory d b m 0 in
   if env_fail e (vs_calls s) c then Q VK_ERROR_OUT_OF_DEVICE_MEMORY (st_log s c)
   else Q VK_SUCCESS (st_set (st_log s c) (<[b := mkObj d true (IBuffer size (Some m))]> (vs_objs s)))) ->
  wp (vkBindBufferMemory d b m 0) Q s.
Proof.
  intros Hd Hg Hb Hm Hs Ht Hr HQ. unfold vkBindBufferMemory.
  wp_run; try (apply bool_decide_eq_true_2; lia); [done|]. wp_fails.
Qed.

Lemma wp_vkFreeMemory d p g f q m msize ty mp c0 Q s :
  vs_objs s !! d = Some (mkObj p true (IDevice g f q)) ->
  vs_objs s !! m = Some (mkObj d true (IMemory msize ty mp c0)) ->
  no_pending (vs_objs s) -> childless (vs_objs s) m ->
  Q tt (st_set (st_log s (CallFreeMemory d m)) (<[m := mkObj d false (IMemory msize ty mp c0)]> (vs_objs s))) ->
  wp (vkFreeMemory d m) Q s.
Proof. intros Hd Hm Hn Hc HQ. unfold vkFreeMemory. wp_run. by eapply wp_destroy_childless. Qed.

Lemma wp_vkDestroyBuffer d p g f q b size mem Q s :
  vs_objs s !! d = Some (mkObj p true (IDevice g f q)) ->
  vs_objs s !! b = Some (mkObj d true (IBuffer size mem)) ->
  no_pending (vs_objs s) -> childless (vs_objs s) b ->
  Q tt (st_set (st_log s (CallDestroyBuffer d b)) (<[b := mkObj d false (IBuffer size mem)]> (vs_objs s))) ->
  wp (vkDestroyBuffer d b) Q s.
Proof. intros Hd Hb Hn Hc HQ. unfold vkDestroyBuffer. wp_run. by eapply wp_destroy_childless. Qed.

(** ** Descriptor sets *)

Lemma wp_vkCreateDescriptorSetLayout d p g f q ty Q s :
  vs_objs s !! d = Some (mkObj p true (IDevice g f q)) ->
  (let c := CallCreateDescriptorSetLayout d ty in
   if env_fail e (vs_calls s) c then Q (VK_ERROR_OUT_OF_HOST_MEMORY, 0%N) (st_log s c)
   else Q (VK_SUCCESS, vs_next s) (st_alloc (st_log s c) d (IDescriptorSetLayout ty))) ->
  wp (vkCreateDescriptorSetLayout d ty) Q s.
Proof. intros Hd HQ. unfold vkCreateDescriptorSetLayout. wp_run. wp_fails. Qed.

Lemma wp_vkCreateDescriptorPool d p g f q ty max_sets Q s :
  vs_objs s !! d = Some (mkObj p true (IDevice g f q)) -> 0 < max_sets ->
  (let c := CallCreateDescriptorPool d ty max_sets in
   if env_fail e (vs_calls s) c then Q (VK_ERROR_OUT_OF_HOST_MEMORY, 0%N) (st_log s c)
   else Q (VK_SUCCESS, vs_next s) (st_alloc (st_log s c) d (IDescriptorPool ty max_sets))) ->
  wp (vkCreateDescriptorPool d ty max_sets) Q s.
Proof.
  intros Hd Hm HQ. unfold vkCreateDescriptorPool. wp_run; [by apply bool_decide_eq_true_2|]. wp_fails.
Qed.

Lemma wp_vkAllocateDescriptorSets d p g f q pool ty free layout Q s :
  vs_objs s !! d = Some (mkObj p true (IDevice g f q)) ->
  vs_objs s !! pool = Some (mkObj d true (IDescriptorPool ty free)) ->
  vs_objs s !! layout = Some (mkObj d true (IDescriptorSetLayout ty)) -> 0 < free ->
  (let c := CallAllocateDescriptorSets d pool layout in
   let n := vs_next s in
   if env_fail e (vs_calls s) c then Q (VK_ERROR_OUT_OF_HOST_MEMORY, 0%N) (st_log s c)
   else Q (VK_SUCCESS, n)
          (mkVkState (<[n := mkObj pool true (IDescriptorSet layout None)]>
                        (<[pool := mkObj d true (IDescriptorPool ty (free - 1))]> (vs_objs s)))
                     (n + 1) (vs_calls s + 1) (c :: vs_log s) (vs_io s))) ->
  wp (vkAllocateDescriptorSets d pool layout) Q s.
Proof.
  intros Hd Hp Hl Hf HQ. unfold vkAllocateDescriptorSets.
  wp_run; try (by apply bool_decide_eq_true_2). wp_fails.
Qed.

Lemma wp_get_set d st vuid pool ty free layout buf Q s :
  vs_objs s !! st = Some (mkObj pool true (IDescriptorSet layout buf)) ->
  vs_objs s !! pool = Some (mkObj d true (IDescriptorPool ty free)) ->
  Q (pool, layout, buf) s -> wp (get_set d st vuid) Q s.
Proof. intros Hs Hp HQ. unfold get_set. apply wp_bind. eapply wp_get_live; [done..|]. by wp_run. Qed.

Lemma wp_vkUpdateDescriptorSets d p g f q st pool pty free layout b ty size m Q s :
  vs_objs s !! d = Some (mkObj p true (IDevice g f q)) ->
  vs_objs s !! st = Some (mkObj pool true (IDescriptorSet layout None)) ->
  vs_objs s !! pool = Some (mkObj d true (IDescriptorPool pty free)) ->
  vs_objs s !! layout = Some (mkObj d true (IDescriptorSetLayout ty)) ->
  vs_objs s !! b = Some (mkObj d true (IBuffer size (Some m))) -> 0 < size ->
  Q tt (st_set (st_log s (CallUpdateDescriptorSets d st b ty 0 size))
          (<[st := mkObj pool true (IDescriptorSet layout (Some b))]> (vs_objs s))) ->
  wp (vkUpdateDescriptorSets d st b ty 0 size) Q s.
Proof.
  intros Hd Hs Hp Hl Hb Hsz HQ. unfold vkUpdateDescriptorSets. wp_run.
  eapply wp_get_set; [done..|]. cbn beta iota. wp_run; try (apply bool_decide_eq_true_2; eauto with lia).
  done.
Qed.

Lemma wp_vkDestroyDescriptorPool d p g f q pool ty free st layout b Q s :
  pool <> st -> vs_objs s !! d = Some (mkObj p true (IDevice g f q)) ->
  vs_objs s !! pool = Some (mkObj d true (IDescriptorPool ty free)) ->
  vs_objs s !! st = Some (mkObj pool true (IDescriptorSet layout b)) ->
  no_pending (vs_objs s) -> only_child (vs_objs s) pool st ->
  Q tt (st_set (st_log s (CallDestroyDescriptorPool d pool))
          (<[pool := mkObj d false (IDescriptorPool ty free)]>
             (<[st := mkObj pool false (IDescriptorSet layout b)]> (vs_objs s)))) ->
  wp (vkDestroyDescriptorPool d pool) Q s.
Proof. intros Hne Hd Hp Hs Hn Ho HQ. unfold vkDestroyDescriptorPool. wp_run. by eapply wp_destroy_only_child. Qed.

Lemma wp_vkDestroyDescriptorSetLayout d p g f q layout ty Q s :
  vs_objs s !! d = Some (mkObj p true (IDevice g f q)) ->
  vs_objs s !! layout = Some (mkObj d true (IDescriptorSetLayout ty)) -> childless (vs_objs s) layout ->
  Q tt (st_set (st_log s (CallDestroyDescriptorSetLayout d layout))
          (<[layout := mkObj d false (IDescriptorSetLayout ty)]> (vs_objs s))) ->
  wp (vkDestroyDescriptorSetLayout d layout) Q s.
Proof. intros Hd Hl Hc HQ. unfold vkDestroyDescriptorSetLayout. wp_run. by eapply wp_destroy_childless. Qed.

(** ** Shader modules and compute pipelines *)

Lemma wp_vkCreateShaderModule d p g f q size code Q s :
  vs_objs s !! d = Some (mkObj p true (IDevice g f q)) -> 0 < size -> size mod 4 = 0 ->
  size <= 4 * Z.of_nat (length code) -> head code = Some SPIRV_MAGIC ->
  (let c := CallCreateShaderModule d size code in
   if env_fail e (vs_calls s) c then Q (VK_ERROR_OUT_OF_HOST_MEMORY, 0%N) (st_log s c)
   else Q (VK_SUCCESS, vs_next s)
          (st_alloc (st_log s c) d (IShaderModule (take (Z.to_nat (size / 4)) code)))) ->
  wp (vkCreateShaderModule d size code) Q s.
Proof.
  intros Hd H1 H2 H3 H4 HQ. unfold vkCreateShaderModule.
  wp_run; try (by apply bool_decide_eq_true_2). wp_fails.
Qed.

(** A module of size 0 breaks the rule that [codeSize] is positive. *)
Lemma wp_vkCreateShaderModule_empty d p g f q code Q s :
  vs_objs s !! d = Some (mkObj p true (IDevice g f q)) ->
  ok (InvalidUsage "VUID-VkShaderModuleCreateInfo-codeSize-01085") ->
  wp (vkCreateShaderModule d 0 code) Q s.
Proof.
  intros Hd Hok. unfold vkCreateShaderModule. apply wp_bind, wp_begin_call, wp_bind.
  eapply wp_get_device; [exact Hd|].
  apply wp_bind, wp_require_false; [by apply bool_decide_eq_false_2|exact Hok].
Qed.

Lemma wp_vkCreatePipelineLayout d p g f q sl ty Q s :
  vs_objs s !! d = Some (mkObj p true (IDevice g f q)) ->
  vs_objs s !! sl = Some (mkObj d true (IDescriptorSetLayout ty)) ->
  (let c := CallCreatePipelineLayout d sl in
   if env_fail e (vs_calls s) c then Q (VK_ERROR_OUT_OF_HOST_MEMORY, 0%N) (st_log s c)
   else Q (VK_SUCCESS, vs_next s) (st_alloc (st_log s c) d (IPipelineLayout sl))) ->
  wp (vkCreatePipelineLayout d sl) Q s.
Proof. intros Hd Hl HQ. unfold vkCreatePipelineLayout. wp_run. wp_fails. Qed.

Lemma wp_vkCreateComputePipelines d p g f q module words layout sl entry Q s :
  vs_objs s !! d = Some (mkObj p true (IDevice g f q)) ->
  vs_objs s !! module = Some (mkObj d true (IShaderModule words)) ->
  vs_objs s !! layout = Some (mkObj d true (IPipelineLayout sl)) ->
  (let c := CallCreateComputePipelines d module layout entry in
   if env_fail e (vs_calls s) c then Q (VK_ERROR_OUT_OF_HOST_MEMORY, 0%N) (st_log s c)
   else Q (VK_SUCCESS, vs_next s) (st_alloc (st_log s c) d (IPipeline module layout))) ->
  wp (vkCreateComputePipelines d module layout entry) Q s.
Proof. intros Hd Hm Hl HQ. unfold vkCreateComputePipelines. wp_run. wp_fails. Qed.

Lemma wp_vkDestroyShaderModule d p g f q module words Q s :
  vs_objs s !! d = Some (mkObj p true (IDevice g f q)) ->
  vs_objs s !! module = Some (mkObj d true (IShaderModule words)) -> childless (vs_objs s) module ->
  Q tt (st_set (st_log s (CallDestroyShaderModule d module))
          (<[module := mkObj d false (IShaderModule words)]> (vs_objs s))) ->
  wp (vkDestroyShaderModule d module) Q s.
Proof. intros Hd Hm Hc HQ. unfold vkDestroyShaderModule. wp_run. by eapply wp_destroy_childless. Qed.

Lemma wp_vkDestroyPipelineLayout d p g f q layout sl Q s :
  vs_objs s !! d = Some (mkObj p true (IDevice g f q)) ->
  vs_objs s !! layout = Some (mkObj d true (IPipelineLayout sl)) -> childless (vs_objs s) layout ->
  Q tt (st_set (st_log s (CallDestroyPipelineLayout d layout))
          (<[layout := mkObj d false (IPipelineLayout sl)]> (vs_objs s))) ->
  wp (vkDestroyPipelineLayout d layout) Q s.
Proof. intros Hd Hl Hc HQ. unfold vkDestroyPipelineLayout. wp_run. by eapply wp_destroy_childless. Qed.

Lemma wp_vkDestroyPipeline d p g f q pl module layout Q s :
  vs_objs s !! d = Some (mkObj p true (IDevice g f q)) ->
  vs_objs s !! pl = Some (mkObj d true (IPipeline module layout)) ->
  no_pending (vs_objs s) -> childless (vs_objs s) pl ->
  Q tt (st_set (st_log s (CallDestroyPipeline d pl))
          (<[pl := mkObj d false (IPipeline module layout)]> (vs_objs s))) ->
  wp (vkDestroyPipeline d pl) Q s.
Proof. intros Hd Hp Hn Hc HQ. unfold vkDestroyPipeline. wp_run. by eapply wp_destroy_childless. Qed.

(** ** Command pools and command buffers *)

Lemma wp_vkCreateCommandPool d p g f q Q s :
  vs_objs s !! d = Some (mkObj p true (IDevice g f q)) ->
  (let c := CallCreateCommandPool d f 0 in
   if env_fail e (vs_calls s) c then Q (VK_ERROR_OUT_OF_HOST_MEMORY, 0%N) (st_log s c)
   else Q (VK_SUCCESS, vs_next s) (st_alloc (st_log s c) d (ICommandPool f))) ->
  wp (vkCreateCommandPool d f 0) Q s.
Proof. intros Hd HQ. unfold vkCreateCommandPool. wp_run; [apply Z.eqb_refl|]. wp_fails. Qed.

Lemma wp_vkAllocateCommandBuffers d p g f q pool pf Q s :
  vs_objs s !! d = Some (mkObj p true (IDevice g f q)) ->
  vs_objs s !! pool = Some (mkObj d true (ICommandPool pf)) ->
  (let c := CallAllocateCommandBuffers d pool in
   if env_fail e (vs_calls s) c then Q (VK_ERROR_OUT_OF_HOST_MEMORY, 0%N) (st_log s c)
   else Q (VK_SUCCESS, vs_next s)
          (st_alloc (st_log s c) pool (ICommandBuffer CmdInitial false None None [] None))) ->
  wp (vkAllocateCommandBuffers d pool) Q s.
Proof. intros Hd Hp HQ. unfold vkAllocateCommandBuffers. wp_run. wp_fails. Qed.

Lemma wp_get_cmd cb vuid pool d pf st ot pipe set ds fence Q s :
  vs_objs s !! cb = Some (mkObj pool true (ICommandBuffer st ot pipe set ds fence)) ->
  vs_objs s !! pool = Some (mkObj d true (ICommandPool pf)) ->
  Q (pool, d, st, ot, pipe, set, ds) s -> wp (get_cmd cb vuid) Q s.
Proof.
  intros Hc Hp HQ. unfold get_cmd. apply wp_bind. eapply wp_get_live; [done..|].
  apply wp_bind. by eapply wp_get_live.
Qed.

Lemma wp_vkBeginCommandBuffer cb pool d pf ot0 Q s :
  vs_objs s !! cb = Some (mkObj pool true (ICommandBuffer CmdInitial ot0 None None [] None)) ->
  vs_objs s !! pool = Some (mkObj d true (ICommandPool pf)) ->
  (let c := CallBeginCommandBuffer cb true in
   if env_fail e (vs_calls s) c then Q VK_ERROR_OUT_OF_HOST_MEMORY (st_log s c)
   else Q VK_SUCCESS (st_set (st_log s c)
          (<[cb := mkObj pool true (ICommandBuffer CmdRecording true None None [] None)]> (vs_objs s)))) ->
  wp (vkBeginCommandBuffer cb true) Q s.
Proof.
  intros Hc Hp HQ. unfold vkBeginCommandBuffer. wp_run. eapply wp_get_cmd; [done..|]. cbn beta iota.
  wp_run; [by apply bool_decide_eq_true_2|]. wp_fails.
Qed.

Lemma wp_vkCmdBindPipeline cb pool d pf set ds pl module layout Q s :
  vs_objs s !! cb = Some (mkObj pool true (ICommandBuffer CmdRecording true None set ds None)) ->
  vs_objs s !! pool = Some (mkObj d true (ICommandPool pf)) ->
  vs_objs s !! pl = Some (mkObj d true (IPipeline module layout)) ->
  Q tt (st_set (st_log s (CallCmdBindPipeline cb pl))
          (<[cb := mkObj pool true (ICommandBuffer CmdRecording true (Some pl) set ds None)]> (vs_objs s))) ->
  wp (vkCmdBindPipeline cb pl) Q s.
Proof.
  intros Hc Hp Hl HQ. unfold vkCmdBindPipeline. wp_run. eapply wp_get_cmd; [done..|]. cbn beta iota.
  wp_run; [by apply bool_decide_eq_true_2|done].
Qed.

Lemma wp_vkCmdBindDescriptorSets cb pool d pf pipe ds layout sl st spool sty free sb Q s :
  vs_objs s !! cb = Some (mkObj pool true (ICommandBuffer CmdRecording true pipe None ds None)) ->
  vs_objs s !! pool = Some (mkObj d true (ICommandPool pf)) ->
  vs_objs s !! layout = Some (mkObj d true (IPipelineLayout sl)) ->
  vs_objs s !! st = Some (mkObj spool true (IDescriptorSet sl sb)) ->
  vs_objs s !! spool = Some (mkObj d true (IDescriptorPool sty free)) ->
  Q tt (st_set (st_log s (CallCmdBindDescriptorSets cb layout st))
          (<[cb := mkObj pool true (ICommandBuffer CmdRecording true pipe (Some st) ds None)]> (vs_objs s))) ->
  wp (vkCmdBindDescriptorSets cb layout st) Q s.
Proof.
  intros Hc Hp Hl Hs Hsp HQ. unfold vkCmdBindDescriptorSets. wp_run. eapply wp_get_cmd; [done..|].
  cbn beta iota. wp_run; [by apply bool_decide_eq_true_2|]. eapply wp_get_set; [done..|].
  cbn beta iota. wp_run; [apply N.eqb_refl|done].
Qed.

Lemma wp_vkCmdDispatch cb pool d pp g f q gpu pf pl module layout sl st spool sty free b x y z Q s :
  vs_objs s !! cb = Some (mkObj pool true (ICommandBuffer CmdRecording true (Some pl) (Some st) [] None)) ->
  vs_objs s !! pool = Some (mkObj d true (ICommandPool pf)) ->
  vs_objs s !! d = Some (mkObj pp true (IDevice g f q)) -> env_gpus e !! g = Some gpu ->
  vs_objs s !! pl = Some (mkObj d true (IPipeline module layout)) ->
  vs_objs s !! layout = Some (mkObj d true (IPipelineLayout sl)) ->
  vs_objs s !! st = Some (mkObj spool true (IDescriptorSet sl (Some b))) ->
  vs_objs s !! spool = Some (mkObj d true (IDescriptorPool sty free)) ->
  (let '(mx, my, mz) := maxComputeWorkGroupCount (pd_properties gpu) in
   0 <= x <= mx /\ 0 <= y <= my /\ 0 <= z <= mz) ->
  Q tt (st_set (st_log s (CallCmdDispatch cb x y z))
          (<[cb := mkObj pool true (ICommandBuffer CmdRecording true (Some pl) (Some st) [(x, y, z)] None)]>
             (vs_objs s))) ->
  wp (vkCmdDispatch cb x y z) Q s.
Proof.
  intros Hc Hp Hd Hg Hl Hly Hs Hsp Hlim HQ. unfold vkCmdDispatch. wp_run.
  eapply wp_get_cmd; [done..|]. cbn beta iota. wp_run; [by apply bool_decide_eq_true_2|].
  eapply wp_get_set; [done..|]. cbn beta iota. wp_run; [apply N.eqb_refl|by apply bool_decide_eq_true_2|].
  destruct (maxComputeWorkGroupCount (pd_properties gpu)) as [[mx my] mz].
  destruct Hlim as (Hx & Hy & Hz). wp_run; try (by apply bool_decide_eq_true_2). done.
Qed.

Lemma wp_vkEndCommandBuffer cb pool d pf pipe set ds Q s :
  vs_objs s !! cb = Some (mkObj pool true (ICommandBuffer CmdRecording true pipe set ds None)) ->
  vs_objs s !! pool = Some (mkObj d true (ICommandPool pf)) ->
  (let c := CallEndCommandBuffer cb in
   let st' := if env_fail e (vs_calls s) c then CmdInvalid else CmdExecutable in
   let s' := st_set (st_log s c) (<[cb := mkObj pool true (ICommandBuffer st' true pipe set ds None)]> (vs_objs s)) in
   if env_fail e (vs_calls s) c then Q VK_ERROR_OUT_OF_HOST_MEMORY s' else Q VK_SUCCESS s') ->
  wp (vkEndCommandBuffer cb) Q s.
Proof.
  intros Hc Hp HQ. unfold vkEndCommandBuffer. wp_run. eapply wp_get_cmd; [done..|]. cbn beta iota.
  wp_run; [by apply bool_decide_eq_true_2|]. cbv zeta in HQ.
  destruct (env_fail _ _ _); by wp_run.
Qed.

Lemma wp_vkFreeCommandBuffers d pp g f q pool pf cb st ot pipe set ds fence Q s :
  vs_objs s !! d = Some (mkObj pp true (IDevice g f q)) ->
  vs_objs s !! pool = Some (mkObj d true (ICommandPool pf)) ->
  vs_objs s !! cb = Some (mkObj pool true (ICommandBuffer st ot pipe set ds fence)) ->
  no_pending (vs_objs s) -> childless (vs_objs s) cb ->
  Q tt (st_set (st_log s (CallFreeCommandBuffers d pool cb))
          (<[cb := mkObj pool false (ICommandBuffer st ot pipe set ds fence)]> (vs_objs s))) ->
  wp (vkFreeCommandBuffers d pool cb) Q s.
Proof. intros Hd Hp Hc Hn Hch HQ. unfold vkFreeCommandBuffers. wp_run. by eapply wp_destroy_childless. Qed.

Lemma wp_vkDestroyCommandPool d pp g f q pool pf Q s :
  vs_objs s !! d = Some (mkObj pp true (IDevice g f q)) ->
  vs_objs s !! pool = Some (mkObj d true (ICommandPool pf)) ->
  no_pending (vs_objs s) -> childless (vs_objs s) pool ->
  Q tt (st_set (st_log s (CallDestroyCommandPool d pool))
          (<[pool := mkObj d false (ICommandPool pf)]> (vs_objs s))) ->
  wp (vkDestroyCommandPool d pool) Q s.
Proof. intros Hd Hp Hn Hc HQ. unfold vkDestroyCommandPool. wp_run. by eapply wp_destroy_childless. Qed.

(** ** Fences, submission and completion *)

Lemma wp_vkCreateFence d p g f q Q s :
  vs_objs s !! d = Some (mkObj p true (IDevice g f q)) ->
  (let c := CallCreateFence d false in
   if env_fail e (vs_calls s) c then Q (VK_ERROR_OUT_OF_HOST_MEMORY, 0%N) (st_log s c)
   else Q (VK_SUCCESS, vs_next s) (st_alloc (st_log s c) d (IFence false []))) ->
  wp (vkCreateFence d false) Q s.
Proof. intros Hd HQ. unfold vkCreateFence. wp_run. wp_fails. Qed.

Lemma wp_vkDestroyFence d p g f q fe sig sub Q s :
  vs_objs s !! d = Some (mkObj p true (IDevice g f q)) ->
  vs_objs s !! fe = Some (mkObj d true (IFence sig sub)) ->
  no_pending (vs_objs s) -> childless (vs_objs s) fe ->
  Q tt (st_set (st_log s (CallDestroyFence d fe)) (<[fe := mkObj d false (IFence sig sub)]> (vs_objs s))) ->
  wp (vkDestroyFence d fe) Q s.
Proof. intros Hd Hf Hn Hc HQ. unfold vkDestroyFence. wp_run. by eapply wp_destroy_childless. Qed.

Lemma wp_vkQueueSubmit qh d qf cb pool ot pipe set ds fe Q s :
  vs_objs s !! qh = Some (mkObj d true (IQueue qf)) ->
  vs_objs s !! cb = Some (mkObj pool true (ICommandBuffer CmdExecutable ot pipe set ds None)) ->
  vs_objs s !! pool = Some (mkObj d true (ICommandPool qf)) ->
  vs_objs s !! fe = Some (mkObj d true (IFence false [])) ->
  refs_live s pipe set = true ->
  (let c := CallQueueSubmit qh cb fe in
   if env_fail e (vs_calls s) c then Q VK_ERROR_OUT_OF_HOST_MEMORY (st_log s c)
   else Q VK_SUCCESS (st_set (st_log s c)
          (<[fe := mkObj d true (IFence false [cb])]>
             (<[cb := mkObj pool true (ICommandBuffer CmdPending ot pipe set ds (Some fe))]> (vs_objs s))))) ->
  wp (vkQueueSubmit qh cb fe) Q s.
Proof.
  intros Hq Hc Hp Hf Hr HQ. assert (fe <> cb) by (intros ->; congruence).
  unfold vkQueueSubmit. wp_run. eapply wp_get_live; [done..|]. cbn beta iota.
  wp_run. eapply wp_get_cmd; [done..|]. cbn beta iota.
  wp_run; try (apply N.eqb_refl || apply Z.eqb_refl || by apply bool_decide_eq_true_2 || done).
  wp_fails.
Qed.

(** Completion of the submitted command buffer [cb], which dispatched
    work on the memory [m] behind its descriptor set. *)
Lemma wp_retire cb pool ot pipe st ds dh fence sl b bpool size m md msize ty mp c0 Q s :
  vs_objs s !! cb = Some (mkObj pool true (ICommandBuffer CmdPending ot pipe (Some st) (dh :: ds) fence)) ->
  vs_objs s !! st = Some (mkObj bpool true (IDescriptorSet sl (Some b))) ->
  vs_objs s !! b = Some (mkObj md true (IBuffer size (Some m))) ->
  vs_objs s !! m = Some (mkObj md true (IMemory msize ty mp c0)) -> m <> cb ->
  Q tt (st_set s (<[m := mkObj md true (IMemory msize ty mp (env_shader_output e))]>
                    (<[cb := mkObj pool true (ICommandBuffer (if ot then CmdInvalid else CmdExecutable)
                                                ot pipe (Some st) (dh :: ds) None)]> (vs_objs s)))) ->
  wp (retire cb) Q s.
Proof.
  intros Hc Hs Hb Hm Hne HQ. unfold retire. wp_run. rewrite Hc. cbn beta iota.
  wp_run. unfold set_memory. simpl. rewrite Hs, Hb.
  eapply wp_update_obj; [solve_lookup|]. done.
Qed.

(** Waiting on the fence of the one submission: the work completes
    within the timeout. *)
Lemma wp_vkWaitForFences d p g f q fe timeout cb pool ot pipe st ds dh sl b bpool size m md msize ty mp c0 Q s :
  vs_objs s !! d = Some (mkObj p true (IDevice g f q)) ->
  vs_objs s !! fe = Some (mkObj d true (IFence false [cb])) -> env_gpu_time e <= timeout ->
  vs_objs s !! cb = Some (mkObj pool true (ICommandBuffer CmdPending ot pipe (Some st) (dh :: ds) (Some fe))) ->
  vs_objs s !! st = Some (mkObj bpool true (IDescriptorSet sl (Some b))) ->
  vs_objs s !! b = Some (mkObj md true (IBuffer size (Some m))) ->
  vs_objs s !! m = Some (mkObj md true (IMemory msize ty mp c0)) -> m <> cb -> fe <> m -> fe <> cb ->
  Q VK_SUCCESS (st_set (st_log s (CallWaitForFences d fe timeout))
     (<[fe := mkObj d true (IFence true [])]>
       (<[m := mkObj md true (IMemory msize ty mp (env_shader_output e))]>
         (<[cb := mkObj pool true (ICommandBuffer (if ot then CmdInvalid else CmdExecutable)
                                     ot pipe (Some st) (dh :: ds) None)]> (vs_objs s))))) ->
  wp (vkWaitForFences d fe timeout) Q s.
Proof.
  intros Hd Hf Ht Hc Hs Hb Hm Hne1 Hne2 Hne3 HQ. unfold vkWaitForFences. wp_run.
  rewrite bool_decide_eq_true_2 by done. wp_run. simpl. wp_run.
  eapply wp_retire; [done..|]. by wp_run.
Qed.

(** Waiting on the fence of a submission the GPU does not finish
    within the timeout: [VK_TIMEOUT], and nothing changes. *)
Lemma wp_vkWaitForFences_timeout d p g f q fe timeout cb rest Q s :
  vs_objs s !! d = Some (mkObj p true (IDevice g f q)) ->
  vs_objs s !! fe = Some (mkObj d true (IFence false (cb :: rest))) -> timeout < env_gpu_time e ->
  Q VK_TIMEOUT (st_log s (CallWaitForFences d fe timeout)) ->
  wp (vkWaitForFences d fe timeout) Q s.
Proof.
  intros Hd Hf Ht HQ. unfold vkWaitForFences. wp_run.
  rewrite bool_decide_eq_false_2 by lia. by wp_run.
Qed.

(** A host read of mapped memory that a pending command buffer uses
    races with the GPU. *)
Lemma wp_host_read_pixel_race m md sz ty off size c0 i Q s :
  vs_objs s !! m = Some (mkObj md true (IMemory sz ty (Some (off, size)) c0)) ->
  0 <= i -> sizeof_Pixel * i + sizeof_Pixel <= size -> ~ not_in_use s m ->
  ok (UndefinedBehaviour "host read races with pending GPU writes") ->
  wp (host_read_pixel m i) Q s.
Proof.
  intros Hm Hi Hs Hn HQ. unfold host_read_pixel. wp_run. unfold live_obj. rewrite Hm. simpl.
  rewrite bool_decide_eq_true_2 by done. by rewrite bool_decide_eq_false_2.
Qed.

(** A host read through memory that is not mapped. *)
Lemma wp_host_read_pixel_unmapped m md sz ty c0 i Q s :
  vs_objs s !! m = Some (mkObj md true (IMemory sz ty None c0)) ->
  ok (UndefinedBehaviour "read through a pointer that is not mapped") ->
  wp (host_read_pixel m i) Q s.
Proof. intros Hm HQ. unfold host_read_pixel. wp_run. unfold live_obj. by rewrite Hm. Qed.

(** ** Host access to device memory *)

Lemma wp_vkMapMemory d p g f q gpu m sz ty c0 off size Q s :
  vs_objs s !! d = Some (mkObj p true (IDevice g f q)) -> env_gpus e !! g = Some gpu ->
  vs_objs s !! m = Some (mkObj d true (IMemory sz ty None c0)) ->
  0 <= off < sz -> 0 < size <= sz - off -> host_visible gpu ty = true ->
  (let c := CallMapMemory d m off size in
   if env_fail e (vs_calls s) c then Q VK_ERROR_MEMORY_MAP_FAILED (st_log s c)
   else Q VK_SUCCESS (st_set (st_log s c)
          (<[m := mkObj d true (IMemory sz ty (Some (off, size)) c0)]> (vs_objs s)))) ->
  wp (vkMapMemory d m off size) Q s.
Proof.
  intros Hd Hg Hm Ho Hs Hv HQ. unfold vkMapMemory.
  wp_run; try (by apply bool_decide_eq_true_2); [done|]. wp_fails.
Qed.

(** Mapping more than the allocation holds past the offset. *)
Lemma wp_vkMapMemory_too_large d p g f q gpu m sz ty c0 off size Q s :
  vs_objs s !! d = Some (mkObj p true (IDevice g f q)) -> env_gpus e !! g = Some gpu ->
  vs_objs s !! m = Some (mkObj d true (IMemory sz ty None c0)) ->
  0 <= off < sz -> sz - off < size -> ok (InvalidUsage "VUID-vkMapMemory-size-00681") ->
  wp (vkMapMemory d m off size) Q s.
Proof.
  intros Hd Hg Hm Ho Hs HQ. unfold vkMapMemory.
  do 3 (apply wp_bind; wp_prim). apply wp_bind, wp_require; [by apply bool_decide_eq_true_2|].
  apply wp_bind, wp_require; [by apply bool_decide_eq_true_2|].
  apply wp_bind. unfold require. rewrite bool_decide_eq_false_2 by lia. done.
Qed.

Lemma wp_vkUnmapMemory d p g f q m sz ty r c0 Q s :
  vs_objs s !! d = Some (mkObj p true (IDevice g f q)) ->
  vs_objs s !! m = Some (mkObj d true (IMemory sz ty (Some r) c0)) ->
  Q tt (st_set (st_log s (CallUnmapMemory d m)) (<[m := mkObj d true (IMemory sz ty None c0)]> (vs_objs s))) ->
  wp (vkUnmapMemory d m) Q s.
Proof. intros Hd Hm HQ. unfold vkUnmapMemory. wp_run. destruct r. done. Qed.

Lemma wp_host_read_pixel m md sz ty off size c0 i Q s :
  vs_objs s !! m = Some (mkObj md true (IMemory sz ty (Some (off, size)) c0)) ->
  0 <= i -> sizeof_Pixel * i + sizeof_Pixel <= size -> no_pending (vs_objs s) ->
  Q (c0 (Z.to_nat ((off + sizeof_Pixel * i) / sizeof_Pixel))) s ->
  wp (host_read_pixel m i) Q s.
Proof.
  intros Hm Hi Hs Hn HQ. unfold host_read_pixel. wp_run. unfold live_obj. rewrite Hm. simpl.
  rewrite !bool_decide_eq_true_2; [done| |done]. by apply no_pending_not_in_use.
Qed.

End Calls.
