(* ===== verification/DebugReport.v ===== *)
(** * The debug-report callback

    src/Vulkan/VulkanInstance.h: [DefaultDebugReportCallbackFunc], the
    function [CreateVulkanInstance()] registers with the validation
    layer. The layer calls it with a layer prefix and a message for each
    report whose kind the registration asked for ([VkApi.report_error]);
    it writes one line and returns [VK_TRUE]. *)

From Stdlib Require Import ZArith Lia.
From stdpp Require Import base list option gmap strings.
From S2P Require Import Prelude VkTypes VkApi VkFacts.

Module DebugReport.

(** [std::cout << "Debug Report: " << pLayerPrefix << ": " << pMessage
    << std::endl; return VK_TRUE;] *)
Definition DefaultDebugReportCallbackFunc : PFN_vkDebugReportCallbackEXT :=
  fun pLayerPrefix pMessage =>
    ([Stdout ("Debug Report: " +:+ pLayerPrefix +:+ ": " +:+ pMessage +:+ endl)], VK_TRUE).

(** [create_info.flags] in [CreateDebugCallback]:
    [VK_DEBUG_REPORT_ERROR_BIT_EXT | VK_DEBUG_REPORT_WARNING_BIT_EXT |
     VK_DEBUG_REPORT_PERFORMANCE_WARNING_BIT_EXT]. *)
Definition debug_report_flags : Z :=
  Z.lor (Z.lor VK_DEBUG_REPORT_ERROR_BIT_EXT VK_DEBUG_REPORT_WARNING_BIT_EXT)
        VK_DEBUG_REPORT_PERFORMANCE_WARNING_BIT_EXT.

(** The callback object [CreateVulkanInstance()] registers. *)
Abbreviation default_callback := (IDebugCallback debug_report_flags DefaultDebugReportCallbackFunc).

End DebugReport.
