(* ===== verification/Machines.v ===== *)
(** * Concrete machines

    Environments and driver states used to evaluate the model on
    concrete inputs: a machine with one GPU that offers everything the
    program needs, variations of it that each change one thing, the
    driver state right after the instance is created, and the driver
    state with every object [main] creates alive ([s_full]). *)

From Stdlib Require Import ZArith Lia QArith Strings.Byte.
From stdpp Require Import base list option gmap strings.
From S2P Require Import Prelude VkTypes VkApi VkFacts DebugReport.

Module Machines.
Import DebugReport.

(** One GPU: a transfer-only family and a compute family, the
    validation layer, a device-local type and a host-visible coherent
    type (both allowed for buffers), and the limits of the spec's
    minimum. *)
Definition gpu_ok : PhysicalDeviceInfo :=
  mkPhysicalDevice (mkDeviceProperties "gpu" (65535, 65535, 65535))
    [mkQueueFamily 4 1; mkQueueFamily 3 1]
    ["VK_LAYER_LUNARG_standard_validation"] []
    [mkMemoryType VK_MEMORY_PROPERTY_DEVICE_LOCAL_BIT 0; mkMemoryType 6 1]
    (fun size => size) 3.

(** The first bytes of a SPIR-V module: its magic number, little-endian. *)
Definition spirv_header : list byte := [x03; x02; x23; x07; x00; x00; x01; x00].

Definition env_ok : Env :=
  mkEnv ["VK_LAYER_LUNARG_standard_validation"] ["VK_EXT_debug_report"] [gpu_ok]
    (fun _ _ => false) (fun _ => Some spirv_header) 1000
    (fun _ => mkPixel 1 0 (1 # 2) 1) (fun _ => mkPixel 0 0 0 0)
    (fun _ _ _ => 0%N) (fun _ => "unknown error code").

Definition with_gpus (e : Env) (gpus : list PhysicalDeviceInfo) : Env :=
  mkEnv (env_layers e) (env_extensions e) gpus (env_fail e) (env_shader_file e)
    (env_gpu_time e) (env_shader_output e) (env_uninitialized e)
    (env_png_error e) (env_png_error_text e).
Definition with_fail (e : Env) (f : N -> ApiCall -> bool) : Env :=
  mkEnv (env_layers e) (env_extensions e) (env_gpus e) f (env_shader_file e)
    (env_gpu_time e) (env_shader_output e) (env_uninitialized e)
    (env_png_error e) (env_png_error_text e).
Definition with_shader (e : Env) (file : option (list byte)) : Env :=
  mkEnv (env_layers e) (env_extensions e) (env_gpus e) (env_fail e) (fun _ => file)
    (env_gpu_time e) (env_shader_output e) (env_uninitialized e)
    (env_png_error e) (env_png_error_text e).
Definition with_gpu_time (e : Env) (t : Z) : Env :=
  mkEnv (env_layers e) (env_extensions e) (env_gpus e) (env_fail e) (env_shader_file e)
    t (env_shader_output e) (env_uninitialized e) (env_png_error e) (env_png_error_text e).
Definition with_output (e : Env) (out : nat -> Pixel) : Env :=
  mkEnv (env_layers e) (env_extensions e) (env_gpus e) (env_fail e) (env_shader_file e)
    (env_gpu_time e) out (env_uninitialized e) (env_png_error e) (env_png_error_text e).

Definition with_layers (e : Env) (layers : list string) : Env :=
  mkEnv layers (env_extensions e) (env_gpus e) (env_fail e) (env_shader_file e)
    (env_gpu_time e) (env_shader_output e) (env_uninitialized e)
    (env_png_error e) (env_png_error_text e).

(** A GPU with only a transfer queue family. *)
Definition gpu_transfer_only : PhysicalDeviceInfo :=
  mkPhysicalDevice (mkDeviceProperties "transfer-only" (1, 1, 1))
    [mkQueueFamily 4 1] ["VK_LAYER_LUNARG_standard_validation"] []
    [mkMemoryType 6 0] (fun size => size) 1.

Definition fails_map (n : N) (c : ApiCall) : bool :=
  match c with CallMapMemory _ _ _ _ => true | _ => false end.

(** The driver right after [CreateVulkanInstance]: the instance (with
    the debug-report extension) and its callback. *)
Definition s_instance : VkState :=
  mkVkState (<[2%N := mkObj 1 true (IDebugCallback debug_report_flags DefaultDebugReportCallbackFunc)]>
               {[1%N := mkObj 0 true (IInstance ["VK_EXT_debug_report"])]}) 3 3 [] [].

(** The driver with every object [main] creates on [gpu_ok] alive: the
    instance and callback, the device [3] and its queue [4], the buffer
    [5] bound to the memory [6], the set layout [7], pool [8] and set
    [9], the shader module [10], pipeline layout [11] and pipeline
    [12], the command pool [13] and the recorded command buffer [14],
    and the unsignaled fence [15]. *)
Definition s_full : VkState :=
  mkVkState
    (<[15%N := mkObj 3 true (IFence false [])]>
    (<[14%N := mkObj 13 true (ICommandBuffer CmdExecutable true (Some 12%N) (Some 9%N) [(100, 75, 1)] None)]>
    (<[13%N := mkObj 3 true (ICommandPool 1)]>
    (<[12%N := mkObj 3 true (IPipeline 10 11)]>
    (<[11%N := mkObj 3 true (IPipelineLayout 7)]>
    (<[10%N := mkObj 3 true (IShaderModule [119734787; 65536])]>
    (<[9%N := mkObj 8 true (IDescriptorSet 7 (Some 5%N))]>
    (<[8%N := mkObj 3 true (IDescriptorPool VK_DESCRIPTOR_TYPE_STORAGE_BUFFER 0)]>
    (<[7%N := mkObj 3 true (IDescriptorSetLayout VK_DESCRIPTOR_TYPE_STORAGE_BUFFER)]>
    (<[5%N := mkObj 3 true (IBuffer 16 (Some 6%N))]>
    (<[6%N := mkObj 3 true (IMemory 16 1 None (fun _ => mkPixel 0 0 0 0))]>
    (<[4%N := mkObj 3 true (IQueue 1)]>
    (<[3%N := mkObj 1 true (IDevice 0 1 4)]> (vs_objs s_instance))))))))))))))
    16 3 [] [].

End Machines.
