(* ===== verification/Support.v ===== *)
(** * Layer and extension support checks

    The nested loops of [CheckInstanceSupport]
    (src/Vulkan/VulkanInstance.cpp) and [CheckDeviceSupport]
    (src/Vulkan/VulkanDevice.cpp): for each required name, in order,
    search the list the driver reports; the first name that is missing
    stops the check. Both functions run the same loop twice (layers,
    then extensions), so it is modelled once here. *)

From Stdlib Require Import ZArith Lia.
From stdpp Require Import base list option strings.
From S2P Require Import Prelude.

(** Inner loop: [for (j = 0; j < count; j++) if (name == props[j].name)
    { found = true; break; }]. *)
Fixpoint find_name (name : string) (available : list string) : bool :=
  match available with
  | [] => false
  | a :: rest => if String.eqb name a then true else find_name name rest
  end.

(** Outer loop: the first required name that [find_name] does not find
    (the one the program prints before giving up), if any. *)
Fixpoint first_unsupported (required available : list string) : option string :=
  match required with
  | [] => None
  | r :: rest => if find_name r available then first_unsupported rest available else Some r
  end.

(** The reference specification: every name is reported. *)
Definition all_supported (required available : list string) : Prop :=
  Forall (fun r => r ∈ available) required.

Lemma find_name_spec name available : find_name name available = true <-> name ∈ available.
Proof.
  induction available as [|a rest IH]; simpl.
  - split; [done|]. intros H. by apply elem_of_nil in H.
  - rewrite elem_of_cons. destruct (String.eqb_spec name a) as [->|Hne].
    + split; auto.
    + rewrite IH. split; [auto|]. intros [->|]; [done|auto].
Qed.

(** The support check, as the set inclusion it decides. *)
Lemma first_unsupported_all required available :
  first_unsupported required available = None <-> all_supported required available.
Proof.
  unfold all_supported. induction required as [|r rest IH]; simpl.
  - split; auto.
  - rewrite Forall_cons. destruct (find_name r available) eqn:E.
    + apply find_name_spec in E. rewrite IH. tauto.
    + split; [done|]. intros [Hr _]. apply find_name_spec in Hr. congruence.
Qed.

(** C22: the support check finds no missing name exactly when every
    required name is among the reported ones. *)
Theorem first_unsupported_None required available :
  first_unsupported required available = None <-> all_supported required available.
Proof. exact (first_unsupported_all required available). Qed.

(** C27: the name the check reports is the first required name that is
    missing: every name before it is supported. *)
Theorem first_unsupported_Some required available name :
  first_unsupported required available = Some name <->
  exists before after, required = before ++ name :: after /\
    all_supported before available /\ name ∉ available.
Proof.
  unfold all_supported. revert name. induction required as [|r rest IH]; intros name; simpl.
  - split; [done|]. intros (before & after & Heq & _). by destruct before.
  - destruct (find_name r available) eqn:E.
    + apply find_name_spec in E. rewrite IH. split.
      * intros (before & after & -> & Hb & Hn). exists (r :: before), after. simpl.
        split; [done|]. split; [by constructor|done].
      * intros (before & after & Heq & Hb & Hn). destruct before as [|b before].
        -- simpl in Heq. injection Heq as -> ->. done.
        -- injection Heq as -> ->. inversion Hb; subst. eauto.
    + split.
      * intros [= <-]. exists [], rest. split; [done|]. split; [constructor|].
        intros Hin. apply find_name_spec in Hin. congruence.
      * intros (before & after & Heq & Hb & Hn). destruct before as [|b before].
        -- simpl in Heq. by injection Heq as -> ->.
        -- injection Heq as -> ->. inversion Hb; subst.
           apply find_name_spec in H1. congruence.
Qed.
