(* ===== verification/Instance.v ===== *)
(** * The Vulkan instance and its debug-report callback

    src/Vulkan/VulkanInstance.h and VulkanInstance.cpp: the layers and
    extensions the program requires, [CheckInstanceSupport],
    [CreateVulkanInstance], [CreateDebugCallback], [DestroyDebugCallback]
    and [DestroyVulkanInstance]. [CreateVulkanInstance()] registers
    [DebugReport.DefaultDebugReportCallbackFunc]. *)

From Stdlib Require Import ZArith Lia.
From stdpp Require Import base list option gmap strings.
From S2P Require Import Prelude VkTypes VkApi VkFacts VkCalls DebugReport Machines Support.

Module Instance.
Import DebugReport Machines.

(** [instance_layer_names] and [instance_extension_names]
    ([VK_EXT_DEBUG_REPORT_EXTENSION_NAME] is ["VK_EXT_debug_report"]). *)
Definition instance_layer_names : list string := ["VK_LAYER_LUNARG_standard_validation"].
Definition instance_extension_names : list string := ["VK_EXT_debug_report"].

Record VulkanInstance := mkVulkanInstance {
  vulkan_instance : N;
  debug_report_callback : N;
}.

(** The message of a missing layer or extension. *)
Definition unsupported_message (name what : string) : string :=
  "`" +:+ name +:+ "` is not a support " +:+ what +:+ " by vulkan instance".

(** [std::cout << ... << std::endl; std::cin.get(); std::exit(-1);] *)
Definition exit_unsupported {A} (name what : string) : VkM A :=
  do cout_line (unsupported_message name what);
  do cin_get;
  stop (Exited (-1)).

(** A missing layer or extension is printed, the program waits for a
    key and calls [std::exit(-1)]. *)
Definition CheckInstanceSupport : VkM unit :=
  do layer_properties <- vkEnumerateInstanceLayerProperties;
  match first_unsupported instance_layer_names layer_properties with
  | Some layer_name => exit_unsupported layer_name "layer"
  | None =>
      do ext_properties <- vkEnumerateInstanceExtensionProperties;
      match first_unsupported instance_extension_names ext_properties with
      | Some extension_name => exit_unsupported extension_name "extension"
      | None => ret tt
      end
  end.

Definition CreateDebugCallback (instance : N) (debug_report_callback_func : PFN_vkDebugReportCallbackEXT)
    : VkM N :=
  do found <- vkGetInstanceProcAddr instance "vkCreateDebugReportCallbackEXT";
  do c_assert found "CreateDebugReportCallback != nullptr";
  do '(result, debug_report_callback) <-
       vkCreateDebugReportCallbackEXT instance debug_report_flags debug_report_callback_func;
  do c_assert (is_success result) "Could not create debug report callback";
  ret debug_report_callback.

(** [CreateVulkanInstance(PFN_vkDebugReportCallbackEXT)] *)
Definition CreateVulkanInstance_with (debug_report_callback_func : PFN_vkDebugReportCallbackEXT)
    : VkM VulkanInstance :=
  do CheckInstanceSupport;
  do '(result, instance) <- vkCreateInstance instance_layer_names instance_extension_names;
  do c_assert (is_success result) "Could not create vulkan instance";
  do debug_report_callback <- CreateDebugCallback instance debug_report_callback_func;
  ret (mkVulkanInstance instance debug_report_callback).

(** [CreateVulkanInstance()] *)
Definition CreateVulkanInstance : VkM VulkanInstance :=
  CreateVulkanInstance_with DefaultDebugReportCallbackFunc.

Definition DestroyDebugCallback (instance debug_callback : N) : VkM unit :=
  do found <- vkGetInstanceProcAddr instance "vkDestroyDebugReportCallbackEXT";
  do c_assert found "DestroyDebugReportCallback != nullptr";
  vkDestroyDebugReportCallbackEXT instance debug_callback.

Definition DestroyVulkanInstance (instance : VulkanInstance) : VkM unit :=
  do DestroyDebugCallback (vulkan_instance instance) (debug_report_callback instance);
  vkDestroyInstance (vulkan_instance instance).

(** ** Specifications

    On a machine that offers the validation layer and the debug-report
    extension, [CreateVulkanInstance] creates the instance and, as its
    child, the callback; [DestroyVulkanInstance] destroys both, the
    callback first. Any other end of the run is a failed assertion
    after a call the driver failed ([Hok]). *)

Definition instance_ok (e : Env) : Prop :=
  all_supported instance_layer_names (env_layers e) /\
  all_supported instance_extension_names (env_extensions e).

(** On a machine without the validation layer, [CreateVulkanInstance]
    prints the layer's name, waits for a key and calls [std::exit(-1)],
    before any API call that changes the driver's state. *)
Lemma CreateVulkanInstance_missing_layer e s name :
  first_unsupported instance_layer_names (env_layers e) = Some name ->
  CreateVulkanInstance e s =
    Stop (Exited (-1)) (st_emit (st_emit s (Stdout (unsupported_message name "layer" +:+ endl))) StdinGet).
Proof.
  intros Hl. cbv [CreateVulkanInstance CreateVulkanInstance_with CheckInstanceSupport
    vkEnumerateInstanceLayerProperties vk_env ask bind ret]. by rewrite Hl.
Qed.

(** The same for a missing extension, once the layers are there. *)
Lemma CreateVulkanInstance_missing_extension e s name :
  first_unsupported instance_layer_names (env_layers e) = None ->
  first_unsupported instance_extension_names (env_extensions e) = Some name ->
  CreateVulkanInstance e s =
    Stop (Exited (-1)) (st_emit (st_emit s (Stdout (unsupported_message name "extension" +:+ endl))) StdinGet).
Proof.
  intros Hl Hx. cbv [CreateVulkanInstance CreateVulkanInstance_with CheckInstanceSupport
    vkEnumerateInstanceLayerProperties vkEnumerateInstanceExtensionProperties vk_env ask bind ret].
  by rewrite Hl, Hx.
Qed.

(** On a machine without the validation layer or the debug-report
    extension, [CreateVulkanInstance] prints the first missing name
    (the layers are checked first), waits for a key and calls
    [std::exit(-1)]. *)
Lemma CreateVulkanInstance_unsupported e s :
  ~ instance_ok e ->
  exists name what,
    CreateVulkanInstance e s =
      Stop (Exited (-1)) (st_emits s [Stdout (unsupported_message name what +:+ endl); StdinGet]) /\
    (first_unsupported instance_layer_names (env_layers e) = Some name /\ what = "layer" \/
     first_unsupported instance_layer_names (env_layers e) = None /\
     first_unsupported instance_extension_names (env_extensions e) = Some name /\ what = "extension").
Proof.
  intros Hn. destruct (first_unsupported instance_layer_names (env_layers e)) as [l|] eqn:Hl.
  - exists l, "layer". rewrite (CreateVulkanInstance_missing_layer _ _ _ Hl). auto.
  - destruct (first_unsupported instance_extension_names (env_extensions e)) as [x|] eqn:Hx.
    + exists x, "extension". rewrite (CreateVulkanInstance_missing_extension _ _ _ Hl Hx). auto.
    + exfalso. apply Hn. split; by apply first_unsupported_all.
Qed.

Section Spec.
Context (e : Env) (ok : Outcome -> Prop) (Hok : fail_ok e ok).

Lemma wp_CreateVulkanInstance Q s :
  instance_ok e ->
  (forall s', vs_objs s' = <[(vs_next s + 1)%N := mkObj (vs_next s) true default_callback]>
                             (<[vs_next s := mkObj 0 true (IInstance instance_extension_names)]> (vs_objs s)) ->
              vs_next s' = (vs_next s + 2)%N -> vs_io s' = vs_io s ->
              Q (mkVulkanInstance (vs_next s) (vs_next s + 1)) s') ->
  wp e ok CreateVulkanInstance Q s.
Proof.
  intros [Hl Hx] HQ. unfold CreateVulkanInstance, CreateVulkanInstance_with, CheckInstanceSupport,
    vkEnumerateInstanceLayerProperties, vkEnumerateInstanceExtensionProperties. wp_run.
  rewrite (proj2 (first_unsupported_all _ _) Hl). wp_run.
  rewrite (proj2 (first_unsupported_all _ _) Hx). wp_run.
  apply wp_vkCreateInstance; [by apply all_in_spec..|]. wp_branch; wp_check Hok.
  unfold CreateDebugCallback. wp_run.
  eapply wp_vkGetInstanceProcAddr; [solve_lookup|reflexivity|]. wp_check Hok.
  wp_run. eapply wp_vkCreateDebugReportCallbackEXT; [solve_lookup|]. wp_branch; wp_check Hok.
  wp_run. apply HQ; simpl; [done|lia|done].
Qed.

Lemma wp_DestroyVulkanInstance inst Q s :
  let i := vulkan_instance inst in
  let c := debug_report_callback inst in
  vs_objs s !! i = Some (mkObj 0 true (IInstance instance_extension_names)) ->
  vs_objs s !! c = Some (mkObj i true default_callback) ->
  childless (vs_objs s) c -> only_child (vs_objs s) i c ->
  (forall s', vs_objs s' = <[i := mkObj 0 false (IInstance instance_extension_names)]>
                             (<[c := mkObj i false default_callback]> (vs_objs s)) -> Q tt s') ->
  wp e ok (DestroyVulkanInstance inst) Q s.
Proof.
  intros i c Hi Hc Hcc Ho HQ. assert (i <> c) by (intros E; rewrite E in Hi; congruence).
  unfold DestroyVulkanInstance, DestroyDebugCallback. wp_run.
  eapply wp_vkGetInstanceProcAddr; [done|reflexivity|]. wp_check Hok.
  eapply wp_vkDestroyDebugReportCallbackEXT; [done..|].
  eapply wp_vkDestroyInstance; [solve_lookup|by apply only_child_killed|]. by apply HQ.
Qed.
End Spec.

(** C14: on a machine with the validation layer and the debug-report
    extension, [CreateVulkanInstance] creates the instance (with the
    extension) at the next free handle [n] and its debug-report
    callback, its child, at [n + 1]; any other end is an assertion of
    the program after a call the driver failed. *)
Theorem CreateVulkanInstance_spec e ok s :
  fail_ok e ok -> instance_ok e ->
  wp e ok CreateVulkanInstance
    (fun inst s' => inst = mkVulkanInstance (vs_next s) (vs_next s + 1) /\
       vs_objs s' = <[(vs_next s + 1)%N := mkObj (vs_next s) true
                                              (IDebugCallback debug_report_flags DefaultDebugReportCallbackFunc)]>
                      (<[vs_next s := mkObj 0 true (IInstance instance_extension_names)]> (vs_objs s)) /\
       vs_next s' = (vs_next s + 2)%N /\ vs_io s' = vs_io s) s.
Proof. intros Hok Hi. apply wp_CreateVulkanInstance; [exact Hok|exact Hi|]. by intros s' H1 H2 H3. Qed.

Lemma CreateVulkanInstance_spec_witness :
  fail_ok env_ok assert_stop /\ instance_ok env_ok /\
  wp env_ok assert_stop CreateVulkanInstance
    (fun inst s' => inst = mkVulkanInstance 1 2 /\
       vs_objs s' = <[2%N := mkObj 1 true
                                (IDebugCallback debug_report_flags DefaultDebugReportCallbackFunc)]>
                      (<[1%N := mkObj 0 true (IInstance instance_extension_names)]> ∅) /\
       vs_next s' = 3%N /\ vs_io s' = []) vk_init.
Proof.
  pose proof (fail_ok_assert_stop env_ok) as Hok.
  assert (Hi : instance_ok env_ok) by (split; repeat constructor).
  split_and!; [exact Hok|exact Hi|]. exact (CreateVulkanInstance_spec env_ok assert_stop vk_init Hok Hi).
Defined.

(** C29: [DestroyVulkanInstance] destroys the debug-report callback and
    then the instance, when the callback is the instance's only live
    child and has none itself; it never stops (the function pointer it
    asserts on exists once the instance has the extension). *)
Theorem DestroyVulkanInstance_spec e ok inst s :
  vs_objs s !! vulkan_instance inst = Some (mkObj 0 true (IInstance instance_extension_names)) ->
  vs_objs s !! debug_report_callback inst = Some (mkObj (vulkan_instance inst) true default_callback) ->
  childless (vs_objs s) (debug_report_callback inst) ->
  only_child (vs_objs s) (vulkan_instance inst) (debug_report_callback inst) ->
  wp e ok (DestroyVulkanInstance inst)
    (fun _ s' => vs_objs s' = <[vulkan_instance inst := mkObj 0 false (IInstance instance_extension_names)]>
                   (<[debug_report_callback inst := mkObj (vulkan_instance inst) false default_callback]>
                      (vs_objs s))) s.
Proof. intros Hi Hc Hcc Ho. by apply (wp_DestroyVulkanInstance e ok). Qed.

Lemma DestroyVulkanInstance_spec_witness :
  let inst := mkVulkanInstance 1 2 in
  vs_objs s_instance !! vulkan_instance inst = Some (mkObj 0 true (IInstance instance_extension_names)) /\
  vs_objs s_instance !! debug_report_callback inst = Some (mkObj (vulkan_instance inst) true default_callback) /\
  childless (vs_objs s_instance) (debug_report_callback inst) /\
  only_child (vs_objs s_instance) (vulkan_instance inst) (debug_report_callback inst) /\
  wp env_ok (fun _ => False) (DestroyVulkanInstance inst)
    (fun _ s' => vs_objs s' = <[vulkan_instance inst := mkObj 0 false (IInstance instance_extension_names)]>
                   (<[debug_report_callback inst := mkObj (vulkan_instance inst) false default_callback]>
                      (vs_objs s_instance))) s_instance.
Proof.
  cbv zeta.
  assert (Hi : vs_objs s_instance !! 1%N = Some (mkObj 0 true (IInstance instance_extension_names))) by reflexivity.
  assert (Hc : vs_objs s_instance !! 2%N = Some (mkObj 1 true default_callback)) by reflexivity.
  assert (Hcc : childless (vs_objs s_instance) 2).
  { apply map_Forall_insert_2; [simpl; lia|]. apply map_Forall_singleton. simpl. lia. }
  assert (Ho : only_child (vs_objs s_instance) 1 2).
  { apply map_Forall_insert_2; [done|]. apply map_Forall_singleton. simpl. lia. }
  split_and!; [exact Hi|exact Hc|exact Hcc|exact Ho|].
  exact (DestroyVulkanInstance_spec env_ok _ (mkVulkanInstance 1 2) s_instance Hi Hc Hcc Ho).
Defined.


End Instance.
