(* ===== verification/Device.v ===== *)
(** * Physical-device selection and logical devices

    src/Vulkan/VulkanDevice.h and VulkanDevice.cpp: [FindPhysicalDevices]
    keeps the GPUs that have a compute queue family
    ([GetQueueFamilyIndex]) and the required layers and extensions
    ([CheckDeviceSupport]); [CreateDevices] creates a logical device and
    fetches its queue for each of them ([CreateDevice]);
    [DestroyDevices] destroys them. *)

From Stdlib Require Import ZArith Lia.
From stdpp Require Import base list option gmap strings.
From S2P Require Import Prelude VkTypes VkApi VkFacts VkCalls Machines Support.

Module Device.
Import Machines.

Definition device_layer_names : list string := ["VK_LAYER_LUNARG_standard_validation"].
Definition device_extension_names : list string := [].

Record SupportedPhysicalDevice := mkSupportedPhysicalDevice {
  spd_physical_device : VkPhysicalDevice;
  spd_queue_index : Z;
  spd_device_properties : VkPhysicalDeviceProperties;
}.

Record SupportedDevice := mkSupportedDevice {
  physical_device : VkPhysicalDevice;
  device : N;
  queue_index : Z;
  queue : N;
  device_properties : VkPhysicalDeviceProperties;
}.

(** [props.queueCount > 0 && (props.queueFlags & VK_QUEUE_COMPUTE_BIT)] *)
Definition supports_compute (props : VkQueueFamilyProperties) : bool :=
  (0 <? queueCount props) && negb (Z.land (queueFlags props) VK_QUEUE_COMPUTE_BIT =? 0).

(** The [while] loop stops at the first family that supports compute,
    or with [i == queue_families.size()]; the function then returns
    [i] or [-1] converted to [uint32_t]. *)
Definition GetQueueFamilyIndex (physical_device : VkPhysicalDevice) : VkM Z :=
  do queue_families <- vkGetPhysicalDeviceQueueFamilyProperties physical_device;
  match first_index (fun _ props => supports_compute props) queue_families with
  | Some i => ret (to_u32 (Z.of_nat i))
  | None => ret u32_minus_one
  end.

(** A missing layer or extension prints a message and returns [false]. *)
Definition CheckDeviceSupport (physical_device : VkPhysicalDevice) : VkM bool :=
  do layer_properties <- vkEnumerateDeviceLayerProperties physical_device;
  match first_unsupported device_layer_names layer_properties with
  | Some layer_name =>
      do cout_line ("`" +:+ layer_name +:+ "` is not a support layer by device");
      ret false
  | None =>
      do ext_properties <- vkEnumerateDeviceExtensionProperties physical_device;
      match first_unsupported device_extension_names ext_properties with
      | Some extension_name =>
          do cout_line ("`" +:+ extension_name +:+ "` is not a support extension by device");
          ret false
      | None => ret true
      end
  end.

(** The body of the [for] loop of [FindPhysicalDevices], over the
    devices left; [queue_index != -1] compares with [-1] converted to
    [uint32_t], and [&&] does not call [CheckDeviceSupport] when the
    first test fails. *)
Fixpoint select_devices (devices : list VkPhysicalDevice) : VkM (list SupportedPhysicalDevice) :=
  match devices with
  | [] => ret []
  | d :: rest =>
      do queue_index <- GetQueueFamilyIndex d;
      do supported <- (if negb (queue_index =? u32_minus_one) then CheckDeviceSupport d
                       else ret false);
      do here <- (if supported
                  then do device_properties <- vkGetPhysicalDeviceProperties d;
                       ret [mkSupportedPhysicalDevice d queue_index device_properties]
                  else ret []);
      do others <- select_devices rest;
      ret (here ++ others)
  end.

(** The device count is asked first ([assert(device_count != 0)]), then
    the list itself. *)
Definition FindPhysicalDevices (instance : N) : VkM (list SupportedPhysicalDevice) :=
  do counted <- vkEnumeratePhysicalDevices instance;
  do c_assert (negb (length counted =? 0)%nat) "No compute devices found";
  do devices <- vkEnumeratePhysicalDevices instance;
  select_devices devices.

Definition CreateDevice (physical_device : SupportedPhysicalDevice) : VkM SupportedDevice :=
  do '(result, device) <- vkCreateDevice (spd_physical_device physical_device)
                             (spd_queue_index physical_device)
                             device_layer_names device_extension_names;
  do c_assert (is_success result) "Could not create device";
  do queue <- vkGetDeviceQueue device (spd_queue_index physical_device) 0;
  ret (mkSupportedDevice (spd_physical_device physical_device) device
         (spd_queue_index physical_device) queue (spd_device_properties physical_device)).

Definition CreateDevices (instance : N) : VkM (list SupportedDevice) :=
  do physical_devices <- FindPhysicalDevices instance;
  mapM CreateDevice physical_devices.

Definition DestroyDevices (devices : list SupportedDevice) : VkM unit :=
  iterM (fun d => vkDestroyDevice (device d)) devices.

(** ** Reference functions

    What [GetQueueFamilyIndex], [CheckDeviceSupport] and the selection
    loop compute, as pure functions of what the driver reports. *)

Definition queue_family_index (families : list VkQueueFamilyProperties) : Z :=
  match first_index (fun _ props => supports_compute props) families with
  | Some i => to_u32 (Z.of_nat i)
  | None => u32_minus_one
  end.

Definition device_supported (p : PhysicalDeviceInfo) : bool :=
  bool_decide (first_unsupported device_layer_names (pd_layers p) = None) &&
  bool_decide (first_unsupported device_extension_names (pd_extensions p) = None).

(** What [CheckDeviceSupport] prints for a GPU: its first missing
    layer, else its first missing extension. *)
Definition support_message (p : PhysicalDeviceInfo) : list IoEvent :=
  match first_unsupported device_layer_names (pd_layers p) with
  | Some l => [Stdout (("`" +:+ l +:+ "` is not a support layer by device") +:+ endl)]
  | None =>
      match first_unsupported device_extension_names (pd_extensions p) with
      | Some x => [Stdout (("`" +:+ x +:+ "` is not a support extension by device") +:+ endl)]
      | None => []
      end
  end.

(** What the selection prints: the message of each GPU that has a
    compute family (the others are not checked). *)
Definition selection_output (e : Env) (devices : list VkPhysicalDevice) : list IoEvent :=
  devices ≫= fun pd =>
    match env_gpus e !! pd.2 with
    | Some p =>
        if negb (queue_family_index (pd_queue_families p) =? u32_minus_one)
        then support_message p else []
    | None => []
    end.

Definition selected (e : Env) (devices : list VkPhysicalDevice) : list SupportedPhysicalDevice :=
  devices ≫= fun pd =>
    match env_gpus e !! pd.2 with
    | Some p =>
        let qi := queue_family_index (pd_queue_families p) in
        if negb (qi =? u32_minus_one) && device_supported p
        then [mkSupportedPhysicalDevice pd qi (pd_properties p)] else []
    | None => []
    end.

(** The devices [CreateDevices] returns, and the table it leaves: from
    the fresh handle [n] on, each selected GPU gets a device [n] and its
    queue [n + 1]. *)
Fixpoint devices_of (n : N) (spds : list SupportedPhysicalDevice) : list SupportedDevice :=
  match spds with
  | [] => []
  | spd :: rest =>
      mkSupportedDevice (spd_physical_device spd) n (spd_queue_index spd) (n + 1)
        (spd_device_properties spd) :: devices_of (n + 2) rest
  end.

Definition device_obj (spd : SupportedPhysicalDevice) (n : N) : Obj :=
  mkObj (spd_physical_device spd).1 true
    (IDevice (spd_physical_device spd).2 (spd_queue_index spd) (n + 1)).

Definition queue_obj (spd : SupportedPhysicalDevice) (n : N) : Obj :=
  mkObj n true (IQueue (spd_queue_index spd)).

Fixpoint devices_objs (n : N) (spds : list SupportedPhysicalDevice) (objs : gmap N Obj)
    : gmap N Obj :=
  match spds with
  | [] => objs
  | spd :: rest =>
      devices_objs (n + 2) rest (<[(n + 1)%N := queue_obj spd n]> (<[n := device_obj spd n]> objs))
  end.

(** The table after [DestroyDevices]: every device and its queue dead. *)
Fixpoint devices_dead (n : N) (spds : list SupportedPhysicalDevice) (objs : gmap N Obj)
    : gmap N Obj :=
  match spds with
  | [] => objs
  | spd :: rest =>
      devices_dead (n + 2) rest
        (<[n := dead (device_obj spd n)]> (<[(n + 1)%N := dead (queue_obj spd n)]> objs))
  end.

(** The devices [devices_of n spds] are alive, each with its queue as
    its only live child. *)
Definition devices_live (objs : gmap N Obj) (n : N) (spds : list SupportedPhysicalDevice) : Prop :=
  forall j spd, spds !! j = Some spd ->
    let m := (n + 2 * N.of_nat j)%N in
    objs !! m = Some (device_obj spd m) /\ objs !! (m + 1)%N = Some (queue_obj spd m) /\
    only_child objs m (m + 1).

(** The GPUs a driver reports have fewer than 2^32 queue families. *)
Definition families_bounded (e : Env) : Prop :=
  Forall (fun p => Z.of_nat (length (pd_queue_families p)) < u32_modulus) (env_gpus e).

(** The device [3] and queue [4] created on [gpu_ok], the first GPU of
    [env_ok], after the instance [1]. *)
Definition sd_ok : SupportedDevice := mkSupportedDevice (1%N, 0%nat) 3 1 4 (pd_properties gpu_ok).

(** ** Evaluation lemmas *)

Lemma GetQueueFamilyIndex_ok e s pd p :
  phys_valid e s pd p ->
  GetQueueFamilyIndex pd e s = Ok (queue_family_index (pd_queue_families p)) s.
Proof.
  intros Hv. unfold GetQueueFamilyIndex, vkGetPhysicalDeviceQueueFamilyProperties.
  unfold bind at 1. unfold bind at 1. rewrite (phys_ok _ _ _ _ Hv). simpl.
  unfold queue_family_index. by destruct (first_index _ _).
Qed.

Lemma support_message_nil p : device_supported p = true -> support_message p = [].
Proof.
  unfold device_supported, support_message. rewrite andb_true_iff, !bool_decide_eq_true.
  by intros [-> ->].
Qed.

Lemma CheckDeviceSupport_ok e s pd p :
  phys_valid e s pd p ->
  CheckDeviceSupport pd e s = Ok (device_supported p) (st_emits s (support_message p)).
Proof.
  intros Hv. unfold CheckDeviceSupport, vkEnumerateDeviceLayerProperties,
    vkEnumerateDeviceExtensionProperties, device_supported, support_message.
  vk_unfold. cbv [cout_line emit modify_state st_emits]. rewrite !(phys_ok _ _ _ _ Hv).
  destruct (first_unsupported device_layer_names (pd_layers p)); [done|].
  rewrite (phys_ok _ _ _ _ Hv). simpl. by destruct s.
Qed.

(** ** Properties *)

(** The sentinel [(uint32_t)-1] cannot be the index of a real family:
    a driver reports fewer than 2^32 families ([queue_family_count] is a
    [uint32_t]). *)
Lemma queue_family_index_found families i :
  Z.of_nat (length families) < u32_modulus ->
  first_index (fun _ props => supports_compute props) families = Some i ->
  queue_family_index families = Z.of_nat i /\ Z.of_nat i <> u32_minus_one.
Proof.
  intros Hlen Hf. apply first_index_lt in Hf as Hlt. unfold queue_family_index. rewrite Hf.
  unfold u32_minus_one, to_u32, u32_modulus in *. rewrite Z.mod_small by lia.
  split; [done|]. vm_compute (-1 mod 2 ^ 32). lia.
Qed.

(** C2: [GetQueueFamilyIndex] returns the first family with a non-empty
    compute queue, and returns [(uint32_t)-1] exactly when there is none. *)
Theorem GetQueueFamilyIndex_spec e s pd p :
  phys_valid e s pd p ->
  Z.of_nat (length (pd_queue_families p)) < u32_modulus ->
  exists r, GetQueueFamilyIndex pd e s = Ok r s /\
    (r = u32_minus_one <->
       forall i f, pd_queue_families p !! i = Some f -> supports_compute f = false) /\
    (r <> u32_minus_one ->
       exists f, pd_queue_families p !! Z.to_nat r = Some f /\ supports_compute f = true /\
         forall j f', (j < Z.to_nat r)%nat -> pd_queue_families p !! j = Some f' ->
                      supports_compute f' = false).
Proof.
  intros Hv Hlen. exists (queue_family_index (pd_queue_families p)).
  split; [by apply GetQueueFamilyIndex_ok|].
  destruct (first_index (fun _ props => supports_compute props) (pd_queue_families p)) as [i|] eqn:E.
  - destruct (queue_family_index_found _ _ Hlen E) as [-> Hne].
    apply first_index_spec in E as [(f & Hf & Hc) Hbefore]. split.
    + split; [done|]. intros Hnone. by rewrite (Hnone i f Hf) in Hc.
    + intros _. rewrite Nat2Z.id. eauto.
  - unfold queue_family_index. rewrite E. split; [|done].
    split; [|done]. intros _. by apply first_index_None.
Qed.

(** The selection loop evaluates to [selected]; it changes no state
    but the console, where it prints [selection_output]. *)
Lemma select_devices_ok e s devices :
  Forall (fun pd => exists p, phys_valid e s pd p) devices ->
  select_devices devices e s = Ok (selected e devices) (st_emits s (selection_output e devices)).
Proof.
  revert s. induction devices as [|pd ds IH]; intros s Hall; [by rewrite st_emits_nil|].
  apply Forall_cons in Hall as [[p Hv] Hds].
  unfold select_devices; fold select_devices.
  rewrite (bind_Ok _ _ _ _ _ _ (GetQueueFamilyIndex_ok _ _ _ _ Hv)).
  assert (Hsel : selected e (pd :: ds) =
    (if negb (queue_family_index (pd_queue_families p) =? u32_minus_one) && device_supported p
     then [mkSupportedPhysicalDevice pd (queue_family_index (pd_queue_families p))
             (pd_properties p)] else []) ++ selected e ds).
  { unfold selected. simpl. destruct Hv as [_ ->]. done. }
  assert (Hout : selection_output e (pd :: ds) =
    (if negb (queue_family_index (pd_queue_families p) =? u32_minus_one)
     then support_message p else []) ++ selection_output e ds).
  { unfold selection_output. simpl. destruct Hv as [_ ->]. done. }
  rewrite Hsel, Hout.
  destruct (negb (queue_family_index (pd_queue_families p) =? u32_minus_one)) eqn:Hq; simpl.
  - rewrite (bind_Ok _ _ _ _ _ _ (CheckDeviceSupport_ok _ _ _ _ Hv)).
    destruct (device_supported p) eqn:Hs; simpl.
    + rewrite (support_message_nil _ Hs), st_emits_nil. unfold vkGetPhysicalDeviceProperties. vk_unfold.
      rewrite (phys_ok _ _ _ _ Hv). simpl. vk_unfold. rewrite (IH s Hds). done.
    + vk_unfold. rewrite (IH (st_emits s (support_message p)) Hds), st_emits_app. done.
  - vk_unfold. rewrite (IH s Hds). done.
Qed.

(** C3: the selection loop of [FindPhysicalDevices] keeps, in order,
    exactly the devices that have a compute family and the required
    layers and extensions; the only state it changes is the console,
    where it prints, for each GPU with a compute family, its first
    missing layer or extension. *)
Theorem select_devices_spec e s devices :
  Forall (fun pd => exists p, phys_valid e s pd p) devices ->
  select_devices devices e s = Ok (selected e devices) (st_emits s (selection_output e devices)).
Proof. exact (select_devices_ok e s devices). Qed.

(** ** Specification of device creation *)

Lemma elem_of_selected e devices x :
  x ∈ selected e devices ->
  exists pd p, pd ∈ devices /\ env_gpus e !! pd.2 = Some p /\
    x = mkSupportedPhysicalDevice pd (queue_family_index (pd_queue_families p)) (pd_properties p) /\
    queue_family_index (pd_queue_families p) <> u32_minus_one /\ device_supported p = true.
Proof.
  unfold selected. rewrite list_elem_of_bind. intros (pd & Hx & Hpd).
  destruct (env_gpus e !! pd.2) as [p|] eqn:Hp; [|by apply elem_of_nil in Hx].
  destruct (negb _ && _) eqn:Hc; [|by apply elem_of_nil in Hx].
  apply list_elem_of_singleton in Hx as ->. apply andb_true_iff in Hc as [Hq Hs].
  exists pd, p. repeat split; try done. by apply negb_true_iff, Z.eqb_neq in Hq.
Qed.

(** What [vkCreateDevice] asks of a selected GPU holds. *)
Lemma selected_family_ok families :
  Z.of_nat (length families) < u32_modulus -> queue_family_index families <> u32_minus_one ->
  exists fam, 0 <= queue_family_index families /\
    families !! Z.to_nat (queue_family_index families) = Some fam /\ 1 <= queueCount fam.
Proof.
  intros Hlen Hne. destruct (first_index (fun _ props => supports_compute props) families) as [k|] eqn:E.
  - destruct (queue_family_index_found _ _ Hlen E) as [-> _].
    apply first_index_spec in E as [(fam & Hf & Hc) _]. exists fam. rewrite Nat2Z.id.
    unfold supports_compute in Hc. apply andb_true_iff in Hc as [Hc _]. apply Z.ltb_lt in Hc.
    repeat split; [lia|done|lia].
  - unfold queue_family_index in Hne. by rewrite E in Hne.
Qed.

Lemma device_supported_all_in p :
  device_supported p = true ->
  all_in device_layer_names (pd_layers p) = true /\ all_in device_extension_names (pd_extensions p) = true.
Proof.
  unfold device_supported. rewrite andb_true_iff, !bool_decide_eq_true, !first_unsupported_all.
  intros [H1 H2]. split; by apply all_in_spec.
Qed.

Lemma lookup_devices_objs_lt n spds objs k :
  (k < n)%N -> devices_objs n spds objs !! k = objs !! k.
Proof.
  revert n objs. induction spds as [|spd rest IH]; intros n objs Hk; [done|]. simpl.
  rewrite IH by lia. rewrite !lookup_insert_ne by lia. done.
Qed.

Lemma lookup_devices_dead_lt n spds objs k :
  (k < n)%N -> devices_dead n spds objs !! k = objs !! k.
Proof.
  revert n objs. induction spds as [|spd rest IH]; intros n objs Hk; [done|]. simpl.
  rewrite IH by lia. rewrite !lookup_insert_ne by lia. done.
Qed.

(** After [DestroyDevices] nothing in the devices' range of handles is
    alive. *)
Lemma live_within_devices_dead n spds objs (P : N -> Prop) :
  live_within objs P ->
  live_within (devices_dead n spds objs)
    (fun k => P k /\ ~ (n <= k < n + 2 * N.of_nat (length spds))%N).
Proof.
  revert n objs P. induction spds as [|spd rest IH]; intros n objs P Hl; simpl.
  - eapply live_within_mono; [exact Hl|]. intros k Hk. split; [done|lia].
  - eapply live_within_mono.
    + apply IH, live_within_kill, live_within_kill, Hl.
    + intros k (((Hk & H1) & H2) & H3). split; [done|lia].
Qed.

(** Every entry [devices_objs] adds has [P] if each device and queue
    object has it. *)
Lemma map_Forall_devices_objs (P : N -> Obj -> Prop) n spds objs :
  map_Forall P objs ->
  (forall j spd, spds !! j = Some spd ->
     let m := (n + 2 * N.of_nat j)%N in P m (device_obj spd m) /\ P (m + 1)%N (queue_obj spd m)) ->
  map_Forall P (devices_objs n spds objs).
Proof.
  revert n objs. induction spds as [|spd rest IH]; intros n objs Hm Hd; simpl; [done|].
  destruct (Hd 0%nat spd eq_refl) as [H0 H1]. rewrite N.add_0_r in H0, H1. apply IH.
  - by apply map_Forall_insert_2; [|apply map_Forall_insert_2].
  - intros j x Hx. destruct (Hd (S j) x Hx) as [Hj1 Hj2].
    replace (n + 2 * N.of_nat (S j))%N with (n + 2 + 2 * N.of_nat j)%N in * by lia. done.
Qed.

(** The devices [CreateDevices] made over a table whose handles and
    parents lie below [n] are alive, each the parent of its queue
    only. *)
Lemma devices_objs_live n spds objs :
  map_Forall (fun k o => (k < n)%N /\ (o_parent o < n)%N) objs ->
  Forall (fun spd => ((spd_physical_device spd).1 < n)%N) spds ->
  devices_live (devices_objs n spds objs) n spds.
Proof.
  revert n objs. induction spds as [|spd rest IH]; intros n objs Hm Hp j x Hx; [done|].
  apply Forall_cons in Hp as [Hp0 Hp]. destruct j as [|j]; simpl in Hx |- *.
  - injection Hx as <-. rewrite N.add_0_r, !lookup_devices_objs_lt by lia.
    rewrite lookup_insert_ne, !lookup_insert_eq by lia. split_and!; [done|done|].
    apply (map_Forall_devices_objs (fun k o => o_live o = true -> o_parent o = n -> k = (n + 1)%N)).
    + apply map_Forall_insert_2; [done|]. apply map_Forall_insert_2; [simpl; lia|].
      intros k o Hk _ Hpar. destruct (Hm k o Hk). lia.
    + intros j' y Hy. apply Forall_lookup_1 with (i := j') (x := y) in Hp; [|done].
      split; simpl; lia.
  - replace (n + 2 * N.of_nat (S j))%N with (n + 2 + 2 * N.of_nat j)%N by lia.
    apply (IH (n + 2)%N); [| |done].
    + apply map_Forall_insert_2; [simpl; lia|]. apply map_Forall_insert_2; [simpl; lia|].
      intros k o Hk. destruct (Hm k o Hk). lia.
    + eapply Forall_impl; [exact Hp|]. intros ? Hx0; simpl in Hx0; lia.
Qed.

(** The devices of a table that agrees below [n] with one where they
    are alive are alive. *)
Lemma devices_live_agrees n F objs m spds :
  agrees_below n F objs -> (m + 2 * N.of_nat (length spds) <= n)%N ->
  devices_live F m spds -> devices_live objs m spds.
Proof.
  intros Ha Hn Hl j spd Hj. pose proof (lookup_lt_Some _ _ _ Hj).
  destruct (Hl j spd Hj) as (Hd & Hq & Ho). pose proof Ha as [Hb _].
  cbv zeta in *. rewrite !Hb by lia. split_and!; [done|done|]. by eapply only_child_agrees.
Qed.

(** Every GPU [FindPhysicalDevices] selects is one of the instance's. *)
Lemma selected_instance e i len :
  Forall (fun spd => (spd_physical_device spd).1 = i) (selected e (map (pair i) (seq 0 len))).
Proof.
  apply Forall_forall. intros x (pd & p & Hpd & _ & -> & _)%elem_of_selected. simpl.
  apply list_elem_of_In, in_map_iff in Hpd as (k & <- & _). done.
Qed.

Lemma devices_objs_snoc n spds x objs :
  devices_objs n (spds ++ [x]) objs =
  let m := (n + 2 * N.of_nat (length spds))%N in
  <[(m + 1)%N := queue_obj x m]> (<[m := device_obj x m]> (devices_objs n spds objs)).
Proof.
  revert n objs. induction spds as [|y rest IH]; intros n objs; simpl.
  - by rewrite N.add_0_r.
  - rewrite IH. simpl.
    by replace (n + 2 * N.of_nat (S (length rest)))%N with (n + 2 + 2 * N.of_nat (length rest))%N by lia.
Qed.

Lemma devices_of_snoc n spds x :
  devices_of n (spds ++ [x]) = devices_of n spds ++
    let m := (n + 2 * N.of_nat (length spds))%N in
    [mkSupportedDevice (spd_physical_device x) m (spd_queue_index x) (m + 1) (spd_device_properties x)].
Proof.
  revert n. induction spds as [|y rest IH]; intros n; simpl.
  - by rewrite N.add_0_r.
  - rewrite IH. simpl.
    by replace (n + 2 * N.of_nat (S (length rest)))%N with (n + 2 + 2 * N.of_nat (length rest))%N by lia.
Qed.

Section Spec.
Context (e : Env) (ok : Outcome -> Prop) (Hok : fail_ok e ok).

Lemma wp_CreateDevice spd p exts Q s :
  let pd := spd_physical_device spd in
  vs_objs s !! pd.1 = Some (mkObj 0 true (IInstance exts)) -> env_gpus e !! pd.2 = Some p ->
  Z.of_nat (length (pd_queue_families p)) < u32_modulus ->
  spd_queue_index spd = queue_family_index (pd_queue_families p) ->
  queue_family_index (pd_queue_families p) <> u32_minus_one -> device_supported p = true ->
  (forall s', vs_objs s' = <[(vs_next s + 1)%N := queue_obj spd (vs_next s)]>
                             (<[vs_next s := device_obj spd (vs_next s)]> (vs_objs s)) ->
              vs_next s' = (vs_next s + 2)%N -> vs_io s' = vs_io s ->
              Q (mkSupportedDevice pd (vs_next s) (spd_queue_index spd) (vs_next s + 1)
                   (spd_device_properties spd)) s') ->
  wp e ok (CreateDevice spd) Q s.
Proof.
  cbv zeta. intros Hi Hp Hlen Hq Hne Hs HQ.
  destruct (selected_family_ok _ Hlen Hne) as (fam & Hq0 & Hfam & Hcount).
  destruct (device_supported_all_in _ Hs) as [Hl Hx].
  unfold CreateDevice. wp_run. rewrite Hq.
  eapply wp_vkCreateDevice; [split; [exists exts; unfold live_obj; by rewrite Hi|done]|done..|].
  wp_branch; wp_check Hok.
  wp_run. rewrite <-Hq. eapply wp_vkGetDeviceQueue; [solve_lookup|]. wp_run. by apply HQ.
Qed.

(** On a machine without GPUs, [FindPhysicalDevices] stops on its
    assertion [device_count != 0]. *)
Lemma wp_CreateDevices_no_gpu i exts Q s :
  vs_objs s !! i = Some (mkObj 0 true (IInstance exts)) -> env_gpus e = [] ->
  ok (AssertFailed "No compute devices found") ->
  wp e ok (CreateDevices i) Q s.
Proof.
  intros Hi Hn Hm. unfold CreateDevices, FindPhysicalDevices. wp_run.
  eapply wp_vkEnumeratePhysicalDevices; [done|]. apply wp_bind, wp_c_assert; [|done].
  rewrite Hn. discriminate.
Qed.

(** [CreateDevices] creates a device and its queue for every GPU the
    selection keeps, in order. *)
Lemma wp_CreateDevices i exts Q s :
  vs_objs s !! i = Some (mkObj 0 true (IInstance exts)) -> (i < vs_next s)%N ->
  families_bounded e -> env_gpus e <> [] ->
  let sel := selected e (map (pair i) (seq 0 (length (env_gpus e)))) in
  (forall s', vs_objs s' = devices_objs (vs_next s) sel (vs_objs s) ->
              vs_next s' = (vs_next s + 2 * N.of_nat (length sel))%N ->
              vs_io s' = rev (selection_output e (map (pair i) (seq 0 (length (env_gpus e))))) ++ vs_io s ->
              Q (devices_of (vs_next s) sel) s') ->
  wp e ok (CreateDevices i) Q s.
Proof.
  intros Hi Hlt Hb Hne sel HQ. unfold CreateDevices, FindPhysicalDevices. wp_run.
  eapply wp_vkEnumeratePhysicalDevices; [done|]. apply wp_bind, wp_c_assert.
  2:{ intros Hz. exfalso. apply negb_false_iff, Nat.eqb_eq in Hz.
      rewrite length_map, length_seq in Hz. by apply Hne, length_zero_iff_nil. }
  intros _. wp_run. eapply wp_vkEnumeratePhysicalDevices; [done|]. wp_run.
  eapply wp_eval.
  { apply select_devices_ok. apply Forall_forall. intros pd Hpd.
    apply list_elem_of_In, in_map_iff in Hpd as (k & <- & Hk). apply in_seq in Hk.
    destruct (lookup_lt_is_Some_2 (env_gpus e) k) as [p Hp]; [lia|].
    exists p. split; [|done]. exists exts. unfold live_obj. simpl. by rewrite Hi. }
  fold sel.
  apply (wp_mapM _ _ _ (fun dn bs s1 => vs_objs s1 = devices_objs (vs_next s) dn (vs_objs s) /\
           vs_next s1 = (vs_next s + 2 * N.of_nat (length dn))%N /\ bs = devices_of (vs_next s) dn /\
           vs_io s1 = rev (selection_output e (map (pair i) (seq 0 (length (env_gpus e))))) ++ vs_io s)).
  - simpl. split; [done|]. split; [lia|done].
  - intros done x rest bs s1 Hsel (Ho & Hn & -> & Hio).
    assert (Hx : x ∈ sel) by (rewrite <-Hsel; apply elem_of_app; right; apply list_elem_of_here).
    destruct (elem_of_selected _ _ _ Hx) as (pd & p & Hpd & Hp & -> & Hq & Hs).
    apply list_elem_of_In, in_map_iff in Hpd as (k & <- & _).
    eapply wp_CreateDevice; [simpl; rewrite Ho, lookup_devices_objs_lt by lia; exact Hi
                            |exact Hp|exact (Forall_lookup_1 _ _ _ _ Hb Hp)|done..|].
    intros s2 Ho2 Hn2 Hio2. rewrite devices_objs_snoc, devices_of_snoc, Ho2, Hn2, Hn, Ho, Hio2, Hio. simpl.
    rewrite length_app. simpl. split; [done|]. split; [lia|done].
  - intros bs s1 (Ho & Hn & -> & Hio). by apply HQ.
Qed.
(** [DestroyDevices] destroys every device (with its queue), in order. *)
Lemma wp_DestroyDevices n spds Q s :
  devices_live (vs_objs s) n spds ->
  (forall s', vs_objs s' = devices_dead n spds (vs_objs s) -> Q tt s') ->
  wp e ok (DestroyDevices (devices_of n spds)) Q s.
Proof.
  revert n Q s. induction spds as [|spd rest IH]; intros n Q s Hl HQ.
  - by apply wp_ret, HQ.
  - destruct (Hl 0%nat spd eq_refl) as (Hd & Hq & Ho). rewrite N.add_0_r in Hd, Hq, Ho.
    unfold DestroyDevices. simpl. apply wp_bind.
    eapply wp_vkDestroyDevice; [|exact Hd|exact Hq|exact Ho|]; [lia|]. cbn beta. apply IH.
    + intros j x Hx m. destruct (Hl (S j) x Hx) as (Hd' & Hq' & Ho').
      replace (n + 2 * N.of_nat (S j))%N with m in * by lia. simpl.
      rewrite !lookup_insert_ne by lia. split; [done|]. split; [done|].
      by apply only_child_kill, only_child_kill.
    + intros s' Hs'. apply HQ. rewrite Hs'. done.
Qed.

End Spec.

(** C15: on a machine with GPUs, each with fewer than 2^32 queue
    families, [CreateDevices] of a live instance [i] creates, from the
    next free handle [n] on, a logical device and its queue for every
    GPU [FindPhysicalDevices] selects, in order, and returns them; any
    other end is an assertion of the program after a call the driver
    failed. *)
Theorem CreateDevices_spec e ok i exts s :
  fail_ok e ok ->
  vs_objs s !! i = Some (mkObj 0 true (IInstance exts)) -> (i < vs_next s)%N ->
  families_bounded e -> env_gpus e <> [] ->
  wp e ok (CreateDevices i)
    (fun gpus s' =>
       gpus = devices_of (vs_next s) (selected e (map (pair i) (seq 0 (length (env_gpus e))))) /\
       vs_objs s' = devices_objs (vs_next s) (selected e (map (pair i) (seq 0 (length (env_gpus e)))))
                      (vs_objs s) /\
       vs_next s' = (vs_next s + 2 * N.of_nat
                      (length (selected e (map (pair i) (seq 0 (length (env_gpus e)))))))%N) s.
Proof.
  intros Hok Hi Hlt Hb Hne. eapply wp_CreateDevices; [exact Hok|exact Hi|exact Hlt|exact Hb|exact Hne|].
  by intros s' H1 H2.
Qed.

(** ** Witnesses *)

Lemma GetQueueFamilyIndex_spec_witness :
  phys_valid env_ok s_instance (1%N, 0%nat) gpu_ok /\
  Z.of_nat (length (pd_queue_families gpu_ok)) < u32_modulus /\
  exists r, GetQueueFamilyIndex (1%N, 0%nat) env_ok s_instance = Ok r s_instance /\
    (r = u32_minus_one <->
       forall i f, pd_queue_families gpu_ok !! i = Some f -> supports_compute f = false) /\
    (r <> u32_minus_one ->
       exists f, pd_queue_families gpu_ok !! Z.to_nat r = Some f /\ supports_compute f = true /\
         forall j f', (j < Z.to_nat r)%nat -> pd_queue_families gpu_ok !! j = Some f' ->
                      supports_compute f' = false).
Proof.
  assert (Hv : phys_valid env_ok s_instance (1%N, 0%nat) gpu_ok)
    by (split; [eexists; reflexivity | reflexivity]).
  assert (Hl : Z.of_nat (length (pd_queue_families gpu_ok)) < u32_modulus)
    by (simpl; unfold u32_modulus; lia).
  split; [exact Hv|]. split; [exact Hl|]. exact (GetQueueFamilyIndex_spec _ _ _ _ Hv Hl).
Defined.

Lemma select_devices_spec_witness :
  Forall (fun pd => exists p, phys_valid env_ok s_instance pd p) [(1%N, 0%nat)] /\
  select_devices [(1%N, 0%nat)] env_ok s_instance =
    Ok (selected env_ok [(1%N, 0%nat)]) s_instance.
Proof.
  assert (H : Forall (fun pd => exists p, phys_valid env_ok s_instance pd p) [(1%N, 0%nat)]).
  { constructor; [|constructor]. exists gpu_ok. split; [eexists; reflexivity | reflexivity]. }
  split; [exact H|]. exact (select_devices_spec _ _ _ H).
Defined.

Lemma CreateDevices_spec_witness :
  fail_ok env_ok assert_stop /\
  vs_objs s_instance !! 1%N = Some (mkObj 0 true (IInstance ["VK_EXT_debug_report"])) /\
  (1 < vs_next s_instance)%N /\ families_bounded env_ok /\ env_gpus env_ok <> [] /\
  wp env_ok assert_stop (CreateDevices 1)
    (fun gpus s' => gpus = [sd_ok] /\
       vs_objs s' = <[4%N := mkObj 3 true (IQueue 1)]> (<[3%N := mkObj 1 true (IDevice 0 1 4)]> (vs_objs s_instance)) /\
       vs_next s' = 5%N) s_instance.
Proof.
  pose proof (fail_ok_assert_stop env_ok) as Hok.
  assert (Hi : vs_objs s_instance !! 1%N = Some (mkObj 0 true (IInstance ["VK_EXT_debug_report"])))
    by reflexivity.
  assert (Hlt : (1 < vs_next s_instance)%N) by (simpl; lia).
  assert (Hb : families_bounded env_ok) by (repeat constructor).
  assert (Hne : env_gpus env_ok <> []) by discriminate.
  split_and!; [exact Hok|exact Hi|exact Hlt|exact Hb|exact Hne|].
  exact (CreateDevices_spec env_ok assert_stop 1 _ s_instance Hok Hi Hlt Hb Hne).
Defined.

End Device.
