(* ===== verification/Buffer.v ===== *)
(** * Storage buffers and their device memory

    src/Vulkan/VulkanBuffer.h and VulkanBuffer.cpp: [CreateBuffer]
    creates a buffer, allocates memory of a type that [GetMemoryType]
    chooses, and binds the two; [DestroyBuffer] frees both. *)

From Stdlib Require Import ZArith Lia.
From stdpp Require Import base list option gmap strings.
From S2P Require Import Prelude VkTypes VkApi VkFacts VkCalls Machines Device.

Module Buffer.
Import Machines Device.

Record VulkanBuffer := mkVulkanBuffer {
  buffer_size : Z;
  buffer : N;
  device_memory : N;
}.

(** [1 << i] is an [int] shift; the result is converted to [uint32_t]
    for the [&] with [memory_type_bits]. *)
Definition memory_type_allowed (memory_type_bits : Z) (i : nat) : bool :=
  negb (Z.land memory_type_bits (to_u32 (Z.shiftl 1 (Z.of_nat i))) =? 0).

(** [(memory_type_bits & (1 << i)) &&
     ((memoryTypes[i].propertyFlags & properties) == properties)] *)
Definition memory_type_ok (memory_type_bits properties : Z) (i : nat) (mt : VkMemoryType) : bool :=
  memory_type_allowed memory_type_bits i &&
  (Z.land (propertyFlags mt) properties =? properties).

(** The [for] loop returns the first suitable index; when there is
    none, [assert(0)] aborts (the [return -1] after it is reached only
    with assertions disabled). *)
Definition GetMemoryType (physical_device : VkPhysicalDevice) (memory_type_bits properties : Z)
    : VkM Z :=
  do memory_types <- vkGetPhysicalDeviceMemoryProperties physical_device;
  match first_index (memory_type_ok memory_type_bits properties) memory_types with
  | Some i => ret (Z.of_nat i)
  | None =>
      do c_assert false "Memory properties are not supported by this device";
      ret u32_minus_one
  end.

Definition CreateBuffer (supported_device : SupportedDevice) (buffer_size : Z)
    (memory_properties : Z) : VkM VulkanBuffer :=
  let dev := device supported_device in
  do '(result, buffer) <- vkCreateBuffer dev buffer_size;
  do c_assert (is_success result) "Could not create buffer";
  do '(req_size, req_type_bits) <- vkGetBufferMemoryRequirements dev buffer;
  do memory_type <- GetMemoryType (physical_device supported_device) req_type_bits
                                  memory_properties;
  do '(result, device_memory) <- vkAllocateMemory dev req_size memory_type;
  do c_assert (is_success result) "Could not allocate memory on device";
  do result <- vkBindBufferMemory dev buffer device_memory 0;
  do c_assert (is_success result) "Could not bind memory handle with allocated memory";
  ret (mkVulkanBuffer buffer_size buffer device_memory).

(** The memory is freed before the buffer is destroyed. *)
Definition DestroyBuffer (supported_device : SupportedDevice) (vulkan_buffer : VulkanBuffer)
    : VkM unit :=
  do vkFreeMemory (device supported_device) (device_memory vulkan_buffer);
  vkDestroyBuffer (device supported_device) (buffer vulkan_buffer).

(** ** Reference: the memory type the specification asks for

    A type [i] is admissible when bit [i] of [memoryTypeBits] is set and
    its property flags include all the requested ones. *)
Definition type_suitable (memory_type_bits properties : Z) (i : nat) (mt : VkMemoryType) : bool :=
  Z.testbit memory_type_bits (Z.of_nat i) &&
  (Z.land (propertyFlags mt) properties =? properties).

(** ** Properties *)

Lemma land_pow2 a n : 0 <= n -> Z.land a (2 ^ n) = if Z.testbit a n then 2 ^ n else 0.
Proof.
  intros Hn. apply Z.bits_inj'. intros k Hk. rewrite Z.land_spec, Z.pow2_bits_eqb by lia.
  destruct (Z.eqb_spec n k) as [->|Hne].
  - destruct (Z.testbit a k); rewrite ?Z.pow2_bits_true, ?Z.bits_0; auto.
  - rewrite andb_false_r. destruct (Z.testbit a n); [|by rewrite Z.bits_0].
    rewrite Z.pow2_bits_eqb by lia. symmetry. by apply Z.eqb_neq.
Qed.

(** The shifted-mask test reads bit [i]. *)
Lemma memory_type_allowed_bit memory_type_bits i :
  (i < 32)%nat ->
  memory_type_allowed memory_type_bits i = Z.testbit memory_type_bits (Z.of_nat i).
Proof.
  intros Hi. unfold memory_type_allowed. rewrite Z.shiftl_1_l.
  rewrite to_u32_small by (unfold in_u32, u32_modulus; split;
    [apply Z.pow_nonneg; lia | apply Z.pow_lt_mono_r; lia]).
  rewrite land_pow2 by lia. destruct (Z.testbit _ _); [|done].
  simpl. apply negb_true_iff, Z.eqb_neq. pose proof (Z.pow_pos_nonneg 2 (Z.of_nat i)). lia.
Qed.

(** C4: for the 32 memory types a device can have, the test
    [memory_type_bits & (1 << i)] (an [int] shift, [1 << 31] included)
    is exactly "bit [i] of [memory_type_bits] is set". *)
Theorem memory_type_allowed_testbit memory_type_bits i :
  (i < 32)%nat ->
  memory_type_allowed memory_type_bits i = Z.testbit memory_type_bits (Z.of_nat i).
Proof. exact (memory_type_allowed_bit memory_type_bits i). Qed.

Lemma GetMemoryType_eval e s pd p memory_type_bits properties :
  phys_valid e s pd p ->
  GetMemoryType pd memory_type_bits properties e s =
  match first_index (memory_type_ok memory_type_bits properties) (pd_memory_types p) with
  | Some i => Ok (Z.of_nat i) s
  | None => Stop (AssertFailed "Memory properties are not supported by this device") s
  end.
Proof.
  intros Hv. unfold GetMemoryType, vkGetPhysicalDeviceMemoryProperties.
  vk_unfold. rewrite (phys_ok _ _ _ _ Hv). by destruct (first_index _ _).
Qed.

(** C5: [GetMemoryType] returns the first admissible memory type, and
    aborts on its assertion when there is none (a device has at most
    [VK_MAX_MEMORY_TYPES] = 32 memory types). *)
Theorem GetMemoryType_spec e s pd p memory_type_bits properties :
  phys_valid e s pd p -> (length (pd_memory_types p) <= 32)%nat ->
  match first_index (type_suitable memory_type_bits properties) (pd_memory_types p) with
  | Some i => GetMemoryType pd memory_type_bits properties e s = Ok (Z.of_nat i) s
  | None => GetMemoryType pd memory_type_bits properties e s =
            Stop (AssertFailed "Memory properties are not supported by this device") s
  end.
Proof.
  intros Hv Hlen. rewrite (GetMemoryType_eval _ _ _ _ _ _ Hv).
  rewrite (first_index_ext (memory_type_ok memory_type_bits properties)
             (type_suitable memory_type_bits properties)).
  - by destruct (first_index _ _).
  - intros j x Hj. unfold memory_type_ok, type_suitable.
    rewrite memory_type_allowed_bit; [done|]. apply lookup_lt_Some in Hj. lia.
Qed.

(** ** Specifications *)

Section Spec.
Context (e : Env) (ok : Outcome -> Prop) (Hok : fail_ok e ok).

(** On a device of GPU [p] with a memory type [i] that has the
    requested properties, [CreateBuffer] creates the buffer [n], the
    memory [n + 1] of the size the driver requires, and binds them. *)
Lemma wp_CreateBuffer sd p exts size props i Q s :
  let d := device sd in
  let pd := physical_device sd in
  vs_objs s !! d = Some (mkObj pd.1 true (IDevice pd.2 (queue_index sd) (queue sd))) ->
  vs_objs s !! pd.1 = Some (mkObj 0 true (IInstance exts)) -> env_gpus e !! pd.2 = Some p ->
  (d < vs_next s)%N -> (pd.1 < vs_next s)%N -> 0 < size -> size <= pd_mem_req_size p size ->
  (length (pd_memory_types p) <= 32)%nat ->
  first_index (memory_type_ok (pd_mem_type_bits p) props) (pd_memory_types p) = Some i ->
  (forall s', vs_objs s' = <[vs_next s := mkObj d true (IBuffer size (Some (vs_next s + 1)%N))]>
                (<[(vs_next s + 1)%N := mkObj d true (IMemory (pd_mem_req_size p size) (Z.of_nat i) None
                                                        (env_uninitialized e))]> (vs_objs s)) ->
              vs_next s' = (vs_next s + 2)%N ->
              Q (mkVulkanBuffer size (vs_next s) (vs_next s + 1)) s') ->
  wp e ok (CreateBuffer sd size props) Q s.
Proof.
  cbv zeta. intros Hd Hi Hp Hlt Hlt' Hs Hreq Hlen Hty HQ.
  pose proof (first_index_lt _ _ _ Hty) as Hilt.
  apply first_index_spec in Hty as Hspec. destruct Hspec as [(mt & Hmt & Hok_i) _].
  unfold memory_type_ok in Hok_i. apply andb_true_iff in Hok_i as [Hbit _].
  rewrite memory_type_allowed_bit in Hbit by lia.
  unfold CreateBuffer. wp_run. eapply wp_vkCreateBuffer; [done..|]. wp_branch; wp_check Hok.
  wp_run. eapply wp_vkGetBufferMemoryRequirements; [solve_lookup|exact Hp|solve_lookup|]. wp_run.
  eapply wp_eval.
  { rewrite (GetMemoryType_eval _ _ _ p), Hty; [done|]. split; [|done]. exists exts. unfold live_obj. simpl.
    rewrite lookup_insert_ne by lia. by rewrite Hi. }
  cbv beta. wp_run. eapply wp_vkAllocateMemory; [solve_lookup|exact Hp|lia|lia|]. wp_branch; wp_check Hok.
  wp_run. eapply wp_vkBindBufferMemory; [solve_lookup|exact Hp|solve_lookup|solve_lookup|lia|done|lia|].
  wp_branch; wp_check Hok. wp_run. apply HQ; simpl; [|lia].
  rewrite (insert_insert_ne _ (vs_next s + 1)%N (vs_next s)) by lia. by rewrite insert_insert_eq.
Qed.

(** [DestroyBuffer] frees the memory, then destroys the buffer. *)
Lemma wp_DestroyBuffer sd vb dp g qf qh bsz bm msz ty mp c0 Q s :
  let d := device sd in
  vs_objs s !! d = Some (mkObj dp true (IDevice g qf qh)) ->
  vs_objs s !! device_memory vb = Some (mkObj d true (IMemory msz ty mp c0)) ->
  vs_objs s !! buffer vb = Some (mkObj d true (IBuffer bsz bm)) ->
  no_pending (vs_objs s) -> childless (vs_objs s) (device_memory vb) -> childless (vs_objs s) (buffer vb) ->
  (forall s', vs_objs s' = <[buffer vb := mkObj d false (IBuffer bsz bm)]>
                (<[device_memory vb := mkObj d false (IMemory msz ty mp c0)]> (vs_objs s)) -> Q tt s') ->
  wp e ok (DestroyBuffer sd vb) Q s.
Proof.
  cbv zeta. intros Hd Hm Hb Hn Hcm Hcb HQ.
  assert (device_memory vb <> device sd) by (intros E; rewrite E in Hm; congruence).
  assert (device_memory vb <> buffer vb) by (intros E; rewrite E in Hm; congruence).
  unfold DestroyBuffer. wp_run. eapply wp_vkFreeMemory; [done..|].
  eapply wp_vkDestroyBuffer; [solve_lookup|solve_lookup|by apply no_pending_insert|by apply childless_kill|].
  by apply HQ.
Qed.
End Spec.

(** A buffer size of 0 (a [uint32_t] size that wrapped around) breaks
    [vkCreateBuffer]'s rule on the size. *)
Lemma wp_CreateBuffer_zero e ok sd props Q s :
  vs_objs s !! device sd = Some (mkObj (physical_device sd).1 true
                                   (IDevice (physical_device sd).2 (queue_index sd) (queue sd))) ->
  ok (InvalidUsage "VUID-VkBufferCreateInfo-size-00912") -> wp e ok (CreateBuffer sd 0 props) Q s.
Proof. intros Hd Hok. unfold CreateBuffer. apply wp_bind. by eapply wp_vkCreateBuffer_zero. Qed.

(** C16: [CreateBuffer] on a live device whose GPU has the admissible
    memory type [i] first: the buffer at the next free handle [n], of
    the requested size, bound to the memory [n + 1] of the size the
    driver requires, of type [i], unmapped and uninitialized; any other
    end is an assertion of the program after a call the driver failed. *)
Theorem CreateBuffer_spec e ok sd p exts size props i s :
  fail_ok e ok ->
  vs_objs s !! device sd = Some (mkObj (physical_device sd).1 true
                                   (IDevice (physical_device sd).2 (queue_index sd) (queue sd))) ->
  vs_objs s !! (physical_device sd).1 = Some (mkObj 0 true (IInstance exts)) ->
  env_gpus e !! (physical_device sd).2 = Some p ->
  (device sd < vs_next s)%N -> ((physical_device sd).1 < vs_next s)%N -> 0 < size ->
  size <= pd_mem_req_size p size -> (length (pd_memory_types p) <= 32)%nat ->
  first_index (memory_type_ok (pd_mem_type_bits p) props) (pd_memory_types p) = Some i ->
  wp e ok (CreateBuffer sd size props)
    (fun vb s' => vb = mkVulkanBuffer size (vs_next s) (vs_next s + 1) /\
       vs_objs s' = <[vs_next s := mkObj (device sd) true (IBuffer size (Some (vs_next s + 1)%N))]>
         (<[(vs_next s + 1)%N := mkObj (device sd) true
                                   (IMemory (pd_mem_req_size p size) (Z.of_nat i) None (env_uninitialized e))]>
            (vs_objs s)) /\
       vs_next s' = (vs_next s + 2)%N) s.
Proof.
  intros Hok Hd Hi Hp Hdn Hin Hsz Hreq Hlen Hty.
  eapply wp_CreateBuffer; [exact Hok|exact Hd|exact Hi|exact Hp|exact Hdn|exact Hin|exact Hsz|exact Hreq
    |exact Hlen|exact Hty|]. by intros s' H1 H2.
Qed.

(** ** Witnesses *)

Lemma memory_type_allowed_testbit_witness :
  (31 < 32)%nat /\ memory_type_allowed 2147483648 31 = Z.testbit 2147483648 (Z.of_nat 31).
Proof. split; [lia | apply memory_type_allowed_testbit; lia]. Defined.

Lemma GetMemoryType_spec_witness :
  phys_valid env_ok s_instance (1%N, 0%nat) gpu_ok /\
  (length (pd_memory_types gpu_ok) <= 32)%nat /\
  match first_index (type_suitable 3 6) (pd_memory_types gpu_ok) with
  | Some i => GetMemoryType (1%N, 0%nat) 3 6 env_ok s_instance = Ok (Z.of_nat i) s_instance
  | None => GetMemoryType (1%N, 0%nat) 3 6 env_ok s_instance =
            Stop (AssertFailed "Memory properties are not supported by this device") s_instance
  end.
Proof.
  assert (Hv : phys_valid env_ok s_instance (1%N, 0%nat) gpu_ok)
    by (split; [eexists; reflexivity | reflexivity]).
  assert (Hl : (length (pd_memory_types gpu_ok) <= 32)%nat) by (simpl; lia).
  split; [exact Hv|]. split; [exact Hl|]. exact (GetMemoryType_spec _ _ _ _ 3 6 Hv Hl).
Defined.

Lemma CreateBuffer_spec_witness :
  fail_ok env_ok assert_stop /\
  vs_objs s_full !! 3%N = Some (mkObj 1 true (IDevice 0 1 4)) /\
  vs_objs s_full !! 1%N = Some (mkObj 0 true (IInstance ["VK_EXT_debug_report"])) /\
  env_gpus env_ok !! 0%nat = Some gpu_ok /\ (3 < vs_next s_full)%N /\ (1 < vs_next s_full)%N /\ 0 < 16 /\
  16 <= pd_mem_req_size gpu_ok 16 /\ (length (pd_memory_types gpu_ok) <= 32)%nat /\
  first_index (memory_type_ok (pd_mem_type_bits gpu_ok) 6) (pd_memory_types gpu_ok) = Some 1%nat /\
  wp env_ok assert_stop (CreateBuffer sd_ok 16 6)
    (fun vb s' => vb = mkVulkanBuffer 16 16 17 /\
       vs_objs s' = <[16%N := mkObj 3 true (IBuffer 16 (Some 17%N))]>
         (<[17%N := mkObj 3 true (IMemory 16 1 None (env_uninitialized env_ok))]> (vs_objs s_full)) /\
       vs_next s' = 18%N) s_full.
Proof.
  pose proof (fail_ok_assert_stop env_ok) as Hok.
  assert (Hd : vs_objs s_full !! 3%N = Some (mkObj 1 true (IDevice 0 1 4))) by reflexivity.
  assert (Hi : vs_objs s_full !! 1%N = Some (mkObj 0 true (IInstance ["VK_EXT_debug_report"]))) by reflexivity.
  assert (Hp : env_gpus env_ok !! 0%nat = Some gpu_ok) by reflexivity.
  assert (Hn1 : (3 < vs_next s_full)%N) by (simpl; lia).
  assert (Hn2 : (1 < vs_next s_full)%N) by (simpl; lia).
  assert (Hs : 0 < 16) by lia.
  assert (Hr : 16 <= pd_mem_req_size gpu_ok 16) by (simpl; lia).
  assert (Hl : (length (pd_memory_types gpu_ok) <= 32)%nat) by (simpl; lia).
  assert (Ht : first_index (memory_type_ok (pd_mem_type_bits gpu_ok) 6) (pd_memory_types gpu_ok) = Some 1%nat)
    by reflexivity.
  split_and!; try assumption.
  exact (CreateBuffer_spec env_ok assert_stop sd_ok gpu_ok _ 16 6 1 s_full Hok Hd Hi Hp Hn1 Hn2 Hs Hr Hl Ht).
Defined.

End Buffer.
