(* ===== verification/Descriptor.v ===== *)
(** * The descriptor set that binds the storage buffer to the shader

    src/Vulkan/VulkanDescriptor.h and VulkanDescriptor.cpp:
    [CreateDescriptorSet] creates a one-binding layout, a pool for one
    set, allocates the set and writes the buffer into binding 0;
    [DestroyDescriptorSet] destroys the pool (which frees the set) and
    the layout. *)

From Stdlib Require Import ZArith Lia.
From stdpp Require Import base list option gmap strings.
From S2P Require Import Prelude VkTypes VkApi VkFacts VkCalls Machines Device Buffer.

Module Descriptor.
Import Machines Device Buffer.

(** A C++ [VulkanBuffer*]: it points either to a [VulkanBuffer] that is
    alive, or to an object whose lifetime has ended. *)
Inductive BufferPtr :=
| PtrTo (b : VulkanBuffer)
| PtrDangling.

(** [*p]: reading through a dangling pointer is undefined behaviour. *)
Definition deref (p : BufferPtr) : VkM VulkanBuffer :=
  match p with
  | PtrTo b => ret b
  | PtrDangling => stop (UndefinedBehaviour "dereference of a dangling VulkanBuffer*")
  end.

Record VulkanDescriptor := mkVulkanDescriptor {
  attached_buffer : BufferPtr;
  descriptor_layout : N;
  descriptor_pool : N;
  descriptor_set : N;
}.

(** [vulkan_buffer] is a by-value parameter: [&vulkan_buffer] in the
    returned struct is the address of the callee's copy, which no
    longer exists once [CreateDescriptorSet] has returned. *)
Definition CreateDescriptorSet (supported_device : SupportedDevice) (vulkan_buffer : VulkanBuffer)
    (descriptor_type : VkDescriptorType) : VkM VulkanDescriptor :=
  let dev := device supported_device in
  do '(result, descriptor_layout) <- vkCreateDescriptorSetLayout dev descriptor_type;
  do c_assert (is_success result) "Could not create vulkan descriptor set layout";
  do '(result, descriptor_pool) <- vkCreateDescriptorPool dev descriptor_type 1;
  do c_assert (is_success result) "Could not create descriptor pool";
  do '(result, descriptor_set) <- vkAllocateDescriptorSets dev descriptor_pool descriptor_layout;
  do c_assert (is_success result) "Could not create vulkan descriptor sets";
  do vkUpdateDescriptorSets dev descriptor_set (buffer vulkan_buffer) descriptor_type 0
       (buffer_size vulkan_buffer);
  ret (mkVulkanDescriptor PtrDangling descriptor_layout descriptor_pool descriptor_set).

Definition DestroyDescriptorSet (supported_device : SupportedDevice) (descriptor : VulkanDescriptor)
    : VkM unit :=
  do vkDestroyDescriptorPool (device supported_device) (descriptor_pool descriptor);
  vkDestroyDescriptorSetLayout (device supported_device) (descriptor_layout descriptor).

(** ** Specifications *)

Section Spec.
Context (e : Env) (ok : Outcome -> Prop) (Hok : fail_ok e ok).

(** [CreateDescriptorSet] creates the layout [n], the pool [n + 1] (its
    one set now taken) and the set [n + 2], which refers to the buffer. *)
Lemma wp_CreateDescriptorSet sd vb ty dp g qf qh m Q s :
  let d := device sd in
  let n := vs_next s in
  vs_objs s !! d = Some (mkObj dp true (IDevice g qf qh)) ->
  vs_objs s !! buffer vb = Some (mkObj d true (IBuffer (buffer_size vb) (Some m))) ->
  (d < n)%N -> (buffer vb < n)%N -> 0 < buffer_size vb ->
  (forall s', vs_objs s' = <[(n + 2)%N := mkObj (n + 1) true (IDescriptorSet n (Some (buffer vb)))]>
                (<[(n + 1)%N := mkObj d true (IDescriptorPool ty 0)]>
                  (<[n := mkObj d true (IDescriptorSetLayout ty)]> (vs_objs s))) ->
              vs_next s' = (n + 3)%N ->
              Q (mkVulkanDescriptor PtrDangling n (n + 1) (n + 2)) s') ->
  wp e ok (CreateDescriptorSet sd vb ty) Q s.
Proof.
  cbv zeta. intros Hd Hb Hdn Hbn Hsz HQ. unfold CreateDescriptorSet. wp_run.
  eapply wp_vkCreateDescriptorSetLayout; [done|]. wp_branch; wp_check Hok. wp_run.
  eapply wp_vkCreateDescriptorPool; [solve_lookup|lia|]. wp_branch; wp_check Hok. wp_run.
  eapply wp_vkAllocateDescriptorSets; [solve_lookup|solve_lookup|solve_lookup|lia|].
  wp_branch; wp_check Hok. wp_run.
  eapply wp_vkUpdateDescriptorSets; [solve_lookup..|done|]. wp_run. simpl.
  replace (vs_next s + 1 + 1)%N with (vs_next s + 2)%N by lia. apply HQ; simpl; [solve_map_eq|lia].
Qed.

(** [DestroyDescriptorSet] destroys the pool, which frees the set, then
    the layout. *)
Lemma wp_DestroyDescriptorSet sd desc dp g qf qh pty free sl b lty Q s :
  let d := device sd in
  let pool := descriptor_pool desc in
  let st := descriptor_set desc in
  let layout := descriptor_layout desc in
  vs_objs s !! d = Some (mkObj dp true (IDevice g qf qh)) ->
  vs_objs s !! pool = Some (mkObj d true (IDescriptorPool pty free)) ->
  vs_objs s !! st = Some (mkObj pool true (IDescriptorSet sl b)) ->
  vs_objs s !! layout = Some (mkObj d true (IDescriptorSetLayout lty)) ->
  no_pending (vs_objs s) -> only_child (vs_objs s) pool st -> childless (vs_objs s) layout ->
  (forall s', vs_objs s' = <[layout := mkObj d false (IDescriptorSetLayout lty)]>
                (<[pool := mkObj d false (IDescriptorPool pty free)]>
                  (<[st := mkObj pool false (IDescriptorSet sl b)]> (vs_objs s))) -> Q tt s') ->
  wp e ok (DestroyDescriptorSet sd desc) Q s.
Proof.
  cbv zeta. intros Hd Hp Hs Hl Hn Ho Hc HQ.
  assert (descriptor_pool desc <> descriptor_set desc) by (intros E; rewrite E in Hp; congruence).
  assert (descriptor_layout desc <> descriptor_set desc) by (intros E; rewrite E in Hl; congruence).
  assert (descriptor_layout desc <> descriptor_pool desc) by (intros E; rewrite E in Hl; congruence).
  assert (descriptor_layout desc <> device sd) by (intros E; rewrite E in Hl; congruence).
  assert (descriptor_pool desc <> device sd) by (intros E; rewrite E in Hp; congruence).
  assert (descriptor_set desc <> device sd) by (intros E; rewrite E in Hs; congruence).
  unfold DestroyDescriptorSet. wp_run.
  eapply wp_vkDestroyDescriptorPool; [|exact Hd|exact Hp|exact Hs|exact Hn|exact Ho|]; [done|].
  eapply wp_vkDestroyDescriptorSetLayout; [solve_lookup|solve_lookup|by apply childless_kill, childless_kill|].
  by apply HQ.
Qed.
End Spec.

(** ** Properties *)

(** C17: [CreateDescriptorSet] on a live device with a bound buffer
    creates, from the next free handle [n] on, the set layout, a pool
    for one set, and the set, allocated from the pool and written with
    the buffer; any other end is an assertion of the program after a
    call the driver failed. *)
Theorem CreateDescriptorSet_spec e ok sd vb ty dp g qf qh m s :
  fail_ok e ok ->
  vs_objs s !! device sd = Some (mkObj dp true (IDevice g qf qh)) ->
  vs_objs s !! buffer vb = Some (mkObj (device sd) true (IBuffer (buffer_size vb) (Some m))) ->
  (device sd < vs_next s)%N -> (buffer vb < vs_next s)%N -> 0 < buffer_size vb ->
  wp e ok (CreateDescriptorSet sd vb ty)
    (fun desc s' => desc = mkVulkanDescriptor PtrDangling (vs_next s) (vs_next s + 1) (vs_next s + 2) /\
       vs_objs s' = <[(vs_next s + 2)%N := mkObj (vs_next s + 1) true
                                              (IDescriptorSet (vs_next s) (Some (buffer vb)))]>
                      (<[(vs_next s + 1)%N := mkObj (device sd) true (IDescriptorPool ty 0)]>
                        (<[vs_next s := mkObj (device sd) true (IDescriptorSetLayout ty)]> (vs_objs s))) /\
       vs_next s' = (vs_next s + 3)%N) s.
Proof.
  intros Hok Hd Hb Hdn Hbn Hsz.
  eapply wp_CreateDescriptorSet; [exact Hok|exact Hd|exact Hb|exact Hdn|exact Hbn|exact Hsz|].
  by intros s' H1 H2.
Qed.

(** ** Witnesses *)

Lemma CreateDescriptorSet_spec_witness :
  fail_ok env_ok assert_stop /\
  vs_objs s_full !! 3%N = Some (mkObj 1 true (IDevice 0 1 4)) /\
  vs_objs s_full !! 5%N = Some (mkObj 3 true (IBuffer 16 (Some 6%N))) /\
  (3 < vs_next s_full)%N /\ (5 < vs_next s_full)%N /\ 0 < 16 /\
  wp env_ok assert_stop (CreateDescriptorSet sd_ok (mkVulkanBuffer 16 5 6) VK_DESCRIPTOR_TYPE_STORAGE_BUFFER)
    (fun desc s' => desc = mkVulkanDescriptor PtrDangling 16 17 18 /\
       vs_objs s' = <[18%N := mkObj 17 true (IDescriptorSet 16 (Some 5%N))]>
                      (<[17%N := mkObj 3 true (IDescriptorPool VK_DESCRIPTOR_TYPE_STORAGE_BUFFER 0)]>
                        (<[16%N := mkObj 3 true (IDescriptorSetLayout VK_DESCRIPTOR_TYPE_STORAGE_BUFFER)]>
                          (vs_objs s_full))) /\
       vs_next s' = 19%N) s_full.
Proof.
  pose proof (fail_ok_assert_stop env_ok) as Hok.
  assert (Hd : vs_objs s_full !! 3%N = Some (mkObj 1 true (IDevice 0 1 4))) by reflexivity.
  assert (Hb : vs_objs s_full !! 5%N = Some (mkObj 3 true (IBuffer 16 (Some 6%N)))) by reflexivity.
  assert (Hn1 : (3 < vs_next s_full)%N) by (simpl; lia).
  assert (Hn2 : (5 < vs_next s_full)%N) by (simpl; lia).
  assert (Hs : 0 < 16) by lia.
  split_and!; [exact Hok|exact Hd|exact Hb|exact Hn1|exact Hn2|exact Hs|].
  exact (CreateDescriptorSet_spec env_ok assert_stop sd_ok (mkVulkanBuffer 16 5 6) _ _ _ _ _ _ s_full
           Hok Hd Hb Hn1 Hn2 Hs).
Defined.

End Descriptor.
