(* ===== verification/Shader.v ===== *)
(** * Reading the compute shader file

    [ReadShaderFile] (src/Vulkan/VulkanPipeline.cpp): the file is read
    into a buffer whose size is rounded up to a multiple of 4 and padded
    with zero bytes, and the buffer is handed to the driver as an array
    of [uint32_t] (little-endian). *)

From Stdlib Require Import ZArith Lia QArith Qround Strings.Byte.
From stdpp Require Import base list option gmap strings.
From S2P Require Import Prelude VkTypes VkApi VkFacts Machines.

Module Shader.
Import Machines.

(** [long(ceil(filesize / 4.0)) * 4]: the division is exact in [double]
    for any file smaller than 2^53 bytes, so it is modelled by the
    rational [filesize / 4]. *)
Definition padded_size (filesize : Z) : Z := Qceiling (filesize # 4) * 4.

Definition byte_val (b : byte) : Z := Z.of_N (Byte.to_N b).

(** Four bytes read as one little-endian [uint32_t]. *)
Definition le_word (b0 b1 b2 b3 : byte) : Z :=
  byte_val b0 + 256 * byte_val b1 + 65536 * byte_val b2 + 16777216 * byte_val b3.

(** [(uint32_t * )str]: the buffer as consecutive words. *)
Fixpoint words_of_bytes (bs : list byte) : list Z :=
  match bs with
  | b0 :: b1 :: b2 :: b3 :: rest => le_word b0 b1 b2 b3 :: words_of_bytes rest
  | _ => []
  end.

(** The file's contents, [None] when [fopen] fails; the result is
    [(length, code)]: the padded size in bytes (the out-parameter
    [length], a [uint32_t]) and the words of the buffer. *)
Definition ReadShaderFile (filename : string) : VkM (Z * list Z) :=
  do e <- vk_env;
  match env_shader_file e filename with
  | None => stop (AssertFailed "Could not find or open shader file")
  | Some contents =>
      let filesize := Z.of_nat (length contents) in
      let filesizepadded := padded_size filesize in
      let str := contents ++ repeat Byte.x00 (Z.to_nat (filesizepadded - filesize)) in
      ret (to_u32 filesizepadded, words_of_bytes str)
  end.

(** The inverse direction, to state byte for byte what the driver
    receives: a word as its four little-endian bytes. *)
Definition byte_of_Z (z : Z) : byte :=
  match Byte.of_N (Z.to_N (z mod 256)) with Some b => b | None => Byte.x00 end.

Definition bytes_of_word (w : Z) : list byte :=
  [byte_of_Z w; byte_of_Z (w / 256); byte_of_Z (w / 65536); byte_of_Z (w / 16777216)].

Definition bytes_of_words (ws : list Z) : list byte := ws ≫= bytes_of_word.

(** The buffer [ReadShaderFile] builds from the file's contents. *)
Definition padded_contents (contents : list byte) : list byte :=
  let n := Z.of_nat (length contents) in
  contents ++ repeat Byte.x00 (Z.to_nat (padded_size n - n)).

(** A SPIR-V file as the driver accepts it: it starts with the magic
    number, and its size fits the [uint32_t] [length]. *)
Definition spirv_file (contents : list byte) : Prop :=
  (exists rest, contents = [x03; x02; x23; x07] ++ rest) /\
  Z.of_nat (length contents) + 4 <= u32_modulus.

(** ** Properties *)

(** The [ceil] of the quotient, in integer arithmetic. *)
Lemma padded_size_eq n : padded_size n = (n + 3) / 4 * 4.
Proof. unfold padded_size, Qceiling, Qfloor. simpl. Z.div_mod_to_equations. lia. Qed.

(** Bounds of the padded size. *)
Lemma padded_size_bounds n :
  0 <= n -> padded_size n mod 4 = 0 /\ n <= padded_size n < n + 4.
Proof. intros Hn. rewrite padded_size_eq. Z.div_mod_to_equations. lia. Qed.

(** C6: the padded size is the least multiple of 4 that holds the file. *)
Theorem padded_size_spec n :
  0 <= n -> padded_size n mod 4 = 0 /\ n <= padded_size n < n + 4.
Proof. exact (padded_size_bounds n). Qed.

Lemma byte_val_range b : 0 <= byte_val b <= 255.
Proof. unfold byte_val. pose proof (Byte.to_N_bounded b). lia. Qed.

Lemma byte_of_Z_val b k : byte_of_Z (byte_val b + 256 * k) = b.
Proof.
  unfold byte_of_Z, byte_val. pose proof (Byte.to_N_bounded b).
  replace ((Z.of_N (Byte.to_N b) + 256 * k) mod 256) with (Z.of_N (Byte.to_N b)) by
    (Z.div_mod_to_equations; lia).
  rewrite N2Z.id, Byte.of_to_N. done.
Qed.

Lemma bytes_of_le_word b0 b1 b2 b3 : bytes_of_word (le_word b0 b1 b2 b3) = [b0; b1; b2; b3].
Proof.
  pose proof (byte_val_range b0). pose proof (byte_val_range b1).
  pose proof (byte_val_range b2). pose proof (byte_val_range b3).
  unfold bytes_of_word, le_word.
  set (v0 := byte_val b0). set (v1 := byte_val b1). set (v2 := byte_val b2). set (v3 := byte_val b3).
  replace (v0 + 256 * v1 + 65536 * v2 + 16777216 * v3) with
    (v0 + 256 * (v1 + 256 * v2 + 65536 * v3)) by lia.
  replace ((v0 + 256 * (v1 + 256 * v2 + 65536 * v3)) / 256) with
    (v1 + 256 * (v2 + 256 * v3)) by (Z.div_mod_to_equations; lia).
  replace ((v0 + 256 * (v1 + 256 * v2 + 65536 * v3)) / 65536) with
    (v2 + 256 * v3) by (Z.div_mod_to_equations; lia).
  replace ((v0 + 256 * (v1 + 256 * v2 + 65536 * v3)) / 16777216) with
    (v3 + 256 * 0) by (Z.div_mod_to_equations; lia).
  unfold v0, v1, v2, v3. by rewrite !byte_of_Z_val.
Qed.

Lemma bytes_of_words_cons w ws : bytes_of_words (w :: ws) = bytes_of_word w ++ bytes_of_words ws.
Proof. reflexivity. Qed.

(** Bytes to words and back. *)
Lemma bytes_of_words_of_bytes bs :
  (length bs mod 4 = 0)%nat -> bytes_of_words (words_of_bytes bs) = bs.
Proof.
  intros Hm. remember (length bs / 4)%nat as n eqn:Hn.
  assert (Hlen : length bs = (4 * n)%nat) by (subst; pose proof (Nat.div_mod_eq (length bs) 4); lia).
  clear Hm Hn. revert bs Hlen. induction n as [|n IH]; intros bs Hlen.
  - by destruct bs.
  - destruct bs as [|b0 [|b1 [|b2 [|b3 bs]]]]; simpl in Hlen; try lia.
    cbn [words_of_bytes]. rewrite bytes_of_words_cons, bytes_of_le_word, IH by lia. done.
Qed.

Lemma length_words_of_bytes bs : length (words_of_bytes bs) = (length bs / 4)%nat.
Proof.
  induction bs as [bs IH] using (induction_ltof1 _ (@length _)).
  destruct bs as [|b0 [|b1 [|b2 [|b3 bs]]]]; try reflexivity.
  cbn [words_of_bytes length]. rewrite IH by (unfold ltof; simpl; lia).
  transitivity ((length bs + 1 * 4) / 4)%nat; [rewrite Nat.div_add; lia | f_equal; lia].
Qed.

Lemma length_padded_contents contents :
  let n := Z.of_nat (length contents) in
  length (padded_contents contents) = Z.to_nat (padded_size n).
Proof.
  intros n. destruct (padded_size_bounds n) as [Hmod Hbd]; [lia|].
  unfold padded_contents. rewrite length_app, repeat_length. fold n. lia.
Qed.

Lemma length_padded_words contents :
  4 * Z.of_nat (length (words_of_bytes (padded_contents contents))) =
  padded_size (Z.of_nat (length contents)).
Proof.
  destruct (padded_size_bounds (Z.of_nat (length contents))) as [Hmod Hbd]; [lia|].
  rewrite length_words_of_bytes, length_padded_contents.
  rewrite Nat2Z.inj_div, Z2Nat.id by lia. simpl. pose proof (Z.div_mod (padded_size (Z.of_nat (length contents))) 4). lia.
Qed.

Lemma ReadShaderFile_eval e s filename contents :
  env_shader_file e filename = Some contents ->
  ReadShaderFile filename e s =
  Ok (to_u32 (padded_size (Z.of_nat (length contents))), words_of_bytes (padded_contents contents)) s.
Proof. intros Hf. unfold ReadShaderFile. vk_unfold. by rewrite Hf. Qed.

(** What [vkCreateShaderModule] asks of the code of a SPIR-V file. *)
Lemma spirv_file_code contents :
  spirv_file contents ->
  let size := to_u32 (padded_size (Z.of_nat (length contents))) in
  let code := words_of_bytes (padded_contents contents) in
  0 < size /\ size mod 4 = 0 /\ size <= 4 * Z.of_nat (length code) /\ head code = Some SPIRV_MAGIC.
Proof.
  intros [[rest Hc] Hlen] size code.
  set (n := Z.of_nat (length contents)) in *.
  destruct (padded_size_bounds n) as [Hmod Hbd]; [lia|].
  assert (Hn : 4 <= n) by (unfold n; rewrite Hc; simpl; lia).
  assert (Hs : size = padded_size n) by (apply to_u32_small; unfold in_u32; lia).
  rewrite Hs. unfold code. rewrite length_padded_words. fold n.
  split; [lia|]. split; [done|]. split; [lia|].
  unfold padded_contents. rewrite Hc. reflexivity.
Qed.

(** [vkCreateShaderModule] keeps [codeSize / 4] words: for a SPIR-V file
    that is the whole of the code [ReadShaderFile] built. *)
Lemma spirv_file_module_code contents :
  spirv_file contents ->
  let size := to_u32 (padded_size (Z.of_nat (length contents))) in
  let code := words_of_bytes (padded_contents contents) in
  take (Z.to_nat (size / 4)) code = code.
Proof.
  intros [_ Hlen] size code.
  destruct (padded_size_bounds (Z.of_nat (length contents))) as [_ Hbd]; [lia|].
  assert (Hs : size = 4 * Z.of_nat (length code)).
  { unfold size, code. rewrite length_padded_words. apply to_u32_small. unfold in_u32. lia. }
  rewrite Hs, Z.mul_comm, Z.div_mul, Nat2Z.id by lia. apply take_ge. lia.
Qed.

(** C21: [ReadShaderFile] returns the padded size and the code words: the
    words are, byte for byte, the file followed by zero bytes up to the
    padded size, and there are exactly [padded / 4] of them. *)
Theorem ReadShaderFile_spec e s filename contents :
  env_shader_file e filename = Some contents ->
  let n := Z.of_nat (length contents) in
  exists code, ReadShaderFile filename e s = Ok (to_u32 (padded_size n), code) s /\
    bytes_of_words code = contents ++ repeat Byte.x00 (Z.to_nat (padded_size n - n)) /\
    4 * Z.of_nat (length code) = padded_size n.
Proof.
  intros Hf n. unfold ReadShaderFile. vk_unfold. rewrite Hf.
  change (Z.of_nat (length contents)) with n.
  eexists. split; [reflexivity|].
  destruct (padded_size_bounds n) as [Hmod Hbd]; [lia|].
  assert (Hlen : length (contents ++ repeat Byte.x00 (Z.to_nat (padded_size n - n))) =
                 Z.to_nat (padded_size n)) by (rewrite length_app, repeat_length; lia).
  split.
  - apply bytes_of_words_of_bytes. rewrite Hlen.
    apply Nat2Z.inj. rewrite Nat2Z.inj_mod, Z2Nat.id by lia. simpl. lia.
  - rewrite length_words_of_bytes, Hlen. rewrite Nat2Z.inj_div, Z2Nat.id by lia. simpl.
    pose proof (Z.div_mod (padded_size n) 4). lia.
Qed.

(** ** Witnesses *)

Lemma padded_size_spec_witness :
  0 <= 5 /\ padded_size 5 mod 4 = 0 /\ 5 <= padded_size 5 < 5 + 4.
Proof. split; [lia | apply padded_size_spec; lia]. Defined.

Lemma ReadShaderFile_spec_witness :
  env_shader_file env_ok "comp.spv" = Some spirv_header /\
  let n := Z.of_nat (length spirv_header) in
  exists code, ReadShaderFile "comp.spv" env_ok vk_init = Ok (to_u32 (padded_size n), code) vk_init /\
    bytes_of_words code = spirv_header ++ repeat Byte.x00 (Z.to_nat (padded_size n - n)) /\
    4 * Z.of_nat (length code) = padded_size n.
Proof.
  assert (H : env_shader_file env_ok "comp.spv" = Some spirv_header) by reflexivity.
  split; [exact H | exact (ReadShaderFile_spec _ _ _ _ H)].
Defined.

End Shader.
