(* ===== verification/Pipeline.v ===== *)
(** * The compute pipeline

    src/Vulkan/VulkanPipeline.h and VulkanPipeline.cpp: [CreatePipeline]
    reads the shader, creates its module, a pipeline layout with the
    descriptor set layout, and the compute pipeline with entry point
    ["main"]; [DestroyPipeline] destroys the three objects. *)

From Stdlib Require Import ZArith Lia.
From stdpp Require Import base list option gmap strings.
From S2P Require Import Prelude VkTypes VkApi VkFacts VkCalls Machines Device Buffer Descriptor Shader.

Module Pipeline.
Import Machines Device Descriptor Shader.

Record VulkanPipeline := mkVulkanPipeline {
  shader_module : N;
  pipeline_layout : N;
  pipeline : N;
}.

(** The host copy of the code is deleted after the module is created;
    host memory is not modelled. *)
Definition CreatePipeline (supported_device : SupportedDevice) (descriptor : VulkanDescriptor)
    (shader_path : string) : VkM VulkanPipeline :=
  let dev := device supported_device in
  do '(file_length, code) <- ReadShaderFile shader_path;
  do '(result, compute_shader_module) <- vkCreateShaderModule dev file_length code;
  do c_assert (is_success result) "Could not create shader module";
  do '(result, pipeline_layout) <- vkCreatePipelineLayout dev (descriptor_layout descriptor);
  do c_assert (is_success result) "Could not create pipeline layout";
  do '(result, pipeline) <- vkCreateComputePipelines dev compute_shader_module pipeline_layout "main";
  do c_assert (is_success result) "Could not create vulkan pipeline";
  ret (mkVulkanPipeline compute_shader_module pipeline_layout pipeline).

(** The layout is destroyed before the pipeline that uses it. *)
Definition DestroyPipeline (supported_device : SupportedDevice) (pipeline : VulkanPipeline)
    : VkM unit :=
  do vkDestroyShaderModule (device supported_device) (shader_module pipeline);
  do vkDestroyPipelineLayout (device supported_device) (pipeline_layout pipeline);
  vkDestroyPipeline (device supported_device) (Pipeline.pipeline pipeline).

(** ** Specifications *)

Section Spec.
Context (e : Env) (ok : Outcome -> Prop) (Hok : fail_ok e ok).

(** With a SPIR-V file, [CreatePipeline] creates the shader module [n],
    the pipeline layout [n + 1] over the descriptor set layout, and the
    pipeline [n + 2]. *)
Lemma wp_CreatePipeline sd desc path contents dp g qf qh lty Q s :
  let d := device sd in
  let n := vs_next s in
  vs_objs s !! d = Some (mkObj dp true (IDevice g qf qh)) ->
  vs_objs s !! descriptor_layout desc = Some (mkObj d true (IDescriptorSetLayout lty)) ->
  (d < n)%N -> (descriptor_layout desc < n)%N ->
  env_shader_file e path = Some contents -> spirv_file contents ->
  (forall s', vs_objs s' = <[(n + 2)%N := mkObj d true (IPipeline n (n + 1))]>
                 (<[(n + 1)%N := mkObj d true (IPipelineLayout (descriptor_layout desc))]>
                   (<[n := mkObj d true (IShaderModule (words_of_bytes (padded_contents contents)))]>
                     (vs_objs s))) ->
              vs_next s' = (n + 3)%N ->
              Q (mkVulkanPipeline n (n + 1) (n + 2)) s') ->
  wp e ok (CreatePipeline sd desc path) Q s.
Proof.
  cbv zeta. intros Hd Hl Hdn Hln Hf Hsp HQ.
  destruct (spirv_file_code _ Hsp) as (H1 & H2 & H3 & H4).
  pose proof (spirv_file_module_code _ Hsp) as Hcode.
  unfold CreatePipeline. wp_run. eapply wp_eval; [by apply ReadShaderFile_eval|]. cbv beta iota.
  wp_run. eapply wp_vkCreateShaderModule; [done..|]. rewrite Hcode. wp_branch; wp_check Hok. wp_run.
  eapply wp_vkCreatePipelineLayout; [solve_lookup|solve_lookup|]. wp_branch; wp_check Hok. wp_run.
  eapply wp_vkCreateComputePipelines; [solve_lookup..|]. wp_branch; wp_check Hok. wp_run.
  simpl. replace (vs_next s + 1 + 1)%N with (vs_next s + 2)%N by lia. eapply HQ; simpl; [solve_map_eq|lia].
Qed.

(** An empty shader file is padded to [0] bytes: [CreatePipeline] breaks
    [vkCreateShaderModule]'s rule that [codeSize] is positive. *)
Lemma wp_CreatePipeline_empty sd desc path dp g qf qh Q s :
  vs_objs s !! device sd = Some (mkObj dp true (IDevice g qf qh)) ->
  env_shader_file e path = Some [] ->
  ok (InvalidUsage "VUID-VkShaderModuleCreateInfo-codeSize-01085") ->
  wp e ok (CreatePipeline sd desc path) Q s.
Proof.
  intros Hd Hf Hinv. unfold CreatePipeline. apply wp_bind.
  eapply wp_eval; [by apply ReadShaderFile_eval|]. cbv beta iota.
  apply wp_bind. by eapply wp_vkCreateShaderModule_empty.
Qed.

(** [DestroyPipeline] destroys the module, the layout, then the
    pipeline. *)
Lemma wp_DestroyPipeline sd vp dp g qf qh words sl pm pl Q s :
  let d := device sd in
  vs_objs s !! d = Some (mkObj dp true (IDevice g qf qh)) ->
  vs_objs s !! shader_module vp = Some (mkObj d true (IShaderModule words)) ->
  vs_objs s !! pipeline_layout vp = Some (mkObj d true (IPipelineLayout sl)) ->
  vs_objs s !! pipeline vp = Some (mkObj d true (IPipeline pm pl)) ->
  no_pending (vs_objs s) -> childless (vs_objs s) (shader_module vp) ->
  childless (vs_objs s) (pipeline_layout vp) -> childless (vs_objs s) (pipeline vp) ->
  (forall s', vs_objs s' = <[pipeline vp := mkObj d false (IPipeline pm pl)]>
                (<[pipeline_layout vp := mkObj d false (IPipelineLayout sl)]>
                  (<[shader_module vp := mkObj d false (IShaderModule words)]> (vs_objs s))) -> Q tt s') ->
  wp e ok (DestroyPipeline sd vp) Q s.
Proof.
  cbv zeta. intros Hd Hm Hl Hp Hn Hcm Hcl Hcp HQ.
  assert (shader_module vp <> device sd) by (intros E; rewrite E in Hm; congruence).
  assert (pipeline_layout vp <> device sd) by (intros E; rewrite E in Hl; congruence).
  assert (shader_module vp <> pipeline_layout vp) by (intros E; rewrite E in Hm; congruence).
  assert (shader_module vp <> pipeline vp) by (intros E; rewrite E in Hm; congruence).
  assert (pipeline_layout vp <> pipeline vp) by (intros E; rewrite E in Hl; congruence).
  unfold DestroyPipeline. wp_run. eapply wp_vkDestroyShaderModule; [done..|]. wp_run.
  eapply wp_vkDestroyPipelineLayout; [solve_lookup|solve_lookup|solve_shape|]. wp_run.
  eapply wp_vkDestroyPipeline; [solve_lookup|solve_lookup|solve_shape|solve_shape|].
  by apply HQ.
Qed.
End Spec.

(** C18: [CreatePipeline] on a live device, with the set layout of a
    descriptor and a valid SPIR-V file, creates, from the next free
    handle [n] on, the shader module holding all of the file's bytes,
    zero-padded to whole words, as little-endian words, the
    pipeline layout of the set layout, and the compute pipeline of both;
    any other end is an assertion of the program after a call the
    driver failed. *)
Theorem CreatePipeline_spec e ok sd desc path contents dp g qf qh lty s :
  fail_ok e ok ->
  vs_objs s !! device sd = Some (mkObj dp true (IDevice g qf qh)) ->
  vs_objs s !! descriptor_layout desc = Some (mkObj (device sd) true (IDescriptorSetLayout lty)) ->
  (device sd < vs_next s)%N -> (descriptor_layout desc < vs_next s)%N ->
  env_shader_file e path = Some contents -> spirv_file contents ->
  wp e ok (CreatePipeline sd desc path)
    (fun vp s' => vp = mkVulkanPipeline (vs_next s) (vs_next s + 1) (vs_next s + 2) /\
       vs_objs s' = <[(vs_next s + 2)%N := mkObj (device sd) true (IPipeline (vs_next s) (vs_next s + 1))]>
                      (<[(vs_next s + 1)%N := mkObj (device sd) true (IPipelineLayout (descriptor_layout desc))]>
                        (<[vs_next s := mkObj (device sd) true
                            (IShaderModule (words_of_bytes (padded_contents contents)))]> (vs_objs s))) /\
       vs_next s' = (vs_next s + 3)%N) s.
Proof.
  intros Hok Hd Hl Hdn Hln Hf Hsp.
  eapply wp_CreatePipeline; [exact Hok|exact Hd|exact Hl|exact Hdn|exact Hln|exact Hf|exact Hsp|].
  intros s' H1 H2. done.
Qed.

Lemma CreatePipeline_spec_witness :
  fail_ok env_ok assert_stop /\
  vs_objs s_full !! 3%N = Some (mkObj 1 true (IDevice 0 1 4)) /\
  vs_objs s_full !! 7%N = Some (mkObj 3 true (IDescriptorSetLayout VK_DESCRIPTOR_TYPE_STORAGE_BUFFER)) /\
  (3 < vs_next s_full)%N /\ (7 < vs_next s_full)%N /\
  env_shader_file env_ok "comp.spv" = Some spirv_header /\ spirv_file spirv_header /\
  wp env_ok assert_stop (CreatePipeline sd_ok (mkVulkanDescriptor PtrDangling 7 8 9) "comp.spv")
    (fun vp s' => vp = mkVulkanPipeline 16 17 18 /\
       vs_objs s' = <[18%N := mkObj 3 true (IPipeline 16 17)]>
                      (<[17%N := mkObj 3 true (IPipelineLayout 7)]>
                        (<[16%N := mkObj 3 true
                            (IShaderModule (words_of_bytes (padded_contents spirv_header)))]> (vs_objs s_full))) /\
       vs_next s' = 19%N) s_full.
Proof.
  pose proof (fail_ok_assert_stop env_ok) as Hok.
  assert (Hd : vs_objs s_full !! 3%N = Some (mkObj 1 true (IDevice 0 1 4))) by reflexivity.
  assert (Hl : vs_objs s_full !! 7%N = Some (mkObj 3 true (IDescriptorSetLayout VK_DESCRIPTOR_TYPE_STORAGE_BUFFER)))
    by reflexivity.
  assert (Hn1 : (3 < vs_next s_full)%N) by (simpl; lia).
  assert (Hn2 : (7 < vs_next s_full)%N) by (simpl; lia).
  assert (Hf : env_shader_file env_ok "comp.spv" = Some spirv_header) by reflexivity.
  assert (Hsp : spirv_file spirv_header) by (split; [by eexists|vm_compute; discriminate]).
  split_and!; [exact Hok|exact Hd|exact Hl|exact Hn1|exact Hn2|exact Hf|exact Hsp|].
  exact (CreatePipeline_spec env_ok assert_stop sd_ok (mkVulkanDescriptor PtrDangling 7 8 9) "comp.spv"
           spirv_header _ _ _ _ _ s_full Hok Hd Hl Hn1 Hn2 Hf Hsp).
Defined.

End Pipeline.
