(* ===== verification/CommandBuffer.v ===== *)
(** * The command buffer that records the dispatch

    src/Vulkan/VulkanCommandBuffer.h and VulkanCommandBuffer.cpp:
    [CreateCommandBuffer] creates a pool for the device's queue family,
    allocates one primary command buffer, and records: bind pipeline,
    bind descriptor set, dispatch, end. [DestroyCommandBuffer] frees the
    command buffer and destroys the pool. *)

From Stdlib Require Import ZArith Lia.
From stdpp Require Import base list option gmap strings.
From S2P Require Import Prelude VkTypes VkApi VkFacts VkCalls Machines Device Buffer Descriptor Pipeline.

Module CommandBuffer.
Import Machines Device Descriptor Pipeline.

Record VulkanCommandBuffer := mkVulkanCommandBuffer {
  command_pool : N;
  command_buffer : N;
}.

(** The pool is created with [flags = 0] and the buffer is begun with
    [VK_COMMAND_BUFFER_USAGE_ONE_TIME_SUBMIT_BIT]. *)
Definition CreateCommandBuffer (supported_device : SupportedDevice) (pipeline : VulkanPipeline)
    (descriptor : VulkanDescriptor) (work_group_x work_group_y work_group_z : Z)
    : VkM VulkanCommandBuffer :=
  let dev := device supported_device in
  do '(result, command_pool) <- vkCreateCommandPool dev (queue_index supported_device) 0;
  do c_assert (is_success result) "Could not create command pool";
  do '(result, command_buffer) <- vkAllocateCommandBuffers dev command_pool;
  do c_assert (is_success result) "Could not allocate command buffers";
  do result <- vkBeginCommandBuffer command_buffer true;
  do c_assert (is_success result) "Could not begin command buffer";
  do vkCmdBindPipeline command_buffer (Pipeline.pipeline pipeline);
  do vkCmdBindDescriptorSets command_buffer (pipeline_layout pipeline) (descriptor_set descriptor);
  do vkCmdDispatch command_buffer work_group_x work_group_y work_group_z;
  do result <- vkEndCommandBuffer command_buffer;
  do c_assert (is_success result) "Could not end command buffer";
  ret (mkVulkanCommandBuffer command_pool command_buffer).

Definition DestroyCommandBuffer (supported_device : SupportedDevice)
    (command_buffer : VulkanCommandBuffer) : VkM unit :=
  do vkFreeCommandBuffers (device supported_device) (command_pool command_buffer)
       (CommandBuffer.command_buffer command_buffer);
  vkDestroyCommandPool (device supported_device) (command_pool command_buffer).

(** ** Specifications *)

Section Spec.
Context (e : Env) (ok : Outcome -> Prop) (Hok : fail_ok e ok).

(** [CreateCommandBuffer] creates the pool [n] and the command buffer
    [n + 1], and records the binds and the one dispatch: the command
    buffer ends executable, to be submitted once. *)
Lemma wp_CreateCommandBuffer sd vp desc x y z dp g gpu qh module sl spool sty free b Q s :
  let d := device sd in
  let n := vs_next s in
  vs_objs s !! d = Some (mkObj dp true (IDevice g (queue_index sd) qh)) -> env_gpus e !! g = Some gpu ->
  vs_objs s !! pipeline vp = Some (mkObj d true (IPipeline module (pipeline_layout vp))) ->
  vs_objs s !! pipeline_layout vp = Some (mkObj d true (IPipelineLayout sl)) ->
  vs_objs s !! descriptor_set desc = Some (mkObj spool true (IDescriptorSet sl (Some b))) ->
  vs_objs s !! spool = Some (mkObj d true (IDescriptorPool sty free)) ->
  (d < n)%N -> (pipeline vp < n)%N -> (pipeline_layout vp < n)%N -> (descriptor_set desc < n)%N ->
  (spool < n)%N ->
  (let '(mx, my, mz) := maxComputeWorkGroupCount (pd_properties gpu) in
   0 <= x <= mx /\ 0 <= y <= my /\ 0 <= z <= mz) ->
  (forall s', vs_objs s' = <[(n + 1)%N := mkObj n true (ICommandBuffer CmdExecutable true (Some (pipeline vp))
                                             (Some (descriptor_set desc)) [(x, y, z)] None)]>
                 (<[n := mkObj d true (ICommandPool (queue_index sd))]> (vs_objs s)) ->
              vs_next s' = (n + 2)%N ->
              Q (mkVulkanCommandBuffer n (n + 1)) s') ->
  wp e ok (CreateCommandBuffer sd vp desc x y z) Q s.
Proof.
  cbv zeta. intros Hd Hg Hp Hl Hs Hsp Hdn Hpn Hln Hsn Hspn Hlim HQ. unfold CreateCommandBuffer. wp_run.
  eapply wp_vkCreateCommandPool; [done|]. wp_branch; wp_check Hok. wp_run.
  eapply wp_vkAllocateCommandBuffers; [solve_lookup|solve_lookup|]. wp_branch; wp_check Hok. wp_run.
  eapply wp_vkBeginCommandBuffer; [solve_lookup|solve_lookup|]. wp_branch; wp_check Hok. wp_run.
  eapply wp_vkCmdBindPipeline; [solve_lookup..|]. wp_run.
  eapply wp_vkCmdBindDescriptorSets; [solve_lookup..|]. wp_run.
  eapply wp_vkCmdDispatch; [solve_lookup|solve_lookup|solve_lookup|exact Hg
                          |solve_lookup|solve_lookup|solve_lookup|solve_lookup|exact Hlim|]. wp_run.
  eapply wp_vkEndCommandBuffer; [solve_lookup|solve_lookup|]. wp_branch; wp_check Hok. wp_run.
  apply HQ; simpl; [solve_map_eq|lia].
Qed.

(** [DestroyCommandBuffer] frees the command buffer, then destroys the
    pool. *)
Lemma wp_DestroyCommandBuffer sd vcb dp g qf qh pf st ot pipe set ds fence Q s :
  let d := device sd in
  let pool := command_pool vcb in
  let cb := command_buffer vcb in
  vs_objs s !! d = Some (mkObj dp true (IDevice g qf qh)) ->
  vs_objs s !! pool = Some (mkObj d true (ICommandPool pf)) ->
  vs_objs s !! cb = Some (mkObj pool true (ICommandBuffer st ot pipe set ds fence)) ->
  no_pending (vs_objs s) -> childless (vs_objs s) cb -> only_child (vs_objs s) pool cb ->
  (forall s', vs_objs s' = <[pool := mkObj d false (ICommandPool pf)]>
                (<[cb := mkObj pool false (ICommandBuffer st ot pipe set ds fence)]> (vs_objs s)) -> Q tt s') ->
  wp e ok (DestroyCommandBuffer sd vcb) Q s.
Proof.
  cbv zeta. intros Hd Hp Hc Hn Hcc Ho HQ.
  assert (command_buffer vcb <> device sd) by (intros E; rewrite E in Hc; congruence).
  assert (command_buffer vcb <> command_pool vcb) by (intros E; rewrite E in Hc; congruence).
  unfold DestroyCommandBuffer. wp_run. eapply wp_vkFreeCommandBuffers; [done..|]. wp_run.
  eapply wp_vkDestroyCommandPool; [solve_lookup|solve_lookup|simpl; by eapply no_pending_kill
                               |simpl; by apply only_child_killed|].
  by apply HQ.
Qed.
End Spec.

(** C19: [CreateCommandBuffer] on a live device, with a pipeline whose
    layout is the one of a written descriptor set, and group counts
    within the GPU's limits, creates the command pool at the next free
    handle [n] and the command buffer at [n + 1], recorded for one
    submission: the pipeline bound, the set bound, one dispatch of
    [(x, y, z)] groups, executable; any other end is an assertion of the
    program after a call the driver failed. *)
Theorem CreateCommandBuffer_spec e ok sd vp desc x y z dp g gpu qh module sl spool sty free b s :
  fail_ok e ok ->
  vs_objs s !! device sd = Some (mkObj dp true (IDevice g (queue_index sd) qh)) -> env_gpus e !! g = Some gpu ->
  vs_objs s !! pipeline vp = Some (mkObj (device sd) true (IPipeline module (pipeline_layout vp))) ->
  vs_objs s !! pipeline_layout vp = Some (mkObj (device sd) true (IPipelineLayout sl)) ->
  vs_objs s !! descriptor_set desc = Some (mkObj spool true (IDescriptorSet sl (Some b))) ->
  vs_objs s !! spool = Some (mkObj (device sd) true (IDescriptorPool sty free)) ->
  (device sd < vs_next s)%N -> (pipeline vp < vs_next s)%N -> (pipeline_layout vp < vs_next s)%N ->
  (descriptor_set desc < vs_next s)%N -> (spool < vs_next s)%N ->
  (let '(mx, my, mz) := maxComputeWorkGroupCount (pd_properties gpu) in
   0 <= x <= mx /\ 0 <= y <= my /\ 0 <= z <= mz) ->
  wp e ok (CreateCommandBuffer sd vp desc x y z)
    (fun vcb s' => vcb = mkVulkanCommandBuffer (vs_next s) (vs_next s + 1) /\
       vs_objs s' = <[(vs_next s + 1)%N := mkObj (vs_next s) true
                         (ICommandBuffer CmdExecutable true (Some (pipeline vp)) (Some (descriptor_set desc))
                            [(x, y, z)] None)]>
                      (<[vs_next s := mkObj (device sd) true (ICommandPool (queue_index sd))]> (vs_objs s)) /\
       vs_next s' = (vs_next s + 2)%N) s.
Proof.
  intros Hok Hd Hg Hp Hl Hst Hsp Hn1 Hn2 Hn3 Hn4 Hn5 Hlim.
  eapply wp_CreateCommandBuffer; [exact Hok|exact Hd|exact Hg|exact Hp|exact Hl|exact Hst|exact Hsp
    |exact Hn1|exact Hn2|exact Hn3|exact Hn4|exact Hn5|exact Hlim|].
  by intros s' H1 H2.
Qed.

Lemma CreateCommandBuffer_spec_witness :
  fail_ok env_ok assert_stop /\
  vs_objs s_full !! 3%N = Some (mkObj 1 true (IDevice 0 1 4)) /\ env_gpus env_ok !! 0%nat = Some gpu_ok /\
  vs_objs s_full !! 12%N = Some (mkObj 3 true (IPipeline 10 11)) /\
  vs_objs s_full !! 11%N = Some (mkObj 3 true (IPipelineLayout 7)) /\
  vs_objs s_full !! 9%N = Some (mkObj 8 true (IDescriptorSet 7 (Some 5%N))) /\
  vs_objs s_full !! 8%N = Some (mkObj 3 true (IDescriptorPool VK_DESCRIPTOR_TYPE_STORAGE_BUFFER 0)) /\
  (3 < 16)%N /\ (12 < 16)%N /\ (11 < 16)%N /\ (9 < 16)%N /\ (8 < 16)%N /\
  (0 <= 100 <= 65535 /\ 0 <= 75 <= 65535 /\ 0 <= 1 <= 65535) /\
  wp env_ok assert_stop (CreateCommandBuffer sd_ok (mkVulkanPipeline 10 11 12)
                           (mkVulkanDescriptor PtrDangling 7 8 9) 100 75 1)
    (fun vcb s' => vcb = mkVulkanCommandBuffer 16 17 /\
       vs_objs s' = <[17%N := mkObj 16 true (ICommandBuffer CmdExecutable true (Some 12%N) (Some 9%N)
                                                 [(100, 75, 1)] None)]>
                      (<[16%N := mkObj 3 true (ICommandPool 1)]> (vs_objs s_full)) /\
       vs_next s' = 18%N) s_full.
Proof.
  pose proof (fail_ok_assert_stop env_ok) as Hok.
  assert (Hd : vs_objs s_full !! 3%N = Some (mkObj 1 true (IDevice 0 1 4))) by reflexivity.
  assert (Hg : env_gpus env_ok !! 0%nat = Some gpu_ok) by reflexivity.
  assert (Hp : vs_objs s_full !! 12%N = Some (mkObj 3 true (IPipeline 10 11))) by reflexivity.
  assert (Hl : vs_objs s_full !! 11%N = Some (mkObj 3 true (IPipelineLayout 7))) by reflexivity.
  assert (Hst : vs_objs s_full !! 9%N = Some (mkObj 8 true (IDescriptorSet 7 (Some 5%N)))) by reflexivity.
  assert (Hsp : vs_objs s_full !! 8%N = Some (mkObj 3 true (IDescriptorPool VK_DESCRIPTOR_TYPE_STORAGE_BUFFER 0)))
    by reflexivity.
  assert (Hlim : 0 <= 100 <= 65535 /\ 0 <= 75 <= 65535 /\ 0 <= 1 <= 65535) by lia.
  split_and!; try assumption; try lia.
  exact (CreateCommandBuffer_spec env_ok assert_stop sd_ok (mkVulkanPipeline 10 11 12)
           (mkVulkanDescriptor PtrDangling 7 8 9) 100 75 1 _ _ _ _ _ _ _ _ _ _ s_full
           Hok Hd Hg Hp Hl Hst Hsp ltac:(simpl; lia) ltac:(simpl; lia) ltac:(simpl; lia)
           ltac:(simpl; lia) ltac:(simpl; lia) Hlim).
Defined.

End CommandBuffer.
