(* ===== verification/Fence.v ===== *)
(** * Fences and submission

    src/Vulkan/VulkanFence.h, VulkanFence.cpp ([CreateFence],
    [DestroyFence]) and src/Vulkan/VulkanSubmit.h ([SubmitCommand]). *)

From Stdlib Require Import ZArith Lia.
From stdpp Require Import base list option gmap strings.
From S2P Require Import Prelude VkTypes VkApi VkFacts VkCalls Machines Device Buffer Descriptor Pipeline CommandBuffer.

Module Fence.
Import Machines Device CommandBuffer.

(** The fence is created unsignaled ([flags = 0]). *)
Definition CreateFence (supported_device : SupportedDevice) : VkM N :=
  do '(result, fence) <- vkCreateFence (device supported_device) false;
  do c_assert (is_success result) "result == VK_SUCCESS";
  ret fence.

Definition DestroyFence (supported_device : SupportedDevice) (fence : N) : VkM unit :=
  vkDestroyFence (device supported_device) fence.

(** One submission of one command buffer to the device's queue. *)
Definition SubmitCommand (supported_device : SupportedDevice)
    (command_buffer : VulkanCommandBuffer) (fence : N) : VkM unit :=
  do result <- vkQueueSubmit (queue supported_device)
                 (CommandBuffer.command_buffer command_buffer) fence;
  c_assert (is_success result) "result == VK_SUCCESS".

(** ** Specifications *)

Section Spec.
Context (e : Env) (ok : Outcome -> Prop) (Hok : fail_ok e ok).

Lemma wp_CreateFence sd dp g qf qh Q s :
  vs_objs s !! device sd = Some (mkObj dp true (IDevice g qf qh)) ->
  (forall s', vs_objs s' = <[vs_next s := mkObj (device sd) true (IFence false [])]> (vs_objs s) ->
              vs_next s' = (vs_next s + 1)%N -> Q (vs_next s) s') ->
  wp e ok (CreateFence sd) Q s.
Proof.
  intros Hd HQ. unfold CreateFence. wp_run. eapply wp_vkCreateFence; [done|].
  wp_branch; wp_check Hok. wp_run. by apply HQ.
Qed.

Lemma wp_DestroyFence sd fence dp g qf qh sig sub Q s :
  vs_objs s !! device sd = Some (mkObj dp true (IDevice g qf qh)) ->
  vs_objs s !! fence = Some (mkObj (device sd) true (IFence sig sub)) ->
  no_pending (vs_objs s) -> childless (vs_objs s) fence ->
  (forall s', vs_objs s' = <[fence := mkObj (device sd) false (IFence sig sub)]> (vs_objs s) -> Q tt s') ->
  wp e ok (DestroyFence sd fence) Q s.
Proof. intros Hd Hf Hn Hc HQ. unfold DestroyFence. eapply wp_vkDestroyFence; [done..|]. by apply HQ. Qed.

(** [SubmitCommand] submits the executable command buffer with the
    fence to the device's queue: the command buffer is pending until the
    fence signals. *)
Lemma wp_SubmitCommand sd vcb fence qf ot pipe set ds Q s :
  let cb := CommandBuffer.command_buffer vcb in
  let pool := command_pool vcb in
  vs_objs s !! queue sd = Some (mkObj (device sd) true (IQueue qf)) ->
  vs_objs s !! cb = Some (mkObj pool true (ICommandBuffer CmdExecutable ot pipe set ds None)) ->
  vs_objs s !! pool = Some (mkObj (device sd) true (ICommandPool qf)) ->
  vs_objs s !! fence = Some (mkObj (device sd) true (IFence false [])) ->
  refs_live s pipe set = true ->
  (forall s', vs_objs s' = <[fence := mkObj (device sd) true (IFence false [cb])]>
                (<[cb := mkObj pool true (ICommandBuffer CmdPending ot pipe set ds (Some fence))]> (vs_objs s)) ->
              Q tt s') ->
  wp e ok (SubmitCommand sd vcb fence) Q s.
Proof.
  cbv zeta. intros Hq Hc Hp Hf Hr HQ. unfold SubmitCommand. wp_run.
  eapply wp_vkQueueSubmit; [done..|]. wp_branch.
  - apply wp_c_assert; [done|]. intros _. by eapply Hok.
  - apply wp_c_assert; [intros _; by apply HQ|done].
Qed.
End Spec.

(** C20: [SubmitCommand] of an executable command buffer, whose pool
    belongs to the queue's family and whose pipeline and set are alive,
    with an unsignaled fence, makes the command buffer pending on the
    fence and the fence wait for it; any other end is an assertion of
    the program after a call the driver failed. *)
Theorem SubmitCommand_spec e ok sd vcb fence qf ot pipe set ds s :
  fail_ok e ok ->
  vs_objs s !! queue sd = Some (mkObj (device sd) true (IQueue qf)) ->
  vs_objs s !! CommandBuffer.command_buffer vcb =
    Some (mkObj (command_pool vcb) true (ICommandBuffer CmdExecutable ot pipe set ds None)) ->
  vs_objs s !! command_pool vcb = Some (mkObj (device sd) true (ICommandPool qf)) ->
  vs_objs s !! fence = Some (mkObj (device sd) true (IFence false [])) ->
  refs_live s pipe set = true ->
  wp e ok (SubmitCommand sd vcb fence)
    (fun _ s' => vs_objs s' =
       <[fence := mkObj (device sd) true (IFence false [CommandBuffer.command_buffer vcb])]>
         (<[CommandBuffer.command_buffer vcb :=
              mkObj (command_pool vcb) true (ICommandBuffer CmdPending ot pipe set ds (Some fence))]>
            (vs_objs s))) s.
Proof.
  intros Hok Hq Hc Hp Hf Hr.
  eapply wp_SubmitCommand; [exact Hok|exact Hq|exact Hc|exact Hp|exact Hf|exact Hr|]. by intros s' H1.
Qed.

Lemma SubmitCommand_spec_witness :
  fail_ok env_ok assert_stop /\
  vs_objs s_full !! 4%N = Some (mkObj 3 true (IQueue 1)) /\
  vs_objs s_full !! 14%N =
    Some (mkObj 13 true (ICommandBuffer CmdExecutable true (Some 12%N) (Some 9%N) [(100, 75, 1)] None)) /\
  vs_objs s_full !! 13%N = Some (mkObj 3 true (ICommandPool 1)) /\
  vs_objs s_full !! 15%N = Some (mkObj 3 true (IFence false [])) /\
  refs_live s_full (Some 12%N) (Some 9%N) = true /\
  wp env_ok assert_stop (SubmitCommand sd_ok (mkVulkanCommandBuffer 13 14) 15)
    (fun _ s' => vs_objs s' =
       <[15%N := mkObj 3 true (IFence false [14%N])]>
         (<[14%N := mkObj 13 true (ICommandBuffer CmdPending true (Some 12%N) (Some 9%N) [(100, 75, 1)]
                                     (Some 15%N))]> (vs_objs s_full))) s_full.
Proof.
  pose proof (fail_ok_assert_stop env_ok) as Hok.
  assert (Hq : vs_objs s_full !! 4%N = Some (mkObj 3 true (IQueue 1))) by reflexivity.
  assert (Hc : vs_objs s_full !! 14%N =
    Some (mkObj 13 true (ICommandBuffer CmdExecutable true (Some 12%N) (Some 9%N) [(100, 75, 1)] None)))
    by reflexivity.
  assert (Hp : vs_objs s_full !! 13%N = Some (mkObj 3 true (ICommandPool 1))) by reflexivity.
  assert (Hf : vs_objs s_full !! 15%N = Some (mkObj 3 true (IFence false []))) by reflexivity.
  assert (Hr : refs_live s_full (Some 12%N) (Some 9%N) = true) by (vm_compute; reflexivity).
  split_and!; [exact Hok|exact Hq|exact Hc|exact Hp|exact Hf|exact Hr|].
  exact (SubmitCommand_spec env_ok assert_stop sd_ok (mkVulkanCommandBuffer 13 14) 15 _ _ _ _ _ s_full
           Hok Hq Hc Hp Hf Hr).
Defined.

End Fence.
