(* ===== verification/Main.v ===== *)
(** * The program: [main] and [SaveRenderedImage]

    src/main.cpp. [main] runs the lifecycle chain: instance, devices,
    buffer, descriptor set, pipeline, command buffer, fence, submit,
    wait, read back, and the teardown in reverse order, with the list
    of GPUs printed after their creation and a key awaited at the end.
    The globals [WIDTH], [HEIGHT] and [work_groups] are a [Config]; the
    program is [main config_src]. The PNG encoder (lodepng, not in the
    repository) is the environment's [env_png_error]: what a run
    produces is the [PngFile] event of its trace, with the RGBA bytes
    [SaveRenderedImage] hands to [lodepng::encode]. *)

From Stdlib Require Import ZArith Lia QArith Qround.
From stdpp Require Import base list option gmap strings pretty.
From S2P Require Import Prelude VkTypes VkApi VkFacts Machines Instance Device Buffer.
From S2P Require Import Descriptor Shader Pipeline CommandBuffer Fence.

Module Main.
Import Machines Instance Device Buffer Descriptor Pipeline CommandBuffer Fence.

(** [uint32_t WIDTH = 3200; uint32_t HEIGHT = 2400; uint32_t work_groups = 32;] *)
Record Config := mkConfig {
  WIDTH : Z;
  HEIGHT : Z;
  work_groups : Z;
}.

Definition config_src : Config := mkConfig 3200 2400 32.

(** [(uint32_t)ceil(WIDTH / float(work_groups))] in IEEE binary32, round
    to nearest, ties to even. [round_bits X sticky] rounds the value
    [X + f] (an integer [X] plus a fraction [0 <= f < 1], [sticky] when
    [f <> 0]) to 24 significant bits, the significand of a [float]; an
    [X] below [2^24] is a float already. *)
Definition round_bits (X : Z) (sticky : bool) : Z :=
  let s := Z.log2 X - 23 in
  if s <=? 0 then X
  else
    let q := X / 2 ^ s in
    let r := X mod 2 ^ s in
    let half := 2 ^ (s - 1) in
    let up := ((half <? r) || ((r =? half) && (sticky || Z.odd q)))%bool in
    (if up then q + 1 else q) * 2 ^ s.

(** The conversion of a [uint32_t] to [float] (of [WIDTH] by the usual
    arithmetic conversions, and of [work_groups] by [float(...)]). *)
Definition float_of_uint32 (n : Z) : Z := round_bits n false.

(** The quotient is computed with [frac_bits] bits after the point: for
    operands below [2^33] its integer part has at least 31 bits, more
    than the 25 a binary32 rounding looks at, so [round_bits] with the
    sticky bit of the remainder rounds the exact quotient. *)
Definition frac_bits : Z := 64.

(** [ceil(N / W)] of two floats [N >= 0] and [W > 0] holding integers:
    the quotient rounded to a float, then its ceiling. *)
Definition ceil_div_float (N W : Z) : Z :=
  let X := N * 2 ^ frac_bits / W in
  let sticky := negb (N * 2 ^ frac_bits mod W =? 0) in
  (round_bits X sticky + 2 ^ frac_bits - 1) / 2 ^ frac_bits.

Definition dispatch_groups (n wg : Z) : Z :=
  ceil_div_float (float_of_uint32 n) (float_of_uint32 wg).

(** [(unsigned char)(255.0f * v)]: the conversion truncates toward zero
    and is undefined when the truncated value is not in [0, 255]. *)
Definition Qtrunc (v : Q) : Z := if Qle_bool 0 v then Qfloor v else Qceiling v.

Definition to_uchar (v : Q) : VkM Z :=
  let t := Qtrunc v in
  if bool_decide (0 <= t <= 255) then ret t
  else stop (UndefinedBehaviour "float to unsigned char conversion out of range").

(** The four [push_back]s of one pixel, in the order r, g, b, a. *)
Definition pixel_bytes (p : Pixel) : VkM (list Z) :=
  do r <- to_uchar (255 * px_r p);
  do g <- to_uchar (255 * px_g p);
  do b <- to_uchar (255 * px_b p);
  do a <- to_uchar (255 * px_a p);
  ret [r; g; b; a].

(** The loop [for (int i = 0; i < WIDTH*HEIGHT; i += 1)], from pixel [i]
    on, [count] iterations. (The [int] counter could only overflow past
    2^31 pixels, far beyond any mapping of a [uint32_t]-sized buffer,
    where the read itself is already undefined.) *)
Fixpoint read_image (memory : N) (i : Z) (count : nat) : VkM (list Z) :=
  match count with
  | O => ret []
  | S count' =>
      do p <- host_read_pixel memory i;
      do bytes <- pixel_bytes p;
      do rest <- read_image memory (i + 1) count';
      ret (bytes ++ rest)
  end.

(** [printf("encoder error %d: %s", error, lodepng_error_text(error))]
    (lodepng's error codes are below 2^31, where [%d] prints the
    [unsigned] as it is). *)
Definition encoder_error_message (error : N) (text : string) : string :=
  "encoder error " +:+ pretty error +:+ ": " +:+ text.

(** The result of [vkMapMemory] is not checked. *)
Definition SaveRenderedImage (cfg : Config) (bufferSize : Z) (device : N) (bufferMemory : N)
    : VkM unit :=
  do vkMapMemory device bufferMemory 0 bufferSize;
  do image <- read_image bufferMemory 0 (Z.to_nat (to_u32 (WIDTH cfg * HEIGHT cfg)));
  do vkUnmapMemory device bufferMemory;
  do error <- lodepng_encode "mandelbrot.png" image (WIDTH cfg) (HEIGHT cfg);
  if negb (error =? 0)%N then
    do text <- lodepng_error_text error;
    emit (Stdout (encoder_error_message error text))
  else ret tt.

(** [std::cout << "      " << gpus[i].device_properties.deviceName << std::endl;]
    for each [i < gpus.size()]. *)
Definition print_gpus (gpus : list SupportedDevice) : VkM unit :=
  iterM (fun gpu => cout_line ("      " +:+ deviceName (device_properties gpu))) gpus.

(** [gpus[0]] *)
Definition first_gpu (gpus : list SupportedDevice) : VkM SupportedDevice :=
  match gpus with
  | g :: _ => ret g
  | [] => stop (UndefinedBehaviour "gpus[0] on an empty vector")
  end.

Definition wait_timeout : Z := 1000000000000.

(** [sizeof(Pixel) * WIDTH * HEIGHT] is computed in [size_t] and passed
    as a [uint32_t]; [SaveRenderedImage] is passed the literal
    [sizeof(Pixel) * 3200 * 2400]. The result of [vkWaitForFences] is
    not checked. *)
Definition main (cfg : Config) : VkM Z :=
  do instance <- CreateVulkanInstance;
  do gpus <- CreateDevices (vulkan_instance instance);
  do cout_line "Supported GPUs: ";
  do print_gpus gpus;
  do gpu0 <- first_gpu gpus;
  do buffer_object <- CreateBuffer gpu0 (to_u32 (sizeof_Pixel * WIDTH cfg * HEIGHT cfg))
                        (Z.lor VK_MEMORY_PROPERTY_HOST_VISIBLE_BIT
                               VK_MEMORY_PROPERTY_HOST_COHERENT_BIT);
  do descriptor_set <- CreateDescriptorSet gpu0 buffer_object VK_DESCRIPTOR_TYPE_STORAGE_BUFFER;
  do pipeline <- CreatePipeline gpu0 descriptor_set "comp.spv";
  do command_buffer <- CreateCommandBuffer gpu0 pipeline descriptor_set
                         (dispatch_groups (WIDTH cfg) (work_groups cfg))
                         (dispatch_groups (HEIGHT cfg) (work_groups cfg)) 1;
  do fence <- CreateFence gpu0;
  do SubmitCommand gpu0 command_buffer fence;
  do vkWaitForFences (device gpu0) fence wait_timeout;
  do SaveRenderedImage cfg (to_u32 (sizeof_Pixel * 3200 * 2400)) (device gpu0)
       (device_memory buffer_object);
  do DestroyFence gpu0 fence;
  do DestroyCommandBuffer gpu0 command_buffer;
  do DestroyPipeline gpu0 pipeline;
  do DestroyDescriptorSet gpu0 descriptor_set;
  do DestroyBuffer gpu0 buffer_object;
  do DestroyDevices gpus;
  do DestroyVulkanInstance instance;
  do cin_get;
  ret 0.

(** ** Properties *)

Lemma round_bits_small X st : 0 <= X < 2 ^ 24 -> round_bits X st = X.
Proof.
  intros HX. unfold round_bits.
  assert (Z.log2 X <= 23).
  { destruct (Z.eq_dec X 0) as [->|]; [simpl; lia|].
    assert (Z.log2 X < 24) by (apply Z.log2_lt_pow2; lia). lia. }
  rewrite (proj2 (Z.leb_le _ _)) by lia. reflexivity.
Qed.

Lemma float_of_uint32_exact n : 0 <= n <= 2 ^ 24 -> float_of_uint32 n = n.
Proof.
  intros Hn. destruct (Z.eq_dec n (2 ^ 24)) as [->|].
  - reflexivity.
  - apply round_bits_small. lia.
Qed.


Lemma round_bits_spec X st :
  2 ^ 24 <= X ->
  let s := Z.log2 X - 23 in
  1 <= s /\ 2 ^ 23 * 2 ^ s <= X < 2 ^ 24 * 2 ^ s /\
  exists m, round_bits X st = m * 2 ^ s /\
    ((m = X / 2 ^ s /\ X mod 2 ^ s <= 2 ^ (s - 1) /\
      (X mod 2 ^ s = 2 ^ (s - 1) -> st = false)) \/
     (m = X / 2 ^ s + 1 /\ 2 ^ (s - 1) <= X mod 2 ^ s)).
Proof.
  intros HX s.
  assert (Hl : 24 <= Z.log2 X) by (apply Z.log2_le_pow2; lia).
  pose proof (Z.log2_spec X ltac:(lia)) as [Hlo Hhi].
  assert (Hs : 1 <= s) by lia.
  assert (E1 : 2 ^ Z.log2 X = 2 ^ 23 * 2 ^ s)
    by (rewrite <- Z.pow_add_r by lia; f_equal; lia).
  assert (E2 : 2 ^ Z.succ (Z.log2 X) = 2 ^ 24 * 2 ^ s)
    by (rewrite <- Z.pow_add_r by lia; f_equal; lia).
  assert (EP : 2 ^ s = 2 * 2 ^ (s - 1))
    by (rewrite <- Z.pow_succ_r by lia; f_equal; lia).
  split; [lia|]. split; [lia|].
  unfold round_bits. fold s. rewrite (proj2 (Z.leb_gt _ _)) by lia.
  eexists. split; [reflexivity|].
  pose proof (Z.mod_pos_bound X (2 ^ s) ltac:(lia)).
  destruct (Z.ltb_spec (2 ^ (s - 1)) (X mod 2 ^ s)); simpl; [right; lia|].
  destruct (Z.eqb_spec (X mod 2 ^ s) (2 ^ (s - 1))); simpl.
  - destruct st; simpl; [right; lia|].
    destruct (Z.odd (X / 2 ^ s)); [right; lia | left; auto].
  - left. split; [reflexivity|]. split; [lia|]. intros; contradiction.
Qed.

Lemma ceil_div_unique Y D c : 0 < D -> (c - 1) * D < Y <= c * D -> (Y + D - 1) / D = c.
Proof. intros HD HY. symmetry. apply Z.div_unique with (r := Y + D - 1 - c * D); lia. Qed.

Lemma ceil_bounds_down n wg c X rho P H T q r :
  0 < wg -> 0 < T -> 0 < H -> P = 2 * H -> wg < 2 * T ->
  (c - 1) * wg < n -> n * (P * T) = wg * X + rho -> 0 <= rho < wg ->
  X = P * q + r -> 0 <= r <= H -> (r = H -> rho = 0) ->
  (c - 1) * T < q.
Proof.
  intros Hwg HT HH -> HwT Hc HX Hrho -> Hr Hrh.
  destruct (Z.lt_ge_cases ((c - 1) * T) q) as [|Hq]; [assumption|exfalso].
  assert (A : wg * (2 * H * q) <= wg * (2 * H * ((c - 1) * T))) by (apply Z.mul_le_mono_nonneg_l; nia).
  assert (B : ((c - 1) * wg + 1) * (2 * H * T) <= n * (2 * H * T)) by (apply Z.mul_le_mono_nonneg_r; nia).
  assert (C : 2 * H * T <= wg * r + rho) by nia.
  destruct (Z.eq_dec r H) as [E|E].
  - specialize (Hrh E). subst r. nia.
  - assert (wg * r <= wg * (H - 1)) by (apply Z.mul_le_mono_nonneg_l; lia). nia.
Qed.

Lemma ceil_bounds_q n wg c X rho P T q r :
  0 < wg -> 0 < T -> 0 < P ->
  (c - 1) * wg < n <= c * wg -> n * (P * T) = wg * X + rho -> 0 <= rho < wg ->
  X = P * q + r -> 0 <= r < P ->
  (c - 1) * T <= q /\ q <= c * T /\ (1 <= r -> q < c * T).
Proof.
  intros Hwg HT HP [Hc1 Hc2] HX Hrho -> Hr.
  assert (A : (c - 1) * (P * T) <= P * q + r).
  { assert (wg * ((c - 1) * (P * T)) < wg * (P * q + r + 1)); [|nia].
    assert (((c - 1) * wg + 1) * (P * T) <= n * (P * T)) by (apply Z.mul_le_mono_nonneg_r; nia).
    nia. }
  assert (B : P * q + r <= c * (P * T)).
  { assert (wg * (P * q + r) <= wg * (c * (P * T))); [|nia].
    assert (n * (P * T) <= c * wg * (P * T)) by (apply Z.mul_le_mono_nonneg_r; nia).
    nia. }
  split; [|split]; [nia|nia|]. intros Hr1. nia.
Qed.

Lemma ceil_div_float_exact n wg :
  0 <= n < 2 ^ 24 -> 1 <= wg <= 2 ^ 24 ->
  ceil_div_float n wg = (n + wg - 1) / wg.
Proof.
  intros Hn Hwg. unfold ceil_div_float, frac_bits.
  set (c := (n + wg - 1) / wg).
  assert (Hc : (c - 1) * wg < n <= c * wg) by (subst c; Z.div_mod_to_equations; lia).
  destruct (Z.eq_dec n 0) as [->|Hn0].
  { rewrite Z.mul_0_l, Z.div_0_l, Zmod_0_l by lia.
    assert (c = 0) by (subst c; apply Z.div_small; lia). rewrite H. reflexivity. }
  set (X := n * 2 ^ 64 / wg). set (st := negb _).
  pose proof (Z.div_mod (n * 2 ^ 64) wg ltac:(lia)) as HXd. fold X in HXd.
  pose proof (Z.mod_pos_bound (n * 2 ^ 64) wg ltac:(lia)) as Hrho.
  set (rho := n * 2 ^ 64 mod wg) in *.
  assert (Hst : st = false -> rho = 0)
    by (subst st; destruct (Z.eqb_spec rho 0); simpl; congruence).
  assert (HX : 2 ^ 24 <= X).
  { subst X. apply Z.div_le_lower_bound; [lia|]. nia. }
  destruct (round_bits_spec X st HX) as (Hs & HXb & m & -> & Hm).
  set (s := Z.log2 X - 23) in *.
  assert (Hs64 : s <= 64).
  { assert (Z.log2 X < 88); [|lia]. apply Z.log2_lt_pow2; [lia|].
    subst X. apply Z.div_lt_upper_bound; [lia|]. nia. }
  set (P := 2 ^ s) in *. set (H := 2 ^ (s - 1)) in *.
  assert (EP : P = 2 * H) by (subst P H; rewrite <- Z.pow_succ_r by lia; f_equal; lia).
  assert (ET : 2 ^ 64 = P * 2 ^ (64 - s))
    by (subst P; rewrite <- Z.pow_add_r by lia; f_equal; lia).
  set (T := 2 ^ (64 - s)) in *. rewrite ET in *.
  assert (HT : 0 < T) by (subst T; apply Z.pow_pos_nonneg; lia).
  assert (HH : 0 < H) by (subst H; apply Z.pow_pos_nonneg; lia).
  pose proof (Z.div_mod X P ltac:(lia)) as HXP.
  pose proof (Z.mod_pos_bound X P ltac:(lia)) as HrP.
  set (q := X / P) in *. set (r := X mod P) in *.
  clearbody c X rho st s P H T q r.
  assert (Hwg2 : wg < 2 * T).
  { assert (wg * (2 ^ 23 * P) <= wg * X) by (apply Z.mul_le_mono_nonneg_l; lia).
    assert (n * (P * T) < 2 ^ 24 * (P * T)) by (apply Z.mul_lt_mono_pos_r; nia).
    nia. }
  destruct (ceil_bounds_q n wg c X rho P T q r) as (Q1 & Q2 & Q3); try lia.
  assert (Hm' : (c - 1) * T < m <= c * T).
  { destruct Hm as [(-> & Hr & Hrh) | (-> & Hr)].
    - split; [|lia]. apply (ceil_bounds_down n wg c X rho P H T q r); lia || auto.
    - lia. }
  apply ceil_div_unique; nia.
Qed.

(** C23: for a dimension below [2^24] pixels and a work-group size in
    [1, 2^24], the [float] computation of the work-group count is exact:
    it is the least number of groups of [work_groups] invocations that
    covers all [n] pixels. *)
Theorem dispatch_groups_spec n wg :
  0 <= n < 2 ^ 24 -> 1 <= wg <= 2 ^ 24 ->
  dispatch_groups n wg = (n + wg - 1) / wg /\
  n <= dispatch_groups n wg * wg < n + wg.
Proof.
  intros Hn Hwg. unfold dispatch_groups.
  rewrite !float_of_uint32_exact, ceil_div_float_exact by lia. split; [done|].
  Z.div_mod_to_equations. nia.
Qed.

(** An [X] of at most 24 significant bits is a float: [round_bits]
    leaves it unchanged. *)
Lemma round_bits_multiple X st :
  2 ^ 24 <= X -> X mod 2 ^ (Z.log2 X - 23) = 0 -> round_bits X st = X.
Proof.
  intros HX Hm. unfold round_bits.
  assert (Hl : 24 <= Z.log2 X) by (apply Z.log2_le_pow2; lia).
  rewrite (proj2 (Z.leb_gt _ _)) by lia. rewrite Hm.
  assert (0 < 2 ^ (Z.log2 X - 23 - 1)) by (apply Z.pow_pos_nonneg; lia).
  rewrite (proj2 (Z.ltb_ge _ _)), (proj2 (Z.eqb_neq _ _)) by lia. simpl.
  rewrite Z.mul_comm. symmetry. apply Z.div_exact; [|exact Hm].
  pose proof (Z.pow_pos_nonneg 2 (Z.log2 X - 23)). lia.
Qed.

(** A [uint32_t] [4k + 1] in [(2^24, 2^25)] lies halfway between the
    floats [4k] and [4k + 2]; ties go to the even significand, [4k]. *)
Lemma float_of_uint32_tie k :
  2 ^ 22 <= k < 2 ^ 23 -> float_of_uint32 (4 * k + 1) = 4 * k.
Proof.
  intros Hk. unfold float_of_uint32, round_bits.
  assert (Hl : Z.log2 (4 * k + 1) = 24) by (apply Z.log2_unique; lia).
  rewrite Hl. change (24 - 23) with 1. change (1 - 1) with 0. rewrite Z.pow_1_r, Z.pow_0_r.
  rewrite (proj2 (Z.leb_gt 1 0)) by lia.
  replace ((4 * k + 1) / 2) with (2 * k) by (apply Z.div_unique with 1; lia).
  replace ((4 * k + 1) mod 2) with 1 by (apply Z.mod_unique with (2 * k); lia).
  rewrite Z.odd_mul. simpl. lia.
Qed.

(** C24: past [2^24] the conversion of [WIDTH] to [float] rounds, and
    the work-group count can fall short: for every width [4k + 1] in
    [(2^24, 2^25)] and groups of one invocation, the dispatch has [4k]
    groups, and the last column of the image is never computed. *)
Theorem dispatch_groups_undercounts k :
  2 ^ 22 <= k < 2 ^ 23 ->
  dispatch_groups (4 * k + 1) 1 = 4 * k /\ dispatch_groups (4 * k + 1) 1 * 1 < 4 * k + 1.
Proof.
  intros Hk. unfold dispatch_groups.
  rewrite float_of_uint32_tie by lia. rewrite (float_of_uint32_exact 1) by lia.
  unfold ceil_div_float, frac_bits. rewrite Z.div_1_r, Z.mod_1_r. cbn [Z.eqb negb].
  assert (Hl : Z.log2 (4 * k * 2 ^ 64) - 23 = 65).
  { rewrite Z.log2_mul_pow2 by lia. assert (Z.log2 (4 * k) = 24) by (apply Z.log2_unique; lia). lia. }
  rewrite round_bits_multiple.
  - enough (E : (4 * k * 2 ^ 64 + 2 ^ 64 - 1) / 2 ^ 64 = 4 * k) by (rewrite E; lia).
    apply ceil_div_unique; lia.
  - pose proof (Z.pow_pos_nonneg 2 64). nia.
  - rewrite Hl. apply Z.mod_divide; [lia|]. exists (2 * k). lia.
Qed.

(** A channel in [0, 1] converts to the byte [floor(255 v)]. *)
Lemma to_uchar_floor (v : Q) e s :
  (0 <= v <= 1)%Q ->
  to_uchar (255 * v)%Q e s = Ok (Qfloor (255 * v)%Q) s /\ 0 <= Qfloor (255 * v)%Q <= 255.
Proof.
  intros [H0 H1].
  assert (Hlo : (0 <= 255 * v)%Q) by (apply Qmult_le_0_compat; [compute; discriminate|done]).
  assert (Hhi : (255 * v <= 255)%Q).
  { apply (Qle_trans _ (255 * 1)).
    - apply Qmult_le_l; [reflexivity|exact H1].
    - compute. discriminate. }
  assert (Hr : 0 <= Qfloor (255 * v)%Q <= 255).
  { split.
    - change 0%Z with (Qfloor 0). by apply Qfloor_resp_le.
    - change 255%Z with (Qfloor 255). by apply Qfloor_resp_le. }
  unfold to_uchar, Qtrunc. apply Qle_bool_iff in Hlo. rewrite Hlo.
  rewrite bool_decide_true by lia. done.
Qed.

(** C25: a channel value in [0, 1] becomes the byte [floor(255 v)], in
    [0, 255]. *)
Theorem to_uchar_in_range (v : Q) e s :
  (0 <= v <= 1)%Q ->
  to_uchar (255 * v)%Q e s = Ok (Qfloor (255 * v)%Q) s /\ 0 <= Qfloor (255 * v)%Q <= 255.
Proof. exact (to_uchar_floor v e s). Qed.

(** ** Witnesses *)

Lemma dispatch_groups_spec_witness :
  0 <= 3200 < 2 ^ 24 /\ 1 <= 32 <= 2 ^ 24 /\
  dispatch_groups 3200 32 = (3200 + 32 - 1) / 32 /\
  3200 <= dispatch_groups 3200 32 * 32 < 3200 + 32.
Proof. split; [lia|]. split; [lia|]. apply dispatch_groups_spec; lia. Defined.

Lemma dispatch_groups_undercounts_witness :
  2 ^ 22 <= 2 ^ 22 < 2 ^ 23 /\
  dispatch_groups (4 * 2 ^ 22 + 1) 1 = 4 * 2 ^ 22 /\ dispatch_groups (4 * 2 ^ 22 + 1) 1 * 1 < 4 * 2 ^ 22 + 1.
Proof. split; [lia|]. apply dispatch_groups_undercounts; lia. Defined.

Lemma to_uchar_in_range_witness :
  (0 <= 1 # 2 <= 1)%Q /\
  to_uchar (255 * (1 # 2))%Q env_ok vk_init = Ok (Qfloor (255 * (1 # 2))%Q) vk_init /\
  0 <= Qfloor (255 * (1 # 2))%Q <= 255.
Proof.
  assert (H : (0 <= 1 # 2 <= 1)%Q) by (split; compute; discriminate).
  split; [exact H | exact (to_uchar_in_range _ _ _ H)].
Defined.

End Main.
