(* ===== verification/MainSpec.v ===== *)
(** * What a run of [main] does

    The specification of src/main.cpp against the API: the image that
    [SaveRenderedImage] hands to the PNG encoder, the trace a run leaves
    ([main_output]), the machines on which [main config_src] is proved
    to run, and the proof, in phases (setup of the instance and devices
    with the list of GPUs printed, creation of the objects on the first
    GPU, the run, the teardown, the end), that on such a machine the run
    either returns 0 with that trace and no object alive, or stops on a
    failed assertion after a call the driver failed; and what the run
    does on the machines that are not capable. *)

From Stdlib Require Import ZArith Lia QArith Qround Strings.Byte.
From stdpp Require Import base list option gmap strings.
From S2P Require Import Prelude VkTypes VkApi VkFacts VkCalls DebugReport Machines Support Instance Device.
From S2P Require Import Buffer Descriptor Shader Pipeline CommandBuffer Fence Main.

Module MainSpec.
Import DebugReport Machines Instance Device Buffer Descriptor Shader Pipeline CommandBuffer Fence Main.

(** ** The image *)

(** [(unsigned char)(255.0f * v)] for a channel in [0, 1]. *)
Definition channel_byte (v : Q) : Z := Qfloor (255 * v).

Definition pixel_values (p : Pixel) : list Z :=
  [channel_byte (px_r p); channel_byte (px_g p); channel_byte (px_b p); channel_byte (px_a p)].

(** The RGBA bytes of pixels [i, i + count) of [out]. *)
Fixpoint image_bytes (out : nat -> Pixel) (i count : nat) : list Z :=
  match count with
  | O => []
  | S c => pixel_values (out i) ++ image_bytes out (S i) c
  end.

Definition channel_ok (v : Q) : Prop := (0 <= v <= 1)%Q.

Definition pixel_ok (p : Pixel) : Prop :=
  channel_ok (px_r p) /\ channel_ok (px_g p) /\ channel_ok (px_b p) /\ channel_ok (px_a p).

(** [(unsigned char)(255.0f * v)] is defined: the truncated value is a
    byte. *)
Definition channel_converts (v : Q) : Prop := 0 <= Qtrunc (255 * v) <= 255.

Definition pixel_converts (p : Pixel) : Prop :=
  channel_converts (px_r p) /\ channel_converts (px_g p) /\ channel_converts (px_b p) /\
  channel_converts (px_a p).

(** The driver never fails [vkMapMemory], whose result the program
    does not check. *)
Definition map_reliable (e : Env) : Prop :=
  forall n d m off size, env_fail e n (CallMapMemory d m off size) = false.

(** ** [main] in phases

    [main] as the composition of its phases, each taking the rest of
    the program as a continuation: creation of the objects on the first
    GPU, the run (submit, wait, read back), and their destruction. The
    composition is [main] itself ([main_phases]). *)

Definition main_create {A} (cfg : Config) (gpu0 : SupportedDevice)
    (k : VulkanBuffer -> VulkanDescriptor -> VulkanPipeline -> VulkanCommandBuffer -> N -> VkM A)
    : VkM A :=
  do buffer_object <- CreateBuffer gpu0 (to_u32 (sizeof_Pixel * WIDTH cfg * HEIGHT cfg))
                        (Z.lor VK_MEMORY_PROPERTY_HOST_VISIBLE_BIT VK_MEMORY_PROPERTY_HOST_COHERENT_BIT);
  do descriptor_set <- CreateDescriptorSet gpu0 buffer_object VK_DESCRIPTOR_TYPE_STORAGE_BUFFER;
  do pipeline <- CreatePipeline gpu0 descriptor_set "comp.spv";
  do command_buffer <- CreateCommandBuffer gpu0 pipeline descriptor_set
                         (dispatch_groups (WIDTH cfg) (work_groups cfg))
                         (dispatch_groups (HEIGHT cfg) (work_groups cfg)) 1;
  do fence <- CreateFence gpu0;
  k buffer_object descriptor_set pipeline command_buffer fence.

Definition main_run {A} (cfg : Config) (gpu0 : SupportedDevice) (buffer_object : VulkanBuffer)
    (command_buffer : VulkanCommandBuffer) (fence : N) (k : VkM A) : VkM A :=
  do SubmitCommand gpu0 command_buffer fence;
  do vkWaitForFences (device gpu0) fence wait_timeout;
  do SaveRenderedImage cfg (to_u32 (sizeof_Pixel * 3200 * 2400)) (device gpu0)
       (device_memory buffer_object);
  k.

Definition main_teardown {A} (gpu0 : SupportedDevice) (buffer_object : VulkanBuffer)
    (descriptor_set : VulkanDescriptor) (pipeline : VulkanPipeline)
    (command_buffer : VulkanCommandBuffer) (fence : N) (k : VkM A) : VkM A :=
  do DestroyFence gpu0 fence;
  do DestroyCommandBuffer gpu0 command_buffer;
  do DestroyPipeline gpu0 pipeline;
  do DestroyDescriptorSet gpu0 descriptor_set;
  do DestroyBuffer gpu0 buffer_object;
  k.

(** What the first GPU offers: the memory type [i] for the storage
    buffer, a driver that does not shrink the allocation below the
    buffer, and room for the dispatch. *)
Definition gpu_fits (cfg : Config) (p : PhysicalDeviceInfo) (i : nat) : Prop :=
  let size := to_u32 (sizeof_Pixel * WIDTH cfg * HEIGHT cfg) in
  (length (pd_memory_types p) <= 32)%nat /\
  first_index (memory_type_ok (pd_mem_type_bits p)
     (Z.lor VK_MEMORY_PROPERTY_HOST_VISIBLE_BIT VK_MEMORY_PROPERTY_HOST_COHERENT_BIT))
     (pd_memory_types p) = Some i /\
  0 < size <= pd_mem_req_size p size /\
  let '(mx, my, mz) := maxComputeWorkGroupCount (pd_properties p) in
  0 <= dispatch_groups (WIDTH cfg) (work_groups cfg) <= mx /\
  0 <= dispatch_groups (HEIGHT cfg) (work_groups cfg) <= my /\ 0 <= 1 <= mz.

(** The objects the creation phase adds from the fresh handle [n]. *)
Definition created_objs (cfg : Config) (e : Env) (d : N) (qi : Z) (p : PhysicalDeviceInfo) (i : nat)
    (words : list Z) (n : N) (objs : gmap N Obj) : gmap N Obj :=
  let size := to_u32 (sizeof_Pixel * WIDTH cfg * HEIGHT cfg) in
  <[(n + 10)%N := mkObj d true (IFence false [])]>
  (<[(n + 9)%N := mkObj (n + 8) true (ICommandBuffer CmdExecutable true (Some (n + 7)%N) (Some (n + 4)%N)
                     [(dispatch_groups (WIDTH cfg) (work_groups cfg),
                       dispatch_groups (HEIGHT cfg) (work_groups cfg), 1)] None)]>
  (<[(n + 8)%N := mkObj d true (ICommandPool qi)]>
  (<[(n + 7)%N := mkObj d true (IPipeline (n + 5) (n + 6))]>
  (<[(n + 6)%N := mkObj d true (IPipelineLayout (n + 2))]>
  (<[(n + 5)%N := mkObj d true (IShaderModule words)]>
  (<[(n + 4)%N := mkObj (n + 3) true (IDescriptorSet (n + 2) (Some n))]>
  (<[(n + 3)%N := mkObj d true (IDescriptorPool VK_DESCRIPTOR_TYPE_STORAGE_BUFFER 0)]>
  (<[(n + 2)%N := mkObj d true (IDescriptorSetLayout VK_DESCRIPTOR_TYPE_STORAGE_BUFFER)]>
  (<[n := mkObj d true (IBuffer size (Some (n + 1)%N))]>
  (<[(n + 1)%N := mkObj d true (IMemory (pd_mem_req_size p size) (Z.of_nat i) None
                                   (env_uninitialized e))]> objs)))))))))).

(** The table after the submission: the command buffer pending on the
    fence. *)
Definition submitted_objs (cfg : Config) (d n : N) (objs : gmap N Obj) : gmap N Obj :=
  let dims := [(dispatch_groups (WIDTH cfg) (work_groups cfg),
                dispatch_groups (HEIGHT cfg) (work_groups cfg), 1)] in
  <[(n + 10)%N := mkObj d true (IFence false [(n + 9)%N])]>
  (<[(n + 9)%N := mkObj (n + 8) true (ICommandBuffer CmdPending true (Some (n + 7)%N) (Some (n + 4)%N) dims
                                        (Some (n + 10)%N))]> objs).

(** The table after the run: the command buffer completed (invalid,
    being one-time-submit), the shader's output in the memory, the
    fence signaled. *)
Definition ran_objs (cfg : Config) (e : Env) (d : N) (p : PhysicalDeviceInfo) (i : nat)
    (n : N) (objs : gmap N Obj) : gmap N Obj :=
  let size := to_u32 (sizeof_Pixel * WIDTH cfg * HEIGHT cfg) in
  let dims := [(dispatch_groups (WIDTH cfg) (work_groups cfg),
                dispatch_groups (HEIGHT cfg) (work_groups cfg), 1)] in
  <[(n + 10)%N := mkObj d true (IFence true [])]>
  (<[(n + 1)%N := mkObj d true (IMemory (pd_mem_req_size p size) (Z.of_nat i) None (env_shader_output e))]>
  (<[(n + 9)%N := mkObj (n + 8) true (ICommandBuffer CmdInvalid true (Some (n + 7)%N) (Some (n + 4)%N) dims None)]>
  (submitted_objs cfg d n objs))).

(** The number of pixels [SaveRenderedImage] reads. *)
Definition pixel_count (cfg : Config) : nat := Z.to_nat (to_u32 (WIDTH cfg * HEIGHT cfg)).

(** The table after the setup: the instance [1], its callback [2], and
    from [3] on a device and its queue for each selected GPU. *)
Definition setup_objs (sel : list SupportedPhysicalDevice) : gmap N Obj :=
  devices_objs 3 sel (<[2%N := mkObj 1 true default_callback]>
                       (<[1%N := mkObj 0 true (IInstance instance_extension_names)]> ∅)).

(** The first fresh handle after the setup. *)
Definition setup_next (sel : list SupportedPhysicalDevice) : N := (3 + 2 * N.of_nat (length sel))%N.

(** [gpus[0]]: the device [3] and queue [4] of the first selected GPU. *)
Definition first_device (spd : SupportedPhysicalDevice) : SupportedDevice :=
  mkSupportedDevice (spd_physical_device spd) 3 (spd_queue_index spd) 4 (spd_device_properties spd).

(** What [main] runs after [gpus[0]]: the creation of the objects,
    the run and the teardown. *)
Definition main_after_setup (cfg : Config) (spd : SupportedPhysicalDevice)
    (rest : list SupportedPhysicalDevice) : VkM Z :=
  let sd := first_device spd in
  main_create cfg sd (fun bo ds pl cb f =>
    main_run cfg sd bo cb f
      (main_teardown sd bo ds pl cb f
        (do DestroyDevices (devices_of 3 (spd :: rest));
         do DestroyVulkanInstance (mkVulkanInstance 1 2);
         do cin_get;
         ret 0))).

(** What [main] runs after creating the objects on [gpus[0]]: the
    submission, the wait, the read back and the teardown, with the
    handles the creation returned. *)
Definition main_rest (cfg : Config) (spd : SupportedPhysicalDevice) (rest : list SupportedPhysicalDevice)
    : VkM Z :=
  let sd := first_device spd in
  let n := setup_next (spd :: rest) in
  let bo := mkVulkanBuffer (to_u32 (sizeof_Pixel * WIDTH cfg * HEIGHT cfg)) n (n + 1) in
  let cb := mkVulkanCommandBuffer (n + 8) (n + 9) in
  main_run cfg sd bo cb (n + 10)
    (main_teardown sd bo (mkVulkanDescriptor PtrDangling (n + 2) (n + 3) (n + 4))
      (mkVulkanPipeline (n + 5) (n + 6) (n + 7)) cb (n + 10)
      (do DestroyDevices (devices_of 3 (spd :: rest));
       do DestroyVulkanInstance (mkVulkanInstance 1 2);
       do cin_get;
       ret 0)).

(** ** What a run prints and writes *)

(** The list of GPUs [main] prints. *)
Definition gpu_lines (gpus : list SupportedDevice) : list IoEvent :=
  map (fun gpu => Stdout (("      " +:+ deviceName (device_properties gpu)) +:+ endl)) gpus.

(** What [SaveRenderedImage] leaves for the image [img]: the PNG file,
    or the encoder's error message. *)
Definition save_output (e : Env) (cfg : Config) (img : list Z) : IoEvent :=
  let error := env_png_error e img (WIDTH cfg) (HEIGHT cfg) in
  if (error =? 0)%N then PngFile "mandelbrot.png" img (WIDTH cfg) (HEIGHT cfg)
  else Stdout (encoder_error_message error (env_png_error_text e error)).

(** The whole trace of a run that returns, in order: the messages of
    the GPUs the selection rejects, the list of the selected ones, the
    PNG file of the shader's output (or the encoder's error), and the
    final key press. *)
Definition main_output (cfg : Config) (e : Env) : list IoEvent :=
  let devs := map (pair 1%N) (seq 0 (length (env_gpus e))) in
  selection_output e devs ++ [Stdout ("Supported GPUs: " +:+ endl)] ++
  gpu_lines (devices_of 3 (selected e devs)) ++
  [save_output e cfg (image_bytes (env_shader_output e) 0 (pixel_count cfg)); StdinGet].

(** ** The machines of the main theorem *)

(** The stops the main theorem allows: a failed assertion of the
    program, on a machine whose driver fails some call. *)
Definition failed_call_stop (e : Env) (o : Outcome) : Prop :=
  (exists msg, o = AssertFailed msg) /\ exists n c, env_fail e n c = true /\ checked_call c = true.

(** What the setup and the creation of the objects need: the
    instance's layer and extension, a first selected GPU [spd] (on the
    physical device [p]) with a host-visible coherent memory type [i]
    for the buffer and room for the dispatch, and a valid SPIR-V file. *)
Definition setup_ok (cfg : Config) (e : Env) (spd : SupportedPhysicalDevice)
    (rest : list SupportedPhysicalDevice) (p : PhysicalDeviceInfo) (i : nat) (contents : list byte)
    : Prop :=
  instance_ok e /\ families_bounded e /\
  selected e (map (pair 1%N) (seq 0 (length (env_gpus e)))) = spd :: rest /\
  env_gpus e !! (spd_physical_device spd).2 = Some p /\ gpu_fits cfg p i /\
  env_shader_file e "comp.spv" = Some contents /\ spirv_file contents.

(** The [sizeof(Pixel) * 3200 * 2400] bytes [SaveRenderedImage] maps
    lie in the allocation, and cover the pixels it reads. *)
Definition map_fits (cfg : Config) (p : PhysicalDeviceInfo) : Prop :=
  sizeof_Pixel * Z.of_nat (pixel_count cfg) <= to_u32 (sizeof_Pixel * 3200 * 2400) <=
    pd_mem_req_size p (to_u32 (sizeof_Pixel * WIDTH cfg * HEIGHT cfg)).

(** A machine on which [main cfg] has what it needs: the setup, a
    mapping inside the allocation, a GPU that finishes within the
    wait's timeout, a [vkMapMemory] that does not fail (its result is
    not checked) and a shader whose output channels lie in [0, 1] (the
    conversion to [unsigned char] is undefined otherwise). *)
Definition capable (cfg : Config) (e : Env) : Prop :=
  (exists spd rest p i contents, setup_ok cfg e spd rest p i contents /\ map_fits cfg p) /\
  map_reliable e /\ env_gpu_time e <= wait_timeout /\
  (forall j, (j < pixel_count cfg)%nat -> pixel_ok (env_shader_output e j)).

(** ** The table after the setup *)

(** Its handles lie in [[1, n)], [n] the next fresh one, as do the
    parents; no command buffer is pending; and the devices are alive,
    each with its queue as its only child. *)
Lemma setup_objs_facts sel :
  Forall (fun spd => (spd_physical_device spd).1 = 1%N) sel ->
  let n := (3 + 2 * N.of_nat (length sel))%N in
  map_Forall (fun k o => (1 <= k < n)%N /\ (o_parent o < n)%N /\ cmd_pending (o_info o) = false)
    (setup_objs sel) /\
  devices_live (setup_objs sel) 3 sel.
Proof.
  intros Hsel n. unfold setup_objs. split.
  - apply map_Forall_devices_objs.
    + apply map_Forall_insert_2; [simpl; split_and!; [lia|lia|lia|done]|].
      apply map_Forall_insert_2; [simpl; split_and!; [lia|lia|lia|done]|].
      apply map_Forall_empty.
    + intros j spd Hj. pose proof (lookup_lt_Some _ _ _ Hj).
      pose proof (Forall_lookup_1 _ _ _ _ Hsel Hj) as Hi. simpl in Hi.
      unfold device_obj, queue_obj. simpl. rewrite Hi. split_and!; try done; lia.
  - apply devices_objs_live.
    + apply map_Forall_insert_2; [simpl; lia|]. apply map_Forall_insert_2; [simpl; lia|].
      apply map_Forall_empty.
    + eapply Forall_impl; [exact Hsel|]. intros x Hx. simpl in Hx. lia.
Qed.

(** The first selected GPU's device [3] and queue [4], and the instance
    [1], in the table after the setup. *)
Lemma first_device_facts spd rest :
  Forall (fun spd => (spd_physical_device spd).1 = 1%N) (spd :: rest) ->
  setup_objs (spd :: rest) !! 3%N =
    Some (mkObj (spd_physical_device spd).1 true
            (IDevice (spd_physical_device spd).2 (spd_queue_index spd) 4)) /\
  setup_objs (spd :: rest) !! 4%N = Some (mkObj 3 true (IQueue (spd_queue_index spd))) /\
  setup_objs (spd :: rest) !! 1%N = Some (mkObj 0 true (IInstance instance_extension_names)).
Proof.
  intros Hins. destruct (setup_objs_facts _ Hins) as [_ Hlive].
  destruct (Hlive 0%nat spd eq_refl) as (Hd & Hq & _). split_and!; [exact Hd|exact Hq|].
  unfold setup_objs. rewrite lookup_devices_objs_lt by lia. done.
Qed.

(** ** Reading the image back *)

Section ReadBack.
Context (e : Env) (ok : Outcome -> Prop).

Lemma wp_pixel_bytes p Q s :
  pixel_ok p -> Q (pixel_values p) s -> wp e ok (pixel_bytes p) Q s.
Proof.
  intros (Hr & Hg & Hb & Ha) HQ. unfold pixel_bytes.
  apply wp_bind. eapply wp_eval; [apply (to_uchar_floor _ e s Hr)|]. cbn beta.
  apply wp_bind. eapply wp_eval; [apply (to_uchar_floor _ e s Hg)|]. cbn beta.
  apply wp_bind. eapply wp_eval; [apply (to_uchar_floor _ e s Hb)|]. cbn beta.
  apply wp_bind. eapply wp_eval; [apply (to_uchar_floor _ e s Ha)|]. cbn beta.
  by apply wp_ret.
Qed.

(** The loop over the pixels reads, from memory mapped at offset 0,
    the bytes of every pixel in turn and changes no state. *)
Lemma wp_read_image m md sz ty size c0 i count Q s :
  vs_objs s !! m = Some (mkObj md true (IMemory sz ty (Some (0, size)) c0)) ->
  no_pending (vs_objs s) -> sizeof_Pixel * Z.of_nat (i + count) <= size ->
  (forall j, (i <= j < i + count)%nat -> pixel_ok (c0 j)) ->
  Q (image_bytes c0 i count) s -> wp e ok (read_image m (Z.of_nat i) count) Q s.
Proof.
  revert i Q. induction count as [|count IH]; intros i Q Hm Hn Hsz Hpx HQ; simpl; [by apply wp_ret|].
  apply wp_bind. eapply wp_host_read_pixel; [exact Hm|lia|unfold sizeof_Pixel in *; lia|exact Hn|].
  replace ((0 + sizeof_Pixel * Z.of_nat i) / sizeof_Pixel) with (Z.of_nat i)
    by (unfold sizeof_Pixel; Z.div_mod_to_equations; lia).
  rewrite Nat2Z.id. apply wp_bind. eapply wp_pixel_bytes; [apply Hpx; lia|].
  apply wp_bind. replace (Z.of_nat i + 1) with (Z.of_nat (S i)) by lia.
  eapply IH; [exact Hm|exact Hn|lia|intros j Hj; apply Hpx; lia|]. by apply wp_ret.
Qed.

(** [SaveRenderedImage] maps the memory, reads [WIDTH * HEIGHT]
    pixels, unmaps it and hands the bytes to the encoder: the table is
    as before, and the trace has the file or the encoder's error. *)
Lemma wp_SaveRenderedImage cfg size d dp g qf qh gpu m msz ty c0 Q s :
  map_reliable e ->
  vs_objs s !! d = Some (mkObj dp true (IDevice g qf qh)) -> env_gpus e !! g = Some gpu ->
  vs_objs s !! m = Some (mkObj d true (IMemory msz ty None c0)) ->
  0 < size <= msz -> host_visible gpu ty = true -> no_pending (vs_objs s) ->
  let count := Z.to_nat (to_u32 (WIDTH cfg * HEIGHT cfg)) in
  sizeof_Pixel * Z.of_nat count <= size ->
  (forall j, (j < count)%nat -> pixel_ok (c0 j)) ->
  (forall s', vs_objs s' = vs_objs s ->
              vs_io s' = save_output e cfg (image_bytes c0 0 count) :: vs_io s -> Q tt s') ->
  wp e ok (SaveRenderedImage cfg size d m) Q s.
Proof.
  intros Hmap Hd Hg Hm Hsz Hv Hn count Hcount Hpx HQ.
  assert (m <> d) by (intros ->; congruence). unfold SaveRenderedImage.
  apply wp_bind. eapply wp_vkMapMemory; [exact Hd|exact Hg|exact Hm|lia|lia|exact Hv|].
  cbv zeta. rewrite Hmap. cbn beta.
  apply wp_bind. eapply (wp_read_image _ _ _ _ _ _ 0%nat); [solve_lookup|by eapply no_pending_insert|simpl; lia|intros j Hj; apply Hpx; lia|].
  cbn beta. apply wp_bind. eapply wp_vkUnmapMemory; [solve_lookup|solve_lookup|].
  cbn beta. apply wp_bind, wp_lodepng_encode. cbv zeta. unfold save_output in HQ. subst count.
  revert HQ. destruct (env_png_error e _ (WIDTH cfg) (HEIGHT cfg) =? 0)%N; intros HQ; simpl;
    [apply wp_ret|apply wp_bind, wp_lodepng_error_text, wp_emit]; apply HQ; simpl; try reflexivity;
    rewrite !insert_insert_eq; by apply insert_id.
Qed.
(** The pixel count, as [SaveRenderedImage] computes it. *)
Lemma SaveRenderedImage_count cfg :
  Z.to_nat (to_u32 (WIDTH cfg * HEIGHT cfg)) = pixel_count cfg.
Proof. reflexivity. Qed.

(** One channel's conversion: defined, or undefined behaviour. *)
Lemma wp_to_uchar v Q s :
  (channel_converts v -> Q (Qtrunc (255 * v)) s) ->
  (~ channel_converts v -> ok (UndefinedBehaviour "float to unsigned char conversion out of range")) ->
  wp e ok (to_uchar (255 * v)) Q s.
Proof.
  intros Hok' Hbad. unfold to_uchar, channel_converts in *.
  destruct (decide (0 <= Qtrunc (255 * v) <= 255)) as [H|H].
  - rewrite bool_decide_eq_true_2 by done. by apply wp_ret, Hok'.
  - rewrite bool_decide_eq_false_2 by done. by apply wp_stop, Hbad.
Qed.

(** The four conversions of a pixel: all defined, or the first
    undefined one stops the run. *)
Lemma wp_pixel_bytes_gen px Q s :
  (pixel_converts px -> forall bytes, Q bytes s) ->
  (~ pixel_converts px -> ok (UndefinedBehaviour "float to unsigned char conversion out of range")) ->
  wp e ok (pixel_bytes px) Q s.
Proof.
  intros HQ Hbad. unfold pixel_bytes, pixel_converts in *.
  apply wp_bind, wp_to_uchar; [intros Hr|intros Hr; apply Hbad; tauto].
  apply wp_bind, wp_to_uchar; [intros Hg|intros Hg; apply Hbad; tauto].
  apply wp_bind, wp_to_uchar; [intros Hb|intros Hb; apply Hbad; tauto].
  apply wp_bind, wp_to_uchar; [intros Ha|intros Ha; apply Hbad; tauto].
  apply wp_ret. by apply HQ.
Qed.

(** The loop over the pixels stops at the first pixel [j] whose
    conversion is undefined. *)
Lemma wp_read_image_bad m md sz ty size c0 i j count Q s :
  vs_objs s !! m = Some (mkObj md true (IMemory sz ty (Some (0, size)) c0)) ->
  no_pending (vs_objs s) -> sizeof_Pixel * Z.of_nat (i + count) <= size ->
  (i <= j < i + count)%nat -> (forall k, (i <= k < j)%nat -> pixel_converts (c0 k)) ->
  ~ pixel_converts (c0 j) ->
  ok (UndefinedBehaviour "float to unsigned char conversion out of range") ->
  wp e ok (read_image m (Z.of_nat i) count) Q s.
Proof.
  revert i Q. induction count as [|count IH]; intros i Q Hm Hn Hsz Hj Hk Hbad HQ; simpl; [lia|].
  apply wp_bind. eapply wp_host_read_pixel; [exact Hm|lia|unfold sizeof_Pixel in *; lia|exact Hn|].
  replace ((0 + sizeof_Pixel * Z.of_nat i) / sizeof_Pixel) with (Z.of_nat i)
    by (unfold sizeof_Pixel; Z.div_mod_to_equations; lia).
  rewrite Nat2Z.id. apply wp_bind. destruct (decide (i = j)) as [->|Hne].
  - by apply wp_pixel_bytes_gen.
  - apply wp_pixel_bytes_gen; [|intros Hc; contradict Hc; apply Hk; lia].
    intros _ bytes. apply wp_bind. replace (Z.of_nat i + 1) with (Z.of_nat (S i)) by lia.
    eapply IH; [exact Hm|exact Hn|lia|lia|intros k Hk'; apply Hk; lia|exact Hbad|exact HQ].
Qed.

(** [SaveRenderedImage] on a completed dispatch whose output has a
    channel whose conversion is undefined at pixel [j]. *)
Lemma wp_SaveRenderedImage_bad cfg size d dp g qf qh gpu m msz ty c0 j Q s :
  map_reliable e ->
  vs_objs s !! d = Some (mkObj dp true (IDevice g qf qh)) -> env_gpus e !! g = Some gpu ->
  vs_objs s !! m = Some (mkObj d true (IMemory msz ty None c0)) ->
  0 < size <= msz -> host_visible gpu ty = true -> no_pending (vs_objs s) ->
  sizeof_Pixel * Z.of_nat (pixel_count cfg) <= size ->
  (j < pixel_count cfg)%nat -> (forall k, (k < j)%nat -> pixel_converts (c0 k)) ->
  ~ pixel_converts (c0 j) ->
  ok (UndefinedBehaviour "float to unsigned char conversion out of range") ->
  wp e ok (SaveRenderedImage cfg size d m) Q s.
Proof.
  intros Hmap Hd Hg Hm Hsz Hv Hn Hcount Hj Hk Hbad HQ.
  assert (m <> d) by (intros ->; congruence). unfold SaveRenderedImage. apply wp_bind.
  eapply wp_vkMapMemory; [exact Hd|exact Hg|exact Hm|lia|lia|exact Hv|].
  cbv zeta. rewrite Hmap. cbn beta. apply wp_bind. rewrite SaveRenderedImage_count.
  eapply (wp_read_image_bad _ _ _ _ _ _ 0%nat j); [solve_lookup|by eapply no_pending_insert
    |simpl; lia|lia|intros k Hk'; apply Hk; lia|exact Hbad|exact HQ].
Qed.

(** [SaveRenderedImage] while the dispatch is still pending on the
    memory: the first read races with the GPU. *)
Lemma wp_SaveRenderedImage_race cfg size d dp g qf qh gpu m msz ty c0
    cb pool ot pipe st ds f sl b bpool bsz Q s :
  map_reliable e ->
  vs_objs s !! d = Some (mkObj dp true (IDevice g qf qh)) -> env_gpus e !! g = Some gpu ->
  vs_objs s !! m = Some (mkObj d true (IMemory msz ty None c0)) ->
  0 < size <= msz -> host_visible gpu ty = true -> sizeof_Pixel <= size ->
  vs_objs s !! cb = Some (mkObj pool true (ICommandBuffer CmdPending ot pipe (Some st) ds f)) ->
  vs_objs s !! st = Some (mkObj bpool true (IDescriptorSet sl (Some b))) ->
  vs_objs s !! b = Some (mkObj d true (IBuffer bsz (Some m))) ->
  m <> cb -> m <> st -> m <> b -> (0 < pixel_count cfg)%nat ->
  ok (UndefinedBehaviour "host read races with pending GPU writes") ->
  wp e ok (SaveRenderedImage cfg size d m) Q s.
Proof.
  intros Hmap Hd Hg Hm Hsz Hv Hp Hc Hst Hb Hmc Hms Hmb Hcount HQ.
  unfold SaveRenderedImage. apply wp_bind.
  eapply wp_vkMapMemory; [exact Hd|exact Hg|exact Hm|lia|lia|exact Hv|].
  cbv zeta. rewrite Hmap. cbn beta. apply wp_bind. rewrite SaveRenderedImage_count.
  destruct (pixel_count cfg) as [|c]; [lia|]. simpl. apply wp_bind.
  eapply wp_host_read_pixel_race; [solve_lookup|lia|lia| |exact HQ].
  intros Hn. eapply (Hn cb); [solve_lookup|].
  unfold pending_refs, set_refs, buffer_refs. simpl. rewrite !lookup_insert_ne by done.
  rewrite Hst. simpl. rewrite lookup_insert_ne by done. rewrite Hb. simpl. rewrite elem_of_cons. right. apply list_elem_of_In. simpl. rewrite !in_app_iff. simpl. tauto.
Qed.

(** [SaveRenderedImage] after [vkMapMemory] failed: the first read goes
    through the pointer that was never mapped. *)
Lemma wp_SaveRenderedImage_unmapped cfg size d dp g qf qh gpu m msz ty c0 Q s :
  (forall n, env_fail e n (CallMapMemory d m 0 size) = true) ->
  vs_objs s !! d = Some (mkObj dp true (IDevice g qf qh)) -> env_gpus e !! g = Some gpu ->
  vs_objs s !! m = Some (mkObj d true (IMemory msz ty None c0)) ->
  0 < size <= msz -> host_visible gpu ty = true -> (0 < pixel_count cfg)%nat ->
  ok (UndefinedBehaviour "read through a pointer that is not mapped") ->
  wp e ok (SaveRenderedImage cfg size d m) Q s.
Proof.
  intros Hfail Hd Hg Hm Hsz Hv Hcount HQ.
  unfold SaveRenderedImage. apply wp_bind.
  eapply wp_vkMapMemory; [exact Hd|exact Hg|exact Hm|lia|lia|exact Hv|].
  cbv zeta. rewrite Hfail. cbn beta. apply wp_bind. rewrite SaveRenderedImage_count.
  destruct (pixel_count cfg) as [|c]; [lia|]. simpl. apply wp_bind.
  eapply wp_host_read_pixel_unmapped; [exact Hm|exact HQ].
Qed.

(** [SaveRenderedImage] mapping more bytes than the memory has. *)
Lemma wp_SaveRenderedImage_too_large cfg size d dp g qf qh gpu m msz ty c0 Q s :
  vs_objs s !! d = Some (mkObj dp true (IDevice g qf qh)) -> env_gpus e !! g = Some gpu ->
  vs_objs s !! m = Some (mkObj d true (IMemory msz ty None c0)) -> 0 < msz < size ->
  ok (InvalidUsage "VUID-vkMapMemory-size-00681") ->
  wp e ok (SaveRenderedImage cfg size d m) Q s.
Proof.
  intros Hd Hg Hm Hsz HQ. unfold SaveRenderedImage. apply wp_bind.
  eapply wp_vkMapMemory_too_large; [exact Hd|exact Hg|exact Hm|lia|lia|exact HQ].
Qed.
End ReadBack.

Lemma main_phases cfg :
  main cfg =
  do instance <- CreateVulkanInstance;
  do gpus <- CreateDevices (vulkan_instance instance);
  do cout_line "Supported GPUs: ";
  do print_gpus gpus;
  do gpu0 <- first_gpu gpus;
  main_create cfg gpu0 (fun bo ds pl cb f =>
    main_run cfg gpu0 bo cb f
      (main_teardown gpu0 bo ds pl cb f
        (do DestroyDevices gpus; do DestroyVulkanInstance instance; do cin_get; ret 0))).
Proof. reflexivity. Qed.

(** ** The phases on the first GPU *)

(** The teardown's side conditions on the table: look a handle up
    through the chain of [insert]s down to [F], or prove a shape
    property of every entry, those of [F] from [HF]. *)
Ltac chain_lookup Hd := objs_lookup; try exact Hd.

Ltac chain_shape HF :=
  unfold childless, only_child, no_pending;
  repeat match goal with H : vs_objs ?s = _ |- context [vs_objs ?s] => rewrite H end;
  forall_chain ltac:(first [reflexivity | discriminate | lia])
    ltac:(eapply map_Forall_impl; [exact HF|]; intros ? ? (? & ? & ?); intros; simpl in *;
          first [done | lia]).

(** The loop that lists the GPUs prints one line per GPU. *)
Lemma wp_print_gpus e ok gpus Q s :
  Q tt (st_emits s (gpu_lines gpus)) -> wp e ok (print_gpus gpus) Q s.
Proof.
  unfold print_gpus. revert s. induction gpus as [|gpu gpus IH]; intros s HQ; simpl in *.
  - apply wp_ret. by rewrite st_emits_nil in HQ.
  - apply wp_bind, wp_cout_line, IH. by rewrite st_emits_cons.
Qed.

Section Phases.
Context (e : Env) (ok : Outcome -> Prop) (Hok : fail_ok e ok).

Lemma wp_main_create {A} cfg sd p exts i contents (k : _ -> _ -> _ -> _ -> _ -> VkM A) Q s :
  let d := device sd in
  let n := vs_next s in
  let size := to_u32 (sizeof_Pixel * WIDTH cfg * HEIGHT cfg) in
  vs_objs s !! d = Some (mkObj (physical_device sd).1 true
                          (IDevice (physical_device sd).2 (queue_index sd) (queue sd))) ->
  vs_objs s !! (physical_device sd).1 = Some (mkObj 0 true (IInstance exts)) ->
  (d < n)%N -> ((physical_device sd).1 < n)%N ->
  env_gpus e !! (physical_device sd).2 = Some p -> gpu_fits cfg p i ->
  env_shader_file e "comp.spv" = Some contents -> spirv_file contents ->
  (forall s' words,
     vs_objs s' = created_objs cfg e d (queue_index sd) p i words n (vs_objs s) ->
     vs_next s' = (n + 11)%N -> vs_io s' = vs_io s ->
     wp e ok (k (mkVulkanBuffer size n (n + 1)) (mkVulkanDescriptor PtrDangling (n + 2) (n + 3) (n + 4))
                (mkVulkanPipeline (n + 5) (n + 6) (n + 7)) (mkVulkanCommandBuffer (n + 8) (n + 9))
                (n + 10)%N) Q s') ->
  wp e ok (main_create cfg sd k) Q s.
Proof.
  cbv zeta. intros Hd Hi Hdn Hin Hp (Hlen & Hty & Hsz & Hlim) Hf Hsp HK. unfold main_create.
  io_frame. eapply wp_CreateBuffer; [done|exact Hd|exact Hi|exact Hp|done|done|apply Hsz|apply Hsz|done|exact Hty|].
  intros s1 H1 N1 I1. io_frame. eapply wp_CreateDescriptorSet; [done|objs_lookup|objs_lookup|simpl; lia|simpl; lia|simpl; lia|].
  cbn [buffer buffer_size]. intros s2 H2 N2 I2. io_frame.
  eapply wp_CreatePipeline; [done|objs_lookup|objs_lookup|simpl; lia|simpl; lia|exact Hf|exact Hsp|].
  intros s3 H3 N3 I3. io_frame.
  eapply wp_CreateCommandBuffer; [done|objs_lookup|exact Hp|objs_lookup..|simpl; lia|simpl; lia|simpl; lia|simpl; lia|simpl; lia|exact Hlim|].
  intros s4 H4 N4 I4. io_frame. eapply wp_CreateFence; [done|objs_lookup|].
  intros s5 H5 N5 I5. cbn [descriptor_layout descriptor_set pipeline pipeline_layout].
  rewrite N4, N3, N2, N1 in *. fold_handles. apply (HK s5 (words_of_bytes (padded_contents contents))); [|lia|congruence].
  rewrite H5, H4, H3, H2, H1. unfold created_objs. simpl.
  repeat (f_equal; try lia).
Qed.
(** With an empty shader file, the creation phase makes the buffer and
    the descriptor set, then breaks [vkCreateShaderModule]'s rule on
    [codeSize]. *)
Lemma wp_main_create_empty {A} cfg sd p exts i (k : _ -> _ -> _ -> _ -> _ -> VkM A) Q s :
  let d := device sd in
  let n := vs_next s in
  vs_objs s !! d = Some (mkObj (physical_device sd).1 true
                          (IDevice (physical_device sd).2 (queue_index sd) (queue sd))) ->
  vs_objs s !! (physical_device sd).1 = Some (mkObj 0 true (IInstance exts)) ->
  (d < n)%N -> ((physical_device sd).1 < n)%N ->
  env_gpus e !! (physical_device sd).2 = Some p -> gpu_fits cfg p i ->
  env_shader_file e "comp.spv" = Some [] ->
  ok (InvalidUsage "VUID-VkShaderModuleCreateInfo-codeSize-01085") ->
  wp e ok (main_create cfg sd k) Q s.
Proof.
  cbv zeta. intros Hd Hi Hdn Hin Hp (Hlen & Hty & Hsz & _) Hf Hinv. unfold main_create.
  apply wp_bind. eapply wp_CreateBuffer; [done|exact Hd|exact Hi|exact Hp|done|done|apply Hsz|apply Hsz|done|exact Hty|].
  intros s1 H1 N1. apply wp_bind.
  eapply wp_CreateDescriptorSet; [done|objs_lookup|objs_lookup|simpl; lia|simpl; lia|simpl; lia|].
  intros s2 H2 N2. apply wp_bind. eapply wp_CreatePipeline_empty; [objs_lookup|exact Hf|exact Hinv].
Qed.

(** The memory type [GetMemoryType] picks for the storage buffer is
    host-visible. *)
Lemma host_visible_chosen p i :
  first_index (memory_type_ok (pd_mem_type_bits p)
     (Z.lor VK_MEMORY_PROPERTY_HOST_VISIBLE_BIT VK_MEMORY_PROPERTY_HOST_COHERENT_BIT))
     (pd_memory_types p) = Some i ->
  host_visible p (Z.of_nat i) = true.
Proof.
  intros [(mt & Hmt & Hok') _]%first_index_spec. unfold host_visible. rewrite Nat2Z.id, Hmt.
  unfold memory_type_ok in Hok'. apply andb_true_iff in Hok' as [_ Hf]. apply Z.eqb_eq in Hf.
  apply negb_true_iff, Z.eqb_neq. change (Z.lor _ _) with 6 in Hf.
  unfold VK_MEMORY_PROPERTY_HOST_VISIBLE_BIT.
  replace 2 with (Z.land 6 2) by reflexivity.
  rewrite Z.land_assoc, Hf. discriminate.
Qed.

(** The submission of the recorded command buffer with the fence. *)
Lemma wp_main_submit {A} cfg sd p i words n F (k : VkM A) Q s :
  let d := device sd in
  vs_objs s = created_objs cfg e d (queue_index sd) p i words n F ->
  F !! queue sd = Some (mkObj d true (IQueue (queue_index sd))) -> (d < n)%N -> (queue sd < n)%N ->
  (forall s', vs_objs s' = submitted_objs cfg d n (vs_objs s) -> vs_io s' = vs_io s -> wp e ok k Q s') ->
  wp e ok (do SubmitCommand sd (mkVulkanCommandBuffer (n + 8) (n + 9)) (n + 10); k) Q s.
Proof.
  cbv zeta. intros Hs Hq Hdn Hqn HK. unfold created_objs in Hs. io_frame.
  eapply wp_SubmitCommand; [done|objs_lookup|objs_lookup|objs_lookup|objs_lookup|
    unfold refs_live, set_refs, buffer_refs, live_obj; rewrite Hs; do 2 solve_lookup|].
  intros s1 H1 I1. apply HK; [|done]. rewrite H1. reflexivity.
Qed.

(** The run: the one submission, the wait (the GPU finishes within the
    timeout), and the read back of the shader's output. *)
Lemma wp_main_run {A} cfg sd p i words n F (k : VkM A) Q s :
  let d := device sd in
  let size := to_u32 (sizeof_Pixel * WIDTH cfg * HEIGHT cfg) in
  map_reliable e -> env_gpu_time e <= wait_timeout ->
  vs_objs s = created_objs cfg e d (queue_index sd) p i words n F ->
  F !! d = Some (mkObj (physical_device sd).1 true
                   (IDevice (physical_device sd).2 (queue_index sd) (queue sd))) ->
  F !! queue sd = Some (mkObj d true (IQueue (queue_index sd))) ->
  (d < n)%N -> (queue sd < n)%N -> no_pending F ->
  env_gpus e !! (physical_device sd).2 = Some p -> gpu_fits cfg p i ->
  sizeof_Pixel * Z.of_nat (pixel_count cfg) <= to_u32 (sizeof_Pixel * 3200 * 2400) <=
    pd_mem_req_size p size ->
  (forall j, (j < pixel_count cfg)%nat -> pixel_ok (env_shader_output e j)) ->
  (forall s', vs_objs s' = ran_objs cfg e d p i n (vs_objs s) ->
     vs_io s' = save_output e cfg (image_bytes (env_shader_output e) 0 (pixel_count cfg)) :: vs_io s ->
     wp e ok k Q s') ->
  wp e ok (main_run cfg sd (mkVulkanBuffer size n (n + 1)) (mkVulkanCommandBuffer (n + 8) (n + 9))
             (n + 10) k) Q s.
Proof.
  cbv zeta. intros Hmap Ht Hs Hd Hq Hdn Hqn Hnp Hp (Hlen & Hty & Hsz & Hlim) Hcount Hpx HK.
  unfold main_run. eapply wp_main_submit; [exact Hs|exact Hq|done|done|].
  intros s1 H1 I1. unfold created_objs, submitted_objs in *. apply wp_bind.
  eapply wp_vkWaitForFences; [objs_lookup|objs_lookup|done|objs_lookup..|lia|lia|lia|].
  apply wp_bind. cbn [device_memory]. rewrite H1, Hs.
  eapply wp_SaveRenderedImage; [exact Hmap|solve_lookup; exact Hd|exact Hp|solve_lookup
    |split; [vm_compute; reflexivity|lia]|by apply host_visible_chosen|
    |exact (proj1 Hcount)|exact Hpx|].
  - simpl. forall_chain ltac:(first [reflexivity | lia])
      ltac:(eapply map_Forall_impl; [exact Hnp|]; intros; simpl in *; auto).
  - intros s3 H3 I3. apply HK; [rewrite H3, Hs; reflexivity|rewrite I3, <-I1; reflexivity].
Qed.
(** The teardown: every object the run created destroyed, children
    before parents, leaving the table as it was below [n] and dead
    above. *)
Lemma wp_main_teardown {A} cfg sd p i words n F dp g qf qh (k : VkM A) Q s :
  let d := device sd in
  let size := to_u32 (sizeof_Pixel * WIDTH cfg * HEIGHT cfg) in
  vs_objs s = ran_objs cfg e d p i n (created_objs cfg e d (queue_index sd) p i words n F) ->
  F !! d = Some (mkObj dp true (IDevice g qf qh)) ->
  map_Forall (fun k o => (k < n)%N /\ (o_parent o < n)%N /\ cmd_pending (o_info o) = false) F ->
  (forall s', agrees_below n F (vs_objs s') -> vs_io s' = vs_io s -> wp e ok k Q s') ->
  wp e ok (main_teardown sd (mkVulkanBuffer size n (n + 1)) (mkVulkanDescriptor PtrDangling (n + 2) (n + 3) (n + 4))
             (mkVulkanPipeline (n + 5) (n + 6) (n + 7)) (mkVulkanCommandBuffer (n + 8) (n + 9))
             (n + 10) k) Q s.
Proof.
  cbv zeta. intros Hs Hd HF HK. assert (device sd < n)%N by (apply (HF _ _ Hd)).
  unfold ran_objs, submitted_objs, created_objs in Hs. unfold main_teardown. io_frame.
  eapply wp_DestroyFence; [chain_lookup Hd|chain_lookup Hd|chain_shape HF|chain_shape HF|].
  intros s1 H1 I1. io_frame.
  eapply wp_DestroyCommandBuffer; [chain_lookup Hd|chain_lookup Hd|chain_lookup Hd
    |chain_shape HF|chain_shape HF|chain_shape HF|].
  intros s2 H2 I2. io_frame.
  eapply wp_DestroyPipeline; [chain_lookup Hd|chain_lookup Hd|chain_lookup Hd|chain_lookup Hd
    |chain_shape HF|chain_shape HF|chain_shape HF|chain_shape HF|].
  intros s3 H3 I3. io_frame.
  eapply wp_DestroyDescriptorSet; [chain_lookup Hd|chain_lookup Hd|chain_lookup Hd|chain_lookup Hd
    |chain_shape HF|chain_shape HF|chain_shape HF|].
  intros s4 H4 I4. io_frame.
  eapply wp_DestroyBuffer; [chain_lookup Hd|chain_lookup Hd|chain_lookup Hd
    |chain_shape HF|chain_shape HF|chain_shape HF|].
  intros s5 H5 I5. apply HK; [|congruence]. rewrite H5, H4, H3, H2, H1, Hs. simpl. split.
  - intros k' Hk. rewrite !lookup_insert_ne by lia. done.
  - forall_chain ltac:(first [reflexivity | lia])
      ltac:(eapply map_Forall_impl; [exact HF|]; intros ? ? (? & ? & ?); intros; simpl in *; lia).
Qed.
(** The run up to [gpus[0]]: the instance, the devices and the list
    of GPUs printed; the rest of [main] runs from the table
    [setup_objs]. *)
Lemma wp_main_setup cfg spd rest Q :
  instance_ok e -> families_bounded e ->
  selected e (map (pair 1%N) (seq 0 (length (env_gpus e)))) = spd :: rest ->
  (forall s, vs_objs s = setup_objs (spd :: rest) -> vs_next s = setup_next (spd :: rest) ->
     vs_io s = rev (selection_output e (map (pair 1%N) (seq 0 (length (env_gpus e)))) ++
                    [Stdout ("Supported GPUs: " +:+ endl)] ++ gpu_lines (devices_of 3 (spd :: rest))) ->
     wp e ok (main_after_setup cfg spd rest) Q s) ->
  wp e ok (main cfg) Q vk_init.
Proof.
  intros Hinst Hfam Hsel HK.
  assert (Hne : env_gpus e <> []) by (intros E; rewrite E in Hsel; discriminate).
  rewrite main_phases. apply wp_bind. apply wp_CreateVulkanInstance; [done|done|].
  intros s1 H1 N1 I1. apply wp_bind.
  eapply wp_CreateDevices; [done|rewrite H1; solve_lookup|rewrite N1; simpl; lia|done|done|].
  cbv zeta. cbn [vulkan_instance vs_next vk_init]. rewrite Hsel.
  intros s2 H2 N2 I2. rewrite N1 in H2, N2 |- *. change (vs_next vk_init + 2)%N with 3%N in *.
  apply wp_bind, wp_cout_line, wp_bind, wp_print_gpus, wp_bind. cbn [devices_of first_gpu]. apply wp_ret.
  apply HK; simpl.
  - rewrite H2, H1. reflexivity.
  - rewrite N2. reflexivity.
  - rewrite I2, I1, app_nil_r, !rev_app_distr. simpl. by rewrite <-!(assoc_L (++)).
Qed.

(** The run up to the submission: the instance, the devices, and the
    objects on the first GPU; the rest of [main] is then run from the
    table [created_objs] over [setup_objs]. *)
Lemma wp_main_prefix cfg spd rest p i contents Q :
  setup_ok cfg e spd rest p i contents ->
  (forall s words,
     vs_objs s = created_objs cfg e 3 (spd_queue_index spd) p i words (setup_next (spd :: rest))
                   (setup_objs (spd :: rest)) ->
     vs_io s = rev (selection_output e (map (pair 1%N) (seq 0 (length (env_gpus e)))) ++
                    [Stdout ("Supported GPUs: " +:+ endl)] ++ gpu_lines (devices_of 3 (spd :: rest))) ->
     wp e ok (main_rest cfg spd rest) Q s) ->
  wp e ok (main cfg) Q vk_init.
Proof.
  intros (Hinst & Hfam & Hsel & Hp & Hfit & Hf & Hsp) HK.
  pose proof (selected_instance e 1 (length (env_gpus e))) as Hins. rewrite Hsel in Hins.
  destruct (first_device_facts _ _ Hins) as (Hd & _ & Hi).
  eapply wp_main_setup; [exact Hinst|exact Hfam|exact Hsel|]. intros s2 HF2 N2 I2.
  rewrite <-HF2 in Hd, Hi. pose proof (Forall_inv Hins) as Hi1. simpl in Hi1.
  unfold main_after_setup. cbv zeta.
  eapply wp_main_create; [exact Hd|cbn [physical_device first_device]; rewrite Hi1; exact Hi
    |rewrite N2; unfold setup_next; simpl; lia
    |cbn [physical_device first_device]; rewrite N2, Hi1; unfold setup_next; simpl; lia
    |exact Hp|exact Hfit|exact Hf|exact Hsp|].
  intros s3 words H3 _ I3. rewrite HF2 in H3. rewrite N2 in H3 |- *. apply (HK s3 words H3).
  by rewrite I3.
Qed.

(** With an empty shader file, [main] creates the buffer and the
    descriptor set and then breaks [vkCreateShaderModule]'s rule on
    [codeSize]. *)
Lemma wp_main_empty_shader cfg spd rest p i Q :
  instance_ok e -> families_bounded e ->
  selected e (map (pair 1%N) (seq 0 (length (env_gpus e)))) = spd :: rest ->
  env_gpus e !! (spd_physical_device spd).2 = Some p -> gpu_fits cfg p i ->
  env_shader_file e "comp.spv" = Some [] ->
  ok (InvalidUsage "VUID-VkShaderModuleCreateInfo-codeSize-01085") ->
  wp e ok (main cfg) Q vk_init.
Proof.
  intros Hinst Hfam Hsel Hp Hfit Hf Hinv.
  pose proof (selected_instance e 1 (length (env_gpus e))) as Hins. rewrite Hsel in Hins.
  destruct (first_device_facts _ _ Hins) as (Hd & _ & Hi).
  eapply wp_main_setup; [exact Hinst|exact Hfam|exact Hsel|]. intros s2 HF2 N2 _.
  rewrite <-HF2 in Hd, Hi. pose proof (Forall_inv Hins) as Hi1. simpl in Hi1.
  unfold main_after_setup. cbv zeta.
  eapply wp_main_create_empty; [exact Hd|cbn [physical_device first_device]; rewrite Hi1; exact Hi
    |rewrite N2; unfold setup_next; simpl; lia
    |cbn [physical_device first_device]; rewrite N2, Hi1; unfold setup_next; simpl; lia
    |exact Hp|exact Hfit|exact Hf|exact Hinv].
Qed.

(** [main] on a capable machine: it returns [0], leaves every object
    destroyed and has the trace [main_output], or stops at an [ok]
    outcome (the program's assertion after a failed call). *)
(** The end of [main] after the teardown on [gpus[0]]: the devices,
    the instance, the key press; nothing is left alive. *)
Lemma wp_main_end spd rest Q s :
  Forall (fun spd => (spd_physical_device spd).1 = 1%N) (spd :: rest) ->
  agrees_below (3 + 2 * N.of_nat (length (spd :: rest))) (setup_objs (spd :: rest)) (vs_objs s) ->
  (forall s', all_dead (vs_objs s') -> vs_io s' = StdinGet :: vs_io s -> Q 0 s') ->
  wp e ok (do DestroyDevices (devices_of 3 (spd :: rest));
           do DestroyVulkanInstance (mkVulkanInstance 1 2); do cin_get; ret 0) Q s.
Proof.
  intros Hins Ha HQ. destruct (setup_objs_facts _ Hins) as [HF Hlive]. io_frame.
  eapply wp_DestroyDevices; [eapply devices_live_agrees; [exact Ha|lia|exact Hlive]|].
  intros s6 H6 I6. io_frame.
  assert (Hl6 : live_within (vs_objs s6) (fun k => k = 1%N \/ k = 2%N)).
  { rewrite H6. eapply live_within_mono.
    - apply live_within_devices_dead,
        (live_within_agrees _ _ _ (fun k => 1 <= k < 3 + 2 * N.of_nat (length (spd :: rest)))%N Ha).
      eapply map_Forall_impl; [exact HF|]. by intros k o (Hk & _) _.
    - simpl. intros k [Hk1 Hk2]. lia. }
  assert (Hlow : forall k, (k < 3)%N -> vs_objs s6 !! k = setup_objs (spd :: rest) !! k).
  { intros k Hk. rewrite H6, lookup_devices_dead_lt by done. destruct Ha as [Hb _].
    rewrite Hb by lia. done. }
  assert (H61 : vs_objs s6 !! 1%N = Some (mkObj 0 true (IInstance instance_extension_names))).
  { rewrite Hlow by lia. unfold setup_objs. rewrite lookup_devices_objs_lt by lia. done. }
  assert (H62 : vs_objs s6 !! 2%N = Some (mkObj 1 true default_callback)).
  { rewrite Hlow by lia. unfold setup_objs. rewrite lookup_devices_objs_lt by lia. done. }
  eapply wp_DestroyVulkanInstance; [exact H61|exact H62
    |eapply childless_of_pair; [exact Hl6|exact H61|exact H62|simpl; lia|simpl; lia]
    |eapply only_child_of_pair; [exact Hl6|exact H61|simpl; lia]|].
  intros s7 H7 I7. apply wp_bind, wp_cin_get, wp_ret, HQ.
  - simpl. rewrite H7.
    eapply live_within_all_dead; [apply live_within_kill, live_within_kill, Hl6|]. simpl. lia.
  - cbn [vs_io st_emit]. by rewrite I7, I6.
Qed.

Lemma wp_main cfg :
  capable cfg e ->
  wp e ok (main cfg)
    (fun r s' => r = 0 /\ all_dead (vs_objs s') /\ vs_io s' = rev (main_output cfg e)) vk_init.
Proof.
  intros ((spd & rest & p & i & contents & Hsetup & Hsz) & Hmap & Ht & Hpx).
  pose proof Hsetup as (Hinst & Hfam & Hsel & Hp & Hfit & Hf & Hsp).
  pose proof (selected_instance e 1 (length (env_gpus e))) as Hins. rewrite Hsel in Hins.
  destruct (setup_objs_facts _ Hins) as [HF Hlive].
  destruct (first_device_facts _ _ Hins) as (Hd & Hq & _).
  eapply wp_main_prefix; [exact Hsetup|].
  intros s3 words H3 I3. unfold main_rest, setup_next in *.
  assert (Hnp : no_pending (setup_objs (spd :: rest))).
  { eapply map_Forall_impl; [exact HF|]. by intros ? ? (_ & _ & ?). }
  eapply wp_main_run; [exact Hmap|exact Ht|exact H3|exact Hd|exact Hq|simpl; lia
    |simpl; lia|exact Hnp|exact Hp|exact Hfit|exact Hsz|exact Hpx|].
  intros s4 H4 I4.
  eapply wp_main_teardown; [rewrite H4, H3; reflexivity|exact Hd|
    eapply map_Forall_impl; [exact HF|]; intros ? ? (? & ? & ?); split_and!; [lia|done|done]|].
  intros s5 Ha I5. eapply wp_main_end; [exact Hins|exact Ha|]. intros s7 Hdead I7. split_and!; [done|done|].
  - unfold main_output. rewrite Hsel. rewrite I7, I5, I4, I3, !app_assoc, (rev_app_distr _ [_; _]). reflexivity.
Qed.
(** A table lookup in the run after the setup: through the chain of
    [insert]s down to [setup_objs], where [Hd] gives the device. *)
Ltac run_lookup Hd := simpl; objs_lookup; try exact Hd.

(** The run on a GPU that does not finish within the timeout:
    [vkWaitForFences] returns [VK_TIMEOUT], unchecked, and the first
    read of the mapped memory races with the pending dispatch. *)
Lemma wp_main_timeout cfg spd rest p i contents Q :
  setup_ok cfg e spd rest p i contents -> map_fits cfg p -> map_reliable e ->
  wait_timeout < env_gpu_time e -> (0 < pixel_count cfg)%nat ->
  ok (UndefinedBehaviour "host read races with pending GPU writes") ->
  wp e ok (main cfg) Q vk_init.
Proof.
  intros Hsetup Hsz Hmap Ht Hcount HQ.
  pose proof Hsetup as (_ & _ & Hsel & Hp & (_ & Hty & _) & _).
  pose proof (selected_instance e 1 (length (env_gpus e))) as Hins. rewrite Hsel in Hins.
  destruct (first_device_facts _ _ Hins) as (Hd & Hq & _).
  eapply wp_main_prefix; [exact Hsetup|]. intros s3 words H3 _.
  unfold main_rest, setup_next, main_run in *.
  eapply wp_main_submit; [exact H3|exact Hq|simpl; lia|simpl; lia|].
  intros s1 H1 _. unfold created_objs, submitted_objs in H1, H3. apply wp_bind.
  eapply wp_vkWaitForFences_timeout; [run_lookup Hd|run_lookup Hd|exact Ht|]. apply wp_bind.
  eapply wp_SaveRenderedImage_race with (cb := (3 + 2 * N.of_nat (length (spd :: rest)) + 9)%N)
    (st := (3 + 2 * N.of_nat (length (spd :: rest)) + 4)%N) (b := (3 + 2 * N.of_nat (length (spd :: rest)))%N);
    [exact Hmap|run_lookup Hd|exact Hp|run_lookup Hd
    |split; [vm_compute; reflexivity|apply Hsz]|by apply host_visible_chosen|vm_compute; discriminate
    |run_lookup Hd|run_lookup Hd|run_lookup Hd|simpl; lia|simpl; lia|simpl; lia|exact Hcount|exact HQ].
Qed.

(** The wait of the run ends, in time or not: [k] continues from the
    table after a completed dispatch, or from the submitted one. *)
Lemma wp_main_wait {A} cfg spd rest p i words (k : VkM A) Q s :
  let F := setup_objs (spd :: rest) in
  let n := setup_next (spd :: rest) in
  Forall (fun spd => (spd_physical_device spd).1 = 1%N) (spd :: rest) ->
  vs_objs s = created_objs cfg e 3 (spd_queue_index spd) p i words n F ->
  (forall s', (env_gpu_time e <= wait_timeout /\ vs_objs s' = ran_objs cfg e 3 p i n (vs_objs s)) \/
              (wait_timeout < env_gpu_time e /\ vs_objs s' = submitted_objs cfg 3 n (vs_objs s)) ->
              wp e ok k Q s') ->
  wp e ok (do SubmitCommand (first_device spd) (mkVulkanCommandBuffer (n + 8) (n + 9)) (n + 10);
           do vkWaitForFences (device (first_device spd)) (n + 10) wait_timeout; k) Q s.
Proof.
  cbv zeta. intros Hins H3 HK. destruct (first_device_facts _ _ Hins) as (Hd & Hq & _).
  unfold setup_next in *.
  eapply wp_main_submit; [exact H3|exact Hq|simpl; lia|simpl; lia|].
  intros s1 H1 _. unfold created_objs, submitted_objs in H1, H3. apply wp_bind.
  destruct (decide (env_gpu_time e <= wait_timeout)) as [Ht|Ht].
  - eapply wp_vkWaitForFences; [run_lookup Hd|run_lookup Hd|exact Ht|run_lookup Hd..|simpl; lia|simpl; lia|simpl; lia|].
    apply HK. left. split; [exact Ht|]. simpl. rewrite H1, H3. reflexivity.
  - eapply wp_vkWaitForFences_timeout; [run_lookup Hd|run_lookup Hd|lia|].
    apply HK. right. split; [lia|]. simpl. rewrite H1, H3. reflexivity.
Qed.

(** The run on a driver that fails every [vkMapMemory]: the result is
    not checked and the first read goes through the null pointer,
    whether or not the GPU finished. *)
Lemma wp_main_map_fails cfg spd rest p i contents Q :
  setup_ok cfg e spd rest p i contents -> map_fits cfg p ->
  (forall n d m off size, env_fail e n (CallMapMemory d m off size) = true) ->
  (0 < pixel_count cfg)%nat ->
  ok (UndefinedBehaviour "read through a pointer that is not mapped") ->
  wp e ok (main cfg) Q vk_init.
Proof.
  intros Hsetup Hsz Hfail Hcount HQ.
  pose proof Hsetup as (_ & _ & Hsel & Hp & (_ & Hty & _) & _).
  pose proof (selected_instance e 1 (length (env_gpus e))) as Hins. rewrite Hsel in Hins.
  destruct (first_device_facts _ _ Hins) as (Hd & _ & _).
  eapply wp_main_prefix; [exact Hsetup|]. intros s3 words H3 _.
  unfold main_rest, main_run. eapply wp_main_wait; [exact Hins|exact H3|].
  unfold ran_objs, submitted_objs, created_objs, setup_next in *.
  intros s4 [[_ H4]|[_ H4]]; apply wp_bind;
    (eapply wp_SaveRenderedImage_unmapped; [intros; apply Hfail|run_lookup Hd|exact Hp|run_lookup Hd
      |split; [vm_compute; reflexivity|apply Hsz]|by apply host_visible_chosen|exact Hcount|exact HQ]).
Qed.

(** The run on a driver whose allocation is smaller than the
    [sizeof(Pixel) * 3200 * 2400] bytes [SaveRenderedImage] maps: the
    mapping breaks the rule on its size. *)
Lemma wp_main_map_too_large cfg spd rest p i contents Q :
  setup_ok cfg e spd rest p i contents ->
  pd_mem_req_size p (to_u32 (sizeof_Pixel * WIDTH cfg * HEIGHT cfg)) < to_u32 (sizeof_Pixel * 3200 * 2400) ->
  ok (InvalidUsage "VUID-vkMapMemory-size-00681") ->
  wp e ok (main cfg) Q vk_init.
Proof.
  intros Hsetup Hsz HQ.
  pose proof Hsetup as (_ & _ & Hsel & Hp & (_ & _ & Hpos & _) & _).
  pose proof (selected_instance e 1 (length (env_gpus e))) as Hins. rewrite Hsel in Hins.
  destruct (first_device_facts _ _ Hins) as (Hd & _ & _).
  eapply wp_main_prefix; [exact Hsetup|]. intros s3 words H3 _.
  unfold main_rest, main_run. eapply wp_main_wait; [exact Hins|exact H3|].
  unfold ran_objs, submitted_objs, created_objs, setup_next in *.
  intros s4 [[_ H4]|[_ H4]]; apply wp_bind;
    (eapply wp_SaveRenderedImage_too_large; [run_lookup Hd|exact Hp|run_lookup Hd|lia|exact HQ]).
Qed.
(** The run on a GPU that finishes in time but whose shader writes a
    channel whose conversion to [unsigned char] is undefined: the read
    back stops at the first such pixel [j]. *)
Lemma wp_main_bad_channel cfg spd rest p i contents j Q :
  setup_ok cfg e spd rest p i contents -> map_fits cfg p -> map_reliable e ->
  env_gpu_time e <= wait_timeout -> (j < pixel_count cfg)%nat ->
  (forall k, (k < j)%nat -> pixel_converts (env_shader_output e k)) ->
  ~ pixel_converts (env_shader_output e j) ->
  ok (UndefinedBehaviour "float to unsigned char conversion out of range") ->
  wp e ok (main cfg) Q vk_init.
Proof.
  intros Hsetup Hsz Hmap Ht Hj Hk Hbad HQ.
  pose proof Hsetup as (_ & _ & Hsel & Hp & (_ & Hty & _) & _).
  pose proof (selected_instance e 1 (length (env_gpus e))) as Hins. rewrite Hsel in Hins.
  destruct (first_device_facts _ _ Hins) as (Hd & _ & _).
  destruct (setup_objs_facts _ Hins) as [HF _].
  assert (Hnp : no_pending (setup_objs (spd :: rest))).
  { eapply map_Forall_impl; [exact HF|]. by intros ? ? (_ & _ & ?). }
  eapply wp_main_prefix; [exact Hsetup|]. intros s3 words H3 _.
  unfold main_rest, main_run. eapply wp_main_wait; [exact Hins|exact H3|].
  unfold ran_objs, submitted_objs, created_objs, setup_next in *.
  intros s4 [[_ H4]|[Ht' _]]; [|lia]. apply wp_bind.
  eapply wp_SaveRenderedImage_bad; [exact Hmap|run_lookup Hd|exact Hp|run_lookup Hd
    |split; [vm_compute; reflexivity|apply Hsz]|by apply host_visible_chosen| |apply Hsz
    |exact Hj|exact Hk|exact Hbad|exact HQ].
  rewrite H4, H3. simpl.
  forall_chain ltac:(first [reflexivity | lia])
    ltac:(eapply map_Forall_impl; [exact Hnp|]; intros; simpl in *; auto).
Qed.
End Phases.

Lemma fail_ok_failed_call_stop e : fail_ok e (failed_call_stop e).
Proof. intros n c msg Hf Hc. split; eauto. Qed.

(** The stops of a run on a machine where it must fail: a failed
    call's assertion, or [P]. *)
Lemma fail_ok_or e (P : Outcome -> Prop) : fail_ok e (fun o => failed_call_stop e o \/ P o).
Proof. intros n c msg Hf Hc. left. by eapply fail_ok_failed_call_stop. Qed.

Lemma main_spec cfg e :
  capable cfg e ->
  wp e (failed_call_stop e) (main cfg)
    (fun r s' => r = 0 /\ all_dead (vs_objs s') /\ vs_io s' = rev (main_output cfg e)) vk_init.
Proof. intros Hc. apply wp_main; [apply fail_ok_failed_call_stop|exact Hc]. Qed.

(** The setup of [env_ok] for a configuration whose dispatch fits its
    GPU: the first GPU [gpu_ok], its memory type 1, [spirv_header]. *)
Ltac solve_setup_ok :=
  unfold setup_ok; split_and!;
  [ split; repeat constructor
  | repeat constructor
  | vm_compute; reflexivity
  | reflexivity
  | unfold gpu_fits; simpl; repeat split; first [lia | vm_compute; first [reflexivity | discriminate]]
  | reflexivity
  | split; [by eexists|vm_compute; discriminate] ].

Definition spd_ok : SupportedPhysicalDevice := mkSupportedPhysicalDevice (1%N, 0%nat) 1 (pd_properties gpu_ok).

Lemma setup_ok_env_ok : setup_ok config_src env_ok spd_ok [] gpu_ok 1 spirv_header.
Proof. solve_setup_ok. Qed.

Lemma map_fits_env_ok : map_fits config_src gpu_ok.
Proof.
  unfold map_fits, pixel_count. rewrite Z2Nat.id by (vm_compute; discriminate).
  split; vm_compute; discriminate.
Qed.

Lemma pixel_count_src_pos : (0 < pixel_count config_src)%nat.
Proof.
  unfold pixel_count. change 0%nat with (Z.to_nat 0).
  apply Z2Nat.inj_lt; vm_compute; first [reflexivity | discriminate].
Qed.

(** The machine [env_ok] of [Machines] is capable for the sources'
    configuration. *)
Lemma capable_env_ok : capable config_src env_ok.
Proof.
  split_and!.
  - exists spd_ok, [], gpu_ok, 1%nat, spirv_header. split; [exact setup_ok_env_ok|exact map_fits_env_ok].
  - intros ? ? ? ? ?. reflexivity.
  - unfold wait_timeout. simpl. lia.
  - intros j _. unfold pixel_ok, channel_ok. simpl. unfold Qle. simpl. lia.
Qed.


(** C1: on a capable machine [main config] runs to the end or stops
    only on one of its own assertions after the driver failed a call;
    when it runs to the end it returns [0], every Vulkan object it
    created has been destroyed, and its trace is [main_output]: the
    messages of the GPUs the selection rejects, the list of the
    selected GPUs, the PNG file of the RGBA bytes of the shader's
    output, pixel by pixel (or the encoder's error), and the final key
    press. *)
Theorem main_correct cfg e :
  capable cfg e ->
  wp e (failed_call_stop e) (main cfg)
    (fun r s' => r = 0 /\ all_dead (vs_objs s') /\ vs_io s' = rev (main_output cfg e)) vk_init.
Proof. exact (main_spec cfg e). Qed.

Lemma main_correct_witness :
  capable config_src env_ok /\
  wp env_ok (failed_call_stop env_ok) (main config_src)
    (fun r s' => r = 0 /\ all_dead (vs_objs s') /\ vs_io s' = rev (main_output config_src env_ok))
    vk_init.
Proof. split; [exact capable_env_ok|apply main_correct; exact capable_env_ok]. Defined.

(** C26: [ReadShaderFile] pads the file to a multiple of 4 bytes, and
    an empty file to 0 bytes, which [vkCreateShaderModule] refuses: on a
    machine set up as [main] needs but whose [comp.spv] is empty, [main]
    never returns; it breaks the rule that [codeSize] is positive,
    unless it stopped earlier on the assertion after a failed call. *)
Theorem main_empty_shader_invalid cfg e spd rest p i :
  instance_ok e -> families_bounded e ->
  selected e (map (pair 1%N) (seq 0 (length (env_gpus e)))) = spd :: rest ->
  env_gpus e !! (spd_physical_device spd).2 = Some p -> gpu_fits cfg p i ->
  env_shader_file e "comp.spv" = Some [] ->
  wp e (fun o => failed_call_stop e o \/ o = InvalidUsage "VUID-VkShaderModuleCreateInfo-codeSize-01085")
    (main cfg) (fun _ _ => False) vk_init.
Proof.
  intros Hi Hb Hs Hp Hfit Hf.
  eapply (wp_main_empty_shader e _ (fail_ok_or e _)); [exact Hi|exact Hb|exact Hs|exact Hp|exact Hfit|exact Hf|by right].
Qed.

Lemma main_empty_shader_invalid_witness :
  let e := with_shader env_ok (Some []) in
  instance_ok e /\ families_bounded e /\
  selected e (map (pair 1%N) (seq 0 (length (env_gpus e)))) = [spd_ok] /\
  env_gpus e !! (spd_physical_device spd_ok).2 = Some gpu_ok /\ gpu_fits config_src gpu_ok 1 /\
  env_shader_file e "comp.spv" = Some [] /\
  wp e (fun o => failed_call_stop e o \/ o = InvalidUsage "VUID-VkShaderModuleCreateInfo-codeSize-01085")
    (main config_src) (fun _ _ => False) vk_init.
Proof.
  cbv zeta. destruct setup_ok_env_ok as (Hi & Hb & Hs & Hp & Hfit & _).
  assert (Hf : env_shader_file (with_shader env_ok (Some [])) "comp.spv" = Some []) by reflexivity.
  split_and!; [exact Hi|exact Hb|exact Hs|exact Hp|exact Hfit|exact Hf|].
  exact (main_empty_shader_invalid config_src (with_shader env_ok (Some [])) spd_ok [] gpu_ok 1
           Hi Hb Hs Hp Hfit Hf).
Defined.

(** C28: the buffer size [sizeof(Pixel) * WIDTH * HEIGHT] is computed
    in [size_t] and passed as a [uint32_t]: when it is a multiple of
    2^32 (here 16384 x 16384 pixels) it wraps to 0 and [CreateBuffer]
    breaks [vkCreateBuffer]'s rule that the size is positive, unless the
    run stopped earlier on the assertion after a failed call. *)
Theorem main_buffer_size_wraps cfg e :
  instance_ok e -> families_bounded e ->
  selected e (map (pair 1%N) (seq 0 (length (env_gpus e)))) <> [] ->
  to_u32 (sizeof_Pixel * WIDTH cfg * HEIGHT cfg) = 0 ->
  wp e (fun o => failed_call_stop e o \/ o = InvalidUsage "VUID-VkBufferCreateInfo-size-00912")
    (main cfg) (fun _ _ => False) vk_init.
Proof.
  intros Hi Hb Hsel Hz.
  destruct (selected e (map (pair 1%N) (seq 0 (length (env_gpus e))))) as [|spd rest] eqn:Hs; [done|].
  pose proof (selected_instance e 1 (length (env_gpus e))) as Hins. rewrite Hs in Hins.
  destruct (first_device_facts _ _ Hins) as (Hd & _ & _).
  eapply wp_main_setup; [apply fail_ok_or|exact Hi|exact Hb|exact Hs|]. intros s HF _ _.
  unfold main_after_setup, main_create. cbv zeta. rewrite Hz. apply wp_bind.
  eapply wp_CreateBuffer_zero; [rewrite HF; exact Hd|by right].
Qed.

Lemma main_buffer_size_wraps_witness :
  instance_ok env_ok /\ families_bounded env_ok /\
  selected env_ok (map (pair 1%N) (seq 0 (length (env_gpus env_ok)))) <> [] /\
  to_u32 (sizeof_Pixel * WIDTH (mkConfig 16384 16384 32) * HEIGHT (mkConfig 16384 16384 32)) = 0 /\
  wp env_ok (fun o => failed_call_stop env_ok o \/ o = InvalidUsage "VUID-VkBufferCreateInfo-size-00912")
    (main (mkConfig 16384 16384 32)) (fun _ _ => False) vk_init.
Proof.
  assert (Hi : instance_ok env_ok) by (split; repeat constructor).
  assert (Hb : families_bounded env_ok) by repeat constructor.
  assert (Hs : selected env_ok (map (pair 1%N) (seq 0 (length (env_gpus env_ok)))) <> [])
    by (vm_compute; discriminate).
  assert (Hz : to_u32 (sizeof_Pixel * WIDTH (mkConfig 16384 16384 32) * HEIGHT (mkConfig 16384 16384 32)) = 0)
    by reflexivity.
  split_and!; [exact Hi|exact Hb|exact Hs|exact Hz|].
  exact (main_buffer_size_wraps _ env_ok Hi Hb Hs Hz).
Defined.

(** C13: on a machine without the validation layer or the
    debug-report extension, [main] prints the first missing name (a
    layer if one is missing, else an extension), waits for a key and
    calls [std::exit(-1)], before it changes anything in the driver. *)
Theorem main_exits_unsupported_instance cfg e :
  ~ instance_ok e ->
  exists name what,
    main cfg e vk_init =
      Stop (Exited (-1)) (st_emits vk_init [Stdout (unsupported_message name what +:+ endl); StdinGet]) /\
    (first_unsupported instance_layer_names (env_layers e) = Some name /\ what = "layer" \/
     first_unsupported instance_layer_names (env_layers e) = None /\
     first_unsupported instance_extension_names (env_extensions e) = Some name /\ what = "extension").
Proof.
  intros Hn. destruct (CreateVulkanInstance_unsupported e vk_init Hn) as (name & what & Hc & Hw).
  exists name, what. split; [|exact Hw]. rewrite main_phases. unfold bind at 1. by rewrite Hc.
Qed.

Lemma main_exits_unsupported_instance_witness :
  ~ instance_ok (with_layers env_ok []) /\
  exists name what,
    main config_src (with_layers env_ok []) vk_init =
      Stop (Exited (-1)) (st_emits vk_init [Stdout (unsupported_message name what +:+ endl); StdinGet]) /\
    (first_unsupported instance_layer_names (env_layers (with_layers env_ok [])) = Some name /\ what = "layer" \/
     first_unsupported instance_layer_names (env_layers (with_layers env_ok [])) = None /\
     first_unsupported instance_extension_names (env_extensions (with_layers env_ok [])) = Some name /\
     what = "extension").
Proof.
  assert (Hn : ~ instance_ok (with_layers env_ok [])).
  { intros [Hl _]. apply Forall_cons in Hl as [Hx _]. by apply elem_of_nil in Hx. }
  split; [exact Hn|]. exact (main_exits_unsupported_instance config_src _ Hn).
Defined.

(** C12: on a machine with the instance's layer and extension but no
    GPU, [main] never returns: it stops on the assertion
    [device_count != 0] of [FindPhysicalDevices], or earlier on the
    assertion after a call the driver failed. *)
Theorem main_no_gpu_asserts cfg e :
  instance_ok e -> env_gpus e = [] ->
  wp e (fun o => failed_call_stop e o \/ o = AssertFailed "No compute devices found")
    (main cfg) (fun _ _ => False) vk_init.
Proof.
  intros Hi Hn. rewrite main_phases. apply wp_bind.
  apply wp_CreateVulkanInstance; [apply fail_ok_or|done|]. intros s1 H1 _ _.
  apply wp_bind. eapply wp_CreateDevices_no_gpu; [|exact Hn|by right].
  rewrite H1. solve_lookup.
Qed.

Lemma main_no_gpu_asserts_witness :
  instance_ok (with_gpus env_ok []) /\ env_gpus (with_gpus env_ok []) = [] /\
  wp (with_gpus env_ok [])
    (fun o => failed_call_stop (with_gpus env_ok []) o \/ o = AssertFailed "No compute devices found")
    (main config_src) (fun _ _ => False) vk_init.
Proof.
  assert (Hi : instance_ok (with_gpus env_ok [])) by (split; repeat constructor).
  split; [exact Hi|]. split; [reflexivity|]. apply main_no_gpu_asserts; [exact Hi|reflexivity].
Defined.

(** C11: on a machine whose GPUs all lack a compute queue family or the
    validation layer, [main] never returns: it indexes [gpus[0]] in the
    empty vector of supported GPUs, undefined behaviour, unless it
    stopped earlier on the assertion after a call the driver failed.
    ([FindPhysicalDevices] only asserts that some GPU exists.) *)
Theorem main_unsupported_gpus_ub cfg e :
  instance_ok e -> families_bounded e -> env_gpus e <> [] ->
  selected e (map (pair 1%N) (seq 0 (length (env_gpus e)))) = [] ->
  wp e (fun o => failed_call_stop e o \/ o = UndefinedBehaviour "gpus[0] on an empty vector")
    (main cfg) (fun _ _ => False) vk_init.
Proof.
  intros Hi Hb Hne Hsel. rewrite main_phases. apply wp_bind.
  apply wp_CreateVulkanInstance; [apply fail_ok_or|done|]. intros s1 H1 N1 _. apply wp_bind.
  eapply wp_CreateDevices; [apply fail_ok_or|rewrite H1; solve_lookup|rewrite N1; simpl; lia|done|done|].
  cbv zeta. cbn [vulkan_instance vs_next vk_init]. rewrite Hsel. intros s2 _ _ _.
  apply wp_bind, wp_cout_line, wp_bind, wp_print_gpus, wp_bind, wp_stop. by right.
Qed.

Lemma main_unsupported_gpus_ub_witness :
  instance_ok (with_gpus env_ok [gpu_transfer_only]) /\
  families_bounded (with_gpus env_ok [gpu_transfer_only]) /\
  env_gpus (with_gpus env_ok [gpu_transfer_only]) <> [] /\
  selected (with_gpus env_ok [gpu_transfer_only])
    (map (pair 1%N) (seq 0 (length (env_gpus (with_gpus env_ok [gpu_transfer_only]))))) = [] /\
  wp (with_gpus env_ok [gpu_transfer_only])
    (fun o => failed_call_stop (with_gpus env_ok [gpu_transfer_only]) o \/
              o = UndefinedBehaviour "gpus[0] on an empty vector")
    (main config_src) (fun _ _ => False) vk_init.
Proof.
  assert (Hi : instance_ok (with_gpus env_ok [gpu_transfer_only])) by (split; repeat constructor).
  assert (Hb : families_bounded (with_gpus env_ok [gpu_transfer_only])) by (repeat constructor).
  assert (Hne : env_gpus (with_gpus env_ok [gpu_transfer_only]) <> []) by discriminate.
  assert (Hsel : selected (with_gpus env_ok [gpu_transfer_only])
    (map (pair 1%N) (seq 0 (length (env_gpus (with_gpus env_ok [gpu_transfer_only]))))) = [])
    by (vm_compute; reflexivity).
  split_and!; [exact Hi|exact Hb|exact Hne|exact Hsel|].
  exact (main_unsupported_gpus_ub config_src _ Hi Hb Hne Hsel).
Defined.

(** C7: on a machine set up as [main] needs, whose GPU takes longer
    than the 1000 s timeout, [main] never returns: the unchecked
    [VK_TIMEOUT] of [vkWaitForFences] lets the first read of the mapped
    buffer race with the dispatch, undefined behaviour, unless the run
    stopped earlier on the assertion after a failed call. *)
Theorem main_slow_gpu_races cfg e spd rest p i contents :
  setup_ok cfg e spd rest p i contents -> map_fits cfg p -> map_reliable e ->
  wait_timeout < env_gpu_time e -> (0 < pixel_count cfg)%nat ->
  wp e (fun o => failed_call_stop e o \/ o = UndefinedBehaviour "host read races with pending GPU writes")
    (main cfg) (fun _ _ => False) vk_init.
Proof.
  intros Hs Hm Hr Ht Hc. eapply (wp_main_timeout e _ (fail_ok_or e _)); [exact Hs|exact Hm|exact Hr|exact Ht|exact Hc|by right].
Qed.

Lemma main_slow_gpu_races_witness :
  setup_ok config_src (with_gpu_time env_ok 2000000000000) spd_ok [] gpu_ok 1 spirv_header /\
  map_fits config_src gpu_ok /\ map_reliable (with_gpu_time env_ok 2000000000000) /\
  wait_timeout < env_gpu_time (with_gpu_time env_ok 2000000000000) /\ (0 < pixel_count config_src)%nat /\
  wp (with_gpu_time env_ok 2000000000000)
    (fun o => failed_call_stop (with_gpu_time env_ok 2000000000000) o \/
              o = UndefinedBehaviour "host read races with pending GPU writes")
    (main config_src) (fun _ _ => False) vk_init.
Proof.
  assert (Hr : map_reliable (with_gpu_time env_ok 2000000000000)) by (intros ? ? ? ? ?; reflexivity).
  assert (Ht : wait_timeout < env_gpu_time (with_gpu_time env_ok 2000000000000)) by (vm_compute; reflexivity).
  pose proof pixel_count_src_pos as Hc.
  split_and!; [exact setup_ok_env_ok|exact map_fits_env_ok|exact Hr|exact Ht|exact Hc|].
  exact (main_slow_gpu_races config_src (with_gpu_time env_ok 2000000000000) _ _ _ _ _ setup_ok_env_ok map_fits_env_ok Hr Ht Hc).
Defined.

(** C8: on a machine set up as [main] needs whose driver fails
    [vkMapMemory] and no call the program checks, [main] neither returns
    nor stops on an assertion: the result of the mapping is not
    checked, and the first read goes through the pointer that was never
    mapped, undefined behaviour. *)
Theorem main_failed_map_reads_unmapped cfg e spd rest p i contents :
  setup_ok cfg e spd rest p i contents -> map_fits cfg p ->
  (forall n d m off size, env_fail e n (CallMapMemory d m off size) = true) ->
  (forall n c, checked_call c = true -> env_fail e n c = false) ->
  (0 < pixel_count cfg)%nat ->
  wp e (fun o => o = UndefinedBehaviour "read through a pointer that is not mapped")
    (main cfg) (fun _ _ => False) vk_init.
Proof.
  intros Hs Hm Hf Hck Hc.
  eapply (wp_okstop_mono _ (fun o => failed_call_stop e o \/
                                     o = UndefinedBehaviour "read through a pointer that is not mapped")).
  - eapply (wp_main_map_fails e _ (fail_ok_or e _)); [exact Hs|exact Hm|exact Hf|exact Hc|by right].
  - intros o [[_ (n & c & Hfc & Hcc)]|Ho]; [|exact Ho]. by rewrite Hck in Hfc.
Qed.

Lemma main_failed_map_reads_unmapped_witness :
  setup_ok config_src (with_fail env_ok fails_map) spd_ok [] gpu_ok 1 spirv_header /\
  map_fits config_src gpu_ok /\
  (forall n d m off size, env_fail (with_fail env_ok fails_map) n (CallMapMemory d m off size) = true) /\
  (forall n c, checked_call c = true -> env_fail (with_fail env_ok fails_map) n c = false) /\
  (0 < pixel_count config_src)%nat /\
  wp (with_fail env_ok fails_map)
    (fun o => o = UndefinedBehaviour "read through a pointer that is not mapped")
    (main config_src) (fun _ _ => False) vk_init.
Proof.
  assert (Hf : forall n d m off size, env_fail (with_fail env_ok fails_map) n (CallMapMemory d m off size) = true)
    by (intros; reflexivity).
  assert (Hck : forall n c, checked_call c = true -> env_fail (with_fail env_ok fails_map) n c = false)
    by (intros n [] Hc; simpl in *; congruence).
  pose proof pixel_count_src_pos as Hc.
  split_and!; [exact setup_ok_env_ok|exact map_fits_env_ok|exact Hf|exact Hck|exact Hc|].
  exact (main_failed_map_reads_unmapped config_src (with_fail env_ok fails_map) _ _ _ _ _
           setup_ok_env_ok map_fits_env_ok Hf Hck Hc).
Defined.

(** C9: when the allocation of the storage buffer is smaller than the
    [sizeof(Pixel) * 3200 * 2400] bytes [SaveRenderedImage] maps (so
    for every image smaller than 3200 x 2400 on a driver that allocates
    what the buffer needs), [main] never returns: the mapping breaks
    VUID-vkMapMemory-size-00681, unless the run stopped earlier on the
    assertion after a failed call. *)
Theorem main_small_allocation_invalid_map cfg e spd rest p i contents :
  setup_ok cfg e spd rest p i contents ->
  pd_mem_req_size p (to_u32 (sizeof_Pixel * WIDTH cfg * HEIGHT cfg)) < to_u32 (sizeof_Pixel * 3200 * 2400) ->
  wp e (fun o => failed_call_stop e o \/ o = InvalidUsage "VUID-vkMapMemory-size-00681")
    (main cfg) (fun _ _ => False) vk_init.
Proof.
  intros Hs Hm. eapply (wp_main_map_too_large e _ (fail_ok_or e _)); [exact Hs|exact Hm|by right].
Qed.

Lemma setup_ok_small : setup_ok (mkConfig 320 240 32) env_ok spd_ok [] gpu_ok 1 spirv_header.
Proof. solve_setup_ok. Qed.

Lemma main_small_allocation_invalid_map_witness :
  setup_ok (mkConfig 320 240 32) env_ok spd_ok [] gpu_ok 1 spirv_header /\
  pd_mem_req_size gpu_ok (to_u32 (sizeof_Pixel * 320 * 240)) < to_u32 (sizeof_Pixel * 3200 * 2400) /\
  wp env_ok (fun o => failed_call_stop env_ok o \/ o = InvalidUsage "VUID-vkMapMemory-size-00681")
    (main (mkConfig 320 240 32)) (fun _ _ => False) vk_init.
Proof.
  assert (Hm : pd_mem_req_size gpu_ok (to_u32 (sizeof_Pixel * 320 * 240)) < to_u32 (sizeof_Pixel * 3200 * 2400))
    by (vm_compute; reflexivity).
  split_and!; [exact setup_ok_small|exact Hm|].
  exact (main_small_allocation_invalid_map (mkConfig 320 240 32) _ _ _ _ _ _ setup_ok_small Hm).
Defined.

(** C10: on a machine set up as [main] needs whose GPU finishes in time,
    when the shader's output has a pixel [j] with a channel whose
    conversion [(unsigned char)(255.0f * v)] is undefined, and every
    pixel before it converts, [main] never returns: the read back hits
    the undefined conversion at pixel [j], unless the run stopped
    earlier on the assertion after a failed call. *)
Theorem main_bad_channel_ub cfg e spd rest p i contents j :
  setup_ok cfg e spd rest p i contents -> map_fits cfg p -> map_reliable e ->
  env_gpu_time e <= wait_timeout -> (j < pixel_count cfg)%nat ->
  (forall k, (k < j)%nat -> pixel_converts (env_shader_output e k)) ->
  ~ pixel_converts (env_shader_output e j) ->
  wp e (fun o => failed_call_stop e o \/ o = UndefinedBehaviour "float to unsigned char conversion out of range")
    (main cfg) (fun _ _ => False) vk_init.
Proof.
  intros Hs Hm Hr Ht Hj Hk Hb.
  eapply (wp_main_bad_channel e _ (fail_ok_or e _)); [exact Hs|exact Hm|exact Hr|exact Ht|exact Hj|exact Hk|exact Hb|by right].
Qed.

Lemma main_bad_channel_ub_witness :
  setup_ok config_src (with_output env_ok (fun _ => mkPixel 2 0 0 1)) spd_ok [] gpu_ok 1 spirv_header /\
  map_fits config_src gpu_ok /\ map_reliable (with_output env_ok (fun _ => mkPixel 2 0 0 1)) /\
  env_gpu_time (with_output env_ok (fun _ => mkPixel 2 0 0 1)) <= wait_timeout /\
  (0 < pixel_count config_src)%nat /\
  (forall k, (k < 0)%nat -> pixel_converts (env_shader_output (with_output env_ok (fun _ => mkPixel 2 0 0 1)) k)) /\
  ~ pixel_converts (env_shader_output (with_output env_ok (fun _ => mkPixel 2 0 0 1)) 0) /\
  wp (with_output env_ok (fun _ => mkPixel 2 0 0 1))
    (fun o => failed_call_stop (with_output env_ok (fun _ => mkPixel 2 0 0 1)) o \/
              o = UndefinedBehaviour "float to unsigned char conversion out of range")
    (main config_src) (fun _ _ => False) vk_init.
Proof.
  assert (Hr : map_reliable (with_output env_ok (fun _ => mkPixel 2 0 0 1))) by (intros ? ? ? ? ?; reflexivity).
  assert (Ht : env_gpu_time (with_output env_ok (fun _ => mkPixel 2 0 0 1)) <= wait_timeout)
    by (vm_compute; discriminate).
  pose proof pixel_count_src_pos as Hc.
  assert (Hk : forall k, (k < 0)%nat ->
            pixel_converts (env_shader_output (with_output env_ok (fun _ => mkPixel 2 0 0 1)) k)) by lia.
  assert (Hb : ~ pixel_converts (env_shader_output (with_output env_ok (fun _ => mkPixel 2 0 0 1)) 0)).
  { intros [[_ Hr'] _]. vm_compute in Hr'. by apply Hr'. }
  split_and!; [exact setup_ok_env_ok|exact map_fits_env_ok|exact Hr|exact Ht|exact Hc|exact Hk|exact Hb|].
  exact (main_bad_channel_ub config_src (with_output env_ok (fun _ => mkPixel 2 0 0 1)) _ _ _ _ _ 0
           setup_ok_env_ok map_fits_env_ok Hr Ht Hc Hk Hb).
Defined.

End MainSpec.
